(** * Ring_chat: a shallow embedding of the server control plane

    The development follows the Python sources: [ring_manager.py],
    [message_handler.py], [election.py], [server.py] and [protocol.py].
    Python values are modelled as the code uses them: [str] as a sequence of
    code points, [int] as [Z], [dict] as an insertion-ordered association
    list with unique keys, [list] as [list]. *)

From Stdlib Require Import Ascii String.
From Stdlib Require Import List NArith ZArith Bool Lia Permutation.
From Stdlib Require DecimalFacts DecimalPos DecimalZ.
From Stdlib Require Import Sorted.
Import ListNotations.

(** ** Python built-ins used by the sources *)

Module Py.

(** A Python [str] is a sequence of Unicode code points. *)
Definition str := list N.

Definition of_string (s : string) : str :=
  map N_of_ascii (list_ascii_of_string s).

(** Comparison of [str] is lexicographic on code points. *)
Definition str_compare (a b : str) : comparison := list_compare N.compare a b.

Definition str_eqb (a b : str) : bool :=
  match str_compare a b with Eq => true | _ => false end.

Definition str_ltb (a b : str) : bool :=
  match str_compare a b with Lt => true | _ => false end.

Definition str_gtb (a b : str) : bool :=
  match str_compare a b with Gt => true | _ => false end.

Definition str_leb (a b : str) : bool := negb (str_gtb a b).

(** [len(l)] *)
Definition len {A} (l : list A) : Z := Z.of_nat (length l).

(** [x in l] for a list of strings *)
Definition list_mem (x : str) (l : list str) : bool := existsb (str_eqb x) l.

(** [l.index(x)]: position of the first occurrence ([None] is ValueError). *)
Fixpoint index (x : str) (l : list str) : option Z :=
  match l with
  | [] => None
  | y :: l' => if str_eqb y x then Some 0%Z
               else option_map Z.succ (index x l')
  end.

(** [l[i]] with Python's negative indices ([None] is IndexError). *)
Definition getitem {A} (l : list A) (i : Z) : option A :=
  let j := if (i <? 0)%Z then (i + len l)%Z else i in
  if (j <? 0)%Z then None else nth_error l (Z.to_nat j).

(** [l[i:]] *)
Definition slice_from {A} (l : list A) (i : Z) : list A :=
  let start := if (i <? 0)%Z then Z.max (i + len l) 0 else Z.min i (len l) in
  skipn (Z.to_nat start) l.

(** [sorted(l)] on strings. *)
Fixpoint insert (x : str) (l : list str) : list str :=
  match l with
  | [] => [x]
  | y :: l' => if str_leb x y then x :: l else y :: insert x l'
  end.

Definition sorted (l : list str) : list str := fold_right insert [] l.

(** A [dict] with [str] keys keeps its entries in insertion order. *)
Definition dict (V : Type) := list (str * V).

Definition keys {V} (d : dict V) : list str := map fst d.
Definition values {V} (d : dict V) : list V := map snd d.

(** [d.get(k)] *)
Fixpoint dict_get {V} (k : str) (d : dict V) : option V :=
  match d with
  | [] => None
  | (k', v) :: d' => if str_eqb k' k then Some v else dict_get k d'
  end.

(** [k in d] *)
Definition dict_mem {V} (k : str) (d : dict V) : bool :=
  match dict_get k d with Some _ => true | None => false end.

(** [d[k] = v]: an existing key keeps its position, a new key goes last. *)
Fixpoint dict_set {V} (k : str) (v : V) (d : dict V) : dict V :=
  match d with
  | [] => [(k, v)]
  | (k', v') :: d' => if str_eqb k' k then (k', v) :: d'
                      else (k', v') :: dict_set k v d'
  end.

(** [del d[k]] *)
Fixpoint dict_del {V} (k : str) (d : dict V) : dict V :=
  match d with
  | [] => []
  | (k', v') :: d' => if str_eqb k' k then d' else (k', v') :: dict_del k d'
  end.

End Py.

Definition py : string -> Py.str := Py.of_string.

(** ** Messages: JSON values as [json.loads] builds them *)

Module Json.

(** [None], [bool], [int], [str], [list] and [dict] with [str] keys. *)
#[local] Unset Elimination Schemes.

Inductive t :=
| Null
| Bool (b : bool)
| Int (z : Z)
| Str (s : Py.str)
| List (l : list t)
| Dict (d : list (Py.str * t)).

#[local] Set Elimination Schemes.

(** [message.get(k)] *)
Definition get (message : Py.dict t) (k : Py.str) : t :=
  match Py.dict_get k message with Some v => v | None => Null end.

(** [message.get(k, default)] *)
Definition get_default (message : Py.dict t) (k : Py.str) (default : t) : t :=
  match Py.dict_get k message with Some v => v | None => default end.

(** [v == s] for a [str] [s] *)
Definition eq_str (v : t) (s : Py.str) : bool :=
  match v with Str s' => Py.str_eqb s' s | _ => false end.

(** [v > s] and [v < s] for a [str] [s]; [None] is the TypeError Python
    raises when [v] is not a [str]. *)
Definition gt_str (v : t) (s : Py.str) : option bool :=
  match v with Str s' => Some (Py.str_gtb s' s) | _ => None end.

Definition lt_str (v : t) (s : Py.str) : option bool :=
  match v with Str s' => Some (Py.str_ltb s' s) | _ => None end.

(** [v + n] for an [int] [n]; [None] is TypeError. *)
Definition add_int (v : t) (n : Z) : option t :=
  match v with
  | Int z => Some (Int (z + n))
  | Bool b => Some (Int ((if b then 1 else 0) + n))
  | _ => None
  end.

(** Lists and dicts cannot be dictionary keys. *)
Definition hashable (v : t) : bool :=
  match v with List _ | Dict _ => false | _ => true end.

(** [v[:50]] returns for a [str] and for a [list]; for any other value it
    raises (TypeError, or KeyError for a dict where slices can be hashed). *)
Definition sliceable (v : t) : bool :=
  match v with Str _ | List _ => true | _ => false end.

End Json.

Definition message := Py.dict Json.t.

(** What a call reads from the outside world: [uuid.uuid4()],
    [datetime.now().isoformat()] and [int(time.time() * 1000)]. *)
Module Env.

Record t := mk {
  uuid4 : Py.str;
  isoformat_now : Py.str;
  time_ms : Z
}.

End Env.

(** ** Limits of the interpreter

    Three limits of CPython decide whether [json.dumps] and [json.loads]
    return.  [max_str_digits] is [sys.get_int_max_str_digits()]: the number
    of digits an [int] may have when it is converted to or from decimal
    text, 4300 by default and 0 where the limit is switched off or the
    interpreter has none.  [encoder_depth] and [scanner_depth] are the
    numbers of nested lists and dicts the encoder and the scanner can enter
    before the recursion limit is hit; they depend on the version of the
    interpreter and on the depth of the call stack, so the model takes them
    as they are at the call. *)

Class Interpreter := {
  max_str_digits : nat;
  encoder_depth : nat;
  scanner_depth : nat
}.

(** ** The [json] and UTF-8 codecs of the Python library

    [protocol.py] serializes with [json.dumps(message).encode('utf-8')] and
    parses with [json.loads(data.decode('utf-8'))].  Both library functions
    are modelled after CPython's [json/encoder.py] and [json/decoder.py] and
    their C accelerators, with the default arguments ([ensure_ascii=True], a
    comma and a space between items, a colon and a space after a key,
    [strict=True]).  Floats are outside the model: a number with a fraction
    or an exponent, [NaN] and [Infinity] stop the scan with [FloatValue]. *)

Module JsonCodec.

(** Why a scan ends without a value.  [DecodeError] is [JSONDecodeError],
    [ValueError] the error of an integer with more digits than
    [max_str_digits], [RecursionError] that of a nesting deeper than the
    interpreter allows.  [FloatValue] and [OutOfFuel] are where the model
    ends: a float was met, or the fuel of the scan was used up, which never
    happens ([loads_fuel]). *)
Inductive stop := DecodeError | ValueError | RecursionError | FloatValue | OutOfFuel.

Inductive res (A : Type) :=
| Ok (a : A)
| Stop (why : stop).

Arguments Ok {A} a.
Arguments Stop {A} why.

Definition bind {A B} (r : res A) (k : A -> res B) : res B :=
  match r with Ok a => k a | Stop w => Stop w end.

Notation "' p <- r ;; k" := (bind r (fun p => k))
  (at level 61, p pattern, r at next level, right associativity).

(** *** Encoder *)

(** One digit of ['{0:04x}'.format(n)]. *)
Definition hex_digit (d : N) : N := if (d <? 10)%N then (48 + d)%N else (87 + d)%N.

Definition hex4 (n : N) : Py.str :=
  [hex_digit ((n / 4096) mod 16); hex_digit ((n / 256) mod 16);
   hex_digit ((n / 16) mod 16); hex_digit (n mod 16)]%N.

(** The replacement [py_encode_basestring_ascii] makes for one character. *)
Definition escape_char (c : N) : Py.str :=
  if (c =? 34)%N then [92; 34]%N             (* backslash quote *)
  else if (c =? 92)%N then [92; 92]%N        (* backslash backslash *)
  else if (c =? 10)%N then [92; 110]%N       (* backslash n *)
  else if (c =? 13)%N then [92; 114]%N       (* backslash r *)
  else if (c =? 9)%N then [92; 116]%N        (* backslash t *)
  else if (c =? 8)%N then [92; 98]%N         (* backslash b *)
  else if (c =? 12)%N then [92; 102]%N       (* backslash f *)
  else if ((32 <=? c) && (c <=? 126))%N then [c]
  else if (c <? 65536)%N then (92 :: 117 :: hex4 c)%N
  else
    let n := (c - 65536)%N in
    let s1 := N.lor 55296 (N.land (N.shiftr n 10) 1023) in
    let s2 := N.lor 56320 (N.land n 1023) in
    (92 :: 117 :: hex4 s1 ++ 92 :: 117 :: hex4 s2)%N.

Definition encode_basestring_ascii (s : Py.str) : Py.str :=
  (34 :: flat_map escape_char s ++ [34])%N.

Fixpoint uint_chars (u : Decimal.uint) : Py.str :=
  match u with
  | Decimal.Nil => []
  | Decimal.D0 u => 48%N :: uint_chars u
  | Decimal.D1 u => 49%N :: uint_chars u
  | Decimal.D2 u => 50%N :: uint_chars u
  | Decimal.D3 u => 51%N :: uint_chars u
  | Decimal.D4 u => 52%N :: uint_chars u
  | Decimal.D5 u => 53%N :: uint_chars u
  | Decimal.D6 u => 54%N :: uint_chars u
  | Decimal.D7 u => 55%N :: uint_chars u
  | Decimal.D8 u => 56%N :: uint_chars u
  | Decimal.D9 u => 57%N :: uint_chars u
  end.

(** The decimal text of an integer, and its digits without the sign. *)
Definition int_chars (i : Decimal.int) : Py.str :=
  match i with
  | Decimal.Pos u => uint_chars u
  | Decimal.Neg u => 45%N :: uint_chars u
  end.

Definition int_digits (i : Decimal.int) : Decimal.uint :=
  match i with Decimal.Pos u | Decimal.Neg u => u end.

(** [sep.join(parts)] *)
Fixpoint join (sep : Py.str) (parts : list Py.str) : Py.str :=
  match parts with
  | [] => []
  | [p] => p
  | p :: parts' => p ++ sep ++ join sep parts'
  end.

(** The results of the calls of a loop, or [None] when one of them raised. *)
Fixpoint all {A} (l : list (option A)) : option (list A) :=
  match l with
  | [] => Some []
  | Some a :: l' => option_map (cons a) (all l')
  | None :: _ => None
  end.

Section Encoder.

Context {interp : Interpreter}.

(** The test that the conversions between [int] and decimal text make on the
    number of digits. *)
Definition digits_fit (u : Decimal.uint) : bool :=
  (max_str_digits =? 0)%nat || (Decimal.nb_digits u <=? max_str_digits)%nat.

(** [int.__repr__]; [None] is the ValueError of an integer with too many
    digits. *)
Definition repr_int (z : Z) : option Py.str :=
  let i := Z.to_int z in
  if digits_fit (int_digits i) then Some (int_chars i) else None.

(** The encoder, with the number of lists and dicts it can still enter;
    [None] is an exception: the ValueError of [repr_int], or the
    RecursionError of a list or dict that cannot be entered. *)
Fixpoint encode (depth : nat) (v : Json.t) {struct v} : option Py.str :=
  match v with
  | Json.Null => Some (py "null")
  | Json.Bool true => Some (py "true")
  | Json.Bool false => Some (py "false")
  | Json.Int z => repr_int z
  | Json.Str s => Some (encode_basestring_ascii s)
  | Json.List l =>
      match depth with
      | O => None
      | S depth' =>
          option_map (fun parts => py "[" ++ join (py ", ") parts ++ py "]")
                     (all (map (fun x => encode depth' x) l))
      end
  | Json.Dict d =>
      match depth with
      | O => None
      | S depth' =>
          option_map (fun parts => py "{" ++ join (py ", ") parts ++ py "}")
            (all (map (fun kv =>
                         option_map
                           (fun value =>
                              encode_basestring_ascii (fst kv) ++ py ": " ++ value)
                           (encode depth' (snd kv)))
                      d))
      end
  end.

(** [json.dumps(v)] *)
Definition dumps (v : Json.t) : option Py.str := encode encoder_depth v.

End Encoder.

(** *** Decoder *)

Definition is_ws (c : N) : bool :=
  ((c =? 32) || (c =? 9) || (c =? 10) || (c =? 13))%N.

(** [WHITESPACE.match(s, idx).end()] *)
Fixpoint skip_ws (s : Py.str) : Py.str :=
  match s with
  | c :: s' => if is_ws c then skip_ws s' else s
  | [] => []
  end.

(** [s[idx:idx + len(p)] == p], with what follows the prefix. *)
Fixpoint strip_prefix (p s : Py.str) : option Py.str :=
  match p with
  | [] => Some s
  | c :: p' =>
      match s with
      | d :: s' => if (c =? d)%N then strip_prefix p' s' else None
      | [] => None
      end
  end.

Definition hex_value (c : N) : option N :=
  if ((48 <=? c) && (c <=? 57))%N then Some (c - 48)%N
  else if ((97 <=? c) && (c <=? 102))%N then Some (c - 87)%N
  else if ((65 <=? c) && (c <=? 70))%N then Some (c - 55)%N
  else None.

(** [_decode_uXXXX]: the value of four hexadecimal digits. *)
Definition decode_uXXXX (h1 h2 h3 h4 : N) : option N :=
  match hex_value h1, hex_value h2, hex_value h3, hex_value h4 with
  | Some a, Some b, Some c, Some d => Some (((a * 16 + b) * 16 + c) * 16 + d)%N
  | _, _, _, _ => None
  end.

(** The [BACKSLASH] table. *)
Definition backslash (e : N) : option N :=
  if (e =? 34)%N then Some 34%N
  else if (e =? 92)%N then Some 92%N
  else if (e =? 47)%N then Some 47%N
  else if (e =? 98)%N then Some 8%N
  else if (e =? 102)%N then Some 12%N
  else if (e =? 110)%N then Some 10%N
  else if (e =? 114)%N then Some 13%N
  else if (e =? 116)%N then Some 9%N
  else None.

(** [scanstring(s, end, strict=True)], from the character after the opening
    quote: the decoded string and what follows the closing quote. *)
Fixpoint scanstring (s : Py.str) : res (Py.str * Py.str) :=
  match s with
  | [] => Stop DecodeError
  | c :: s1 =>
      if (c =? 34)%N then Ok ([], s1)
      else if (c <? 32)%N then Stop DecodeError
      else if (c =? 92)%N then
        match s1 with
        | [] => Stop DecodeError
        | e :: s2 =>
            if (e =? 117)%N then
              match s2 with
              | h1 :: h2 :: h3 :: h4 :: s3 =>
                  match decode_uXXXX h1 h2 h3 h4 with
                  | None => Stop DecodeError
                  | Some uni =>
                      let single :=
                        '(str, r) <- scanstring s3 ;; Ok (uni :: str, r) in
                      if ((55296 <=? uni) && (uni <=? 56319))%N then
                        match s3 with
                        | b :: u :: s4 =>
                            if ((b =? 92) && (u =? 117))%N then
                              match s4 with
                              | g1 :: g2 :: g3 :: g4 :: s5 =>
                                  match decode_uXXXX g1 g2 g3 g4 with
                                  | None => Stop DecodeError
                                  | Some uni2 =>
                                      if ((56320 <=? uni2) && (uni2 <=? 57343))%N then
                                        let joined :=
                                          (65536 + N.lor (N.shiftl (uni - 55296) 10)
                                                         (uni2 - 56320))%N in
                                        '(str, r) <- scanstring s5 ;;
                                        Ok (joined :: str, r)
                                      else single
                                  end
                              | _ => Stop DecodeError
                              end
                            else single
                        | _ => single
                        end
                      else single
                  end
              | _ => Stop DecodeError
              end
            else
              match backslash e with
              | None => Stop DecodeError
              | Some ch => '(str, r) <- scanstring s2 ;; Ok (ch :: str, r)
              end
        end
      else '(str, r) <- scanstring s1 ;; Ok (c :: str, r)
  end.

Definition digit_of (c : N) : option (Decimal.uint -> Decimal.uint) :=
  if (c =? 48)%N then Some Decimal.D0
  else if (c =? 49)%N then Some Decimal.D1
  else if (c =? 50)%N then Some Decimal.D2
  else if (c =? 51)%N then Some Decimal.D3
  else if (c =? 52)%N then Some Decimal.D4
  else if (c =? 53)%N then Some Decimal.D5
  else if (c =? 54)%N then Some Decimal.D6
  else if (c =? 55)%N then Some Decimal.D7
  else if (c =? 56)%N then Some Decimal.D8
  else if (c =? 57)%N then Some Decimal.D9
  else None.

Definition is_digit (c : N) : bool := ((48 <=? c) && (c <=? 57))%N.

(** The longest run of digits at the head of [s]. *)
Fixpoint take_digits (s : Py.str) : Decimal.uint * Py.str :=
  match s with
  | [] => (Decimal.Nil, [])
  | c :: s' =>
      match digit_of c with
      | Some d => let (u, r) := take_digits s' in (d u, r)
      | None => (Decimal.Nil, s)
      end
  end.

(** The first group of [NUMBER_RE]: an optional minus sign, then either a
    single zero or a digit from one to nine followed by any digits. *)
Definition match_integer (s : Py.str) : option (Decimal.int * Py.str) :=
  let (negative, s1) :=
    match s with
    | c :: s' => if (c =? 45)%N then (true, s') else (false, s)
    | [] => (false, s)
    end in
  let sign := if negative then Decimal.Neg else Decimal.Pos in
  match s1 with
  | [] => None
  | c :: s2 =>
      if (c =? 48)%N then Some (sign (Decimal.D0 Decimal.Nil), s2)
      else if is_digit c then
        let (u, r) := take_digits s1 in Some (sign u, r)
      else None
  end.

(** The second and third groups of [NUMBER_RE]: a dot and digits; an [e] or
    [E], an optional sign and digits. *)
Definition has_frac (s : Py.str) : bool :=
  match s with
  | c :: d :: _ => (c =? 46)%N && is_digit d
  | _ => false
  end.

Definition has_exp (s : Py.str) : bool :=
  match s with
  | c :: d :: s' =>
      ((c =? 101) || (c =? 69))%N &&
      (is_digit d ||
       (((d =? 45) || (d =? 43))%N &&
        match s' with d' :: _ => is_digit d' | [] => false end))
  | _ => false
  end.

Section Decoder.

Context {interp : Interpreter}.

(** A number: [int(integer)] raises ValueError when the integer has too many
    digits. *)
Definition scan_number (s : Py.str) : res (Json.t * Py.str) :=
  match match_integer s with
  | Some (i, r) =>
      if has_frac r || has_exp r then Stop FloatValue
      else if digits_fit (int_digits i) then Ok (Json.Int (Z.of_int i), r)
      else Stop ValueError
  | None =>
      match strip_prefix (py "NaN") s, strip_prefix (py "Infinity") s,
            strip_prefix (py "-Infinity") s with
      | None, None, None => Stop DecodeError
      | _, _, _ => Stop FloatValue
      end
  end.

(** [dict(pairs)] *)
Definition dict_of_pairs (pairs : list (Py.str * Json.t)) : Py.dict Json.t :=
  fold_left (fun d kv => Py.dict_set (fst kv) (snd kv) d) pairs [].

(** [scan_once], [JSONArray] and [JSONObject], with the number of lists and
    dicts the scanner can still enter: an opening brace or bracket that
    cannot be entered raises RecursionError.  The loops of the two container
    scanners take one unit of fuel per element. *)
Fixpoint scan_once (depth fuel : nat) (s : Py.str) : res (Json.t * Py.str) :=
  match fuel with
  | O => Stop OutOfFuel
  | S fuel' =>
      match s with
      | [] => Stop DecodeError
      | c :: s' =>
          if (c =? 34)%N then
            '(str, r) <- scanstring s' ;; Ok (Json.Str str, r)
          else if (c =? 123)%N then
            match depth with
            | O => Stop RecursionError
            | S depth' =>
                match skip_ws s' with
                | d :: r =>
                    if (d =? 125)%N then Ok (Json.Dict [], r)
                    else if (d =? 34)%N then
                      '(pairs, r') <- object_items depth' fuel' r ;;
                      Ok (Json.Dict (dict_of_pairs pairs), r')
                    else Stop DecodeError
                | [] => Stop DecodeError
                end
            end
          else if (c =? 91)%N then
            match depth with
            | O => Stop RecursionError
            | S depth' =>
                match skip_ws s' with
                | d :: r =>
                    if (d =? 93)%N then Ok (Json.List [], r)
                    else '(values, r') <- array_items depth' fuel' (d :: r) ;;
                         Ok (Json.List values, r')
                | [] => Stop DecodeError
                end
            end
          else
            match strip_prefix (py "null") s, strip_prefix (py "true") s,
                  strip_prefix (py "false") s with
            | Some r, _, _ => Ok (Json.Null, r)
            | None, Some r, _ => Ok (Json.Bool true, r)
            | None, None, Some r => Ok (Json.Bool false, r)
            | None, None, None => scan_number s
            end
      end
  end

with array_items (depth fuel : nat) (s : Py.str) : res (list Json.t * Py.str) :=
  match fuel with
  | O => Stop OutOfFuel
  | S fuel' =>
      '(value, r) <- scan_once depth fuel' s ;;
      match skip_ws r with
      | d :: r1 =>
          if (d =? 93)%N then Ok ([value], r1)
          else if (d =? 44)%N then
            '(values, r2) <- array_items depth fuel' (skip_ws r1) ;;
            Ok (value :: values, r2)
          else Stop DecodeError
      | [] => Stop DecodeError
      end
  end

with object_items (depth fuel : nat) (s : Py.str)
  : res (list (Py.str * Json.t) * Py.str) :=
  match fuel with
  | O => Stop OutOfFuel
  | S fuel' =>
      '(key, r) <- scanstring s ;;
      match skip_ws r with
      | c :: r1 =>
          if (c =? 58)%N then
            '(value, r2) <- scan_once depth fuel' (skip_ws r1) ;;
            match skip_ws r2 with
            | d :: r3 =>
                if (d =? 125)%N then Ok ([(key, value)], r3)
                else if (d =? 44)%N then
                  match skip_ws r3 with
                  | q :: r4 =>
                      if (q =? 34)%N then
                        '(pairs, r5) <- object_items depth fuel' r4 ;;
                        Ok ((key, value) :: pairs, r5)
                      else Stop DecodeError
                  | [] => Stop DecodeError
                  end
                else Stop DecodeError
            | [] => Stop DecodeError
            end
          else Stop DecodeError
      | [] => Stop DecodeError
      end
  end.

(** [json.loads(s)]: one value between optional whitespace.  A scanner takes
    a unit of fuel only after a character has been read, at most two per
    character, so twice the length of the text is fuel enough. *)
Definition loads (s : Py.str) : res Json.t :=
  '(v, r) <- scan_once scanner_depth (S (2 * length s)) (skip_ws s) ;;
  match skip_ws r with
  | [] => Ok v
  | _ :: _ => Stop DecodeError
  end.

End Decoder.

(** *** UTF-8 *)

Definition byte_of (n : N) : Byte.byte :=
  match Byte.of_N n with Some b => b | None => Byte.x00 end.

(** The bytes of one code point; [None] is UnicodeEncodeError. *)
Definition utf8_encode_char (c : N) : option (list Byte.byte) :=
  if (c <? 128)%N then Some [byte_of c]
  else if (c <? 2048)%N then
    Some [byte_of (N.lor 192 (N.shiftr c 6)); byte_of (N.lor 128 (N.land c 63))]
  else if (c <? 65536)%N then
    if ((55296 <=? c) && (c <=? 57343))%N then None
    else
      Some [byte_of (N.lor 224 (N.shiftr c 12));
            byte_of (N.lor 128 (N.land (N.shiftr c 6) 63));
            byte_of (N.lor 128 (N.land c 63))]
  else if (c <? 1114112)%N then
    Some [byte_of (N.lor 240 (N.shiftr c 18));
          byte_of (N.lor 128 (N.land (N.shiftr c 12) 63));
          byte_of (N.lor 128 (N.land (N.shiftr c 6) 63));
          byte_of (N.lor 128 (N.land c 63))]
  else None.

(** [s.encode('utf-8')] *)
Fixpoint utf8_encode (s : Py.str) : option (list Byte.byte) :=
  match s with
  | [] => Some []
  | c :: s' =>
      match utf8_encode_char c, utf8_encode s' with
      | Some bs, Some rest => Some (bs ++ rest)
      | _, _ => None
      end
  end.

Definition is_cont (b : N) : bool := ((128 <=? b) && (b <=? 191))%N.

(** [data.decode('utf-8')]; [None] is UnicodeDecodeError (a stray or missing
    continuation byte, an overlong form, a surrogate, a value above
    U+10FFFF). *)
Fixpoint utf8_decode (data : list Byte.byte) : option Py.str :=
  match data with
  | [] => Some []
  | b0 :: d1 =>
      let n0 := Byte.to_N b0 in
      if (n0 <? 128)%N then option_map (cons n0) (utf8_decode d1)
      else if ((194 <=? n0) && (n0 <=? 223))%N then
        match d1 with
        | b1 :: d2 =>
            let n1 := Byte.to_N b1 in
            if is_cont n1 then
              option_map (cons (N.lor (N.shiftl (N.land n0 31) 6) (N.land n1 63)))
                         (utf8_decode d2)
            else None
        | _ => None
        end
      else if ((224 <=? n0) && (n0 <=? 239))%N then
        match d1 with
        | b1 :: b2 :: d3 =>
            let n1 := Byte.to_N b1 in
            let n2 := Byte.to_N b2 in
            let c := N.lor (N.shiftl (N.land n0 15) 12)
                       (N.lor (N.shiftl (N.land n1 63) 6) (N.land n2 63)) in
            if is_cont n1 && is_cont n2 && (2048 <=? c)%N
               && negb ((55296 <=? c) && (c <=? 57343))%N
            then option_map (cons c) (utf8_decode d3)
            else None
        | _ => None
        end
      else if ((240 <=? n0) && (n0 <=? 244))%N then
        match d1 with
        | b1 :: b2 :: b3 :: d4 =>
            let n1 := Byte.to_N b1 in
            let n2 := Byte.to_N b2 in
            let n3 := Byte.to_N b3 in
            let c := N.lor (N.shiftl (N.land n0 7) 18)
                       (N.lor (N.shiftl (N.land n1 63) 12)
                          (N.lor (N.shiftl (N.land n2 63) 6) (N.land n3 63))) in
            if is_cont n1 && is_cont n2 && is_cont n3
               && (65536 <=? c)%N && (c <? 1114112)%N
            then option_map (cons c) (utf8_decode d4)
            else None
        | _ => None
        end
      else None
  end.

End JsonCodec.

(** ** ring_manager.py *)

Module ServerInfo.

Record t := mk {
  server_id : Py.str;
  ip : Py.str;
  port : Z;
  is_leader : bool;
  is_alive : bool
}.

(** [ServerInfo.__init__] *)
Definition init (server_id ip : Py.str) (port : Z) : t :=
  mk server_id ip port false true.

(** [server.is_leader = b] *)
Definition set_is_leader (b : bool) (s : t) : t :=
  mk (server_id s) (ip s) (port s) b (is_alive s).

Definition to_dict (s : t) : message :=
  [(py "server_id", Json.Str (server_id s));
   (py "ip", Json.Str (ip s));
   (py "port", Json.Int (port s));
   (py "is_leader", Json.Bool (is_leader s))].

End ServerInfo.

Module RingManager.

(** The neighbours are references to [ServerInfo] objects that live in
    [ring_members]; a reference is modelled by the key of the object, so
    that a flag written through [ring_members] is seen through the
    neighbour as well. *)
Record t := mk {
  own_server_id : Py.str;
  ring_members : Py.dict ServerInfo.t;
  ring_order : list Py.str;
  left_neighbor : option Py.str;
  right_neighbor : option Py.str
}.

(** [RingManager.__init__] *)
Definition init (own_server_id : Py.str) : t :=
  mk own_server_id [] [] None None.

Definition with_members (self : t) (m : Py.dict ServerInfo.t) : t :=
  mk (own_server_id self) m (ring_order self)
     (left_neighbor self) (right_neighbor self).

(** [self.ring_members[self.ring_order[i]]], as a reference. *)
Definition member_at (m : Py.dict ServerInfo.t) (order : list Py.str) (i : Z)
  : option Py.str :=
  match Py.getitem order i with
  | Some id => if Py.dict_mem id m then Some id else None
  | None => None
  end.

Definition _rebuild_ring (self : t) : t :=
  let order := Py.sorted (Py.keys (ring_members self)) in
  if negb (Py.list_mem (own_server_id self) order) then
    mk (own_server_id self) (ring_members self) order None None
  else
    match Py.index (own_server_id self) order with
    | None => mk (own_server_id self) (ring_members self) order None None
    | Some own_index =>
        let ring_size := Py.len order in
        if (ring_size =? 1)%Z then
          mk (own_server_id self) (ring_members self) order None None
        else
          let left_index := ((own_index - 1) mod ring_size)%Z in
          let right_index := ((own_index + 1) mod ring_size)%Z in
          mk (own_server_id self) (ring_members self) order
             (member_at (ring_members self) order left_index)
             (member_at (ring_members self) order right_index)
    end.

Definition add_server (self : t) (server_id ip : Py.str) (port : Z)
                      (is_leader : bool) : t :=
  if Py.dict_mem server_id (ring_members self) then self
  else
    let server_info :=
      ServerInfo.set_is_leader is_leader (ServerInfo.init server_id ip port) in
    _rebuild_ring
      (with_members self (Py.dict_set server_id server_info (ring_members self))).

Definition remove_server (self : t) (server_id : Py.str) : t :=
  if negb (Py.dict_mem server_id (ring_members self)) then self
  else _rebuild_ring
         (with_members self (Py.dict_del server_id (ring_members self))).

(** [for server in self.ring_members.values(): server.is_leader = False] *)
Definition clear_flags (m : Py.dict ServerInfo.t) : Py.dict ServerInfo.t :=
  map (fun kv => (fst kv, ServerInfo.set_is_leader false (snd kv))) m.

Definition set_leader (self : t) (server_id : Py.str) : t :=
  let cleared := clear_flags (ring_members self) in
  match Py.dict_get server_id cleared with
  | Some s =>
      with_members self
        (Py.dict_set server_id (ServerInfo.set_is_leader true s) cleared)
  | None => with_members self cleared
  end.

Definition get_leader (self : t) : option ServerInfo.t :=
  find ServerInfo.is_leader (Py.values (ring_members self)).

Definition is_leader (self : t) (server_id : Py.str) : bool :=
  match Py.dict_get server_id (ring_members self) with
  | Some server => ServerInfo.is_leader server
  | None => false
  end.

(** [[self.ring_members[sid].to_dict() for sid in self.ring_order]];
    [None] is the KeyError of an id that is not a member. *)
Fixpoint topology_of (m : Py.dict ServerInfo.t) (order : list Py.str)
  : option (list Json.t) :=
  match order with
  | [] => Some []
  | sid :: order' =>
      match Py.dict_get sid m, topology_of m order' with
      | Some s, Some l => Some (Json.Dict (ServerInfo.to_dict s) :: l)
      | _, _ => None
      end
  end.

Definition get_ring_topology (self : t) : option (list Json.t) :=
  topology_of (ring_members self) (ring_order self).

Definition ring_size (self : t) : Z := Py.len (ring_members self).

Definition get_all_servers (self : t) : list ServerInfo.t :=
  Py.values (ring_members self).

Definition get_server (self : t) (server_id : Py.str) : option ServerInfo.t :=
  Py.dict_get server_id (ring_members self).

(** The object behind a neighbour reference. *)
Definition deref (self : t) (r : option Py.str) : option ServerInfo.t :=
  match r with
  | Some id => Py.dict_get id (ring_members self)
  | None => None
  end.

(** The mutating operations of the public interface, and their runs. *)
Inductive op :=
| AddServer (server_id ip : Py.str) (port : Z) (is_leader : bool)
| RemoveServer (server_id : Py.str)
| SetLeader (server_id : Py.str).

Definition apply (self : t) (o : op) : t :=
  match o with
  | AddServer id ip port l => add_server self id ip port l
  | RemoveServer id => remove_server self id
  | SetLeader id => set_leader self id
  end.

Definition run (own : Py.str) (ops : list op) : t :=
  fold_left apply ops (init own).

Definition is_set_leader (o : op) : bool :=
  match o with SetLeader _ => true | _ => false end.

Definition adds_no_leader (o : op) : bool :=
  match o with AddServer _ _ _ l => negb l | _ => true end.

(** Number of records whose leader flag is set. *)
Definition leader_count (self : t) : nat :=
  length (filter ServerInfo.is_leader (Py.values (ring_members self))).

(** The invariant of every run: keys are unique and the derived fields are
    those [_rebuild_ring] computes from the membership. *)
Definition ring_inv (own : Py.str) (rm : t) : Prop :=
  own_server_id rm = own /\
  NoDup (Py.keys (ring_members rm)) /\
  left_neighbor rm = left_neighbor (_rebuild_ring rm) /\
  right_neighbor rm = right_neighbor (_rebuild_ring rm) /\
  ring_order rm = ring_order (_rebuild_ring rm).

(** The neighbour property of the data model, for one view. *)
Definition neighbors_ok (rm : t) : Prop :=
  (length (ring_members rm) = 1%nat ->
     left_neighbor rm = None /\ right_neighbor rm = None) /\
  ((2 <= length (ring_members rm))%nat ->
     exists l r,
       left_neighbor rm = Some l /\ right_neighbor rm = Some r /\
       l <> own_server_id rm /\ r <> own_server_id rm).

(** What a view keeps of a member besides its leader flag. *)
Definition address (s : ServerInfo.t) : Py.str * Py.str * Z :=
  (ServerInfo.server_id s, ServerInfo.ip s, ServerInfo.port s).

End RingManager.

(** ** config.py *)

Module MessageType.

Definition DISCOVERY_ANNOUNCE := py "DISCOVERY_ANNOUNCE".
Definition ELECTION := py "ELECTION".
Definition LEADER_ANNOUNCEMENT := py "LEADER_ANNOUNCEMENT".
Definition HEARTBEAT := py "HEARTBEAT".
Definition CLIENT_JOIN := py "CLIENT_JOIN".
Definition CLIENT_LEAVE := py "CLIENT_LEAVE".
Definition CHAT_MESSAGE := py "CHAT_MESSAGE".
Definition FORWARD_MESSAGE := py "FORWARD_MESSAGE".
Definition NOTIFICATION := py "NOTIFICATION".
Definition MESSAGE_HISTORY := py "MESSAGE_HISTORY".

End MessageType.

(** [ELECTION_MESSAGE_DELAY = 0.5] seconds, in milliseconds. *)
Definition ELECTION_MESSAGE_DELAY : Z := 500.

(** ** protocol.py *)

Module Protocol.

(** [{"type": ..., "message_id": ..., "timestamp": ..., **kwargs}] *)
Definition create_message (env : Env.t) (msg_type : Py.str)
                          (kwargs : list (Py.str * Json.t)) : message :=
  fold_left (fun d kv => Py.dict_set (fst kv) (snd kv) d) kwargs
    [(py "type", Json.Str msg_type);
     (py "message_id", Json.Str (Env.uuid4 env));
     (py "timestamp", Json.Str (Env.isoformat_now env))].

Definition create_election_message (env : Env.t)
           (candidate_id originator_id hop_count : Json.t) : message :=
  create_message env (py "ELECTION")
    [(py "candidate_id", candidate_id);
     (py "originator_id", originator_id);
     (py "hop_count", hop_count)].

(** [ring_topology or []] is the list itself. *)
Definition create_leader_announcement (env : Env.t) (leader_id : Json.t)
           (ring_topology : list Json.t) : message :=
  create_message env (py "LEADER_ANNOUNCEMENT")
    [(py "leader_id", leader_id);
     (py "ring_topology", Json.List ring_topology)].

Definition create_chat_message (env : Env.t) (username content client_id : Json.t)
  : message :=
  create_message env (py "CHAT_MESSAGE")
    [(py "username", username); (py "content", content);
     (py "client_id", client_id)].

Definition create_forward_message (env : Env.t) (m : Json.t)
           (origin_server_id : Py.str) : message :=
  create_message env (py "FORWARD_MESSAGE")
    [(py "original_message", m);
     (py "origin_server_id", Json.Str origin_server_id)].

Section Codec.

Context {interp : Interpreter}.

(** [serialize_message]: [json.dumps(message).encode('utf-8')]; [None] is an
    exception of [json.dumps] or of the encoding, which the function does
    not catch. *)
Definition serialize_message (m : Json.t) : option (list Byte.byte) :=
  match JsonCodec.dumps m with
  | Some json_str => JsonCodec.utf8_encode json_str
  | None => None
  end.

(** [deserialize_message]: the parsed value, or [None] where the function
    catches [UnicodeDecodeError] or [JSONDecodeError] and returns [None].
    The ValueError of an integer with too many digits and RecursionError are
    not caught: the call ends with [Stop], as it does where the model
    ends. *)
Definition deserialize_message (data : list Byte.byte)
  : JsonCodec.res (option Json.t) :=
  match JsonCodec.utf8_decode data with
  | None => JsonCodec.Ok None
  | Some json_str =>
      match JsonCodec.loads json_str with
      | JsonCodec.Ok v => JsonCodec.Ok (Some v)
      | JsonCodec.Stop JsonCodec.DecodeError => JsonCodec.Ok None
      | JsonCodec.Stop w => JsonCodec.Stop w
      end
  end.

End Codec.

(** The exceptions that leave [deserialize_message]. *)
Definition uncaught (w : JsonCodec.stop) : bool :=
  match w with
  | JsonCodec.ValueError | JsonCodec.RecursionError => true
  | _ => false
  end.

End Protocol.

(** ** Effects

    The components reach the sockets through callbacks that
    [Server._setup_callbacks] binds to methods of the server; a call of such
    a method is recorded as an event, in program order.  Log lines are not
    recorded; a log line is part of the model where it can raise for a
    record that [json.loads] returns, which is where it takes a slice of a
    field. *)

Inductive event :=
| BroadcastToLocalClients (m : Json.t)
    (** [Server._broadcast_to_local_clients(m)] *)
| ForwardToLeader (leader : Py.str) (m : Json.t)
    (** [Server._forward_to_leader(leader_info, m)] *)
| BroadcastToAllServers (m : Json.t)
    (** [Server._broadcast_to_all_servers(m)] *)
| SendToServer (target : Py.str) (m : Json.t)
    (** [Server._send_to_server(server_info, m)] *)
| LeaderElected (leader_id : Json.t)
    (** [Server._on_leader_elected(leader_id)] *)
| SendToClient (client_id : Py.str) (m : Json.t)
    (** [ClientHandler.send_to_client(client_id, m)] *)
| HandleHeartbeat (m : Json.t)
    (** [Server._handle_heartbeat(m)], the failure detector's entry *)
| Sleep (ms : Z)
    (** [time.sleep] *)
| RetryThread (m : Json.t)
    (** the thread [handle_election_message] starts when the ring is not ready *).

(** The exception that ends a call.  [LogError] is the exception of a log
    line that takes [content[:50]]: AttributeError when the record is no
    dict, otherwise the exception of a content that cannot be sliced. *)
Inductive exn := TypeError | KeyError | LogError.

(** ** message_handler.py *)

Module MessageHandler.

(** A callback field holds whether the callback is installed. *)
Record t := mk {
  server_id : Py.str;
  message_history : list Json.t;
  on_message_to_clients : bool;
  on_forward_to_leader : bool;
  on_broadcast_to_servers : bool
}.

(** [MessageHandler.__init__] *)
Definition init (server_id : Py.str) : t := mk server_id [] false false false.

Definition set_callbacks (self : t) (to_clients to_leader to_servers : bool) : t :=
  mk (server_id self) (message_history self)
     (if to_clients then true else on_message_to_clients self)
     (if to_leader then true else on_forward_to_leader self)
     (if to_servers then true else on_broadcast_to_servers self).

Definition with_history (self : t) (h : list Json.t) : t :=
  mk (server_id self) h (on_message_to_clients self)
     (on_forward_to_leader self) (on_broadcast_to_servers self).

Definition add_to_history (history : list Json.t) (m : Json.t) : list Json.t :=
  let appended := history ++ [m] in
  if (Py.len appended >? 1000)%Z then Py.slice_from appended (-1000)
  else appended.

Definition _add_to_history (self : t) (m : Json.t) : t :=
  with_history self (add_to_history (message_history self) m).

Definition get_message_history (self : t) : list Json.t := message_history self.

Definition _distribute_message (env : Env.t) (self : t) (m : Json.t)
  : t * list event :=
  (_add_to_history self m,
   (if on_message_to_clients self then [BroadcastToLocalClients m] else []) ++
   (if on_broadcast_to_servers self then
      [BroadcastToAllServers
         (Json.Dict (Protocol.create_forward_message env m (server_id self)))]
    else [])).

Definition _forward_to_leader (env : Env.t) (rm : RingManager.t) (self : t)
           (m : Json.t) : t * list event :=
  match RingManager.get_leader rm with
  | None => (self, [])
  | Some leader =>
      if Py.str_eqb (ServerInfo.server_id leader) (server_id self) then (self, [])
      else if on_forward_to_leader self then
        (self,
         [ForwardToLeader (ServerInfo.server_id leader)
            (Json.Dict (Protocol.create_forward_message env m (server_id self)))])
      else (self, [])
  end.

(** [message.get('content', '')[:50]], as the log lines of
    [handle_client_message] and of [Server._on_client_message] evaluate it:
    whether the expression returns. *)
Definition content_preview (m : Json.t) : bool :=
  match m with
  | Json.Dict d => Json.sliceable (Json.get_default d (py "content") (Json.Str []))
  | _ => false
  end.

(** [handle_client_message]: the debug line is formatted before anything
    else is done. *)
Definition handle_client_message (env : Env.t) (rm : RingManager.t) (self : t)
           (m : Json.t) : t * list event * option exn :=
  if negb (content_preview m) then (self, [], Some LogError)
  else
    match (if RingManager.is_leader rm (server_id self)
           then _distribute_message env self m
           else _forward_to_leader env rm self m) with
    | (self1, out) => (self1, out, None)
    end.

Definition handle_forwarded_message (env : Env.t) (rm : RingManager.t) (self : t)
           (m : message) : t * list event :=
  let original_message := Json.get m (py "original_message") in
  if RingManager.is_leader rm (server_id self) then
    _distribute_message env self original_message
  else (self, []).

Definition handle_distributed_message (self : t) (m : Json.t) : t * list event :=
  (_add_to_history self m,
   if on_message_to_clients self then [BroadcastToLocalClients m] else []).

End MessageHandler.

(** ** election.py *)

Module ElectionService.

(** A callback field holds whether the callback is installed;
    [election_timer] holds whether a timer is armed. *)
Record t := mk {
  server_id : Py.str;
  election_in_progress : bool;
  current_election_id : Json.t;
  current_candidate_id : Json.t;
  election_originator : Json.t;
  on_leader_elected : bool;
  send_to_neighbor : bool;
  election_timer : bool
}.

(** [ElectionService.__init__] *)
Definition init (server_id : Py.str) : t :=
  mk server_id false Json.Null Json.Null Json.Null false false false.

Definition set_send_callback (self : t) : t :=
  mk (server_id self) (election_in_progress self) (current_election_id self)
     (current_candidate_id self) (election_originator self)
     (on_leader_elected self) true (election_timer self).

Definition set_leader_elected_callback (self : t) : t :=
  mk (server_id self) (election_in_progress self) (current_election_id self)
     (current_candidate_id self) (election_originator self)
     true (send_to_neighbor self) (election_timer self).

Definition with_in_progress (self : t) (b : bool) : t :=
  mk (server_id self) b (current_election_id self)
     (current_candidate_id self) (election_originator self)
     (on_leader_elected self) (send_to_neighbor self) (election_timer self).

Definition with_election_id (self : t) (id : Json.t) : t :=
  mk (server_id self) (election_in_progress self) id
     (current_candidate_id self) (election_originator self)
     (on_leader_elected self) (send_to_neighbor self) (election_timer self).

Definition with_candidate (self : t) (candidate originator : Json.t) : t :=
  mk (server_id self) (election_in_progress self) (current_election_id self)
     candidate originator
     (on_leader_elected self) (send_to_neighbor self) (election_timer self).

Definition with_timer (self : t) (armed : bool) : t :=
  mk (server_id self) (election_in_progress self) (current_election_id self)
     (current_candidate_id self) (election_originator self)
     (on_leader_elected self) (send_to_neighbor self) armed.

(** Cancels the armed timer, if any, and arms a new one. *)
Definition _start_election_timer (self : t) : t := with_timer self true.

Definition _cancel_election_timer (self : t) : t := with_timer self false.

(** The ring manager and the service after a call, the events of the call, and
    the exception that ended it, if one did. *)
Definition outcome := (RingManager.t * t * list event * option exn)%type.

(** [self.ring_manager.set_leader(v)] for a value read from a message: the
    flags are cleared first; a value that is not a [str] is no key of
    [ring_members], and a list or dict cannot even be looked up. *)
Definition ring_set_leader (rm : RingManager.t) (v : Json.t)
  : RingManager.t * option exn :=
  match v with
  | Json.Str s => (RingManager.set_leader rm s, None)
  | _ =>
      (RingManager.with_members rm
         (RingManager.clear_flags (RingManager.ring_members rm)),
       if Json.hashable v then None else Some TypeError)
  end.

Definition _announce_leader (env : Env.t) (rm : RingManager.t) (self : t)
           (leader_id : Json.t) : list event * option exn :=
  match RingManager.right_neighbor rm with
  | None => ([], None)
  | Some r =>
      match RingManager.get_ring_topology rm with
      | None => ([], Some KeyError)
      | Some topology =>
          (if send_to_neighbor self then
             [SendToServer r
                (Json.Dict (Protocol.create_leader_announcement env leader_id topology))]
           else [],
           None)
      end
  end.

Definition _forward_leader_announcement := _announce_leader.

Definition _send_election_message (env : Env.t) (rm : RingManager.t) (self : t)
           (candidate_id originator_id hop_count : Json.t) : list event :=
  match RingManager.right_neighbor rm with
  | None => []
  | Some r =>
      Sleep ELECTION_MESSAGE_DELAY ::
      (if send_to_neighbor self then
         [SendToServer r
            (Json.Dict (Protocol.create_election_message
                          env candidate_id originator_id hop_count))]
       else [])
  end.

Definition _complete_election (env : Env.t) (rm : RingManager.t) (self : t)
           (winner_id : Json.t) : outcome :=
  match ring_set_leader rm winner_id with
  | (rm1, Some e) => (rm1, self, [], Some e)
  | (rm1, None) =>
      match _announce_leader env rm1 self winner_id with
      | (out, Some e) => (rm1, self, out, Some e)
      | (out, None) =>
          (rm1,
           _cancel_election_timer (with_in_progress self false),
           out ++ (if on_leader_elected self then [LeaderElected winner_id] else []),
           None)
      end
  end.

Definition start_election (env : Env.t) (rm : RingManager.t) (self : t) : outcome :=
  match RingManager.right_neighbor rm with
  | None =>
      (RingManager.set_leader rm (server_id self), self,
       if on_leader_elected self then [LeaderElected (Json.Str (server_id self))]
       else [],
       None)
  | Some _ =>
      if election_in_progress self then (rm, self, [], None)
      else
        let self1 :=
          _start_election_timer
            (with_candidate
               (with_election_id (with_in_progress self true)
                                 (Json.Int (Env.time_ms env)))
               (Json.Str (server_id self)) (Json.Str (server_id self))) in
        (rm, self1,
         _send_election_message env rm self1
           (Json.Str (server_id self)) (Json.Str (server_id self)) (Json.Int 0),
         None)
  end.

Definition handle_election_message (env : Env.t) (rm : RingManager.t) (self : t)
           (m : message) : outcome :=
  let candidate_id := Json.get m (py "candidate_id") in
  let originator_id := Json.get m (py "originator_id") in
  let hop_count := Json.get_default m (py "hop_count") (Json.Int 0) in
  match RingManager.right_neighbor rm with
  | None => (rm, self, [RetryThread (Json.Dict m)], None)
  | Some _ =>
      let self1 :=
        if negb (election_in_progress self) then
          _start_election_timer
            (with_election_id (with_in_progress self true)
                              (Json.get m (py "message_id")))
        else self in
      if Json.eq_str originator_id (server_id self) then
        _complete_election env rm self1 candidate_id
      else
        match Json.gt_str candidate_id (server_id self),
              Json.lt_str candidate_id (server_id self),
              Json.add_int hop_count 1 with
        | None, _, _ | _, None, _ | _, _, None => (rm, self1, [], Some TypeError)
        | Some true, _, Some hop =>
            (rm, self1,
             _send_election_message env rm self1 candidate_id originator_id hop,
             None)
        | Some false, Some true, Some hop =>
            (rm, self1,
             _send_election_message env rm self1
               (Json.Str (server_id self)) originator_id hop,
             None)
        | Some false, Some false, Some hop =>
            (rm, self1,
             _send_election_message env rm self1 candidate_id originator_id hop,
             None)
        end
  end.

Definition handle_leader_announcement (env : Env.t) (rm : RingManager.t) (self : t)
           (m : message) : outcome :=
  let leader_id := Json.get m (py "leader_id") in
  match ring_set_leader rm leader_id with
  | (rm1, Some e) => (rm1, self, [], Some e)
  | (rm1, None) =>
      let self1 := _cancel_election_timer (with_in_progress self false) in
      let elected :=
        if on_leader_elected self then [LeaderElected leader_id] else [] in
      if negb (Json.eq_str leader_id (server_id self)) then
        match _forward_leader_announcement env rm1 self1 leader_id with
        | (out, e) => (rm1, self1, elected ++ Sleep ELECTION_MESSAGE_DELAY :: out, e)
        end
      else (rm1, self1, elected, None)
  end.

End ElectionService.

(** ** server.py *)

Module Server.

Record t := mk {
  server_id : Py.str;
  ring_manager : RingManager.t;
  election : ElectionService.t;
  message_handler : MessageHandler.t
}.

(** [Server.__init__] with [_setup_callbacks] *)
Definition init (server_id : Py.str) : t :=
  mk server_id
     (RingManager.init server_id)
     (ElectionService.set_send_callback
        (ElectionService.set_leader_elected_callback
           (ElectionService.init server_id)))
     (MessageHandler.set_callbacks (MessageHandler.init server_id) true true true).

Definition _handle_server_message (env : Env.t) (self : t) (m : message)
  : t * list event * option exn :=
  let msg_type := Json.get m (py "type") in
  if Json.eq_str msg_type MessageType.ELECTION then
    match ElectionService.handle_election_message
            env (ring_manager self) (election self) m with
    | (rm, es, out, e) => (mk (server_id self) rm es (message_handler self), out, e)
    end
  else if Json.eq_str msg_type MessageType.LEADER_ANNOUNCEMENT then
    match ElectionService.handle_leader_announcement
            env (ring_manager self) (election self) m with
    | (rm, es, out, e) => (mk (server_id self) rm es (message_handler self), out, e)
    end
  else if Json.eq_str msg_type MessageType.HEARTBEAT then
    (self, [HandleHeartbeat (Json.Dict m)], None)
  else if Json.eq_str msg_type MessageType.FORWARD_MESSAGE then
    match MessageHandler.handle_forwarded_message
            env (ring_manager self) (message_handler self) m with
    | (mh, out) => (mk (server_id self) (ring_manager self) (election self) mh, out, None)
    end
  else if Json.eq_str msg_type MessageType.FORWARD_MESSAGE
          || Json.eq_str msg_type MessageType.CHAT_MESSAGE then
    let original_msg := Json.get_default m (py "original_message") (Json.Dict m) in
    match MessageHandler.handle_distributed_message (message_handler self) original_msg with
    | (mh, out) => (mk (server_id self) (ring_manager self) (election self) mh, out, None)
    end
  else (self, [], None).

(** The f-string [f"{username} joined the chat"] *)
Definition joined_text (username : Py.str) : Py.str :=
  username ++ py " joined the chat".

Definition _on_client_joined (self : t) (client_id username : Py.str) : list event :=
  let notification :=
    Json.Dict [(py "type", Json.Str MessageType.NOTIFICATION);
               (py "notification_type", Json.Str (py "USER_JOINED"));
               (py "username", Json.Str username);
               (py "message", Json.Str (joined_text username))] in
  let history := MessageHandler.get_message_history (message_handler self) in
  BroadcastToLocalClients notification ::
  match history with
  | [] => []
  | _ :: _ =>
      [SendToClient client_id
         (Json.Dict [(py "type", Json.Str MessageType.MESSAGE_HISTORY);
                     (py "messages", Json.List (Py.slice_from history (-50)))])]
  end.

End Server.

(** ** Sample states *)

(** An interpreter with the default limits of CPython: 4300 digits and a
    recursion limit of 1000. *)
Definition cpython : Interpreter :=
  {| max_str_digits := 4300; encoder_depth := 1000; scanner_depth := 1000 |}.

Definition ex_ops : list RingManager.op :=
  [RingManager.AddServer (py "s2") (py "10.0.0.2") 8002 false;
   RingManager.AddServer (py "s1") (py "10.0.0.1") 8001 false;
   RingManager.SetLeader (py "s1");
   RingManager.AddServer (py "s3") (py "10.0.0.3") 8003 false;
   RingManager.SetLeader (py "s3");
   RingManager.RemoveServer (py "s1")].

Definition ex_ring : RingManager.t :=
  RingManager.run (py "s2")
    [RingManager.AddServer (py "s2") (py "10.0.0.2") 8002 false;
     RingManager.AddServer (py "s1") (py "10.0.0.1") 8001 false;
     RingManager.AddServer (py "s3") (py "10.0.0.3") 8003 false].

(** An interpreter whose encoder and scanner can enter one list or dict. *)
Definition ex_shallow : Interpreter :=
  {| max_str_digits := 4300; encoder_depth := 1; scanner_depth := 1 |}.

(** Two servers added at a node [me] that never added itself. *)
Definition ex_strangers : list RingManager.op :=
  [RingManager.AddServer (py "a") (py "h") 1 false;
   RingManager.AddServer (py "b") (py "h") 2 false].

(** The views that [s1] and [s3] hold of the same ring. *)
Definition ex_ring_s1 : RingManager.t :=
  RingManager.run (py "s1")
    [RingManager.AddServer (py "s1") (py "10.0.0.1") 8001 false;
     RingManager.AddServer (py "s2") (py "10.0.0.2") 8002 false;
     RingManager.AddServer (py "s3") (py "10.0.0.3") 8003 false].

Definition ex_ring_s3 : RingManager.t :=
  RingManager.run (py "s3")
    [RingManager.AddServer (py "s3") (py "10.0.0.3") 8003 false;
     RingManager.AddServer (py "s1") (py "10.0.0.1") 8001 false;
     RingManager.AddServer (py "s2") (py "10.0.0.2") 8002 false].

Definition ex_env : Env.t :=
  Env.mk (py "0b0e8d3c-5d1f-4c63-9a55-2f1c7a1f8e11") (py "2025-01-15T10:30:00.123456")
         1736937000123.

Definition ex_ring_led : RingManager.t := RingManager.set_leader ex_ring (py "s3").

Definition ex_election : ElectionService.t :=
  ElectionService.set_send_callback
    (ElectionService.set_leader_elected_callback (ElectionService.init (py "s2"))).

Definition ex_server : Server.t :=
  Server.mk (py "s2") ex_ring_led ex_election
    (MessageHandler.set_callbacks (MessageHandler.init (py "s2")) true true true).

Definition ex_chat : Json.t :=
  Json.Dict (Protocol.create_chat_message ex_env
               (Json.Str (py "a")) (Json.Str (py "hello")) (Json.Str (py "c1"))).

Definition ex_forward : message :=
  Protocol.create_forward_message ex_env ex_chat (py "s3").

Definition ex_election_msg : message :=
  Protocol.create_election_message ex_env
    (Json.Str (py "s1")) (Json.Str (py "s1")) (Json.Int 0).

Definition ex_announcement : message :=
  Protocol.create_leader_announcement ex_env (Json.Str (py "s3")) [].

Definition ex_server_hist : Server.t :=
  Server.mk (py "s2") ex_ring_led ex_election
    (fold_left MessageHandler._add_to_history
       [ex_chat; Json.Dict ex_election_msg; ex_chat]
       (MessageHandler.set_callbacks (MessageHandler.init (py "s2")) true true true)).

(** Node [s2] after it has started an election of its own. *)
Definition ex_started : ElectionService.outcome :=
  ElectionService.start_election ex_env ex_ring ex_election.

(** ** Specification vocabulary *)

(** The last [n] entries of a list, in order. *)
Definition last_entries {A} (n : nat) (l : list A) : list A :=
  skipn (length l - n) l.

(** The components of an outcome. *)
Definition ring_of (o : ElectionService.outcome) : RingManager.t :=
  match o with (rm, _, _, _) => rm end.

Definition service_of (o : ElectionService.outcome) : ElectionService.t :=
  match o with (_, es, _, _) => es end.

Definition events_of (o : ElectionService.outcome) : list event :=
  match o with (_, _, out, _) => out end.

Definition raised_of (o : ElectionService.outcome) : option exn :=
  match o with (_, _, _, e) => e end.

Definition is_send (e : event) : bool :=
  match e with SendToServer _ _ => true | _ => false end.

(** Every id of the ring order is a member: no lookup of
    [get_ring_topology] fails. *)
Definition order_in_members (rm : RingManager.t) : bool :=
  forallb (fun sid => Py.dict_mem sid (RingManager.ring_members rm))
          (RingManager.ring_order rm).

(** The [MESSAGE_HISTORY] record with the given entries. *)
Definition history_record (entries : list Json.t) : Json.t :=
  Json.Dict [(py "type", Json.Str MessageType.MESSAGE_HISTORY);
             (py "messages", Json.List entries)].

(** A code point of well-formed text: a Unicode scalar value. *)
Definition scalar (c : N) : bool :=
  ((c <? 1114112) && negb ((55296 <=? c) && (c <=? 57343)))%N.

Definition text (s : Py.str) : bool := forallb scalar s.

Fixpoint unique (l : list Py.str) : bool :=
  match l with
  | [] => true
  | k :: l' => negb (Py.list_mem k l') && unique l'
  end.

(** A valid record: its strings are well-formed text and, as in every Python
    dict, no key occurs twice. *)
Fixpoint valid (v : Json.t) : bool :=
  match v with
  | Json.Str s => text s
  | Json.List l => forallb valid l
  | Json.Dict d =>
      forallb (fun kv => text (fst kv) && valid (snd kv)) d && unique (Py.keys d)
  | _ => true
  end.

(** The text of a value: what [json.dumps] writes when no limit of the
    interpreter stops it. *)
Fixpoint json_text (v : Json.t) : Py.str :=
  match v with
  | Json.Null => py "null"
  | Json.Bool true => py "true"
  | Json.Bool false => py "false"
  | Json.Int z => JsonCodec.int_chars (Z.to_int z)
  | Json.Str s => JsonCodec.encode_basestring_ascii s
  | Json.List l => py "[" ++ JsonCodec.join (py ", ") (map json_text l) ++ py "]"
  | Json.Dict d =>
      py "{" ++
      JsonCodec.join (py ", ")
        (map (fun kv => JsonCodec.encode_basestring_ascii (fst kv) ++ py ": " ++
                        json_text (snd kv)) d)
      ++ py "}"
  end.

(** The nesting of a value: the number of lists and dicts that must be
    entered to reach its innermost part. *)
Fixpoint nesting (v : Json.t) : nat :=
  match v with
  | Json.List l => S (fold_right (fun x n => Nat.max (nesting x) n) 0%nat l)
  | Json.Dict d => S (fold_right (fun kv n => Nat.max (nesting (snd kv)) n) 0%nat d)
  | _ => 0%nat
  end.

Section Limits.

Context {interp : Interpreter}.

(** Every integer of the value has few enough digits to be converted. *)
Fixpoint small_ints (v : Json.t) : bool :=
  match v with
  | Json.Int z => JsonCodec.digits_fit (JsonCodec.int_digits (Z.to_int z))
  | Json.List l => forallb small_ints l
  | Json.Dict d => forallb (fun kv => small_ints (snd kv)) d
  | _ => true
  end.

(** A value within the limits of the interpreter: [json.dumps] and
    [json.loads] can convert its integers and enter its lists and dicts. *)
Definition within_limits (v : Json.t) : bool :=
  small_ints v && (nesting v <=? encoder_depth)%nat
  && (nesting v <=? scanner_depth)%nat.

End Limits.

(** The fuel one value takes in [scan_once]. *)
Fixpoint size (v : Json.t) : nat :=
  match v with
  | Json.List l => S (fold_right (fun x n => S (size x + n)) 0%nat l)
  | Json.Dict d => S (fold_right (fun kv n => S (size (snd kv) + n)) 0%nat d)
  | _ => 1%nat
  end.

(** A value may be followed by the end of the text, a comma, a closing bracket
    or a closing brace. *)
Definition delimited (rest : Py.str) : bool :=
  match rest with
  | [] => true
  | c :: _ => ((c =? 44) || (c =? 93) || (c =? 125))%N
  end.

(** A run of digits that starts with a digit from one to nine. *)
Definition leading (u : Decimal.uint) : Prop :=
  match u with
  | Decimal.Nil | Decimal.D0 _ => False
  | _ => True
  end.

(** What may follow a run of digits that is to be read whole. *)
Definition no_digit (rest : Py.str) : Prop :=
  match rest with
  | [] => True
  | c :: _ => JsonCodec.digit_of c = None
  end.

(** The characters a value's text can start with. *)
Definition value_start (c : N) : bool :=
  ((c =? 34) || (c =? 123) || (c =? 91) || (c =? 110) || (c =? 116)
   || (c =? 102) || (c =? 45))%N || JsonCodec.is_digit c.

Definition starts_value (s : Py.str) : Prop :=
  match s with
  | c :: _ => value_start c = true
  | [] => False
  end.

(** The text of one key and its value. *)
Definition pair_text (kv : Py.str * Json.t) : Py.str :=
  JsonCodec.encode_basestring_ascii (fst kv) ++ py ": " ++ json_text (snd kv).

Definition items_size (l : list Json.t) : nat :=
  fold_right (fun x n => S (size x + n)) 0%nat l.

Definition pairs_size (d : list (Py.str * Json.t)) : nat :=
  fold_right (fun kv n => S (size (snd kv) + n)) 0%nat d.

(** Scanning the text of a value that is followed by a delimiter gives the
    value and leaves the delimiter. *)
Definition scans_back {interp : Interpreter} (v : Json.t) : Prop :=
  valid v = true -> small_ints v = true ->
  forall (depth fuel : nat) (rest : Py.str),
    (nesting v <= depth)%nat -> (size v <= fuel)%nat -> delimited rest = true ->
    JsonCodec.scan_once depth fuel (json_text v ++ rest) = JsonCodec.Ok (v, rest).

(** Text that [utf-8] encodes byte for byte. *)
Definition ascii_text (s : Py.str) : Prop := Forall (fun c => (c < 128)%N) s.

(** Induction on values with the induction hypothesis for every element of a
    list and every value of a dict. *)
Fixpoint json_induction (P : Json.t -> Prop)
    (HNull : P Json.Null)
    (HBool : forall b, P (Json.Bool b))
    (HInt : forall z, P (Json.Int z))
    (HStr : forall s, P (Json.Str s))
    (HList : forall l, Forall P l -> P (Json.List l))
    (HDict : forall d, Forall (fun kv => P (snd kv)) d -> P (Json.Dict d))
    (v : Json.t) {struct v} : P v :=
  match v with
  | Json.Null => HNull
  | Json.Bool b => HBool b
  | Json.Int z => HInt z
  | Json.Str s => HStr s
  | Json.List l =>
      HList l
        ((fix go (l : list Json.t) : Forall P l :=
            match l with
            | [] => Forall_nil P
            | x :: l' =>
                Forall_cons x
                  (json_induction P HNull HBool HInt HStr HList HDict x) (go l')
            end) l)
  | Json.Dict d =>
      HDict d
        ((fix go (d : list (Py.str * Json.t)) : Forall (fun kv => P (snd kv)) d :=
            match d with
            | [] => Forall_nil _
            | kv :: d' =>
                Forall_cons kv
                  (json_induction P HNull HBool HInt HStr HList HDict (snd kv))
                  (go d')
            end) d)
  end.

(** The election that [s2] starts in the ring [s1, s2, s3], every record
    handled by the node it is sent to: the candidacy at [s3], at [s1] and
    back at [s2], and the announcement of [s2] at [s3]. *)
Definition ex_candidacy (candidate : Py.str) (hop : Z) : message :=
  Protocol.create_election_message ex_env
    (Json.Str candidate) (Json.Str (py "s2")) (Json.Int hop).

Definition ex_round_s3 : ElectionService.outcome :=
  ElectionService.handle_election_message ex_env ex_ring_s3
    (Server.election (Server.init (py "s3"))) (ex_candidacy (py "s2") 0).

Definition ex_round_s1 : ElectionService.outcome :=
  ElectionService.handle_election_message ex_env ex_ring_s1
    (Server.election (Server.init (py "s1"))) (ex_candidacy (py "s3") 1).

Definition ex_round_s2 : ElectionService.outcome :=
  ElectionService.handle_election_message ex_env
    (ring_of ex_started) (service_of ex_started) (ex_candidacy (py "s3") 2).

Definition ex_round_announcement : message :=
  Protocol.create_leader_announcement ex_env (Json.Str (py "s3"))
    [Json.Dict (ServerInfo.to_dict
                  (ServerInfo.mk (py "s1") (py "10.0.0.1") 8001 false true));
     Json.Dict (ServerInfo.to_dict
                  (ServerInfo.mk (py "s2") (py "10.0.0.2") 8002 false true));
     Json.Dict (ServerInfo.to_dict
                  (ServerInfo.mk (py "s3") (py "10.0.0.3") 8003 true true))].

Definition ex_round_leader : ElectionService.outcome :=
  ElectionService.handle_leader_announcement ex_env
    (ring_of ex_round_s3) (service_of ex_round_s3) ex_round_announcement.

(** A record with text outside ASCII, a negative number and empty
    containers. *)
Definition ex_record : Json.t :=
  Json.Dict
    [(py "type", Json.Str MessageType.CHAT_MESSAGE);
     (py "username", Json.Str [233; 128512; 10; 34]%N);
     (py "content", Json.List [ex_chat; Json.Int (-120); Json.Int 0; Json.Null;
                               Json.Bool true; Json.List []; Json.Dict []]);
     (py "forward", Json.Dict ex_forward)].

(** ** election.py: the election timer *)

Module ElectionTimer.

(** [ELECTION_TIMEOUT = 10] seconds, in milliseconds. *)
Definition ELECTION_TIMEOUT : Z := 10000.

(** The function [timeout_handler] that [_start_election_timer] hands to
    [threading.Timer]; it runs when the armed timer expires, so the timer is
    no longer armed.  [time.sleep(1)] is recorded in milliseconds. *)
Definition timeout_handler (env : Env.t) (rm : RingManager.t)
           (self : ElectionService.t) : ElectionService.outcome :=
  let self1 :=
    ElectionService.with_timer (ElectionService.with_in_progress self false) false in
  match RingManager.right_neighbor rm with
  | None =>
      (RingManager.set_leader rm (ElectionService.server_id self), self1,
       if ElectionService.on_leader_elected self
       then [LeaderElected (Json.Str (ElectionService.server_id self))]
       else [],
       None)
  | Some _ =>
      match ElectionService.start_election env rm self1 with
      | (rm1, es, out, e) => (rm1, es, Sleep 1000 :: out, e)
      end
  end.

Definition is_election_in_progress (self : ElectionService.t) : bool :=
  ElectionService.election_in_progress self.

End ElectionTimer.

(** ** server.py: the callbacks bound by [_setup_callbacks] and the start-up
    of the ring *)

Module ServerCallbacks.

Definition with_ring (self : Server.t) (rm : RingManager.t) : Server.t :=
  Server.mk (Server.server_id self) rm (Server.election self)
            (Server.message_handler self).

(** The server after a call into the election service. *)
Definition after_election (self : Server.t) (o : ElectionService.outcome)
  : Server.t * list event * option exn :=
  match o with
  | (rm, es, out, e) =>
      (Server.mk (Server.server_id self) rm es (Server.message_handler self), out, e)
  end.

(** [_broadcast_to_all_servers]: one [_send_to_server] for every member but
    the node itself, in the order of [ring_members]. *)
Definition _broadcast_to_all_servers (self : Server.t) (m : Json.t) : list event :=
  flat_map
    (fun server =>
       if negb (Py.str_eqb (ServerInfo.server_id server) (Server.server_id self))
       then [SendToServer (ServerInfo.server_id server) m]
       else [])
    (RingManager.get_all_servers (Server.ring_manager self)).

(** [_forward_to_leader(leader_info, message)] *)
Definition _forward_to_leader (leader : Py.str) (m : Json.t) : list event :=
  [SendToServer leader m].

(** What the callbacks of the message handler put on the sockets of the
    peers: the events of a call, with the two callbacks that send to servers
    replaced by their [_send_to_server] calls. *)
Definition to_peers (self : Server.t) (out : list event) : list event :=
  flat_map
    (fun e =>
       match e with
       | BroadcastToAllServers m => _broadcast_to_all_servers self m
       | ForwardToLeader leader m => _forward_to_leader leader m
       | SendToServer _ _ => [e]
       | _ => []
       end) out.

(** [_on_client_message]: the log line takes [content[:50]], then the record
    goes to the message handler. *)
Definition handle_client_message (env : Env.t) (self : Server.t) (m : Json.t)
  : Server.t * list event * option exn :=
  if negb (MessageHandler.content_preview m) then (self, [], Some LogError)
  else
    match MessageHandler.handle_client_message
            env (Server.ring_manager self) (Server.message_handler self) m with
    | (mh, out, e) =>
        (Server.mk (Server.server_id self) (Server.ring_manager self)
                   (Server.election self) mh, out, e)
    end.

(** [_on_server_discovered]; [time.sleep(1)] is recorded in milliseconds.
    The id and the address are strings and the port is an int, as
    [RingManager.t] holds them.  The discovery thread passes what
    [message.get] returned: with an id that is not a string, [add_server]
    stores a key that [sorted] cannot compare with the others, and the view
    is no longer one of [RingManager.t]. *)
Definition _on_server_discovered (env : Env.t) (self : Server.t)
           (server_id ip : Py.str) (port : Z)
  : Server.t * list event * option exn :=
  let rm1 := RingManager.add_server (Server.ring_manager self) server_id ip port false in
  if RingManager.is_leader rm1 (Server.server_id self) then
    match after_election self
            (ElectionService.start_election env rm1 (Server.election self)) with
    | (self1, out, e) => (self1, Sleep 1000 :: out, e)
    end
  else (with_ring self rm1, [], None).

(** [_initialize_ring], for the records [get_discovered_servers] returns. *)
Definition _initialize_ring (self : Server.t) (discovered : list (Py.str * Py.str * Z))
  : Server.t :=
  with_ring self
    (fold_left
       (fun rm server =>
          match server with
          | (server_id, ip, port) => RingManager.add_server rm server_id ip port false
          end)
       discovered (Server.ring_manager self)).

(** Step 2 of [start]: the node adds itself to its view. *)
Definition start_add_self (self : Server.t) (ip : Py.str) (port : Z) : Server.t :=
  with_ring self
    (RingManager.add_server (Server.ring_manager self) (Server.server_id self)
                            ip port false).

(** Step 6 of [start]: the initial election, unless a leader is known;
    [time.sleep(2)] is recorded in milliseconds. *)
Definition start_initial_election (env : Env.t) (self : Server.t)
  : Server.t * list event * option exn :=
  match RingManager.get_leader (Server.ring_manager self) with
  | Some _ => (self, [], None)
  | None =>
      if (RingManager.ring_size (Server.ring_manager self) >? 1)%Z then
        match after_election self
                (ElectionService.start_election
                   env (Server.ring_manager self) (Server.election self)) with
        | (self1, out, e) => (self1, Sleep 2000 :: out, e)
        end
      else
        (with_ring self
           (RingManager.set_leader (Server.ring_manager self) (Server.server_id self)),
         [], None)
  end.

End ServerCallbacks.

(** ** The line framing of the TCP streams

    [Server._handle_persistent_server_connection],
    [ClientHandler._handle_client] and [ConnectionManager._receive_loop] read
    their socket with the same loop: the chunk is appended to the buffer and,
    while a newline is in the buffer, the bytes before the first newline are
    cut off, decoded and, when the result is truthy, handed to the handler.
    An exception of the decoder or of the handler ends the loop. *)

Module Framing.

Definition newline : Byte.byte := Byte.x0a.

(** [data + b'\n'], as every sender writes a record. *)
Definition frame (data : list Byte.byte) : list Byte.byte := data ++ [newline].

(** [line, buffer = buffer.split(b'\n', 1)]; [None] when no newline is in the
    buffer. *)
Fixpoint split_newline (buffer : list Byte.byte)
  : option (list Byte.byte * list Byte.byte) :=
  match buffer with
  | [] => None
  | b :: rest =>
      if Byte.eqb b newline then Some ([], rest)
      else match split_newline rest with
           | Some (line, rest') => Some (b :: line, rest')
           | None => None
           end
  end.

(** The truth value of a decoded record in [if message:]. *)
Definition truthy (v : Json.t) : bool :=
  match v with
  | Json.Null => false
  | Json.Bool b => b
  | Json.Int z => negb (z =? 0)%Z
  | Json.Str s => match s with [] => false | _ => true end
  | Json.List l => match l with [] => false | _ => true end
  | Json.Dict d => match d with [] => false | _ => true end
  end.

(** How the loop ends: it waits in [recv] with the given buffer when the
    chunks are used up; it was closed by an empty chunk; it was broken by an
    exception; or its condition no longer held. *)
Inductive ending :=
| Waiting (buffer : list Byte.byte)
| Closed
| Broken
| Stopped.

Section Loop.

Context {interp : Interpreter}.

(** The state the handler works on, the handler, which returns the state it
    leaves and [false] when it raised, and the condition of the outer loop
    ([self.running], [client_conn.connected]). *)
Variable state : Type.
Variable handler : state -> Json.t -> state * bool.
Variable running : state -> bool.

(** The body of the inner loop for one line: nothing is done for an empty
    line, for a line that does not decode and for a record that is not
    truthy; [false] when the decoder or the handler raised. *)
Definition handle_line (s : state) (line : list Byte.byte)
  : JsonCodec.res (state * bool) :=
  match line with
  | [] => JsonCodec.Ok (s, true)
  | _ =>
      match Protocol.deserialize_message line with
      | JsonCodec.Ok (Some m) =>
          if truthy m then JsonCodec.Ok (handler s m) else JsonCodec.Ok (s, true)
      | JsonCodec.Ok None => JsonCodec.Ok (s, true)
      | JsonCodec.Stop w =>
          if Protocol.uncaught w then JsonCodec.Ok (s, false) else JsonCodec.Stop w
      end
  end.

(** The inner [while b'\n' in buffer] loop: the state, the bytes left in the
    buffer and [false] when an exception ended the loop. *)
Fixpoint drain (fuel : nat) (s : state) (buffer : list Byte.byte)
  : JsonCodec.res (state * list Byte.byte * bool) :=
  match fuel with
  | O => JsonCodec.Stop JsonCodec.OutOfFuel
  | S fuel' =>
      match split_newline buffer with
      | None => JsonCodec.Ok (s, buffer, true)
      | Some (line, rest) =>
          match handle_line s line with
          | JsonCodec.Stop w => JsonCodec.Stop w
          | JsonCodec.Ok (s1, false) => JsonCodec.Ok (s1, rest, false)
          | JsonCodec.Ok (s1, true) => drain fuel' s1 rest
          end
      end
  end.

(** The outer loop for the chunks [recv] returns one after the other, from
    the given state and buffer.  An empty chunk is the end of the stream:
    [if not chunk: break]. *)
Fixpoint receive_all (s : state) (buffer : list Byte.byte)
         (chunks : list (list Byte.byte)) : JsonCodec.res (state * ending) :=
  if negb (running s) then JsonCodec.Ok (s, Stopped)
  else
    match chunks with
    | [] => JsonCodec.Ok (s, Waiting buffer)
    | [] :: _ => JsonCodec.Ok (s, Closed)
    | chunk :: chunks' =>
        match drain (S (length (buffer ++ chunk))) s (buffer ++ chunk) with
        | JsonCodec.Stop w => JsonCodec.Stop w
        | JsonCodec.Ok (s1, _, false) => JsonCodec.Ok (s1, Broken)
        | JsonCodec.Ok (s1, buffer1, true) => receive_all s1 buffer1 chunks'
        end
    end.

End Loop.

End Framing.

(** ** Dictionaries keyed by values read from a record

    [last_heartbeat_received], [discovered_servers] and [clients] are
    indexed by what [message.get] returned, which can be any hashable
    value. *)

Module JsonKey.

Definition as_int (v : Json.t) : option Z :=
  match v with
  | Json.Bool b => Some (if b then 1 else 0)%Z
  | Json.Int z => Some z
  | _ => None
  end.

(** Equality of two keys: [None] equals [None], [bool] and [int] compare as
    numbers, [str] by its characters. *)
Definition eqb (a b : Json.t) : bool :=
  match a, b with
  | Json.Null, Json.Null => true
  | Json.Str s, Json.Str s' => Py.str_eqb s s'
  | _, _ =>
      match as_int a, as_int b with
      | Some x, Some y => (x =? y)%Z
      | _, _ => false
      end
  end.

Definition dict (V : Type) := list (Json.t * V).

(** [d.get(k)] *)
Fixpoint get {V} (k : Json.t) (d : dict V) : option V :=
  match d with
  | [] => None
  | (k', v) :: d' => if eqb k' k then Some v else get k d'
  end.

(** [k in d] *)
Definition mem {V} (k : Json.t) (d : dict V) : bool :=
  match get k d with Some _ => true | None => false end.

(** [d[k] = v]: an existing key keeps its position, a new key goes last. *)
Fixpoint set {V} (k : Json.t) (v : V) (d : dict V) : dict V :=
  match d with
  | [] => [(k, v)]
  | (k', v') :: d' => if eqb k' k then (k', v) :: d' else (k', v') :: set k v d'
  end.

(** [del d[k]] *)
Fixpoint del {V} (k : Json.t) (d : dict V) : dict V :=
  match d with
  | [] => []
  | (k', v') :: d' => if eqb k' k then d' else (k', v') :: del k d'
  end.

End JsonKey.

(** ** Clock readings

    [time.time()] returns a float.  The model takes the type of the readings
    as a parameter, with the two tests the failure detector makes on them. *)

Class Clock := {
  time : Type;
  (** [last_seen == 0] *)
  is_zero : time -> bool;
  (** [current_time - last_seen > HEARTBEAT_TIMEOUT] *)
  timed_out : time -> time -> bool
}.

(** ** server.py: the failure detector *)

Module FailureDetector.

Section WithClock.

Context {clock : Clock}.

(** The server with its table [last_heartbeat_received]. *)
Record t := mk {
  server : Server.t;
  last_heartbeat_received : JsonKey.dict time
}.

(** [_handle_heartbeat]; a [server_id] that is a list or a dict cannot be a
    key. *)
Definition _handle_heartbeat (now : time) (self : t) (m : message) : t * option exn :=
  let server_id := Json.get m (py "server_id") in
  if Json.hashable server_id then
    (mk (server self) (JsonKey.set server_id now (last_heartbeat_received self)), None)
  else (self, Some TypeError).

(** A reference to a [ServerInfo] object of [ring_members]: the key it is
    stored under, with the object as it was when the reference was taken. *)
Definition ref := (Py.str * ServerInfo.t)%type.

(** The object behind a reference: the one in [ring_members] as long as it is
    a member, so that a flag written through [ring_members] is seen. *)
Definition deref (rm : RingManager.t) (r : ref) : ServerInfo.t :=
  match Py.dict_get (fst r) (RingManager.ring_members rm) with
  | Some server => server
  | None => snd r
  end.

(** The first loop of [_check_heartbeat_timeouts]: the table with the stamps
    of the servers seen for the first time, and [crashed_servers]. *)
Fixpoint find_crashed (own : Py.str) (now : time) (servers : list ref)
         (table : JsonKey.dict time) : JsonKey.dict time * list ref :=
  match servers with
  | [] => (table, [])
  | r :: servers' =>
      let server_id := ServerInfo.server_id (snd r) in
      if Py.str_eqb server_id own then find_crashed own now servers' table
      else
        match JsonKey.get (Json.Str server_id) table with
        | None =>
            find_crashed own now servers' (JsonKey.set (Json.Str server_id) now table)
        | Some last_seen =>
            if is_zero last_seen then
              find_crashed own now servers' (JsonKey.set (Json.Str server_id) now table)
            else if timed_out now last_seen then
              match find_crashed own now servers' table with
              | (table', crashed) => (table', r :: crashed)
              end
            else find_crashed own now servers' table
        end
  end.

(** [_handle_server_crash]; [time.sleep(1)] is recorded in milliseconds.  The
    table of sockets is not part of the model. *)
Definition _handle_server_crash (env : Env.t) (self : Server.t) (r : ref)
  : Server.t * list event * option exn :=
  let server := deref (Server.ring_manager self) r in
  let rm1 := RingManager.remove_server (Server.ring_manager self)
                                       (ServerInfo.server_id server) in
  if ServerInfo.is_leader server then
    match ServerCallbacks.after_election self
            (ElectionService.start_election env rm1 (Server.election self)) with
    | (self1, out, e) => (self1, Sleep 1000 :: out, e)
    end
  else (ServerCallbacks.with_ring self rm1, [], None).

(** The second loop of [_check_heartbeat_timeouts]; the [n]-th crash that is
    handled reads [envs n] from the outside world. *)
Fixpoint handle_crashes (envs : nat -> Env.t) (n : nat) (self : Server.t)
         (crashed : list ref) : Server.t * list event * option exn :=
  match crashed with
  | [] => (self, [], None)
  | r :: crashed' =>
      match _handle_server_crash (envs n) self r with
      | (self1, out, Some e) => (self1, out, Some e)
      | (self1, out, None) =>
          match handle_crashes envs (S n) self1 crashed' with
          | (self2, out', e) => (self2, out ++ out', e)
          end
      end
  end.

Definition _check_heartbeat_timeouts (envs : nat -> Env.t) (now : time) (self : t)
  : t * list event * option exn :=
  match find_crashed (Server.server_id (server self)) now
          (RingManager.ring_members (Server.ring_manager (server self)))
          (last_heartbeat_received self) with
  | (table, crashed) =>
      match handle_crashes envs 0 (server self) crashed with
      | (server1, out, e) => (mk server1 table, out, e)
      end
  end.

(** The record [_heartbeat_loop] sends. *)
Definition heartbeat (self : Server.t) : message :=
  [(py "type", Json.Str MessageType.HEARTBEAT);
   (py "server_id", Json.Str (Server.server_id self));
   (py "is_leader",
    Json.Bool (RingManager.is_leader (Server.ring_manager self)
                                     (Server.server_id self)))].

(** One round of [_heartbeat_loop]: the heartbeat to the right neighbour and
    the check of the timeouts. *)
Definition heartbeat_round (envs : nat -> Env.t) (now : time) (self : t)
  : t * list event * option exn :=
  let beat :=
    match RingManager.right_neighbor (Server.ring_manager (server self)) with
    | Some r => [SendToServer r (Json.Dict (heartbeat (server self)))]
    | None => []
    end in
  match _check_heartbeat_timeouts envs now self with
  | (self1, out, e) => (self1, beat ++ out, e)
  end.

(** The heartbeats among the events of a call of [_handle_server_message]. *)
Definition heartbeats (out : list event) : list message :=
  flat_map (fun e => match e with
                     | HandleHeartbeat (Json.Dict m) => [m]
                     | _ => []
                     end) out.

(** [_handle_server_message], with [_handle_heartbeat] run on the table. *)
Definition _handle_server_message (env : Env.t) (now : time) (self : t) (m : message)
  : t * list event * option exn :=
  match Server._handle_server_message env (server self) m with
  | (server1, out, Some e) => (mk server1 (last_heartbeat_received self), out, Some e)
  | (server1, out, None) =>
      match heartbeats out with
      | [] => (mk server1 (last_heartbeat_received self), out, None)
      | hb :: _ =>
          match _handle_heartbeat now (mk server1 (last_heartbeat_received self)) hb with
          | (self1, e) => (self1, out, e)
          end
      end
  end.

(** What the threads of a started server do, one call at a time.  The
    servers that discovery reports have strings as ids and addresses and
    ints as ports. *)
Inductive action :=
| OnServerDiscovered (env : Env.t) (server_id ip : Py.str) (port : Z)
| InitializeRing (discovered : list (Py.str * Py.str * Z))
| InitialElection (env : Env.t)
| ServerMessage (env : Env.t) (now : time) (m : message)
| ClientMessage (env : Env.t) (m : Json.t)
| HeartbeatRound (envs : nat -> Env.t) (now : time)
| ElectionTimeout (env : Env.t).

Definition on_server (self : t) (r : Server.t * list event * option exn)
  : t * list event * option exn :=
  match r with
  | (server1, out, e) => (mk server1 (last_heartbeat_received self), out, e)
  end.

Definition step (self : t) (a : action) : t * list event * option exn :=
  match a with
  | OnServerDiscovered env server_id ip port =>
      on_server self
        (ServerCallbacks._on_server_discovered env (server self) server_id ip port)
  | InitializeRing discovered =>
      (mk (ServerCallbacks._initialize_ring (server self) discovered)
          (last_heartbeat_received self), [], None)
  | InitialElection env =>
      on_server self (ServerCallbacks.start_initial_election env (server self))
  | ServerMessage env now m => _handle_server_message env now self m
  | ClientMessage env m =>
      on_server self (ServerCallbacks.handle_client_message env (server self) m)
  | HeartbeatRound envs now => heartbeat_round envs now self
  | ElectionTimeout env =>
      if ElectionService.election_timer (Server.election (server self)) then
        on_server self
          (ServerCallbacks.after_election (server self)
             (ElectionTimer.timeout_handler env
                (Server.ring_manager (server self)) (Server.election (server self))))
      else (self, [], None)
  end.

(** The server after step 2 of [start]. *)
Definition started (server_id ip : Py.str) (port : Z) : t :=
  mk (ServerCallbacks.start_add_self (Server.init server_id) ip port) [].

Definition run (self : t) (actions : list action) : t :=
  fold_left (fun s a => fst (fst (step s a))) actions self.

End WithClock.

End FailureDetector.

(** ** protocol.py: the records of discovery, of the clients and of the
    heartbeat *)

Module Records.

Definition create_discovery_announce (env : Env.t) (server_id ip port : Json.t)
  : message :=
  Protocol.create_message env (py "DISCOVERY_ANNOUNCE")
    [(py "server_id", server_id); (py "ip", ip); (py "port", port)].

Definition create_join_request (env : Env.t) (server_id ip port : Json.t) : message :=
  Protocol.create_message env (py "JOIN_REQUEST")
    [(py "server_id", server_id); (py "ip", ip); (py "port", port)].

Definition create_join_response (env : Env.t) (server_id ring_info : Json.t)
  : message :=
  Protocol.create_message env (py "JOIN_RESPONSE")
    [(py "server_id", server_id); (py "ring_info", ring_info)].

Definition create_client_join (env : Env.t) (client_id username : Json.t) : message :=
  Protocol.create_message env (py "CLIENT_JOIN")
    [(py "client_id", client_id); (py "username", username)].

Definition create_client_leave (env : Env.t) (client_id username : Json.t) : message :=
  Protocol.create_message env (py "CLIENT_LEAVE")
    [(py "client_id", client_id); (py "username", username)].

Definition create_heartbeat (env : Env.t) (server_id is_leader : Json.t) : message :=
  Protocol.create_message env (py "HEARTBEAT")
    [(py "server_id", server_id); (py "is_leader", is_leader)].

End Records.

(** ** discovery.py *)

Module DiscoveryService.

Section WithClock.

Context {clock : Clock} {interp : Interpreter}.

(** A value of [discovered_servers]. *)
Record info := mk_info {
  info_server_id : Json.t;
  info_ip : Json.t;
  info_port : Json.t;
  last_seen : time
}.

(** [on_server_discovered] holds whether the callback is installed. *)
Record t := mk {
  server_id : Py.str;
  discovered_servers : JsonKey.dict info;
  on_server_discovered : bool
}.

(** [DiscoveryService.__init__] *)
Definition init (server_id : Py.str) : t := mk server_id [] false.

Definition set_server_discovered_callback (self : t) : t :=
  mk (server_id self) (discovered_servers self) true.

(** A call [on_server_discovered(server_id, ip, port)]. *)
Definition call := (Json.t * Json.t * Json.t)%type.

(** How the body of [_listen_loop] ends: normally, or in its [except] clause
    with the exception that was raised; [Undecoded] is the exception that
    left [deserialize_message]. *)
Inductive ending :=
| Completed
| AttributeError
| UnhashableKey
| Undecoded (w : JsonCodec.stop).

(** [_handle_discovery_message]; a [server_id] that is a list or a dict
    cannot be looked up. *)
Definition _handle_discovery_message (now : time) (self : t) (m : message)
  : t * list call * ending :=
  if Json.eq_str (Json.get m (py "type")) MessageType.DISCOVERY_ANNOUNCE then
    let server_id' := Json.get m (py "server_id") in
    let ip := Json.get m (py "ip") in
    let port := Json.get m (py "port") in
    if negb (Json.hashable server_id') then (self, [], UnhashableKey)
    else
      let is_new := negb (JsonKey.mem server_id' (discovered_servers self)) in
      (mk (server_id self)
          (JsonKey.set server_id' (mk_info server_id' ip port now)
                       (discovered_servers self))
          (on_server_discovered self),
       if is_new && on_server_discovered self then [(server_id', ip, port)] else [],
       Completed)
  else (self, [], Completed).

(** The body of [_listen_loop] for one datagram. *)
Definition listen (now : time) (self : t) (data : list Byte.byte)
  : JsonCodec.res (t * list call * ending) :=
  match Protocol.deserialize_message data with
  | JsonCodec.Stop w =>
      if Protocol.uncaught w then JsonCodec.Ok (self, [], Undecoded w)
      else JsonCodec.Stop w
  | JsonCodec.Ok None => JsonCodec.Ok (self, [], Completed)
  | JsonCodec.Ok (Some v) =>
      if negb (Framing.truthy v) then JsonCodec.Ok (self, [], Completed)
      else
        match v with
        | Json.Dict m =>
            if Json.eq_str (Json.get m (py "server_id")) (server_id self)
            then JsonCodec.Ok (self, [], Completed)
            else JsonCodec.Ok (_handle_discovery_message now self m)
        | _ => JsonCodec.Ok (self, [], AttributeError)
        end
  end.

(** The loop for the datagrams received one after the other, each with the
    clock reading of its arrival: the last state and all calls of the
    callback. *)
Fixpoint listen_all (self : t) (datagrams : list (time * list Byte.byte))
  : JsonCodec.res (t * list call) :=
  match datagrams with
  | [] => JsonCodec.Ok (self, [])
  | (now, data) :: datagrams' =>
      match listen now self data with
      | JsonCodec.Stop w => JsonCodec.Stop w
      | JsonCodec.Ok (self1, calls, _) =>
          match listen_all self1 datagrams' with
          | JsonCodec.Stop w => JsonCodec.Stop w
          | JsonCodec.Ok (self2, calls') => JsonCodec.Ok (self2, calls ++ calls')
          end
      end
  end.

(** [get_discovered_servers] *)
Definition get_discovered_servers (self : t) : list info :=
  map snd (discovered_servers self).

End WithClock.

End DiscoveryService.


(** ** client_handler.py *)

Module ClientHandler.

(** A [ClientConnection]; the socket and the address are not part of the
    model. *)
Record ClientConnection := mk_connection {
  client_id : Json.t;
  username : Json.t;
  connected : bool
}.

(** A callback field holds whether the callback is installed. *)
Record t := mk {
  server_id : Py.str;
  clients : JsonKey.dict ClientConnection;
  on_client_message : bool;
  on_client_joined : bool;
  on_client_left : bool
}.

(** [ClientHandler.__init__] *)
Definition init (server_id : Py.str) : t := mk server_id [] false false false.

Definition set_callbacks (self : t) (on_message on_joined on_left : bool) : t :=
  mk (server_id self) (clients self)
     (if on_message then true else on_client_message self)
     (if on_joined then true else on_client_joined self)
     (if on_left then true else on_client_left self).

Definition with_clients (self : t) (clients : JsonKey.dict ClientConnection) : t :=
  mk (server_id self) clients (on_client_message self) (on_client_joined self)
     (on_client_left self).

(** What recv returns on a socket, call after call; an empty chunk is the end
    of the stream, the end of the list a timeout. *)
Definition stream := list (list Byte.byte).

(** The start of [_handle_client], up to [self.clients[client_id] =
    client_conn]: the handler with the client registered, the connection and
    what is left of the stream; [None] when the thread ends without
    registering a client, which it does after any exception. *)
Definition register {interp : Interpreter} (self : t) (chunks : stream)
  : JsonCodec.res (option (t * ClientConnection * stream)) :=
  match chunks with
  | [] => JsonCodec.Ok None
  | [] :: _ => JsonCodec.Ok None
  | data :: rest =>
      match Protocol.deserialize_message data with
      | JsonCodec.Stop w =>
          if Protocol.uncaught w then JsonCodec.Ok None else JsonCodec.Stop w
      | JsonCodec.Ok None => JsonCodec.Ok None
      | JsonCodec.Ok (Some v) =>
          if negb (Framing.truthy v) then JsonCodec.Ok None
          else
            match v with
            | Json.Dict m =>
                if negb (Json.eq_str (Json.get m (py "type")) MessageType.CLIENT_JOIN)
                then JsonCodec.Ok None
                else
                  let client_id := Json.get m (py "client_id") in
                  let username := Json.get m (py "username") in
                  let client_conn := mk_connection client_id username true in
                  if negb (Json.hashable client_id) then JsonCodec.Ok None
                  else
                    JsonCodec.Ok
                      (Some (with_clients self
                               (JsonKey.set client_id client_conn (clients self)),
                             client_conn, rest))
            | _ => JsonCodec.Ok None
            end
      end
  end.

(** A write on the socket of a client: [client_conn.send(message)] that
    succeeded. *)
Definition write := (Json.t * Json.t)%type.

(** The first loop of [broadcast_to_all_clients]: the writes that succeeded
    and the list [disconnected]; [delivers] tells for which clients
    [sendall] succeeds. *)
Fixpoint send_all (delivers : Json.t -> bool) (m : Json.t)
         (items : JsonKey.dict ClientConnection) : list write * list Json.t :=
  match items with
  | [] => ([], [])
  | (client_id, client_conn) :: items' =>
      match send_all delivers m items' with
      | (writes, disconnected) =>
          if delivers client_id then ((client_id, m) :: writes, disconnected)
          else (writes, client_id :: disconnected)
      end
  end.

Definition broadcast_to_all_clients (delivers : Json.t -> bool) (self : t) (m : Json.t)
  : t * list write :=
  match send_all delivers m (clients self) with
  | (writes, disconnected) =>
      (with_clients self
         (fold_left (fun d client_id => JsonKey.del client_id d) disconnected
                    (clients self)),
       writes)
  end.

(** [send_to_client]: the handler, the write if it succeeded, and the result;
    a failed send marks the connection and leaves it in the table. *)
Definition send_to_client (delivers : Json.t -> bool) (self : t)
           (client_id : Json.t) (m : Json.t) : t * list write * bool :=
  match JsonKey.get client_id (clients self) with
  | Some client_conn =>
      if delivers client_id then (self, [(client_id, m)], true)
      else
        (with_clients self
           (JsonKey.set client_id
              (mk_connection (ClientHandler.client_id client_conn)
                             (username client_conn) false)
              (clients self)),
         [], false)
  | None => (self, [], false)
  end.

Definition client_count (self : t) : Z := Py.len (clients self).

End ClientHandler.

(** ** server.py: the first record of a connection *)

Module Accept.

(** How [_handle_new_connection] ends: with a client registered by the thread
    it starts, with a client connection that the thread drops, with a server
    connection whose first record goes to [_handle_server_message] and whose
    stream goes to [_handle_persistent_server_connection], or with the socket
    closed.  [echo] holds the bytes written back to the client. *)
Inductive connection :=
| Client (handler : ClientHandler.t) (client_conn : ClientHandler.ClientConnection)
         (echo : list Byte.byte) (rest : ClientHandler.stream)
| Dropped (echo : list Byte.byte)
| Peer (first : message) (rest : ClientHandler.stream)
| Refused.

Definition is_server_type (msg_type : Json.t) : bool :=
  Json.eq_str msg_type MessageType.HEARTBEAT
  || Json.eq_str msg_type MessageType.ELECTION
  || Json.eq_str msg_type MessageType.LEADER_ANNOUNCEMENT
  || Json.eq_str msg_type MessageType.FORWARD_MESSAGE.

(** [_handle_new_connection]; after any exception the socket is closed. *)
Definition _handle_new_connection {interp : Interpreter} (handler : ClientHandler.t)
           (chunks : ClientHandler.stream) : JsonCodec.res connection :=
  match chunks with
  | [] => JsonCodec.Ok Refused
  | [] :: _ => JsonCodec.Ok Refused
  | data :: rest =>
      match Protocol.deserialize_message data with
      | JsonCodec.Stop w =>
          if Protocol.uncaught w then JsonCodec.Ok Refused else JsonCodec.Stop w
      | JsonCodec.Ok None => JsonCodec.Ok Refused
      | JsonCodec.Ok (Some v) =>
          if negb (Framing.truthy v) then JsonCodec.Ok Refused
          else
            match v with
            | Json.Dict m =>
                let msg_type := Json.get m (py "type") in
                if Json.eq_str msg_type MessageType.CLIENT_JOIN then
                  match ClientHandler.register handler rest with
                  | JsonCodec.Stop w => JsonCodec.Stop w
                  | JsonCodec.Ok (Some (handler1, client_conn, rest')) =>
                      JsonCodec.Ok (Client handler1 client_conn data rest')
                  | JsonCodec.Ok None => JsonCodec.Ok (Dropped data)
                  end
                else if is_server_type msg_type then JsonCodec.Ok (Peer m rest)
                else JsonCodec.Ok Refused
            | _ => JsonCodec.Ok Refused
            end
      end
  end.

End Accept.

(** ** Vocabulary of the further properties *)

(** Strictly ascending order of ids. *)
Definition str_lt (a b : Py.str) : Prop := Py.str_ltb a b = true.

(** Two views hold the same member ids. *)
Definition same_ids (rm rm' : RingManager.t) : bool :=
  forallb (fun k => Py.dict_mem k (RingManager.ring_members rm'))
          (Py.keys (RingManager.ring_members rm)) &&
  forallb (fun k => Py.dict_mem k (RingManager.ring_members rm))
          (Py.keys (RingManager.ring_members rm')).

(** The member ids of a view are the given ones. *)
Definition ids_are (rm : RingManager.t) (ids : list Py.str) : bool :=
  forallb (fun k => Py.dict_mem k (RingManager.ring_members rm)) ids &&
  forallb (fun k => Py.list_mem k ids) (Py.keys (RingManager.ring_members rm)).

(** Every record is stored under its own id. *)
Definition keyed (m : Py.dict ServerInfo.t) : Prop :=
  Forall (fun kv => ServerInfo.server_id (snd kv) = fst kv) m.

(** The ids a topology lists, entry by entry. *)
Definition topology_ids (topology : list Json.t) : list Json.t :=
  map (fun e => match e with
                | Json.Dict d => Json.get d (py "server_id")
                | _ => Json.Null
                end) topology.

(** The records a call sends to peers, with their targets. *)
Definition sent (out : list event) : list (Py.str * Json.t) :=
  flat_map (fun e => match e with SendToServer t m => [(t, m)] | _ => [] end) out.

(** The election service of a server whose callbacks are bound. *)
Definition bound_election (server_id : Py.str) : ElectionService.t :=
  Server.election (Server.init server_id).

(** The message handler of a server whose callbacks are bound. *)
Definition bound_handler (server_id : Py.str) : MessageHandler.t :=
  Server.message_handler (Server.init server_id).

(** Two views differ in leader flags at most: the same ids with the same
    addresses in the same order, the same ring order and neighbours. *)
Definition same_members (rm rm' : RingManager.t) : Prop :=
  RingManager.own_server_id rm' = RingManager.own_server_id rm /\
  map (fun kv => (fst kv, RingManager.address (snd kv))) (RingManager.ring_members rm')
  = map (fun kv => (fst kv, RingManager.address (snd kv))) (RingManager.ring_members rm) /\
  RingManager.ring_order rm' = RingManager.ring_order rm /\
  RingManager.left_neighbor rm' = RingManager.left_neighbor rm /\
  RingManager.right_neighbor rm' = RingManager.right_neighbor rm.

(** Text of printable ASCII characters. *)
Definition printable (s : Py.str) : Prop := Forall (fun c => (32 <= c < 127)%N) s.

(** The bytes a sender writes for a record: [serialize_message(m) + b'\n']. *)
Definition wire {interp : Interpreter} (m : Json.t) : list Byte.byte :=
  match Protocol.serialize_message m with
  | Some data => Framing.frame data
  | None => []
  end.

(** A reading of the clock is overdue for a peer when the peer has an entry
    in the table that is not zero and that is older than the timeout. *)
Definition overdue {clock : Clock} (now : time) (table : JsonKey.dict time)
           (p : Py.str) : bool :=
  match JsonKey.get (Json.Str p) table with
  | Some last_seen => negb (is_zero last_seen) && timed_out now last_seen
  | None => false
  end.

(** A peer the detector has not seen yet: no entry, or a zero entry. *)
Definition unseen {clock : Clock} (table : JsonKey.dict time) (p : Py.str) : bool :=
  match JsonKey.get (Json.Str p) table with
  | Some last_seen => is_zero last_seen
  | None => true
  end.

(** A view a running server can hold: consistent, every record under its own
    id, the node itself a member, at most one leader. *)
Definition view_ok (own : Py.str) (rm : RingManager.t) : Prop :=
  RingManager.ring_inv own rm /\
  keyed (RingManager.ring_members rm) /\
  Py.dict_mem own (RingManager.ring_members rm) = true /\
  (RingManager.leader_count rm <= 1)%nat.

(** A view after a call that writes leader flags only. *)
Definition flagged (rm rm' : RingManager.t) : Prop :=
  rm' = rm \/
  (exists x, rm' = RingManager.set_leader rm x) \/
  rm' = RingManager.with_members rm
          (RingManager.clear_flags (RingManager.ring_members rm)).

(** Clock readings in whole seconds, with [HEARTBEAT_TIMEOUT = 6]. *)
Definition seconds : Clock :=
  {| time := Z;
     is_zero := fun t => (t =? 0)%Z;
     timed_out := fun now last_seen => (now - last_seen >? 6)%Z |}.

(** The bytes of a datagram: [serialize_message(m)]. *)
Definition datagram {interp : Interpreter} (m : Json.t) : list Byte.byte :=
  match Protocol.serialize_message m with
  | Some data => data
  | None => []
  end.

(** The calls of [on_server_discovered] for the server [id]. *)
Definition calls_for (id : Py.str) (calls : list DiscoveryService.call)
  : list DiscoveryService.call :=
  filter (fun c => Json.eq_str (fst (fst c)) id) calls.

(** Bytes whose scan meets no float: [deserialize_message] comes to a
    result within the model. *)
Definition float_free {interp : Interpreter} (data : list Byte.byte) : bool :=
  match Protocol.deserialize_message data with
  | JsonCodec.Stop JsonCodec.FloatValue => false
  | _ => true
  end.

(** The calls of a handler on the records of a list, one after the other,
    until one of them raises. *)
Fixpoint handle_all {state : Type} (handler : state -> Json.t -> state * bool)
         (s : state) (ms : list Json.t) : state * bool :=
  match ms with
  | [] => (s, true)
  | m :: ms' =>
      match handler s m with
      | (s1, true) => handle_all handler s1 ms'
      | (s1, false) => (s1, false)
      end
  end.

(** A handler that keeps the records it is given and raises on a record that
    is no dict, as [message.get] does. *)
Definition ex_handler (s : list Json.t) (m : Json.t) : list Json.t * bool :=
  (s ++ [m], match m with Json.Dict _ => true | _ => false end).

(** A chunk that decodes to a [CLIENT_JOIN] record. *)
Definition is_join {interp : Interpreter} (data : list Byte.byte) (m : message) : Prop :=
  data <> [] /\
  Protocol.deserialize_message data = JsonCodec.Ok (Some (Json.Dict m)) /\
  Json.get m (py "type") = Json.Str MessageType.CLIENT_JOIN.

(** No two entries of a table have equal keys, and every key is hashable. *)
Fixpoint distinct_keys {V : Type} (d : JsonKey.dict V) : bool :=
  match d with
  | [] => true
  | (k, _) :: d' => Json.hashable k && negb (JsonKey.mem k d') && distinct_keys d'
  end.

(** An election service whose callbacks are bound, at the node [own]. *)
Definition service_bound (own : Py.str) (es : ElectionService.t) : Prop :=
  ElectionService.server_id es = own /\
  ElectionService.on_leader_elected es = true /\
  ElectionService.send_to_neighbor es = true.

(** ** Sample runs of a server *)

(** A [HEARTBEAT] record as [_heartbeat_loop] of the given server builds it. *)
Definition ex_heartbeat (server_id : Py.str) (is_leader : bool) : message :=
  [(py "type", Json.Str MessageType.HEARTBEAT);
   (py "server_id", Json.Str server_id);
   (py "is_leader", Json.Bool is_leader)].

(** Node [s2] discovers [s3], learns that [s3] is the leader and hears from
    it at second 10. *)
Definition ex_pair_actions : list (@FailureDetector.action seconds) :=
  [@FailureDetector.OnServerDiscovered seconds ex_env (py "s3") (py "10.0.0.3") 8003;
   @FailureDetector.ServerMessage seconds ex_env 8%Z ex_announcement;
   @FailureDetector.ServerMessage seconds ex_env 10%Z (ex_heartbeat (py "s3") true)].

(** Node [s2] discovers [s1] and [s3], learns that [s3] is the leader, hears
    from [s3] at second 10 and from [s1] at second 18. *)
Definition ex_trio_actions : list (@FailureDetector.action seconds) :=
  [@FailureDetector.OnServerDiscovered seconds ex_env (py "s1") (py "10.0.0.1") 8001;
   @FailureDetector.OnServerDiscovered seconds ex_env (py "s3") (py "10.0.0.3") 8003;
   @FailureDetector.ServerMessage seconds ex_env 8%Z ex_announcement;
   @FailureDetector.ServerMessage seconds ex_env 10%Z (ex_heartbeat (py "s3") true);
   @FailureDetector.ServerMessage seconds ex_env 18%Z (ex_heartbeat (py "s1") false)].

(** The discovery service of [s2], and the announcements of [s1] and of [s2]
    itself. *)
Definition ex_discovery : @DiscoveryService.t seconds :=
  @DiscoveryService.set_server_discovered_callback seconds
    (@DiscoveryService.init seconds (py "s2")).

Definition ex_announce (server_id ip : Py.str) (port : Z) : Json.t :=
  Json.Dict (Records.create_discovery_announce ex_env
               (Json.Str server_id) (Json.Str ip) (Json.Int port)).

Definition ex_datagrams : list (@time seconds * list Byte.byte) :=
  [(1%Z, @datagram cpython (ex_announce (py "s1") (py "10.0.0.1") 8001));
   (2%Z, @datagram cpython (ex_announce (py "s2") (py "10.0.0.2") 8002));
   (4%Z, @datagram cpython (ex_announce (py "s1") (py "10.0.0.1") 8001))].

(** The [CLIENT_JOIN] frame of a client, as it is sent. *)
Definition ex_join : list Byte.byte :=
  @wire cpython (Json.Dict (Records.create_client_join ex_env
                     (Json.Str (py "c1")) (Json.Str (py "ann")))).

Definition ex_clients : ClientHandler.t :=
  ClientHandler.set_callbacks (ClientHandler.init (py "s2")) true true true.

Definition ex_node (actions : list (@FailureDetector.action seconds))
  : @FailureDetector.t seconds :=
  FailureDetector.run (FailureDetector.started (py "s2") (py "10.0.0.2") 8002) actions.

(** * Properties *)

(** ** Python built-ins *)

Section PyFacts.

Import Py.

Lemma str_eqb_eq (a b : str) : str_eqb a b = true <-> a = b.
Proof.
  unfold str_eqb, str_compare.
  rewrite <- (list_compare_refl N.compare N.compare_eq_iff a b).
  destruct (list_compare N.compare a b); split; congruence.
Qed.

Lemma str_eqb_refl (a : str) : str_eqb a a = true.
Proof. now apply str_eqb_eq. Qed.

Lemma str_eqb_neq (a b : str) : str_eqb a b = false <-> a <> b.
Proof.
  rewrite <- str_eqb_eq. destruct (str_eqb a b); split; congruence.
Qed.

Lemma str_eqb_sym (a b : str) : str_eqb a b = str_eqb b a.
Proof.
  destruct (str_eqb a b) eqn:E.
  - apply str_eqb_eq in E. subst. now rewrite str_eqb_refl.
  - symmetry. apply str_eqb_neq. apply str_eqb_neq in E. congruence.
Qed.

Lemma list_mem_In (x : str) (l : list str) : list_mem x l = true <-> In x l.
Proof.
  unfold list_mem. rewrite existsb_exists. split.
  - intros (y & Hy & E). apply str_eqb_eq in E. now subst.
  - intros H. exists x. split; [assumption | apply str_eqb_refl].
Qed.

Context {V : Type}.
Implicit Types (d : dict V) (k : str).

Lemma dict_mem_In k d : dict_mem k d = true <-> In k (keys d).
Proof.
  unfold dict_mem. induction d as [|[k' v] d IH]; simpl.
  - split; [discriminate | tauto].
  - destruct (str_eqb k' k) eqn:E.
    + apply str_eqb_eq in E. subst. tauto.
    + apply str_eqb_neq in E. rewrite IH. tauto.
Qed.

Lemma dict_mem_false k d : dict_mem k d = false <-> ~ In k (keys d).
Proof.
  rewrite <- dict_mem_In. destruct (dict_mem k d); split; congruence.
Qed.

Lemma dict_get_Some_In k d v : dict_get k d = Some v -> In k (keys d).
Proof.
  intros H. apply dict_mem_In. unfold dict_mem. now rewrite H.
Qed.

Lemma dict_get_In_values k d v : dict_get k d = Some v -> In v (values d).
Proof.
  induction d as [|[k' v'] d IH]; simpl; [discriminate|].
  destruct (str_eqb k' k); [intros [= ->]; now left | auto].
Qed.

Lemma keys_dict_set_new k v d :
  dict_mem k d = false -> dict_set k v d = d ++ [(k, v)].
Proof.
  unfold dict_mem. induction d as [|[k' v'] d IH]; simpl; [reflexivity|].
  destruct (str_eqb k' k); [discriminate|].
  intros H. now rewrite IH.
Qed.

Lemma keys_dict_set k v d :
  dict_mem k d = true -> keys (dict_set k v d) = keys d.
Proof.
  unfold dict_mem. induction d as [|[k' v'] d IH]; simpl; [discriminate|].
  destruct (str_eqb k' k); [reflexivity|].
  intros H. simpl. now rewrite IH.
Qed.

Lemma dict_get_set k k' v d :
  dict_mem k d = true ->
  dict_get k' (dict_set k v d) = if str_eqb k k' then Some v else dict_get k' d.
Proof.
  unfold dict_mem. induction d as [|[k0 v0] d IH]; simpl; [discriminate|].
  destruct (str_eqb k0 k) eqn:E0.
  - apply str_eqb_eq in E0. subst k0. intros _. simpl.
    now destruct (str_eqb k k').
  - intros H. simpl. destruct (str_eqb k0 k') eqn:E1.
    + apply str_eqb_eq in E1. subst k0.
      rewrite str_eqb_sym, E0. reflexivity.
    + now apply IH.
Qed.

Lemma In_keys_dict_del k k' d :
  In k' (keys (dict_del k d)) -> In k' (keys d).
Proof.
  induction d as [|[k0 v0] d IH]; simpl; [tauto|].
  destruct (str_eqb k0 k); simpl; tauto.
Qed.

Lemma NoDup_keys_dict_del k d :
  NoDup (keys d) -> NoDup (keys (dict_del k d)).
Proof.
  induction d as [|[k0 v0] d IH]; simpl; [trivial|].
  intros H. inversion H as [|? ? Hn Hd]; subst.
  destruct (str_eqb k0 k); [assumption|].
  simpl. constructor; [|auto].
  intros Hin. apply Hn. eapply In_keys_dict_del; eassumption.
Qed.

Lemma not_In_keys_dict_del k d :
  NoDup (keys d) -> ~ In k (keys (dict_del k d)).
Proof.
  induction d as [|[k0 v0] d IH]; simpl; [tauto|].
  intros H. inversion H as [|? ? Hn Hd]; subst.
  destruct (str_eqb k0 k) eqn:E.
  - apply str_eqb_eq in E. now subst.
  - apply str_eqb_neq in E. simpl. intros [?|?]; [congruence|].
    now apply IH.
Qed.

Lemma In_keys_dict_del_other k k' d :
  k' <> k -> In k' (keys d) -> In k' (keys (dict_del k d)).
Proof.
  intros Hne. induction d as [|[k0 v0] d IH]; simpl; [tauto|].
  destruct (str_eqb k0 k) eqn:E.
  - apply str_eqb_eq in E. subst. intros [?|?]; [congruence|assumption].
  - simpl. tauto.
Qed.

Lemma length_dict_del k d :
  dict_mem k d = true -> S (length (dict_del k d)) = length d.
Proof.
  unfold dict_mem. induction d as [|[k0 v0] d IH]; simpl; [discriminate|].
  destruct (str_eqb k0 k); [reflexivity|].
  intros H. simpl. now rewrite IH.
Qed.

End PyFacts.

Section SortedFacts.

Import Py.

Lemma insert_perm (x : str) (l : list str) : Permutation (insert x l) (x :: l).
Proof.
  induction l as [|y l IH]; simpl; [reflexivity|].
  destruct (str_leb x y); [reflexivity|].
  rewrite IH. apply perm_swap.
Qed.

Lemma sorted_perm (l : list str) : Permutation (sorted l) l.
Proof.
  induction l as [|x l IH]; simpl; [reflexivity|].
  rewrite insert_perm. now constructor.
Qed.

Lemma sorted_In (x : str) (l : list str) : In x (sorted l) <-> In x l.
Proof.
  split; apply Permutation_in; [|symmetry]; apply sorted_perm.
Qed.

Lemma sorted_length (l : list str) : length (sorted l) = length l.
Proof. apply Permutation_length, sorted_perm. Qed.

Lemma sorted_NoDup (l : list str) : NoDup l -> NoDup (sorted l).
Proof.
  apply Permutation_NoDup. symmetry. apply sorted_perm.
Qed.

Lemma index_In (x : str) (l : list str) :
  In x l ->
  exists i, index x l = Some (Z.of_nat i) /\ nth_error l i = Some x.
Proof.
  induction l as [|y l IH]; simpl; [tauto|].
  intros H. destruct (str_eqb y x) eqn:E.
  - apply str_eqb_eq in E. subst. now exists 0%nat.
  - apply str_eqb_neq in E. destruct H as [H|H]; [congruence|].
    destruct (IH H) as (i & Hi & Hn). exists (S i). rewrite Hi. simpl.
    split; [f_equal; lia | assumption].
Qed.

End SortedFacts.

(** ** Ring manager *)

Section RingFacts.

Import Py RingManager.

Implicit Types (self rm : RingManager.t).

Lemma dict_mem_keys_ext {V W : Type} (k : str) (d : dict V) (d' : dict W) :
  keys d = keys d' -> dict_mem k d = dict_mem k d'.
Proof.
  intros H. destruct (dict_mem k d') eqn:E.
  - apply dict_mem_In. rewrite H. now apply dict_mem_In.
  - apply dict_mem_false. rewrite H. now apply dict_mem_false.
Qed.

Lemma rebuild_own self : own_server_id (_rebuild_ring self) = own_server_id self.
Proof.
  unfold _rebuild_ring.
  destruct (negb _); [reflexivity|].
  destruct (index _ _); [|reflexivity].
  destruct (_ =? _)%Z; reflexivity.
Qed.

Lemma rebuild_members self : ring_members (_rebuild_ring self) = ring_members self.
Proof.
  unfold _rebuild_ring.
  destruct (negb _); [reflexivity|].
  destruct (index _ _); [|reflexivity].
  destruct (_ =? _)%Z; reflexivity.
Qed.

Lemma rebuild_order self :
  ring_order (_rebuild_ring self) = sorted (keys (ring_members self)).
Proof.
  unfold _rebuild_ring.
  destruct (negb _); [reflexivity|].
  destruct (index _ _); [|reflexivity].
  destruct (_ =? _)%Z; reflexivity.
Qed.

Lemma rebuild_ext self rm :
  own_server_id self = own_server_id rm ->
  ring_members self = ring_members rm ->
  _rebuild_ring self = _rebuild_ring rm.
Proof.
  intros Ho Hm. unfold _rebuild_ring. now rewrite Ho, Hm.
Qed.

Lemma rebuild_idem self : _rebuild_ring (_rebuild_ring self) = _rebuild_ring self.
Proof.
  apply rebuild_ext; [apply rebuild_own | apply rebuild_members].
Qed.

Lemma member_at_keys_ext (m m' : dict ServerInfo.t) order i :
  keys m = keys m' -> member_at m order i = member_at m' order i.
Proof.
  intros H. unfold member_at. destruct (getitem order i); [|reflexivity].
  now rewrite (dict_mem_keys_ext _ _ _ H).
Qed.

Lemma rebuild_keys_ext self rm :
  own_server_id self = own_server_id rm ->
  keys (ring_members self) = keys (ring_members rm) ->
  left_neighbor (_rebuild_ring self) = left_neighbor (_rebuild_ring rm) /\
  right_neighbor (_rebuild_ring self) = right_neighbor (_rebuild_ring rm) /\
  ring_order (_rebuild_ring self) = ring_order (_rebuild_ring rm).
Proof.
  intros Ho Hk. unfold _rebuild_ring. rewrite Ho, Hk.
  destruct (negb _); [auto|].
  destruct (index _ _); [|auto].
  destruct (_ =? _)%Z; [auto|]. simpl.
  now rewrite !(member_at_keys_ext _ _ _ _ Hk).
Qed.

Lemma mod_succ_neq (i n : Z) :
  (0 <= i < n)%Z -> (2 <= n)%Z ->
  (0 <= (i + 1) mod n < n)%Z /\ ((i + 1) mod n <> i)%Z.
Proof.
  intros Hi Hn. split; [apply Z.mod_pos_bound; lia|].
  intros H. pose proof (Z.div_mod (i + 1) n ltac:(lia)) as D.
  rewrite H in D. set (q := ((i + 1) / n)%Z) in D.
  assert (q <= 0 \/ 1 <= q)%Z as [Hq|Hq] by lia; nia.
Qed.

Lemma mod_pred_neq (i n : Z) :
  (0 <= i < n)%Z -> (2 <= n)%Z ->
  (0 <= (i - 1) mod n < n)%Z /\ ((i - 1) mod n <> i)%Z.
Proof.
  intros Hi Hn. split; [apply Z.mod_pos_bound; lia|].
  intros H. pose proof (Z.div_mod (i - 1) n ltac:(lia)) as D.
  rewrite H in D. set (q := ((i - 1) / n)%Z) in D.
  assert (q <= -1 \/ 0 <= q)%Z as [Hq|Hq] by lia; nia.
Qed.

(** A position of a duplicate-free order other than [i] holds a member other
    than the one at [i]. *)
Lemma member_at_other (m : dict ServerInfo.t) (order : list str) (i : nat) (j : Z)
      (own : str) :
  NoDup order ->
  (forall k, In k order -> In k (keys m)) ->
  nth_error order i = Some own ->
  (0 <= j < len order)%Z -> j <> Z.of_nat i ->
  exists r, member_at m order j = Some r /\ r <> own /\ In r (keys m).
Proof.
  intros Hnd Hsub Hi Hj Hne. unfold member_at, getitem, len in *.
  destruct (j <? 0)%Z eqn:E; [lia|]. rewrite E.
  destruct (nth_error order (Z.to_nat j)) as [r|] eqn:Hr.
  - assert (In r (keys m)) as Hin by (apply Hsub; eapply nth_error_In; eassumption).
    exists r. rewrite (proj2 (dict_mem_In r m) Hin).
    repeat split; trivial.
    intros ->. apply Hne.
    assert (Z.to_nat j = i); [|lia].
    apply (proj1 (NoDup_nth_error order) Hnd).
    + apply nth_error_Some. congruence.
    + congruence.
  - apply nth_error_None in Hr. lia.
Qed.

(** What [_rebuild_ring] leaves in the neighbour fields. *)
Lemma rebuild_neighbors self :
  NoDup (keys (ring_members self)) ->
  let rm := _rebuild_ring self in
  let own := own_server_id self in
  (dict_mem own (ring_members self) = false ->
     left_neighbor rm = None /\ right_neighbor rm = None) /\
  (dict_mem own (ring_members self) = true ->
     (length (ring_members self) = 1%nat ->
        left_neighbor rm = None /\ right_neighbor rm = None) /\
     ((2 <= length (ring_members self))%nat ->
        exists l r,
          left_neighbor rm = Some l /\ right_neighbor rm = Some r /\
          l <> own /\ r <> own /\
          In l (keys (ring_members self)) /\ In r (keys (ring_members self)))).
Proof.
  intros Hnd rm own. subst rm. unfold _rebuild_ring. fold own.
  set (order := sorted (keys (ring_members self))).
  assert (Hlen : length order = length (ring_members self)).
  { unfold order. rewrite sorted_length. apply length_map. }
  split.
  - intros Hm. apply dict_mem_false in Hm.
    destruct (list_mem own order) eqn:E; [|simpl; auto].
    apply list_mem_In in E. unfold order in E.
    apply (proj1 (sorted_In _ _)) in E. exact (False_ind _ (Hm E)).
  - intros Hm. apply dict_mem_In in Hm.
    assert (Hin : In own order) by exact (proj2 (sorted_In _ _) Hm).
    rewrite (proj2 (list_mem_In own order) Hin). simpl.
    destruct (index_In _ _ Hin) as (i & Hidx & Hnth). rewrite Hidx.
    assert (Hi : (i < length order)%nat) by (apply nth_error_Some; congruence).
    assert (HL : len order = Z.of_nat (length (ring_members self)))
      by (unfold len; now rewrite Hlen).
    split.
    + intros H1.
      replace (len order =? 1)%Z with true by (symmetry; apply Z.eqb_eq; lia).
      simpl. auto.
    + intros H2. destruct (len order =? 1)%Z eqn:E; [apply Z.eqb_eq in E; lia|].
      simpl.
      assert (Hsub : forall k, In k order -> In k (keys (ring_members self)))
        by (intros k; exact (proj1 (sorted_In _ _))).
      assert (Hnd' : NoDup order) by now apply sorted_NoDup.
      destruct (mod_pred_neq (Z.of_nat i) (len order)) as [Hb Hne];
        [unfold len; lia .. |].
      destruct (mod_succ_neq (Z.of_nat i) (len order)) as [Hb' Hne'];
        [unfold len; lia .. |].
      destruct (member_at_other (ring_members self) order i _ own Hnd' Hsub Hnth Hb Hne)
        as (l & Hl & Hlo & Hlin).
      destruct (member_at_other (ring_members self) order i _ own Hnd' Hsub Hnth Hb' Hne')
        as (r & Hr & Hro & Hrin).
      exists l, r. auto 10.
Qed.

Lemma ring_inv_rebuild own self :
  own_server_id self = own -> NoDup (keys (ring_members self)) ->
  ring_inv own (_rebuild_ring self).
Proof.
  intros Ho Hnd. unfold ring_inv.
  rewrite rebuild_idem, rebuild_own, rebuild_members. auto.
Qed.

Lemma ring_inv_with_members own rm m :
  ring_inv own rm -> keys m = keys (ring_members rm) ->
  ring_inv own (with_members rm m).
Proof.
  intros (Ho & Hnd & Hl & Hr & Hord) Hk.
  destruct (rebuild_keys_ext (with_members rm m) rm) as (El & Er & Eo);
    [reflexivity | exact Hk |].
  unfold ring_inv. rewrite El, Er, Eo. simpl. rewrite Hk. auto.
Qed.

Lemma keys_cleared (m : dict ServerInfo.t) :
  keys (clear_flags m)
  = keys m.
Proof. unfold keys, clear_flags. rewrite map_map. reflexivity. Qed.

Lemma keys_set_leader rm id :
  keys (ring_members (set_leader rm id)) = keys (ring_members rm).
Proof.
  unfold set_leader.
  destruct (dict_get id _) eqn:E; simpl.
  - rewrite keys_dict_set; [apply keys_cleared|].
    unfold dict_mem. now rewrite E.
  - apply keys_cleared.
Qed.

Lemma ring_inv_apply own rm o : ring_inv own rm -> ring_inv own (apply rm o).
Proof.
  intros Hinv. pose proof Hinv as (Ho & Hnd & _).
  destruct o as [id ip port l | id | id]; simpl.
  - unfold add_server. destruct (dict_mem id (ring_members rm)) eqn:E; [assumption|].
    apply ring_inv_rebuild; [assumption|]. simpl.
    rewrite keys_dict_set_new by assumption.
    unfold keys. rewrite map_app. simpl.
    apply NoDup_app; [assumption | repeat constructor; simpl; tauto |].
    intros x Hx [<-|[]]. revert Hx. now apply dict_mem_false.
  - unfold remove_server. destruct (dict_mem id (ring_members rm)); simpl; [|assumption].
    apply ring_inv_rebuild; [assumption|]. simpl.
    now apply NoDup_keys_dict_del.
  - unfold set_leader.
    destruct (dict_get id _) eqn:E.
    + apply ring_inv_with_members; [assumption|].
      rewrite keys_dict_set; [apply keys_cleared|].
      unfold dict_mem. now rewrite E.
    + apply ring_inv_with_members; [assumption | apply keys_cleared].
Qed.

Lemma ring_inv_init own : ring_inv own (init own).
Proof. unfold ring_inv. simpl. repeat split; constructor. Qed.

Lemma ring_inv_fold own ops rm :
  ring_inv own rm -> ring_inv own (fold_left apply ops rm).
Proof.
  revert rm. induction ops as [|o ops IH]; simpl; [trivial|].
  intros rm H. now apply IH, ring_inv_apply.
Qed.

Lemma ring_inv_run own ops : ring_inv own (run own ops).
Proof. apply ring_inv_fold, ring_inv_init. Qed.

End RingFacts.

Section RingClaims.

Import Py RingManager.

Lemma cleared_no_leader (m : dict ServerInfo.t) :
  filter ServerInfo.is_leader
    (values (clear_flags m))
  = [].
Proof. induction m as [|[k v] m IH]; simpl; auto. Qed.

Lemma set_one_leader (k : str) (v : ServerInfo.t) (d : dict ServerInfo.t) :
  filter ServerInfo.is_leader (values d) = [] ->
  (length (filter ServerInfo.is_leader (values (dict_set k v d))) <= 1)%nat.
Proof.
  induction d as [|[k' v'] d IH]; simpl.
  - destruct (ServerInfo.is_leader v); simpl; lia.
  - destruct (ServerInfo.is_leader v') eqn:E; [discriminate|]. intros H.
    destruct (str_eqb k' k); simpl.
    + rewrite H. destruct (ServerInfo.is_leader v); simpl; lia.
    + rewrite E. auto.
Qed.

Lemma leader_count_set_leader rm id : (leader_count (set_leader rm id) <= 1)%nat.
Proof.
  unfold leader_count, set_leader.
  destruct (dict_get id _); simpl.
  - apply set_one_leader, cleared_no_leader.
  - rewrite cleared_no_leader. simpl. lia.
Qed.

Lemma leader_count_del (k : str) (d : dict ServerInfo.t) :
  (length (filter ServerInfo.is_leader (values (dict_del k d)))
   <= length (filter ServerInfo.is_leader (values d)))%nat.
Proof.
  induction d as [|[k' v'] d IH]; simpl; [lia|].
  destruct (str_eqb k' k); simpl; destruct (ServerInfo.is_leader v'); simpl; lia.
Qed.

Lemma leader_count_apply rm o :
  adds_no_leader o = true ->
  (leader_count rm <= 1)%nat -> (leader_count (apply rm o) <= 1)%nat.
Proof.
  destruct o as [id ip port l | id | id]; simpl; intros Ho H.
  - unfold add_server. destruct (dict_mem id (ring_members rm)) eqn:E; [assumption|].
    unfold leader_count. rewrite rebuild_members. simpl.
    rewrite keys_dict_set_new by assumption.
    unfold values. rewrite map_app, filter_app. simpl.
    apply negb_true_iff in Ho. subst l. simpl. rewrite app_nil_r. exact H.
  - unfold remove_server. destruct (dict_mem id (ring_members rm)); simpl; [|assumption].
    unfold leader_count. rewrite rebuild_members. simpl.
    etransitivity; [apply leader_count_del | exact H].
  - apply leader_count_set_leader.
Qed.

Lemma leader_count_fold ops rm :
  forallb adds_no_leader ops = true ->
  (leader_count rm <= 1)%nat -> (leader_count (fold_left apply ops rm) <= 1)%nat.
Proof.
  revert rm. induction ops as [|o ops IH]; simpl; [trivial|].
  intros rm Ho H. apply andb_true_iff in Ho as [Ho Hops].
  apply IH; [assumption|]. now apply leader_count_apply.
Qed.

Lemma get_cleared (k : str) (m : dict ServerInfo.t) (s : ServerInfo.t) :
  dict_get k (clear_flags m)
  = Some s ->
  ServerInfo.is_leader s = false.
Proof.
  induction m as [|[k' v'] m IH]; simpl; [discriminate|].
  destruct (str_eqb k' k); [intros [= <-]; reflexivity | assumption].
Qed.

Lemma set_leader_flags rm id k s :
  dict_get k (ring_members (set_leader rm id)) = Some s ->
  ServerInfo.is_leader s = str_eqb k id.
Proof.
  unfold set_leader.
  destruct (dict_get id _) as [t0|] eqn:E; simpl.
  - rewrite dict_get_set by (unfold dict_mem; now rewrite E).
    rewrite (str_eqb_sym k id).
    destruct (str_eqb id k); [intros [= <-]; reflexivity | apply get_cleared].
  - intros H. rewrite (get_cleared _ _ _ H). symmetry. apply str_eqb_neq.
    intros ->. congruence.
Qed.

(** C4, as amended: in every view reached by [add_server] calls that pass
    [is_leader = False], [remove_server] and [set_leader], at most one member
    record has its leader flag set; and after [set_leader(id)] a record has
    the flag exactly when it is the one stored under [id]. *)
Theorem single_leader_invariant (own : str) (ops : list op) :
  forallb adds_no_leader ops = true ->
  (leader_count (run own ops) <= 1)%nat /\
  (forall id k s,
     dict_get k (ring_members (set_leader (run own ops) id)) = Some s ->
     ServerInfo.is_leader s = str_eqb k id).
Proof.
  intros H. split.
  - apply leader_count_fold; [assumption | unfold leader_count; simpl; lia].
  - intros id k s. apply set_leader_flags.
Qed.

Lemma single_leader_invariant_witness :
  forallb adds_no_leader ex_ops = true /\
  ((leader_count (run (py "s2") ex_ops) <= 1)%nat /\
   (forall id k s,
      dict_get k (ring_members (set_leader (run (py "s2") ex_ops) id)) = Some s ->
      ServerInfo.is_leader s = str_eqb k id)).
Proof.
  split; [reflexivity | apply (single_leader_invariant (py "s2") ex_ops); reflexivity].
Defined.

(** C4, as stated, fails: two [add_server] calls with [is_leader = True]
    leave two leaders. *)
Lemma single_leader_any_add_fails :
  ~ (forall (own : str) (ops : list op), (leader_count (run own ops) <= 1)%nat).
Proof.
  intros H.
  specialize (H (py "a")
                [AddServer (py "a") (py "h") 1 true; AddServer (py "b") (py "h") 2 true]).
  vm_compute in H. lia.
Qed.

(** C5, as amended: in every view reached by [add_server], [remove_server]
    (and [set_leader]).  When the membership holds the node's own id, one
    member means both neighbours are [None], and two or more members mean
    both neighbours are members other than the node itself.  When the
    membership does not hold the node's own id, both neighbours are [None],
    whatever the number of members. *)
Theorem neighbors_of_reachable_view (own : str) (ops : list op) :
  (dict_mem own (ring_members (run own ops)) = true ->
   neighbors_ok (run own ops) /\
   (forall n, left_neighbor (run own ops) = Some n \/
              right_neighbor (run own ops) = Some n ->
              dict_mem n (ring_members (run own ops)) = true)) /\
  (dict_mem own (ring_members (run own ops)) = false ->
   left_neighbor (run own ops) = None /\ right_neighbor (run own ops) = None).
Proof.
  destruct (ring_inv_run own ops) as (Ho & Hnd & Hl & Hr & _).
  destruct (rebuild_neighbors (run own ops) Hnd) as [Hout Hin].
  rewrite Ho in Hin, Hout. rewrite <- Hl, <- Hr in Hout.
  split; [|exact Hout].
  intros Hm. specialize (Hin Hm) as [H1 H2].
  rewrite <- Hl, <- Hr in H1, H2. unfold neighbors_ok. rewrite Ho.
  split; [split|].
  - exact H1.
  - intros Hlen. destruct (H2 Hlen) as (l & r & ? & ? & ? & ? & _).
    exists l, r. auto.
  - intros n Hn.
    destruct (Nat.le_gt_cases 2 (length (ring_members (run own ops)))) as [Hlen|Hlen].
    + destruct (H2 Hlen) as (l & r & El & Er & _ & _ & Il & Ir).
      apply dict_mem_In. destruct Hn as [Hn|Hn]; congruence.
    + assert (length (ring_members (run own ops)) = 1%nat) as H.
      { apply dict_mem_In in Hm. unfold keys in Hm.
        destruct (ring_members (run own ops)); simpl in *; [tauto | lia]. }
      destruct (H1 H) as [E1 E2]. destruct Hn as [Hn|Hn]; congruence.
Qed.

(** The node [s2] in a view that holds it, and the node [me] in a view of
    two other members. *)
Lemma neighbors_of_reachable_view_witness :
  (dict_mem (py "s2") (ring_members (run (py "s2") ex_ops)) = true /\
   neighbors_ok (run (py "s2") ex_ops)) /\
  (dict_mem (py "me") (ring_members (run (py "me") ex_strangers)) = false /\
   length (ring_members (run (py "me") ex_strangers)) = 2%nat /\
   left_neighbor (run (py "me") ex_strangers) = None /\
   right_neighbor (run (py "me") ex_strangers) = None).
Proof.
  assert (H1 : dict_mem (py "s2") (ring_members (run (py "s2") ex_ops)) = true)
    by reflexivity.
  assert (H2 : dict_mem (py "me") (ring_members (run (py "me") ex_strangers)) = false)
    by reflexivity.
  split.
  - split; [exact H1|].
    exact (proj1 (proj1 (neighbors_of_reachable_view (py "s2") ex_ops) H1)).
  - split; [exact H2|]. split; [reflexivity|].
    exact (proj2 (neighbors_of_reachable_view (py "me") ex_strangers) H2).
Defined.

(** C5, as stated, fails: a view that does not hold the node's own id has no
    neighbours, whatever its size. *)
Lemma neighbors_without_self_fail :
  ~ (forall (own : str) (ops : list op),
       forallb (fun o => negb (is_set_leader o)) ops = true ->
       neighbors_ok (run own ops)).
Proof.
  intros H.
  specialize (H (py "me") ex_strangers eq_refl).
  destruct H as [_ H]. destruct H as (l & r & Hl & _); [vm_compute; lia|].
  vm_compute in Hl. discriminate.
Qed.

(** C8: [add_server] on an id that is already a member returns the view as it
    was, whatever the other arguments. *)
Theorem add_server_known_id (rm : RingManager.t) (x ip' : str) (port' : Z)
        (is_leader' : bool) :
  dict_mem x (ring_members rm) = true ->
  add_server rm x ip' port' is_leader' = rm.
Proof. intros H. unfold add_server. now rewrite H. Qed.

Lemma add_server_known_id_witness :
  dict_mem (py "s3") (ring_members ex_ring) = true /\
  add_server ex_ring (py "s3") (py "192.168.0.9") 9999 true = ex_ring.
Proof.
  split; [reflexivity | apply add_server_known_id; reflexivity].
Defined.

Lemma add_server_twice (rm : RingManager.t) (x ip ip' : str) (port port' : Z)
      (l l' : bool) :
  add_server (add_server rm x ip port l) x ip' port' l' = add_server rm x ip port l.
Proof.
  assert (H : dict_mem x (ring_members (add_server rm x ip port l)) = true).
  { unfold add_server.
    destruct (dict_mem x (ring_members rm)) eqn:E; [assumption|].
    rewrite rebuild_members. simpl. apply dict_mem_In.
    rewrite keys_dict_set_new by assumption.
    unfold keys. rewrite map_app. apply in_or_app. right. now left. }
  unfold add_server at 1. now rewrite H.
Qed.

Lemma find_none_cleared (m : dict ServerInfo.t) :
  find ServerInfo.is_leader
    (values (clear_flags m))
  = None.
Proof. induction m as [|[k v] m IH]; simpl; auto. Qed.

(** C10: [set_leader] on an id that is not a member leaves no leader: every
    flag is false, [get_leader] returns [None], and the members, their
    addresses, the ring order and the neighbours are as before. *)
Theorem set_leader_unknown_id (rm : RingManager.t) (x : str) :
  dict_mem x (ring_members rm) = false ->
  let rm' := set_leader rm x in
  (forall s, In s (values (ring_members rm')) -> ServerInfo.is_leader s = false) /\
  get_leader rm' = None /\
  keys (ring_members rm') = keys (ring_members rm) /\
  map address (values (ring_members rm')) = map address (values (ring_members rm)) /\
  ring_order rm' = ring_order rm /\
  left_neighbor rm' = left_neighbor rm /\
  right_neighbor rm' = right_neighbor rm /\
  own_server_id rm' = own_server_id rm.
Proof.
  intros Hx rm'. subst rm'. unfold set_leader, get_leader.
  assert (E : dict_get x
            (clear_flags (ring_members rm)) = None).
  { pose proof (dict_mem_keys_ext x
                  (clear_flags (ring_members rm)) (ring_members rm) (keys_cleared _)) as H.
    rewrite Hx in H. unfold dict_mem in H. now destruct (dict_get x _). }
  rewrite E. simpl. repeat split.
  - intros s Hs. unfold values, clear_flags in Hs. rewrite map_map in Hs.
    apply in_map_iff in Hs as (kv & <- & _). reflexivity.
  - apply find_none_cleared.
  - apply keys_cleared.
  - unfold values, clear_flags. rewrite !map_map. apply map_ext. now intros [k []].
Qed.

(** The view of [s2] with the leader [s3]: [set_leader] on the unknown id
    [s9] takes the flag from [s3]. *)
Lemma set_leader_unknown_id_witness :
  dict_mem (py "s9") (ring_members ex_ring_led) = false /\
  is_leader ex_ring_led (py "s3") = true /\
  option_map ServerInfo.server_id (get_leader ex_ring_led) = Some (py "s3") /\
  let rm' := set_leader ex_ring_led (py "s9") in
  (forall s, In s (values (ring_members rm')) -> ServerInfo.is_leader s = false) /\
  get_leader rm' = None /\
  keys (ring_members rm') = keys (ring_members ex_ring_led) /\
  map address (values (ring_members rm'))
  = map address (values (ring_members ex_ring_led)) /\
  ring_order rm' = ring_order ex_ring_led /\
  left_neighbor rm' = left_neighbor ex_ring_led /\
  right_neighbor rm' = right_neighbor ex_ring_led /\
  own_server_id rm' = own_server_id ex_ring_led.
Proof.
  split; [reflexivity|]. split; [reflexivity|]. split; [reflexivity|].
  apply (set_leader_unknown_id ex_ring_led (py "s9")); reflexivity.
Defined.

End RingClaims.


(** ** History buffer *)

Section HistoryFacts.

Import Py.

Lemma add_to_history_spec (h : list Json.t) (m : Json.t) :
  MessageHandler.add_to_history h m
  = skipn (length (h ++ [m]) - 1000) (h ++ [m]).
Proof.
  unfold MessageHandler.add_to_history, slice_from, len.
  destruct (Z.of_nat (length (h ++ [m])) >? 1000)%Z eqn:E.
  - apply Z.gtb_lt in E.
    replace ((-1000 <? 0)%Z) with true by reflexivity.
    f_equal. lia.
  - assert (Z.of_nat (length (h ++ [m])) <= 1000)%Z as H
        by (destruct (Z.gtb_spec (Z.of_nat (length (h ++ [m]))) 1000); [discriminate | lia]).
    replace (length (h ++ [m]) - 1000)%nat with 0%nat by lia.
    reflexivity.
Qed.

Lemma history_fold (msgs : list Json.t) :
  fold_left MessageHandler.add_to_history msgs []
  = skipn (length msgs - 1000) msgs.
Proof.
  induction msgs as [|m msgs IH] using rev_ind; [reflexivity|].
  rewrite fold_left_app. simpl fold_left. rewrite IH, add_to_history_spec.
  rewrite !skipn_app, !length_app, !length_skipn, skipn_skipn.
  simpl (length [m]).
  f_equal; f_equal; lia.
Qed.

Lemma fold_add_to_history (msgs : list Json.t) (self : MessageHandler.t) :
  MessageHandler.message_history (fold_left MessageHandler._add_to_history msgs self)
  = fold_left MessageHandler.add_to_history msgs (MessageHandler.message_history self).
Proof.
  revert self. induction msgs as [|m msgs IH]; intros self; simpl; [reflexivity|].
  now rewrite IH.
Qed.

(** C7: after any sequence of appends to the history of a fresh handler the
    buffer holds at most 1000 messages, and they are the most recent ones in
    the order of their appends. *)
Theorem history_is_last_1000 (server_id : str) (msgs : list Json.t) :
  let h := MessageHandler.message_history
             (fold_left MessageHandler._add_to_history msgs
                        (MessageHandler.init server_id)) in
  (length h <= 1000)%nat /\
  length h = Nat.min (length msgs) 1000 /\
  h = last_entries 1000 msgs /\
  h = slice_from msgs (-1000).
Proof.
  intros h. subst h. rewrite fold_add_to_history. simpl.
  rewrite history_fold. unfold last_entries.
  rewrite length_skipn. repeat split; try lia.
  unfold slice_from, len.
  replace ((-1000 <? 0)%Z) with true by reflexivity.
  f_equal. lia.
Qed.

End HistoryFacts.

(** ** Replication engine *)

Section ReplicationClaims.

Import Py.

Lemma eq_str_true (v : Json.t) (s : str) :
  Json.eq_str v s = true -> v = Json.Str s.
Proof.
  destruct v; simpl; try discriminate.
  intros H. apply str_eqb_eq in H. now subst.
Qed.

Lemma server_eta (self : Server.t) :
  Server.mk (Server.server_id self) (Server.ring_manager self)
            (Server.election self) (Server.message_handler self) = self.
Proof. now destruct self. Qed.

(** A node that is not the leader drops every [FORWARD_MESSAGE]: the branch of
    [_handle_server_message] that would hand it to
    [handle_distributed_message] is never reached. *)
Lemma forward_dropped_by_non_leader (env : Env.t) (self : Server.t) (m : message) :
  Json.eq_str (Json.get m (py "type")) MessageType.FORWARD_MESSAGE = true ->
  RingManager.is_leader (Server.ring_manager self)
    (MessageHandler.server_id (Server.message_handler self)) = false ->
  Server._handle_server_message env self m = (self, [], None).
Proof.
  intros Ht Hl. apply eq_str_true in Ht.
  unfold Server._handle_server_message. rewrite Ht.
  replace (Json.eq_str (Json.Str MessageType.FORWARD_MESSAGE) MessageType.ELECTION)
    with false by reflexivity.
  replace (Json.eq_str (Json.Str MessageType.FORWARD_MESSAGE)
                       MessageType.LEADER_ANNOUNCEMENT)
    with false by reflexivity.
  replace (Json.eq_str (Json.Str MessageType.FORWARD_MESSAGE) MessageType.HEARTBEAT)
    with false by reflexivity.
  replace (Json.eq_str (Json.Str MessageType.FORWARD_MESSAGE)
                       MessageType.FORWARD_MESSAGE)
    with true by reflexivity.
  unfold MessageHandler.handle_forwarded_message. rewrite Hl.
  now rewrite server_eta.
Qed.

(** C1 at a concrete input: node [s2] of the ring [s1, s2, s3] with leader
    [s3] receives the leader's [FORWARD_MESSAGE] of a chat message; its
    history stays empty and no event is emitted, so the message reaches
    neither the history buffer nor the local clients. *)
Theorem forward_at_non_leader_is_dropped :
  RingManager.is_leader (Server.ring_manager ex_server) (py "s2") = false /\
  Json.get ex_forward (py "type") = Json.Str MessageType.FORWARD_MESSAGE /\
  Json.get ex_forward (py "original_message") = ex_chat /\
  MessageHandler.message_history (Server.message_handler ex_server) = [] /\
  Server._handle_server_message ex_env ex_server ex_forward = (ex_server, [], None).
Proof. repeat split; reflexivity. Qed.

(** What the unreachable branch would have done with the same record. *)
Lemma distributed_message_is_delivered (self : MessageHandler.t) (m : Json.t) :
  MessageHandler.on_message_to_clients self = true ->
  (length (MessageHandler.message_history self) < 1000)%nat ->
  MessageHandler.handle_distributed_message self m
  = (MessageHandler.with_history self (MessageHandler.message_history self ++ [m]),
     [BroadcastToLocalClients m]).
Proof.
  intros Hcb Hlen. unfold MessageHandler.handle_distributed_message,
    MessageHandler._add_to_history.
  rewrite Hcb, add_to_history_spec.
  replace (length (MessageHandler.message_history self ++ [m]) - 1000)%nat
    with 0%nat by (rewrite length_app; simpl (length [m]); lia).
  reflexivity.
Qed.

Lemma slice_last_50 (history : list Json.t) :
  slice_from history (-50)
  = last_entries (Nat.min 50 (length history)) history.
Proof.
  unfold slice_from, last_entries, len.
  replace ((-50 <? 0)%Z) with true by reflexivity.
  f_equal. lia.
Qed.

(** C6, as amended: when a client joins, the server broadcasts the join
    notification.  If the history buffer is not empty it then sends the
    joining client one [MESSAGE_HISTORY] record whose messages are the last
    [min(50, len(history))] entries of the buffer, in buffer order; if the
    buffer is empty the notification is the only event, so no
    [MESSAGE_HISTORY] record is sent to anyone. *)
Theorem join_sends_recent_history (self : Server.t) (client_id username : str) :
  let history := MessageHandler.message_history (Server.message_handler self) in
  exists notification,
    (history <> [] ->
     Server._on_client_joined self client_id username
     = [BroadcastToLocalClients notification;
        SendToClient client_id
          (history_record (last_entries (Nat.min 50 (length history)) history))]) /\
    (history = [] ->
     Server._on_client_joined self client_id username
     = [BroadcastToLocalClients notification] /\
     forall c entries,
       ~ In (SendToClient c (history_record entries))
            (Server._on_client_joined self client_id username)).
Proof.
  intros history. subst history. unfold Server._on_client_joined.
  unfold MessageHandler.get_message_history.
  destruct (MessageHandler.message_history (Server.message_handler self))
    as [|x h] eqn:E.
  - eexists. split; [congruence|]. intros _. split; [reflexivity|].
    intros c entries [H|[]]. discriminate.
  - eexists. split; [|discriminate]. intros _.
    rewrite slice_last_50. reflexivity.
Qed.

(** A server with three messages in its history, and a fresh server. *)
Lemma join_sends_recent_history_witness :
  (MessageHandler.message_history (Server.message_handler ex_server_hist) <> [] /\
   exists notification,
     Server._on_client_joined ex_server_hist (py "c7") (py "bob")
     = [BroadcastToLocalClients notification;
        SendToClient (py "c7")
          (history_record [ex_chat; Json.Dict ex_election_msg; ex_chat])]) /\
  (MessageHandler.message_history (Server.message_handler (Server.init (py "s2"))) = [] /\
   exists notification,
     Server._on_client_joined (Server.init (py "s2")) (py "c7") (py "bob")
     = [BroadcastToLocalClients notification]).
Proof.
  assert (H1 : MessageHandler.message_history (Server.message_handler ex_server_hist)
               <> []) by discriminate.
  assert (H2 : MessageHandler.message_history
                 (Server.message_handler (Server.init (py "s2"))) = [])
    by reflexivity.
  split.
  - split; [exact H1|].
    destruct (join_sends_recent_history ex_server_hist (py "c7") (py "bob"))
      as (notification & Hsome & _).
    exists notification. exact (Hsome H1).
  - split; [exact H2|].
    destruct (join_sends_recent_history (Server.init (py "s2")) (py "c7") (py "bob"))
      as (notification & _ & Hnone).
    exists notification. exact (proj1 (Hnone H2)).
Defined.

(** C6, as stated, fails: with an empty history buffer the joining client is
    sent no [MESSAGE_HISTORY] record at all. *)
Lemma join_with_empty_history_sends_nothing :
  ~ (forall (self : Server.t) (client_id username : str),
       exists entries,
         In (SendToClient client_id (history_record entries))
            (Server._on_client_joined self client_id username)).
Proof.
  intros H. destruct (H (Server.init (py "s2")) (py "c7") (py "bob")) as [entries Hin].
  simpl in Hin. destruct Hin as [Hin|[]]. discriminate.
Qed.

End ReplicationClaims.


(** ** Election engine *)

Section ElectionFacts.

Import Py.

Lemma topology_defined (m : dict ServerInfo.t) (order : list str) :
  forallb (fun sid => dict_mem sid m) order = true ->
  exists topology, RingManager.topology_of m order = Some topology.
Proof.
  induction order as [|sid order IH]; simpl; [now exists []|].
  intros H. apply andb_true_iff in H as [Hs Ho].
  destruct (IH Ho) as [l ->]. unfold dict_mem in Hs.
  destruct (dict_get sid m); [eexists; reflexivity | discriminate].
Qed.

Lemma order_in_members_set_leader (rm : RingManager.t) (id : str) :
  order_in_members (RingManager.set_leader rm id) = order_in_members rm.
Proof.
  unfold order_in_members.
  assert (RingManager.ring_order (RingManager.set_leader rm id)
          = RingManager.ring_order rm) as ->.
  { unfold RingManager.set_leader. now destruct (dict_get id _). }
  induction (RingManager.ring_order rm) as [|sid order IH]; simpl; [reflexivity|].
  rewrite IH. f_equal. apply dict_mem_keys_ext, keys_set_leader.
Qed.

Lemma right_neighbor_set_leader (rm : RingManager.t) (id : str) :
  RingManager.right_neighbor (RingManager.set_leader rm id)
  = RingManager.right_neighbor rm.
Proof. unfold RingManager.set_leader. now destruct (dict_get id _). Qed.

(** Every reachable view lists members only. *)
Lemma ring_inv_order_in_members (own : str) (rm : RingManager.t) :
  RingManager.ring_inv own rm -> order_in_members rm = true.
Proof.
  intros (_ & _ & _ & _ & Ho). unfold order_in_members.
  rewrite Ho, rebuild_order. apply forallb_forall. intros sid Hin.
  apply dict_mem_In. exact (proj1 (sorted_In _ _) Hin).
Qed.

End ElectionFacts.

Section ElectionClaims.

Import Py ElectionService.

Lemma announce_leader_sends (env : Env.t) (rm : RingManager.t) (es : ElectionService.t)
      (leader_id : Json.t) (r : str) :
  RingManager.right_neighbor rm = Some r ->
  order_in_members rm = true ->
  send_to_neighbor es = true ->
  exists topology,
    RingManager.get_ring_topology rm = Some topology /\
    _announce_leader env rm es leader_id
    = ([SendToServer r
          (Json.Dict (Protocol.create_leader_announcement env leader_id topology))],
       None).
Proof.
  intros Hr Ho Hs. destruct (topology_defined _ _ Ho) as [topology Ht].
  exists topology. split; [exact Ht|].
  unfold _announce_leader, RingManager.get_ring_topology. now rewrite Hr, Ht, Hs.
Qed.

Lemma complete_election_str (env : Env.t) (rm : RingManager.t) (es : ElectionService.t)
      (C r : str) :
  RingManager.right_neighbor rm = Some r ->
  order_in_members rm = true ->
  send_to_neighbor es = true ->
  on_leader_elected es = true ->
  exists topology,
    RingManager.get_ring_topology (RingManager.set_leader rm C) = Some topology /\
    _complete_election env rm es (Json.Str C)
    = (RingManager.set_leader rm C,
       _cancel_election_timer (with_in_progress es false),
       [SendToServer r
          (Json.Dict (Protocol.create_leader_announcement env (Json.Str C) topology));
        LeaderElected (Json.Str C)],
       None).
Proof.
  intros Hr Ho Hs He.
  destruct (announce_leader_sends env (RingManager.set_leader rm C) es (Json.Str C) r)
    as (topology & Ht & Ha).
  - now rewrite right_neighbor_set_leader.
  - now rewrite order_in_members_set_leader.
  - assumption.
  - exists topology. split; [exact Ht|].
    unfold _complete_election. simpl ring_set_leader. cbv iota beta.
    rewrite Ha, He. reflexivity.
Qed.




(** What one node does with a [LEADER_ANNOUNCEMENT] for leader [L] when its
    right neighbour [r] is defined: [L] becomes the leader of the node's
    view, the election is idle and [on_leader_elected(L)] fires; the node
    forwards the announcement to [r] if and only if [L] is not its own id.
    The announced leader itself never forwards. *)
Lemma leader_announcement_handling (env : Env.t) (rm : RingManager.t)
        (es : ElectionService.t) (m : message) (r L : str) :
  RingManager.right_neighbor rm = Some r ->
  order_in_members rm = true ->
  send_to_neighbor es = true ->
  on_leader_elected es = true ->
  Json.get m (py "leader_id") = Json.Str L ->
  let self := server_id es in
  let o := handle_leader_announcement env rm es m in
  raised_of o = None /\
  ring_of o = RingManager.set_leader rm L /\
  election_in_progress (service_of o) = false /\
  election_timer (service_of o) = false /\
  (L = self -> events_of o = [LeaderElected (Json.Str L)]) /\
  (L <> self ->
     exists topology,
       RingManager.get_ring_topology (ring_of o) = Some topology /\
       events_of o
       = [LeaderElected (Json.Str L);
          Sleep ELECTION_MESSAGE_DELAY;
          SendToServer r
            (Json.Dict (Protocol.create_leader_announcement env (Json.Str L) topology))]) /\
  (existsb is_send (events_of o) = true <-> L <> self).
Proof.
  intros Hr Ho Hs He HL self o. subst o self.
  unfold handle_leader_announcement. rewrite HL.
  simpl ring_set_leader. cbv iota beta. rewrite He. simpl Json.eq_str.
  destruct (str_eqb L (server_id es)) eqn:E; simpl negb; cbv iota.
  - apply str_eqb_eq in E. simpl. repeat split; try congruence; try discriminate.
  - apply str_eqb_neq in E. unfold _forward_leader_announcement.
    destruct (announce_leader_sends env (RingManager.set_leader rm L)
                (_cancel_election_timer (with_in_progress es false)) (Json.Str L) r)
      as (topology & Ht & Ha).
    + now rewrite right_neighbor_set_leader.
    + now rewrite order_in_members_set_leader.
    + exact Hs.
    + rewrite Ha. simpl. repeat split; try congruence.
      intros _. exists topology. auto.
Qed.

(** C3 at a concrete input: node [s2] starts an election in the ring
    [s1, s2, s3].  The candidacy travels from [s2] to [s3], to [s1] and back
    to [s2], with [s3] as candidate from the second hop on.  [s2], the
    originator, makes [s3] the leader and sends the announcement to its
    right neighbour, which is [s3]; [s3] is the announced leader and sends
    nothing.  So the announcement is handled by [s3] alone and does not go
    round the ring: [s1] is sent no announcement, knows no leader and is
    left with its election in progress. *)
Theorem announcement_stops_before_full_circle :
  sent (events_of ex_started) = [(py "s3", Json.Dict (ex_candidacy (py "s2") 0))] /\
  sent (events_of ex_round_s3) = [(py "s1", Json.Dict (ex_candidacy (py "s3") 1))] /\
  sent (events_of ex_round_s1) = [(py "s2", Json.Dict (ex_candidacy (py "s3") 2))] /\
  sent (events_of ex_round_s2) = [(py "s3", Json.Dict ex_round_announcement)] /\
  sent (events_of ex_round_leader) = [] /\
  RingManager.is_leader (ring_of ex_round_s2) (py "s3") = true /\
  RingManager.is_leader (ring_of ex_round_leader) (py "s3") = true /\
  RingManager.get_leader (ring_of ex_round_s1) = None /\
  election_in_progress (service_of ex_round_s1) = true /\
  election_timer (service_of ex_round_s1) = true.
Proof. repeat split; reflexivity. Qed.

End ElectionClaims.


(** ** Wire codec *)

Section StringCodec.

Import Py JsonCodec.

Open Scope N_scope.

Lemma hex_value_digit (d : N) : d < 16 -> hex_value (hex_digit d) = Some d.
Proof.
  intros H.
  assert (exists n, d = N.of_nat n /\ (n < 16)%nat) as (n & -> & Hn)
    by (exists (N.to_nat d); split; lia).
  do 16 (destruct n as [|n]; [reflexivity|]). lia.
Qed.

Lemma hex4_value (n : N) :
  n < 65536 ->
  (((n / 4096 mod 16) * 16 + (n / 256) mod 16) * 16 + (n / 16) mod 16) * 16
  + n mod 16 = n.
Proof.
  intros H.
  replace (n / 256) with (n / 16 / 16) by (rewrite N.Div0.div_div; reflexivity).
  replace (n / 4096) with (n / 16 / 16 / 16)
    by (rewrite !N.Div0.div_div; reflexivity).
  pose proof (N.div_mod n 16 ltac:(lia)) as E1.
  pose proof (N.mod_lt n 16 ltac:(lia)) as B1.
  remember (n / 16) as q1 eqn:Q1. remember (n mod 16) as r1 eqn:R1.
  pose proof (N.div_mod q1 16 ltac:(lia)) as E2.
  pose proof (N.mod_lt q1 16 ltac:(lia)) as B2.
  remember (q1 / 16) as q2 eqn:Q2. remember (q1 mod 16) as r2 eqn:R2.
  pose proof (N.div_mod q2 16 ltac:(lia)) as E3.
  pose proof (N.mod_lt q2 16 ltac:(lia)) as B3.
  remember (q2 / 16) as q3 eqn:Q3. remember (q2 mod 16) as r3 eqn:R3.
  clear Q1 Q2 Q3 R1 R2 R3.
  rewrite (N.mod_small q3 16) by lia. lia.
Qed.

Lemma decode_hex4 (n : N) :
  n < 65536 ->
  decode_uXXXX (hex_digit (n / 4096 mod 16)) (hex_digit (n / 256 mod 16))
               (hex_digit (n / 16 mod 16)) (hex_digit (n mod 16))
  = Some n.
Proof.
  intros H. unfold decode_uXXXX.
  rewrite !hex_value_digit by (apply N.mod_lt; lia).
  now rewrite hex4_value.
Qed.

Lemma lor_add (a x k : N) : x < 2 ^ k -> N.lor (a * 2 ^ k) x = a * 2 ^ k + x.
Proof.
  intros H.
  assert (N.land (a * 2 ^ k) x = 0) as L.
  { apply N.bits_inj_0. intros i. rewrite N.land_spec.
    destruct (N.lt_ge_cases i k) as [Hi|Hi].
    - rewrite N.mul_pow2_bits_low by assumption. reflexivity.
    - destruct (N.eq_dec x 0) as [->|Hx];
        [rewrite N.bits_0; apply Bool.andb_false_r|].
      rewrite (N.bits_above_log2 x i); [apply Bool.andb_false_r|].
      apply N.log2_lt_pow2; [lia|].
      eapply N.lt_le_trans; [exact H|]. apply N.pow_le_mono_r; lia. }
  rewrite <- N.lxor_lor by assumption. symmetry. now apply N.add_nocarry_lxor.
Qed.

(** The surrogate pair of a code point above the basic plane, and the join
    that [scanstring] computes from it. *)
Lemma surrogate_pair (c : N) :
  65536 <= c < 1114112 ->
  let n := c - 65536 in
  let s1 := N.lor 55296 (N.land (N.shiftr n 10) 1023) in
  let s2 := N.lor 56320 (N.land n 1023) in
  55296 <= s1 <= 56319 /\ 56320 <= s2 <= 57343 /\
  65536 + N.lor (N.shiftl (s1 - 55296) 10) (s2 - 56320) = c.
Proof.
  intros Hc n s1 s2.
  assert (Hn : n < 1048576) by (subst n; lia).
  pose proof (N.div_mod n 1024 ltac:(lia)) as E.
  pose proof (N.mod_lt n 1024 ltac:(lia)) as B.
  assert (Hs1 : s1 = 55296 + n / 1024).
  { subst s1. change 1023 with (N.ones 10). rewrite N.land_ones.
    rewrite N.shiftr_div_pow2. change (2 ^ 10) with 1024.
    rewrite N.mod_small by (remember (n / 1024) as q; remember (n mod 1024) as r; lia).
    change 55296 with (54 * 2 ^ 10). apply lor_add.
    change (2 ^ 10) with 1024.
    remember (n / 1024) as q; remember (n mod 1024) as r; lia. }
  assert (Hs2 : s2 = 56320 + n mod 1024).
  { subst s2. change 1023 with (N.ones 10). rewrite N.land_ones.
    change (2 ^ 10) with 1024.
    change 56320 with (55 * 2 ^ 10). apply lor_add. exact B. }
  rewrite Hs1, Hs2.
  assert (Hsub : forall a b : N, a + b - a = b) by (intros; lia).
  rewrite !Hsub.
  rewrite N.shiftl_mul_pow2, lor_add by exact B.
  change (2 ^ 10) with 1024.
  remember (n / 1024) as q. remember (n mod 1024) as r.
  subst n. lia.
Qed.

Lemma scanstring_plain (c : N) (s : str) :
  (c =? 34) = false -> (c <? 32) = false -> (c =? 92) = false ->
  scanstring (c :: s) = bind (scanstring s) (fun p => Ok (c :: fst p, snd p)).
Proof.
  intros H1 H2 H3. simpl. rewrite H1, H2, H3.
  destruct (scanstring s) as [[x r]|w]; reflexivity.
Qed.

Lemma scanstring_u (h1 h2 h3 h4 uni : N) (s : str) :
  decode_uXXXX h1 h2 h3 h4 = Some uni ->
  (55296 <=? uni) && (uni <=? 56319) = false ->
  scanstring (92 :: 117 :: h1 :: h2 :: h3 :: h4 :: s)
  = bind (scanstring s) (fun p => Ok (uni :: fst p, snd p)).
Proof.
  intros Hd Hh. cbn [scanstring]. change (92 =? 34) with false.
  change (92 <? 32) with false. change (92 =? 92) with true.
  change (117 =? 117) with true. cbv iota. rewrite Hd, Hh.
  destruct (scanstring s) as [[x r]|w]; reflexivity.
Qed.

Lemma scanstring_pair (h1 h2 h3 h4 g1 g2 g3 g4 uni uni2 : N) (s : str) :
  decode_uXXXX h1 h2 h3 h4 = Some uni ->
  (55296 <=? uni) && (uni <=? 56319) = true ->
  decode_uXXXX g1 g2 g3 g4 = Some uni2 ->
  (56320 <=? uni2) && (uni2 <=? 57343) = true ->
  scanstring (92 :: 117 :: h1 :: h2 :: h3 :: h4 :: 92 :: 117 :: g1 :: g2 :: g3 :: g4 :: s)
  = bind (scanstring s)
      (fun p => Ok (65536 + N.lor (N.shiftl (uni - 55296) 10) (uni2 - 56320) :: fst p,
                    snd p)).
Proof.
  intros Hd Hh Hd2 Hl. cbn [scanstring]. change (92 =? 34) with false.
  change (92 <? 32) with false. change (92 =? 92) with true.
  change (117 =? 117) with true. cbv iota. rewrite Hd, Hh.
  cbn [andb]. cbv iota. rewrite Hd2, Hl.
  destruct (scanstring s) as [[x r]|w]; reflexivity.
Qed.

(** Scanning the replacement of one character gives the character back. *)
Lemma scanstring_escape (c : N) (s : str) :
  scalar c = true ->
  scanstring (escape_char c ++ s)
  = bind (scanstring s) (fun p => Ok (c :: fst p, snd p)).
Proof.
  intros Hc. unfold scalar in Hc. apply andb_true_iff in Hc as [Hlt Hns].
  apply N.ltb_lt in Hlt. apply negb_true_iff in Hns.
  unfold escape_char.
  destruct (c =? 34) eqn:E34;
    [apply N.eqb_eq in E34; subst;
     simpl; destruct (scanstring s) as [[x r]|w]; reflexivity|].
  destruct (c =? 92) eqn:E92;
    [apply N.eqb_eq in E92; subst;
     simpl; destruct (scanstring s) as [[x r]|w]; reflexivity|].
  destruct (c =? 10) eqn:E10;
    [apply N.eqb_eq in E10; subst;
     simpl; destruct (scanstring s) as [[x r]|w]; reflexivity|].
  destruct (c =? 13) eqn:E13;
    [apply N.eqb_eq in E13; subst;
     simpl; destruct (scanstring s) as [[x r]|w]; reflexivity|].
  destruct (c =? 9) eqn:E9;
    [apply N.eqb_eq in E9; subst;
     simpl; destruct (scanstring s) as [[x r]|w]; reflexivity|].
  destruct (c =? 8) eqn:E8;
    [apply N.eqb_eq in E8; subst;
     simpl; destruct (scanstring s) as [[x r]|w]; reflexivity|].
  destruct (c =? 12) eqn:E12;
    [apply N.eqb_eq in E12; subst;
     simpl; destruct (scanstring s) as [[x r]|w]; reflexivity|].
  destruct ((32 <=? c) && (c <=? 126)) eqn:Eprint.
  - apply andb_true_iff in Eprint as [Hlo Hhi]. apply N.leb_le in Hlo.
    apply scanstring_plain; [assumption | apply N.ltb_ge; lia | assumption].
  - destruct (c <? 65536) eqn:Ebmp.
    + apply N.ltb_lt in Ebmp. unfold hex4.
      apply scanstring_u; [now apply decode_hex4|].
      destruct (55296 <=? c) eqn:Ea; [|reflexivity].
      destruct (c <=? 56319) eqn:Eb; [|reflexivity].
      apply N.leb_le in Eb. replace (c <=? 57343) with true in Hns
        by (symmetry; apply N.leb_le; lia).
      simpl in Hns. discriminate.
    + apply N.ltb_ge in Ebmp.
      destruct (surrogate_pair c (conj Ebmp Hlt)) as (Hs1 & Hs2 & Hj).
      cbv zeta in Hs1, Hs2, Hj.
      set (s1 := N.lor 55296 (N.land (N.shiftr (c - 65536) 10) 1023)) in *.
      set (s2 := N.lor 56320 (N.land (c - 65536) 1023)) in *.
      cbv zeta. unfold hex4. cbn [app].
      rewrite (scanstring_pair _ _ _ _ _ _ _ _ s1 s2).
      * rewrite Hj. reflexivity.
      * apply decode_hex4. lia.
      * apply andb_true_iff. split; apply N.leb_le; lia.
      * apply decode_hex4. lia.
      * apply andb_true_iff. split; apply N.leb_le; lia.
Qed.

(** Scanning an encoded string gives the string back. *)
Lemma scanstring_encoded (s rest : str) :
  text s = true ->
  scanstring (flat_map escape_char s ++ 34 :: rest) = Ok (s, rest).
Proof.
  induction s as [|c s IH]; simpl; [reflexivity|].
  intros H. apply andb_true_iff in H as [Hc Hs].
  rewrite <- app_assoc, scanstring_escape by assumption.
  rewrite (IH Hs). reflexivity.
Qed.

End StringCodec.

Section NumberCodec.

Import Py JsonCodec.

Context {interp : Interpreter}.

Open Scope N_scope.

Lemma to_uint_canonical (p : positive) :
  Decimal.unorm (Pos.to_uint p) = Pos.to_uint p.
Proof.
  pose proof (DecimalPos.Unsigned.to_of (Pos.to_uint p)) as H.
  rewrite DecimalPos.Unsigned.of_to in H. symmetry. exact H.
Qed.

Lemma to_uint_leading (p : positive) : leading (Pos.to_uint p).
Proof.
  pose proof (to_uint_canonical p) as Hn.
  pose proof (DecimalPos.Unsigned.to_uint_nonzero p) as Hz.
  pose proof (DecimalPos.Unsigned.to_uint_nonnil p) as Hnil.
  destruct (Pos.to_uint p) as [|u| | | | | | | | | ]; simpl; trivial.
  - congruence.
  - rewrite DecimalFacts.unorm_D0 in Hn. unfold Decimal.unorm in Hn.
    destruct (Decimal.nzhead u) eqn:E.
    + injection Hn as <-. now elim Hz.
    + exfalso. apply (DecimalFacts.nzhead_nonzero u u). congruence.
    + discriminate. + discriminate. + discriminate. + discriminate.
    + discriminate. + discriminate. + discriminate. + discriminate.
    + discriminate.
Qed.

Lemma take_digits_chars (u : Decimal.uint) (rest : str) :
  no_digit rest -> take_digits (uint_chars u ++ rest) = (u, rest).
Proof.
  intros Hr. induction u; simpl; try (rewrite IHu; reflexivity).
  destruct rest as [|c rest]; [reflexivity|]. simpl in *. now rewrite Hr.
Qed.

Lemma match_integer_leading (sign : Decimal.uint -> Decimal.int)
      (u : Decimal.uint) (rest : str) :
  leading u -> no_digit rest ->
  (let s := uint_chars u ++ rest in
   match s with
   | [] => None
   | c :: s2 =>
       if c =? 48 then Some (sign (Decimal.D0 Decimal.Nil), s2)
       else if is_digit c then let (u', r) := take_digits s in Some (sign u', r)
       else None
   end) = Some (sign u, rest).
Proof.
  intros Hl Hr. cbv zeta.
  pose proof (take_digits_chars u rest Hr) as Ht.
  destruct u; simpl in Hl; try contradiction;
    simpl uint_chars in *; cbn [app] in *;
    match goal with
    | |- context [(?c =? 48)] => change (c =? 48) with false; cbv iota
    end;
    match goal with
    | |- context [is_digit ?c] => change (is_digit c) with true; cbv iota
    end;
    rewrite Ht; reflexivity.
Qed.

Lemma match_integer_repr (z : Z) (rest : str) :
  no_digit rest ->
  match_integer (int_chars (Z.to_int z) ++ rest) = Some (Z.to_int z, rest).
Proof.
  intros Hr. unfold int_chars, match_integer. destruct z as [|p|p]; simpl Z.to_int.
  - reflexivity.
  - pose proof (to_uint_leading p) as Hl.
    pose proof (match_integer_leading Decimal.Pos (Pos.to_uint p) rest Hl Hr) as H.
    cbv zeta in H.
    destruct (uint_chars (Pos.to_uint p) ++ rest) as [|c s'] eqn:E;
      [discriminate|].
    destruct (c =? 45) eqn:E45.
    + apply N.eqb_eq in E45. subst c. simpl in H. discriminate.
    + exact H.
  - cbn [app]. change (45 =? 45) with true. cbv iota.
    exact (match_integer_leading Decimal.Neg (Pos.to_uint p) rest
             (to_uint_leading p) Hr).
Qed.

Lemma delimited_no_digit (rest : str) : delimited rest = true -> no_digit rest.
Proof.
  destruct rest as [|c rest]; simpl; [trivial|].
  intros H. apply orb_true_iff in H as [H|H];
    [apply orb_true_iff in H as [H|H]|];
    apply N.eqb_eq in H; subst; reflexivity.
Qed.

Lemma delimited_no_float (rest : str) :
  delimited rest = true -> has_frac rest || has_exp rest = false.
Proof.
  destruct rest as [|c rest]; simpl; [reflexivity|].
  intros H. apply orb_true_iff in H as [H|H];
    [apply orb_true_iff in H as [H|H]|];
    apply N.eqb_eq in H; subst; destruct rest; reflexivity.
Qed.

Lemma scan_number_repr (z : Z) (rest : str) :
  digits_fit (int_digits (Z.to_int z)) = true ->
  delimited rest = true ->
  scan_number (int_chars (Z.to_int z) ++ rest) = Ok (Json.Int z, rest).
Proof.
  intros Hz Hd. unfold scan_number.
  rewrite match_integer_repr by now apply delimited_no_digit.
  rewrite delimited_no_float by assumption.
  now rewrite Hz, DecimalZ.of_to.
Qed.

(** The first character of a number's text: a minus sign or a digit. *)
Lemma repr_int_head (z : Z) :
  exists c cs, int_chars (Z.to_int z) = c :: cs /\ ((c =? 45) || is_digit c) = true.
Proof.
  unfold int_chars. destruct z as [|p|p]; simpl Z.to_int.
  - now exists 48, [].
  - pose proof (to_uint_leading p) as Hl.
    destruct (Pos.to_uint p); simpl in Hl; try contradiction;
      simpl; eexists _, _; split; reflexivity.
  - simpl. eexists _, _. split; reflexivity.
Qed.

End NumberCodec.

Section ValueCodec.

Import Py JsonCodec.

Context {interp : Interpreter}.

Open Scope N_scope.

Lemma value_start_facts (c : N) :
  value_start c = true ->
  is_ws c = false /\ (c =? 93) = false /\ (c =? 125) = false.
Proof.
  unfold value_start, is_ws, is_digit.
  rewrite !orb_true_iff, andb_true_iff, !N.eqb_eq, !N.leb_le.
  intros H. rewrite !orb_false_iff, !N.eqb_neq. lia.
Qed.

Lemma skip_ws_value (s : str) : starts_value s -> skip_ws s = s.
Proof.
  destruct s as [|c s]; simpl; [tauto|].
  intros H. now rewrite (proj1 (value_start_facts c H)).
Qed.

Lemma starts_value_app (s rest : str) : starts_value s -> starts_value (s ++ rest).
Proof. destruct s; simpl; tauto. Qed.

Lemma dumps_starts_value (v : Json.t) : starts_value (json_text v).
Proof.
  destruct v as [|[|]|z|s|l|d]; try reflexivity.
  simpl. destruct (repr_int_head z) as (c & cs & -> & H). simpl.
  unfold value_start. apply orb_true_iff in H as [H|H]; rewrite H;
    rewrite ?orb_true_r; reflexivity.
Qed.

Lemma join_starts_value (l : list Json.t) :
  l <> [] -> starts_value (join (py ", ") (map json_text l)).
Proof.
  destruct l as [|v [|v2 l]]; [congruence | |]; intros _; simpl map;
    cbn [join]; [|apply starts_value_app]; apply dumps_starts_value.
Qed.

(** One step of each scanner. *)
Lemma scan_once_string (depth fuel : nat) (s : str) :
  scan_once depth (S fuel) (34 :: s)
  = bind (scanstring s) (fun p => let '(x, r) := p in Ok (Json.Str x, r)).
Proof. reflexivity. Qed.

Lemma scan_once_array (depth fuel : nat) (s : str) :
  scan_once (S depth) (S fuel) (91 :: s)
  = match skip_ws s with
    | d :: r =>
        if d =? 93 then Ok (Json.List [], r)
        else bind (array_items depth fuel (d :: r))
               (fun p => let '(values, r') := p in Ok (Json.List values, r'))
    | [] => Stop DecodeError
    end.
Proof. reflexivity. Qed.

Lemma scan_once_object (depth fuel : nat) (s : str) :
  scan_once (S depth) (S fuel) (123 :: s)
  = match skip_ws s with
    | d :: r =>
        if d =? 125 then Ok (Json.Dict [], r)
        else if d =? 34 then
          bind (object_items depth fuel r)
            (fun p => let '(pairs, r') := p in Ok (Json.Dict (dict_of_pairs pairs), r'))
        else Stop DecodeError
    | [] => Stop DecodeError
    end.
Proof. reflexivity. Qed.

Lemma array_items_step (depth fuel : nat) (s : str) :
  array_items depth (S fuel) s
  = bind (scan_once depth fuel s)
      (fun p => let '(value, r) := p in
         match skip_ws r with
         | d :: r1 =>
             if d =? 93 then Ok ([value], r1)
             else if d =? 44 then
               bind (array_items depth fuel (skip_ws r1))
                 (fun q => let '(values, r2) := q in Ok (value :: values, r2))
             else Stop DecodeError
         | [] => Stop DecodeError
         end).
Proof. reflexivity. Qed.

Lemma object_items_step (depth fuel : nat) (s : str) :
  object_items depth (S fuel) s
  = bind (scanstring s)
      (fun p => let '(key, r) := p in
         match skip_ws r with
         | c :: r1 =>
             if c =? 58 then
               bind (scan_once depth fuel (skip_ws r1))
                 (fun q => let '(value, r2) := q in
                    match skip_ws r2 with
                    | d :: r3 =>
                        if d =? 125 then Ok ([(key, value)], r3)
                        else if d =? 44 then
                          match skip_ws r3 with
                          | q' :: r4 =>
                              if q' =? 34 then
                                bind (object_items depth fuel r4)
                                  (fun t => let '(pairs, r5) := t in
                                     Ok ((key, value) :: pairs, r5))
                              else Stop DecodeError
                          | [] => Stop DecodeError
                          end
                        else Stop DecodeError
                    | [] => Stop DecodeError
                    end)
             else Stop DecodeError
         | [] => Stop DecodeError
         end).
Proof. reflexivity. Qed.

Lemma scan_str (s : str) : scans_back (Json.Str s).
Proof.
  intros Hv _ depth fuel rest _ Hf Hd. simpl in Hv, Hf.
  destruct fuel as [|fuel]; [lia|].
  simpl json_text. unfold encode_basestring_ascii.
  cbn [app]. rewrite <- app_assoc. cbn [app].
  rewrite scan_once_string, scanstring_encoded by assumption. reflexivity.
Qed.

Lemma scan_int (z : Z) : scans_back (Json.Int z).
Proof.
  intros Hv Hz depth fuel rest _ Hf Hd. simpl in Hf, Hz.
  destruct fuel as [|fuel]; [lia|]. simpl json_text.
  pose proof (scan_number_repr z rest Hz Hd) as Hn.
  destruct (repr_int_head z) as (c & cs & E & Hc). rewrite E in *.
  cbn [app] in *. cbn [scan_once].
  unfold is_digit in Hc.
  rewrite orb_true_iff, andb_true_iff, N.eqb_eq, !N.leb_le in Hc.
  replace (c =? 34) with false by (symmetry; apply N.eqb_neq; lia).
  replace (c =? 123) with false by (symmetry; apply N.eqb_neq; lia).
  replace (c =? 91) with false by (symmetry; apply N.eqb_neq; lia).
  cbn [strip_prefix py Py.of_string list_ascii_of_string map N_of_ascii].
  simpl N_of_digits.
  replace (110 =? c) with false by (symmetry; apply N.eqb_neq; lia).
  replace (116 =? c) with false by (symmetry; apply N.eqb_neq; lia).
  replace (102 =? c) with false by (symmetry; apply N.eqb_neq; lia).
  exact Hn.
Qed.

(** The elements of a list or dict are nested less deeply than the list or
    dict itself. *)
Lemma nesting_items (l : list Json.t) (depth : nat) :
  (fold_right (fun x n => Nat.max (nesting x) n) 0%nat l <= depth)%nat ->
  Forall (fun v => (nesting v <= depth)%nat) l.
Proof.
  induction l as [|v l IH]; simpl; intros H; constructor; [lia | apply IH; lia].
Qed.

Lemma nesting_pairs (d : list (str * Json.t)) (depth : nat) :
  (fold_right (fun kv n => Nat.max (nesting (snd kv)) n) 0%nat d <= depth)%nat ->
  Forall (fun kv => (nesting (snd kv) <= depth)%nat) d.
Proof.
  induction d as [|kv d IH]; simpl; intros H; constructor; [lia | apply IH; lia].
Qed.

Lemma delimited_cons (c : N) (rest : str) :
  (c =? 44) || (c =? 93) || (c =? 125) = true -> delimited (c :: rest) = true.
Proof. trivial. Qed.

Lemma skip_ws_keep (c : N) (s : str) : is_ws c = false -> skip_ws (c :: s) = c :: s.
Proof. intros H. simpl. now rewrite H. Qed.

Lemma skip_ws_space (s : str) : skip_ws (32 :: s) = skip_ws s.
Proof. reflexivity. Qed.

Lemma join_cons (sep p : str) (ps : list str) :
  ps <> [] -> join sep (p :: ps) = p ++ sep ++ join sep ps.
Proof. destruct ps; [congruence | reflexivity]. Qed.

Lemma join_one (sep p : str) : join sep [p] = p.
Proof. reflexivity. Qed.

Lemma comma_space (s : str) : py ", " ++ s = 44 :: 32 :: s.
Proof. reflexivity. Qed.

Lemma array_items_join (l : list Json.t) :
  l <> [] ->
  Forall scans_back l ->
  forallb valid l = true ->
  forallb small_ints l = true ->
  forall (depth fuel : nat) (rest : str),
    Forall (fun v => (nesting v <= depth)%nat) l ->
    (items_size l <= fuel)%nat ->
    array_items depth fuel (join (py ", ") (map json_text l) ++ 93 :: rest)
    = Ok (l, rest).
Proof.
  induction l as [|v l IH]; [congruence|].
  intros _ HF Hv Hs depth fuel rest Hn Hf.
  inversion HF as [|? ? Hscan HF']; subst.
  inversion Hn as [|? ? Hnv Hn']; subst.
  simpl in Hv. apply andb_true_iff in Hv as [Hv Hvl].
  simpl in Hs. apply andb_true_iff in Hs as [Hs Hsl].
  unfold items_size in Hf. simpl in Hf. fold (items_size l) in Hf.
  destruct fuel as [|fuel]; [lia|].
  rewrite array_items_step.
  destruct l as [|v2 l'].
  - change (map json_text [v]) with [json_text v]. rewrite join_one.
    rewrite (Hscan Hv Hs depth fuel (93 :: rest)) by (trivial; lia).
    reflexivity.
  - change (map json_text (v :: v2 :: l')) with (json_text v :: map json_text (v2 :: l')).
    rewrite join_cons by (simpl; congruence).
    rewrite <- !app_assoc, comma_space.
    rewrite (Hscan Hv Hs depth fuel (44 :: 32 :: _)) by (trivial; lia).
    cbn [bind]. rewrite (skip_ws_keep 44) by reflexivity.
    change (44 =? 93) with false. change (44 =? 44) with true. cbv iota.
    rewrite skip_ws_space, skip_ws_value
      by (apply starts_value_app, join_starts_value; congruence).
    rewrite IH; [reflexivity | congruence | assumption | assumption | assumption
                 | assumption | lia].
Qed.

Lemma scan_list (l : list Json.t) : Forall scans_back l -> scans_back (Json.List l).
Proof.
  intros HF Hv Hs depth fuel rest Hn Hf Hd. simpl in Hv, Hs.
  change (size (Json.List l)) with (S (items_size l)) in Hf.
  destruct fuel as [|fuel]; [lia|].
  destruct depth as [|depth]; [simpl in Hn; lia|].
  apply le_S_n in Hn. apply nesting_items in Hn.
  cbn [json_text]. change (py "[" ++ ?x) with (91 :: x). cbn [app].
  rewrite <- app_assoc. change (py "]" ++ rest) with (93 :: rest).
  rewrite scan_once_array.
  destruct l as [|v l'].
  - reflexivity.
  - assert (Hsv : starts_value
                    (join (py ", ") (map json_text (v :: l')) ++ 93 :: rest)).
    { apply starts_value_app, join_starts_value. congruence. }
    rewrite (skip_ws_value _ Hsv).
    destruct (join (py ", ") (map json_text (v :: l')) ++ 93 :: rest)
      as [|d r] eqn:E; [contradiction|].
    simpl in Hsv. rewrite (proj1 (proj2 (value_start_facts d Hsv))).
    rewrite <- E, array_items_join; [reflexivity | congruence | assumption
                                     | assumption | assumption | assumption | lia].
Qed.

(** The text of a non-empty sequence of pairs starts with the quote of its
    first key; scanning from the character after it gives the pairs back. *)
Lemma object_items_join (d : list (str * Json.t)) :
  d <> [] ->
  Forall (fun kv => scans_back (snd kv)) d ->
  forallb (fun kv => text (fst kv) && valid (snd kv)) d = true ->
  forallb (fun kv => small_ints (snd kv)) d = true ->
  forall (depth fuel : nat) (rest : str),
    Forall (fun kv => (nesting (snd kv) <= depth)%nat) d ->
    (pairs_size d <= fuel)%nat ->
    exists tail,
      join (py ", ") (map pair_text d) ++ 125 :: rest = 34 :: tail /\
      object_items depth fuel tail = Ok (d, rest).
Proof.
  induction d as [|[k v] d IH]; [congruence|].
  intros _ HF Hv Hs depth fuel rest Hn Hf.
  inversion HF as [|? ? Hscan HF']; subst. simpl in Hscan.
  inversion Hn as [|? ? Hnv Hn']; subst. simpl in Hnv.
  simpl in Hv. apply andb_true_iff in Hv as [Hkv Hvd].
  apply andb_true_iff in Hkv as [Hk Hv].
  simpl in Hs. apply andb_true_iff in Hs as [Hs Hsd].
  unfold pairs_size in Hf. simpl in Hf. fold (pairs_size d) in Hf.
  destruct fuel as [|fuel]; [lia|].
  assert (Hpair : forall x,
            pair_text (k, v) ++ x
            = 34 :: flat_map escape_char k ++ 34 :: 58 :: 32 :: json_text v ++ x).
  { intros x. unfold pair_text, encode_basestring_ascii. simpl fst. simpl snd.
    cbn [app]. rewrite <- !app_assoc. reflexivity. }
  destruct d as [|kv2 d'].
  - change (map pair_text [(k, v)]) with [pair_text (k, v)]. rewrite join_one.
    rewrite Hpair.
    eexists. split; [reflexivity|].
    rewrite object_items_step, scanstring_encoded by assumption.
    cbn [bind]. rewrite (skip_ws_keep 58) by reflexivity.
    change (58 =? 58) with true. cbv iota.
    rewrite skip_ws_space, skip_ws_value
      by (apply starts_value_app, dumps_starts_value).
    rewrite (Hscan Hv Hs depth fuel (125 :: rest)) by (trivial; lia).
    reflexivity.
  - destruct (IH ltac:(congruence) HF' Hvd Hsd depth fuel rest Hn' ltac:(lia))
      as (tail & Etail & Hitems).
    change (map pair_text ((k, v) :: kv2 :: d'))
      with (pair_text (k, v) :: map pair_text (kv2 :: d')).
    rewrite join_cons by (simpl; congruence).
    rewrite <- !app_assoc, comma_space, Hpair.
    eexists. split; [reflexivity|].
    rewrite object_items_step, scanstring_encoded by assumption.
    cbn [bind]. rewrite (skip_ws_keep 58) by reflexivity.
    change (58 =? 58) with true. cbv iota.
    rewrite skip_ws_space, skip_ws_value
      by (apply starts_value_app, dumps_starts_value).
    rewrite (Hscan Hv Hs depth fuel (44 :: 32 :: _)) by (trivial; lia).
    cbn [bind]. rewrite (skip_ws_keep 44) by reflexivity.
    change (44 =? 125) with false. change (44 =? 44) with true. cbv iota.
    rewrite skip_ws_space, Etail, (skip_ws_keep 34) by reflexivity.
    change (34 =? 34) with true. cbv iota.
    rewrite Hitems. reflexivity.
Qed.

Lemma unique_not_mem (k : str) (l : list str) :
  unique (k :: l) = true -> ~ In k l /\ unique l = true.
Proof.
  simpl. intros H. apply andb_true_iff in H as [H1 H2]. split; [|assumption].
  apply negb_true_iff in H1. intros Hin. apply list_mem_In in Hin. congruence.
Qed.

Lemma fold_dict_set (d acc : list (str * Json.t)) :
  unique (keys d) = true ->
  (forall k, In k (keys d) -> ~ In k (keys acc)) ->
  fold_left (fun a kv => dict_set (fst kv) (snd kv) a) d acc = acc ++ d.
Proof.
  revert acc. induction d as [|[k v] d IH]; intros acc Hu Hd; simpl.
  - now rewrite app_nil_r.
  - apply unique_not_mem in Hu as [Hk Hu].
    rewrite keys_dict_set_new
      by (apply dict_mem_false, Hd; now left).
    rewrite IH; [now rewrite <- app_assoc | assumption |].
    intros k' Hin. unfold keys. rewrite map_app, in_app_iff. simpl.
    intros [H|[<-|[]]]; [|contradiction].
    revert H. apply Hd. now right.
Qed.

Lemma dict_of_pairs_unique (d : list (str * Json.t)) :
  unique (keys d) = true -> dict_of_pairs d = d.
Proof.
  intros Hu. unfold dict_of_pairs. now rewrite fold_dict_set.
Qed.

Lemma scan_dict (d : list (str * Json.t)) :
  Forall (fun kv => scans_back (snd kv)) d -> scans_back (Json.Dict d).
Proof.
  intros HF Hv Hs depth fuel rest Hn Hf Hd. simpl in Hv, Hs.
  apply andb_true_iff in Hv as [Hv Hu].
  change (size (Json.Dict d)) with (S (pairs_size d)) in Hf.
  destruct fuel as [|fuel]; [lia|].
  destruct depth as [|depth]; [simpl in Hn; lia|].
  apply le_S_n in Hn. apply nesting_pairs in Hn.
  cbn [json_text]. change (py "{" ++ ?x) with (123 :: x). cbn [app].
  rewrite <- app_assoc. change (py "}" ++ rest) with (125 :: rest).
  rewrite scan_once_object.
  destruct d as [|kv d'].
  - reflexivity.
  - destruct (object_items_join (kv :: d') ltac:(congruence) HF Hv Hs depth fuel rest
                Hn ltac:(lia)) as (tail & Etail & Hitems).
    change (fun kv0 : str * Json.t =>
              encode_basestring_ascii (fst kv0) ++ py ": " ++ json_text (snd kv0))
      with pair_text.
    match goal with
    | |- context [skip_ws ?x] =>
        change x with (join (py ", ") (map pair_text (kv :: d')) ++ 125 :: rest)
    end.
    rewrite Etail, (skip_ws_keep 34) by reflexivity.
    change (34 =? 125) with false. change (34 =? 34) with true. cbv iota.
    rewrite Hitems. cbn [bind]. now rewrite dict_of_pairs_unique.
Qed.

(** Scanning the text of any valid value gives the value back. *)
Lemma scan_dumps (v : Json.t) : scans_back v.
Proof.
  induction v using json_induction.
  - intros _ _ depth [|fuel] rest _ Hf Hd; [simpl in Hf; lia | reflexivity].
  - intros _ _ depth [|fuel] rest _ Hf Hd;
      [simpl in Hf; lia | destruct b; reflexivity].
  - apply scan_int.
  - apply scan_str.
  - now apply scan_list.
  - now apply scan_dict.
Qed.

(** The encoder writes the text of a value that is within its limits, and
    nothing else. *)
Lemma all_map_some {A B : Type} (f : A -> option B) (g : A -> B) (l : list A) :
  Forall (fun x => f x = Some (g x)) l -> all (map f l) = Some (map g l).
Proof.
  induction 1 as [|x l Hx Hl IH]; simpl; [reflexivity|].
  now rewrite Hx, IH.
Qed.

Lemma all_map_inv {A B : Type} (f : A -> option B) (l : list A) (parts : list B) :
  all (map f l) = Some parts -> map f l = map Some parts.
Proof.
  revert parts. induction l as [|x l IH]; simpl; intros parts.
  - now intros [= <-].
  - destruct (f x) as [y|]; [|discriminate].
    destruct (all (map f l)) as [ys|] eqn:E; [|discriminate].
    simpl. intros [= <-]. simpl. f_equal. now apply IH.
Qed.

Lemma encode_text (v : Json.t) :
  forall depth : nat,
    small_ints v = true -> (nesting v <= depth)%nat ->
    encode depth v = Some (json_text v).
Proof.
  induction v as [|b|z|s|l H|d H] using json_induction; intros depth Hs Hn.
  - reflexivity.
  - destruct b; reflexivity.
  - simpl in Hs. simpl. unfold repr_int. now rewrite Hs.
  - reflexivity.
  - destruct depth as [|depth]; [simpl in Hn; lia|].
    simpl in Hn. apply le_S_n, nesting_items in Hn.
    simpl in Hs. rewrite forallb_forall in Hs. rewrite Forall_forall in H, Hn.
    cbn [encode json_text].
    rewrite (all_map_some _ json_text); [reflexivity|].
    apply Forall_forall. intros x Hx. apply H; auto.
  - destruct depth as [|depth]; [simpl in Hn; lia|].
    simpl in Hn. apply le_S_n, nesting_pairs in Hn.
    simpl in Hs. rewrite forallb_forall in Hs. rewrite Forall_forall in H, Hn.
    cbn [encode json_text].
    rewrite (all_map_some _ pair_text); [reflexivity|].
    apply Forall_forall. intros kv Hkv. unfold pair_text.
    rewrite (H kv Hkv depth); [reflexivity | now apply Hs | now apply Hn].
Qed.

Lemma encode_some (v : Json.t) :
  forall (depth : nat) (t : str), encode depth v = Some t -> t = json_text v.
Proof.
  induction v as [|b|z|s|l H|d H] using json_induction; intros depth t.
  - simpl. now intros [= <-].
  - destruct b; simpl; now intros [= <-].
  - simpl. unfold repr_int. destruct (digits_fit _); [now intros [= <-] | discriminate].
  - simpl. now intros [= <-].
  - destruct depth as [|depth]; [discriminate|]. cbn [encode json_text].
    destruct (all (map (fun x => encode depth x) l)) as [parts|] eqn:E;
      [|discriminate].
    simpl. intros [= <-]. do 3 f_equal.
    apply all_map_inv in E. revert parts E.
    induction H as [|x l Hx Hl IH]; intros [|p parts]; simpl; try discriminate;
      [reflexivity|].
    intros [= E1 E2]. f_equal; [exact (Hx depth p E1) | now apply IH].
  - destruct depth as [|depth]; [discriminate|]. cbn [encode json_text].
    match goal with
    | |- context [all ?x] => destruct (all x) as [parts|] eqn:E; [|discriminate]
    end.
    simpl. intros [= <-]. do 3 f_equal.
    apply all_map_inv in E. revert parts E.
    induction H as [|kv d Hkv Hd IH]; intros [|p parts]; simpl; try discriminate;
      [reflexivity|].
    intros [= E1 E2]. f_equal; [|now apply IH].
    destruct (encode depth (snd kv)) as [value|] eqn:Ev; [|discriminate].
    injection E1 as <-. now rewrite (Hkv depth value Ev).
Qed.

End ValueCodec.

Section WireCodec.

Import Py JsonCodec.

Context {interp : Interpreter}.

Lemma length_join_items (l : list Json.t) :
  Forall (fun v => (size v <= length (json_text v))%nat) l ->
  (items_size l <= length (join (py ", ") (map json_text l)) + 1)%nat.
Proof.
  induction l as [|v l IH]; intros HF; [simpl; lia|].
  inversion HF as [|? ? Hv HF']; subst. specialize (IH HF').
  unfold items_size in *. simpl fold_right.
  destruct l as [|v2 l'].
  - simpl. lia.
  - change (map json_text (v :: v2 :: l')) with (json_text v :: map json_text (v2 :: l')).
    rewrite join_cons by (simpl; congruence).
    rewrite !length_app. change (length (py ", ")) with 2%nat. lia.
Qed.

Lemma length_join_pairs (d : list (str * Json.t)) :
  Forall (fun kv => (size (snd kv) <= length (json_text (snd kv)))%nat) d ->
  (pairs_size d <= length (join (py ", ") (map pair_text d)) + 1)%nat.
Proof.
  induction d as [|kv d IH]; intros HF; [simpl; lia|].
  inversion HF as [|? ? Hv HF']; subst. specialize (IH HF').
  unfold pairs_size in *. simpl fold_right.
  assert (Hp : (length (json_text (snd kv)) <= length (pair_text kv))%nat).
  { unfold pair_text. rewrite !length_app. lia. }
  destruct d as [|kv2 d'].
  - change (map pair_text [kv]) with [pair_text kv]. rewrite join_one.
    simpl fold_right. lia.
  - change (map pair_text (kv :: kv2 :: d'))
      with (pair_text kv :: map pair_text (kv2 :: d')).
    rewrite join_cons by (simpl; congruence).
    rewrite !length_app. change (length (py ", ")) with 2%nat. lia.
Qed.

(** The text of a value is at least as long as the fuel its scan takes. *)
Lemma size_le_length (v : Json.t) : (size v <= length (json_text v))%nat.
Proof.
  induction v using json_induction.
  - simpl. lia.
  - destruct b; simpl; lia.
  - simpl. destruct (repr_int_head z) as (c & cs & -> & _). simpl. lia.
  - simpl. lia.
  - change (size (Json.List l)) with (S (items_size l)).
    pose proof (length_join_items l H) as Hj.
    cbn [json_text]. rewrite !length_app.
    change (length (py "[")) with 1%nat. change (length (py "]")) with 1%nat. lia.
  - change (size (Json.Dict d)) with (S (pairs_size d)).
    pose proof (length_join_pairs d H) as Hj.
    cbn [json_text]. rewrite !length_app.
    change (length (py "{")) with 1%nat. change (length (py "}")) with 1%nat.
    match goal with
    | |- context [length (join ?a ?b)] =>
        change (join a b) with (join (py ", ") (map pair_text d))
    end.
    lia.
Qed.

(** [json.dumps] writes the text of a value within the limits, and
    [json.loads] reads the value back from it. *)
Lemma dumps_text (v : Json.t) :
  small_ints v = true -> (nesting v <= encoder_depth)%nat ->
  dumps v = Some (json_text v).
Proof. apply encode_text. Qed.

Lemma dumps_some (v : Json.t) (t : str) : dumps v = Some t -> t = json_text v.
Proof. apply encode_some. Qed.

Lemma loads_dumps (v : Json.t) :
  valid v = true -> small_ints v = true -> (nesting v <= scanner_depth)%nat ->
  loads (json_text v) = Ok v.
Proof.
  intros Hv Hs Hn. unfold loads.
  rewrite skip_ws_value by apply dumps_starts_value.
  rewrite <- (app_nil_r (json_text v)) at 2.
  rewrite (scan_dumps v Hv Hs)
    by (trivial; pose proof (size_le_length v); lia).
  reflexivity.
Qed.

Lemma within_limits_spec (v : Json.t) :
  within_limits v = true ->
  small_ints v = true /\ (nesting v <= encoder_depth)%nat /\
  (nesting v <= scanner_depth)%nat.
Proof.
  unfold within_limits. rewrite !andb_true_iff, !Nat.leb_le. tauto.
Qed.

(** *** UTF-8 on ASCII text *)

Lemma to_N_byte_of (c : N) : (c < 256)%N -> Byte.to_N (byte_of c) = c.
Proof.
  intros H. unfold byte_of. destruct (Byte.of_N c) as [b|] eqn:E.
  - now apply Byte.to_of_N.
  - apply Byte.of_N_None_iff in E. lia.
Qed.

Lemma utf8_encode_ascii (s : str) :
  ascii_text s -> utf8_encode s = Some (map byte_of s).
Proof.
  induction 1 as [|c s Hc Hs IH]; simpl; [reflexivity|].
  rewrite IH. unfold utf8_encode_char.
  now rewrite (proj2 (N.ltb_lt c 128) Hc).
Qed.

Lemma utf8_decode_ascii (s : str) :
  ascii_text s -> utf8_decode (map byte_of s) = Some s.
Proof.
  induction 1 as [|c s Hc Hs IH]; simpl; [reflexivity|].
  rewrite to_N_byte_of by lia.
  now rewrite (proj2 (N.ltb_lt c 128) Hc), IH.
Qed.

Lemma ascii_app (s t : str) : ascii_text s -> ascii_text t -> ascii_text (s ++ t).
Proof. intros Hs Ht. apply Forall_app. now split. Qed.

Lemma ascii_hex_digit (d : N) : (d < 16)%N -> (hex_digit d < 128)%N.
Proof. unfold hex_digit. intros H. destruct (d <? 10)%N; lia. Qed.

Lemma ascii_hex4 (n : N) : ascii_text (hex4 n).
Proof.
  unfold hex4. repeat constructor; apply ascii_hex_digit, N.mod_lt; lia.
Qed.

Lemma ascii_escape_char (c : N) : ascii_text (escape_char c).
Proof.
  unfold escape_char.
  repeat match goal with
         | |- ascii_text (if (c =? ?k)%N then _ else _) =>
             destruct (c =? k)%N; [repeat constructor; lia|]
         end.
  destruct ((32 <=? c) && (c <=? 126))%N eqn:E.
  - apply andb_true_iff in E as [_ E]. apply N.leb_le in E.
    repeat constructor. lia.
  - destruct (c <? 65536)%N.
    + repeat (constructor; [lia|]). apply ascii_hex4.
    + cbv zeta. repeat (constructor; [lia|]). apply ascii_app; [apply ascii_hex4|].
      repeat (constructor; [lia|]). apply ascii_hex4.
Qed.

Lemma ascii_encoded_string (s : str) : ascii_text (encode_basestring_ascii s).
Proof.
  unfold encode_basestring_ascii. constructor; [lia|].
  apply ascii_app; [|repeat constructor; lia].
  induction s as [|c s IH]; simpl; [constructor|].
  apply ascii_app; [apply ascii_escape_char | exact IH].
Qed.

Lemma ascii_uint_chars (u : Decimal.uint) : ascii_text (uint_chars u).
Proof. induction u; simpl; constructor; trivial; lia. Qed.

Lemma ascii_repr_int (z : Z) : ascii_text (int_chars (Z.to_int z)).
Proof.
  unfold int_chars. destruct (Z.to_int z);
    [|constructor; [lia|]]; apply ascii_uint_chars.
Qed.

Lemma ascii_join (sep : str) (parts : list str) :
  ascii_text sep -> Forall ascii_text parts -> ascii_text (join sep parts).
Proof.
  intros Hsep. induction 1 as [|p ps Hp Hps IH]; [constructor|].
  destruct ps as [|q ps]; [exact Hp|].
  rewrite join_cons by congruence.
  apply ascii_app; [exact Hp | apply ascii_app; [exact Hsep | exact IH]].
Qed.

Lemma ascii_literal (s : string) :
  forallb (fun c => (c <? 128)%N) (py s) = true -> ascii_text (py s).
Proof.
  intros H. apply Forall_forall. intros c Hc.
  rewrite forallb_forall in H. now apply N.ltb_lt, H.
Qed.

(** [json.dumps] writes ASCII only. *)
Lemma ascii_dumps (v : Json.t) : ascii_text (json_text v).
Proof.
  induction v using json_induction.
  - now apply ascii_literal.
  - destruct b; now apply ascii_literal.
  - apply ascii_repr_int.
  - apply ascii_encoded_string.
  - cbn [json_text]. apply ascii_app; [now apply ascii_literal|].
    apply ascii_app; [|now apply ascii_literal].
    apply ascii_join; [now apply ascii_literal|].
    apply Forall_map. exact H.
  - cbn [json_text]. apply ascii_app; [now apply ascii_literal|].
    apply ascii_app; [|now apply ascii_literal].
    apply ascii_join; [now apply ascii_literal|].
    apply Forall_map. apply Forall_impl with (2 := H).
    intros kv Hkv. apply ascii_app; [apply ascii_encoded_string|].
    apply ascii_app; [now apply ascii_literal | exact Hkv].
Qed.

(** C9: serializing a valid record and deserializing the bytes gives the
    record back.  A valid record holds well-formed text and no key twice,
    and it is within the limits of the interpreter: its integers have no
    more digits than the interpreter converts, and its lists and dicts are
    nested no deeper than the encoder and the scanner can enter. *)
Theorem codec_roundtrip (m : Json.t) :
  valid m = true ->
  within_limits m = true ->
  exists data,
    Protocol.serialize_message m = Some data /\
    Protocol.deserialize_message data = Ok (Some m).
Proof.
  intros Hv Hl. apply within_limits_spec in Hl as (Hs & He & Hd).
  exists (map byte_of (json_text m)).
  unfold Protocol.serialize_message, Protocol.deserialize_message.
  rewrite (dumps_text m Hs He).
  rewrite utf8_encode_ascii, utf8_decode_ascii by apply ascii_dumps.
  now rewrite loads_dumps.
Qed.

End WireCodec.

Section WireSamples.

Import Py JsonCodec.

Lemma codec_roundtrip_witness :
  valid ex_record = true /\
  @within_limits cpython ex_record = true /\
  exists data,
    @Protocol.serialize_message cpython ex_record = Some data /\
    @Protocol.deserialize_message cpython data = Ok (Some ex_record).
Proof.
  split; [reflexivity|]. split; [reflexivity|].
  apply (@codec_roundtrip cpython ex_record); reflexivity.
Defined.

(** Why the strings of a valid record hold scalar values only: a high and a
    low surrogate that stand side by side in a string are written as two
    escapes and read back as one character. *)
Example surrogates_are_joined :
  valid (Json.Str [55357; 56832]%N) = false /\
  option_map (@Protocol.deserialize_message cpython)
             (@Protocol.serialize_message cpython (Json.Str [55357; 56832]%N))
  = Some (Ok (Some (Json.Str [128512%N]))).
Proof. split; reflexivity. Qed.

(** Why a valid record is within the limits of the interpreter: an integer
    of 4301 digits is not serialized, and its text is not deserialized; a
    list in a list is neither where the encoder and the scanner can enter
    one list only. *)
Example limits_are_enforced :
  @Protocol.serialize_message cpython (Json.Int (10 ^ 4300)) = None /\
  @Protocol.deserialize_message cpython (map byte_of (json_text (Json.Int (10 ^ 4300))))
  = Stop ValueError /\
  @Protocol.serialize_message cpython (Json.Int (10 ^ 4300 - 1)) <> None /\
  @Protocol.serialize_message ex_shallow (Json.List [Json.List []]) = None /\
  @Protocol.deserialize_message ex_shallow (map byte_of (py "[[]]"))
  = Stop RecursionError /\
  @Protocol.serialize_message ex_shallow (Json.List [Json.Int 1]) <> None.
Proof.
  split; [vm_compute; reflexivity|].
  split; [vm_compute; reflexivity|].
  split; [vm_compute; discriminate|].
  split; [reflexivity|].
  split; [reflexivity|].
  discriminate.
Qed.

End WireSamples.


(** ** The fuel of [loads] is never used up *)

Section FuelFacts.

Import Py JsonCodec.

Context {interp : Interpreter}.

Lemma skip_ws_length (s : str) : (length (skip_ws s) <= length s)%nat.
Proof.
  induction s as [|c s IH]; simpl; [lia|].
  destruct (is_ws c); simpl; lia.
Qed.

Lemma strip_prefix_length (p s r : str) :
  strip_prefix p s = Some r -> (length r + length p = length s)%nat.
Proof.
  revert s. induction p as [|c p IH]; intros s; simpl.
  - intros [= ->]. lia.
  - destruct s as [|d s]; [discriminate|].
    destruct (c =? d)%N; [|discriminate].
    intros H. apply IH in H. simpl. lia.
Qed.

Lemma take_digits_length (s : str) :
  (length (snd (take_digits s)) <= length s)%nat.
Proof.
  induction s as [|c s IH]; simpl; [lia|].
  destruct (digit_of c); simpl; [|lia].
  destruct (take_digits s). simpl in *. lia.
Qed.

Lemma match_integer_length (s r : str) (i : Decimal.int) :
  match_integer s = Some (i, r) -> (length r < length s)%nat.
Proof.
  unfold match_integer.
  assert (Hbody : forall (sign : Decimal.uint -> Decimal.int) (s1 : str),
             match s1 with
             | [] => None
             | c :: s2 =>
                 if (c =? 48)%N then Some (sign (Decimal.D0 Decimal.Nil), s2)
                 else if is_digit c then
                   let (u, r) := take_digits s1 in Some (sign u, r)
                 else None
             end = Some (i, r) -> (length r < length s1)%nat).
  { intros sign [|c s2]; [discriminate|].
    destruct (c =? 48)%N; [intros [= _ <-]; simpl; lia|].
    destruct (is_digit c) eqn:Ed; [|discriminate].
    pose proof (take_digits_length s2) as Hl.
    simpl take_digits. unfold is_digit in Ed.
    destruct (digit_of c) as [dg|] eqn:Ec.
    - destruct (take_digits s2) as [u0 r']. intros [= _ <-]. simpl in *. lia.
    - exfalso. unfold digit_of in Ec.
      apply andb_true_iff in Ed as [E1 E2].
      apply N.leb_le in E1. apply N.leb_le in E2.
      repeat match type of Ec with
             | (if (c =? ?k)%N then _ else _) = None =>
                 destruct (N.eqb_spec c k); [discriminate|]
             end.
      lia. }
  destruct s as [|c s']; [discriminate|].
  destruct (c =? 45)%N.
  - intros H. apply (Hbody Decimal.Neg s') in H. simpl. lia.
  - intros H. apply (Hbody Decimal.Pos (c :: s')) in H. exact H.
Qed.

Lemma scan_number_length (s r : str) (v : Json.t) :
  scan_number s = Ok (v, r) -> (length r < length s)%nat.
Proof.
  unfold scan_number. destruct (match_integer s) as [[i r']|] eqn:E.
  - destruct (has_frac r' || has_exp r'); [discriminate|].
    destruct (digits_fit _); [|discriminate].
    intros [= _ <-]. eapply match_integer_length; eassumption.
  - destruct (strip_prefix (py "NaN") s), (strip_prefix (py "Infinity") s),
      (strip_prefix (py "-Infinity") s); discriminate.
Qed.

Lemma scanstring_length_bounded (n : nat) (s k r : str) :
  (length s <= n)%nat -> scanstring s = Ok (k, r) -> (length r < length s)%nat.
Proof.
  revert s k r. induction n as [|n IH]; intros s k r Hn H.
  - destruct s; [discriminate | simpl in Hn; lia].
  - destruct s as [|c s1]; [discriminate|].
    simpl in Hn. cbn [scanstring] in H.
    repeat match type of H with
           | (if ?b then _ else _) = _ => destruct b
           | match ?x with _ => _ end = _ =>
               match x with
               | scanstring _ => fail 1
               | _ => destruct x
               end
           | bind (scanstring ?t) _ = _ =>
               let E := fresh "E" in
               destruct (scanstring t) as [[? ?]|] eqn:E;
               [apply IH in E; [|simpl in *; lia]|];
               cbn [bind] in H
           | (let x := _ in _) = _ => cbv zeta in H
           end;
      try discriminate;
      try (injection H as <- <-; simpl in *; lia).
Qed.

Lemma scanstring_length (s k r : str) :
  scanstring s = Ok (k, r) -> (length r < length s)%nat.
Proof. apply (scanstring_length_bounded (length s)). lia. Qed.

Ltac split_scan H :=
  repeat match type of H with
         | (if ?b then _ else _) = _ => destruct b eqn:?
         | match ?x with _ => _ end = _ => destruct x eqn:?
         | bind ?x _ = _ => destruct x as [[? ?]|] eqn:?; cbn [bind] in H
         end.

Ltac length_facts :=
  repeat match goal with
         | E : skip_ws ?x = _ |- _ =>
             let L := fresh "L" in
             pose proof (skip_ws_length x) as L; rewrite E in L; clear E
         | E : scanstring _ = Ok _ |- _ => apply scanstring_length in E
         | E : strip_prefix _ _ = Some _ |- _ =>
             apply strip_prefix_length in E
         | E : scan_number _ = Ok _ |- _ => apply scan_number_length in E
         end.

(** Every scanner that succeeds has read at least one character. *)
Lemma scanners_read (fuel : nat) :
  (forall depth s v r,
      scan_once depth fuel s = Ok (v, r) -> (length r < length s)%nat) /\
  (forall depth s vs r,
      array_items depth fuel s = Ok (vs, r) -> (length r < length s)%nat) /\
  (forall depth s ps r,
      object_items depth fuel s = Ok (ps, r) -> (length r < length s)%nat).
Proof.
  induction fuel as [|f (IH1 & IH2 & IH3)];
    [repeat split; intros; discriminate|].
  repeat split.
  - intros depth s v r H. destruct s as [|c s']; [discriminate|].
    cbn [scan_once] in H. split_scan H; try discriminate;
      try (apply scan_number_length in H; simpl in *; lia);
      injection H as <- <-; length_facts;
      repeat match goal with
             | E : array_items _ f _ = Ok _ |- _ => apply IH2 in E
             | E : object_items _ f _ = Ok _ |- _ => apply IH3 in E
             end;
      simpl in *; lia.
  - intros depth s vs r H. cbn [array_items] in H.
    split_scan H; try discriminate;
      injection H as <- <-; length_facts;
      repeat match goal with
             | E : scan_once _ f _ = Ok _ |- _ => apply IH1 in E
             | E : array_items _ f (skip_ws ?x) = Ok _ |- _ =>
                 apply IH2 in E; pose proof (skip_ws_length x)
             end;
      simpl in *; lia.
  - intros depth s ps r H. cbn [object_items] in H.
    split_scan H; try discriminate;
      injection H as <- <-;
      repeat match goal with
             | E : scan_once _ f (skip_ws ?x) = Ok _ |- _ =>
                 apply IH1 in E; pose proof (skip_ws_length x)
             | E : object_items _ f _ = Ok _ |- _ => apply IH3 in E
             end;
      length_facts; simpl in *; lia.
Qed.

Lemma scanstring_fuel_bounded (n : nat) (s : str) :
  (length s <= n)%nat -> scanstring s <> Stop OutOfFuel.
Proof.
  revert s. induction n as [|n IH]; intros s Hn H.
  - destruct s; [discriminate | simpl in Hn; lia].
  - destruct s as [|c s1]; [discriminate|].
    simpl in Hn. cbn [scanstring] in H.
    repeat match type of H with
           | (if ?b then _ else _) = _ => destruct b
           | match ?x with _ => _ end = _ =>
               match x with
               | scanstring _ => fail 1
               | _ => destruct x
               end
           | bind (scanstring ?t) _ = _ =>
               let E := fresh "E" in
               destruct (scanstring t) as [[? ?]|w] eqn:E;
               [|destruct w; try discriminate;
                 apply IH in E; [contradiction | simpl in *; lia]];
               cbn [bind] in H
           | (let x := _ in _) = _ => cbv zeta in H
           end;
      discriminate.
Qed.

Lemma scanstring_fuel (s : str) : scanstring s <> Stop OutOfFuel.
Proof. apply (scanstring_fuel_bounded (length s)). lia. Qed.

Lemma scan_number_fuel (s : str) : scan_number s <> Stop OutOfFuel.
Proof.
  unfold scan_number. destruct (match_integer s) as [[i r]|].
  - destruct (has_frac r || has_exp r); [discriminate|].
    destruct (digits_fit _); discriminate.
  - destruct (strip_prefix (py "NaN") s), (strip_prefix (py "Infinity") s),
      (strip_prefix (py "-Infinity") s); discriminate.
Qed.

Ltac split_stop H :=
  repeat match type of H with
         | (if ?b then _ else _) = _ => destruct b eqn:?
         | match ?x with _ => _ end = _ => destruct x eqn:?
         | bind ?x _ = _ =>
             let w := fresh "w" in
             destruct x as [[? ?]|w] eqn:?; cbn [bind] in H;
             [|injection H as ->]
         end.

(** With two units of fuel for every character no scanner runs out. *)
Lemma scanners_fuel (fuel : nat) :
  (forall depth s,
      (2 * length s + 1 <= fuel)%nat -> scan_once depth fuel s <> Stop OutOfFuel) /\
  (forall depth s,
      (2 * length s + 2 <= fuel)%nat -> array_items depth fuel s <> Stop OutOfFuel) /\
  (forall depth s,
      (2 * length s + 2 <= fuel)%nat -> object_items depth fuel s <> Stop OutOfFuel).
Proof.
  induction fuel as [|f (IH1 & IH2 & IH3)];
    [repeat split; intros; lia|].
  destruct (scanners_read f) as (R1 & R2 & R3).
  repeat split.
  - intros depth s Hf H. destruct s as [|c s']; [discriminate|].
    simpl length in Hf. cbn [scan_once] in H.
    split_stop H; try discriminate;
      try (now apply scanstring_fuel in H);
      try (now apply scan_number_fuel in H);
      length_facts;
      match goal with
      | E : array_items _ f ?x = Stop OutOfFuel |- _ =>
          apply IH2 in E; [contradiction | simpl in *; lia]
      | E : object_items _ f ?x = Stop OutOfFuel |- _ =>
          apply IH3 in E; [contradiction | simpl in *; lia]
      | E : scanstring _ = Stop OutOfFuel |- _ => now apply scanstring_fuel in E
      end.
  - intros depth s Hf H. cbn [array_items] in H.
    split_stop H; try discriminate;
      repeat match goal with
             | E : scan_once _ f _ = Ok _ |- _ => apply R1 in E
             end;
      length_facts;
      match goal with
      | E : scan_once _ f ?x = Stop OutOfFuel |- _ =>
          apply IH1 in E; [contradiction | simpl in *; lia]
      | E : array_items _ f (skip_ws ?x) = Stop OutOfFuel |- _ =>
          apply IH2 in E;
          [contradiction | pose proof (skip_ws_length x); simpl in *; lia]
      end.
  - intros depth s Hf H. cbn [object_items] in H.
    split_stop H; try discriminate;
      repeat match goal with
             | E : scan_once _ f (skip_ws ?x) = Ok _ |- _ =>
                 apply R1 in E; pose proof (skip_ws_length x)
             end;
      length_facts;
      match goal with
      | E : scanstring _ = Stop OutOfFuel |- _ => now apply scanstring_fuel in E
      | E : scan_once _ f (skip_ws ?x) = Stop OutOfFuel |- _ =>
          apply IH1 in E;
          [contradiction | pose proof (skip_ws_length x); simpl in *; lia]
      | E : object_items _ f ?x = Stop OutOfFuel |- _ =>
          apply IH3 in E; [contradiction | simpl in *; lia]
      end.
Qed.

(** [json.loads] always comes to a verdict. *)
Lemma loads_fuel (s : str) : loads s <> Stop OutOfFuel.
Proof.
  unfold loads. intros H.
  destruct (scan_once scanner_depth (S (2 * length s)) (skip_ws s))
    as [[v r]|w] eqn:E;
    cbn [bind] in H.
  - destruct (skip_ws r); discriminate.
  - injection H as ->. revert E. apply scanners_fuel.
    pose proof (skip_ws_length s). lia.
Qed.

Lemma deserialize_message_fuel (data : list Byte.byte) :
  Protocol.deserialize_message data <> Stop OutOfFuel.
Proof.
  unfold Protocol.deserialize_message.
  destruct (utf8_decode data) as [json_str|]; [|discriminate].
  pose proof (loads_fuel json_str) as H.
  destruct (loads json_str) as [v|[| | | |]]; congruence.
Qed.

End FuelFacts.

Section DecoderStops.

Import Py JsonCodec.

Context {interp : Interpreter}.

(** What ends [deserialize_message] without a result: an exception it does
    not catch, or a float. *)
Lemma deserialize_message_stop (data : list Byte.byte) (w : stop) :
  Protocol.deserialize_message data = Stop w ->
  w = FloatValue \/ Protocol.uncaught w = true.
Proof.
  unfold Protocol.deserialize_message.
  destruct (utf8_decode data) as [json_str|]; [|discriminate].
  pose proof (loads_fuel json_str) as H.
  destruct (loads json_str) as [v|[| | | |]]; try discriminate;
    intros [= <-]; auto.
Qed.

End DecoderStops.

(** * Further properties of the code *)

(** ** Order of ids *)

Section OrderFacts.

Import Py.

Lemma N_compare_trans (x y z : N) (c : comparison) :
  (x ?= y)%N = c -> (y ?= z)%N = c -> (x ?= z)%N = c.
Proof.
  destruct c; intros H1 H2.
  - rewrite N.compare_eq_iff in *. congruence.
  - rewrite N.compare_lt_iff in *. lia.
  - rewrite N.compare_gt_iff in *. lia.
Qed.

Lemma str_compare_antisym (a b : str) :
  str_compare b a = CompOpp (str_compare a b).
Proof.
  apply (list_compare_antisym N.compare N.compare_eq_iff).
  intros. apply N.compare_antisym.
Qed.

Lemma str_compare_trans (a b c : str) (o : comparison) :
  str_compare a b = o -> str_compare b c = o -> str_compare a c = o.
Proof.
  apply (list_compare_trans N.compare N.compare_eq_iff).
  - exact N_compare_trans.
  - intros. apply N.compare_antisym.
Qed.

Lemma str_ltb_trans (a b c : str) :
  str_ltb a b = true -> str_ltb b c = true -> str_ltb a c = true.
Proof.
  unfold str_ltb. intros H1 H2.
  destruct (str_compare a b) eqn:E1; try discriminate.
  destruct (str_compare b c) eqn:E2; try discriminate.
  now rewrite (str_compare_trans a b c Lt E1 E2).
Qed.

Lemma str_ltb_irrefl (a : str) : str_ltb a a = false.
Proof.
  unfold str_ltb, str_compare.
  now rewrite (proj2 (list_compare_refl N.compare N.compare_eq_iff a a) eq_refl).
Qed.

Lemma str_ltb_asym (a b : str) : str_ltb a b = true -> str_ltb b a = false.
Proof.
  unfold str_ltb. rewrite (str_compare_antisym a b).
  now destruct (str_compare a b).
Qed.

Lemma str_leb_false (a b : str) : str_leb a b = false -> str_ltb b a = true.
Proof.
  unfold str_leb, str_gtb, str_ltb. rewrite (str_compare_antisym a b).
  now destruct (str_compare a b).
Qed.

Lemma str_leb_true (a b : str) : str_leb a b = true -> a = b \/ str_ltb a b = true.
Proof.
  unfold str_leb, str_gtb, str_ltb.
  destruct (str_compare a b) eqn:E; try discriminate; [left | now right].
  now apply (list_compare_refl N.compare N.compare_eq_iff).
Qed.

Lemma str_ltb_leb (a b : str) : str_ltb a b = true -> str_leb a b = true.
Proof.
  unfold str_leb, str_gtb, str_ltb. now destruct (str_compare a b).
Qed.

Lemma insert_In (x y : str) (l : list str) : In y (insert x l) <-> y = x \/ In y l.
Proof.
  split.
  - intros H. apply (Permutation_in _ (insert_perm x l)) in H.
    destruct H; auto.
  - intros H. apply (Permutation_in _ (Permutation_sym (insert_perm x l))).
    destruct H; [left | right]; auto.
Qed.

Lemma insert_sorted (x : str) (l : list str) :
  ~ In x l -> StronglySorted str_lt l -> StronglySorted str_lt (insert x l).
Proof.
  intros Hx Hs. induction Hs as [|y l Hs IH Hy]; simpl.
  - repeat constructor.
  - destruct (str_leb x y) eqn:E.
    + apply str_leb_true in E. destruct E as [->|E]; [simpl in Hx; tauto|].
      constructor; [now constructor|].
      constructor; [exact E|].
      eapply Forall_impl; [|exact Hy]. intros z Hz. exact (str_ltb_trans _ _ _ E Hz).
    + apply str_leb_false in E.
      constructor; [apply IH; simpl in Hx; tauto|].
      apply Forall_forall. intros z Hz. apply insert_In in Hz.
      destruct Hz as [->|Hz]; [exact E|].
      now apply (proj1 (Forall_forall _ _) Hy).
Qed.

Lemma sorted_strongly (l : list str) : NoDup l -> StronglySorted str_lt (sorted l).
Proof.
  induction 1 as [|x l Hx Hnd IH]; simpl; [constructor|].
  apply insert_sorted; [|exact IH].
  intros H. apply Hx. exact (proj1 (sorted_In _ _) H).
Qed.

(** A set of ids has one ascending enumeration. *)
Lemma strongly_sorted_unique (l l' : list str) :
  StronglySorted str_lt l -> StronglySorted str_lt l' ->
  (forall k, In k l <-> In k l') -> l = l'.
Proof.
  intros Hs. revert l'. induction Hs as [|x l Hs IH Hx]; intros l' Hs' Hin.
  - destruct l' as [|y l']; [reflexivity|].
    destruct (proj2 (Hin y) (or_introl eq_refl)).
  - destruct Hs' as [|y l' Hs' Hy].
    + destruct (proj1 (Hin x) (or_introl eq_refl)).
    + assert (x = y) as <-.
      { destruct (proj1 (Hin x) (or_introl eq_refl)) as [E|E]; [congruence|].
        destruct (proj2 (Hin y) (or_introl eq_refl)) as [E'|E']; [congruence|].
        pose proof (proj1 (Forall_forall _ _) Hy _ E) as L1.
        pose proof (proj1 (Forall_forall _ _) Hx _ E') as L2.
        apply str_ltb_asym in L1. unfold str_lt in L2. congruence. }
      f_equal. apply IH; [exact Hs'|].
      intros k. split; intros Hk.
      * destruct (proj1 (Hin k) (or_intror Hk)) as [E|E]; [|exact E].
        subst k. pose proof (proj1 (Forall_forall _ _) Hx _ Hk) as L.
        unfold str_lt in L. now rewrite str_ltb_irrefl in L.
      * destruct (proj2 (Hin k) (or_intror Hk)) as [E|E]; [|exact E].
        subst k. pose proof (proj1 (Forall_forall _ _) Hy _ Hk) as L.
        unfold str_lt in L. now rewrite str_ltb_irrefl in L.
Qed.

Lemma sorted_ext (l l' : list str) :
  NoDup l -> NoDup l' -> (forall k, In k l <-> In k l') -> sorted l = sorted l'.
Proof.
  intros Hl Hl' Hin. apply strongly_sorted_unique.
  - now apply sorted_strongly.
  - now apply sorted_strongly.
  - intros k. rewrite !sorted_In. apply Hin.
Qed.

Lemma index_nth (x : str) (l : list str) (i : nat) :
  NoDup l -> nth_error l i = Some x -> index x l = Some (Z.of_nat i).
Proof.
  intros Hnd Hi.
  destruct (index_In x l (nth_error_In _ _ Hi)) as (j & Hj & Hn).
  rewrite Hj. do 2 f_equal.
  apply (proj1 (NoDup_nth_error l) Hnd); [|congruence].
  apply nth_error_Some. congruence.
Qed.

End OrderFacts.

(** ** Ring manager: order, neighbours and leader flags of reachable views *)

Section RingOrder.

Import Py RingManager.

Implicit Types (self rm : RingManager.t).

Lemma run_order (own : str) (ops : list op) :
  ring_order (run own ops) = sorted (keys (ring_members (run own ops))).
Proof.
  destruct (ring_inv_run own ops) as (_ & _ & _ & _ & H).
  rewrite H. apply rebuild_order.
Qed.

Lemma run_nodup (own : str) (ops : list op) :
  NoDup (keys (ring_members (run own ops))).
Proof. now destruct (ring_inv_run own ops) as (_ & H & _). Qed.

Lemma run_own (own : str) (ops : list op) : own_server_id (run own ops) = own.
Proof. now destruct (ring_inv_run own ops) as (H & _). Qed.

Lemma ring_eta rm :
  rm = mk (own_server_id rm) (ring_members rm) (ring_order rm)
          (left_neighbor rm) (right_neighbor rm).
Proof. now destruct rm. Qed.

(** A consistent view is a fixed point of [_rebuild_ring]. *)
Lemma ring_inv_fixed (own : str) rm : ring_inv own rm -> _rebuild_ring rm = rm.
Proof.
  intros (_ & _ & Hl & Hr & Ho).
  rewrite (ring_eta (_rebuild_ring rm)), (ring_eta rm) at 1.
  rewrite rebuild_own, rebuild_members, <- Hl, <- Hr, <- Ho.
  now destruct rm.
Qed.

Lemma same_ids_In rm rm' :
  same_ids rm rm' = true ->
  forall k, In k (keys (ring_members rm)) <-> In k (keys (ring_members rm')).
Proof.
  unfold same_ids. intros H k. apply andb_true_iff in H as [H1 H2].
  rewrite forallb_forall in H1, H2.
  split; intros Hk.
  - apply dict_mem_In. now apply H1.
  - apply dict_mem_In. now apply H2.
Qed.

(** X1: in every view reached by [add_server], [remove_server] and
    [set_leader] calls, the ring order lists exactly the member ids, each
    once, in strictly ascending order. *)
Theorem ring_order_ascending (own : str) (ops : list op) :
  StronglySorted str_lt (ring_order (run own ops)) /\
  NoDup (ring_order (run own ops)) /\
  forall k, In k (ring_order (run own ops))
            <-> dict_mem k (ring_members (run own ops)) = true.
Proof.
  rewrite run_order. pose proof (run_nodup own ops) as Hnd.
  split; [now apply sorted_strongly|].
  split; [now apply sorted_NoDup|].
  intros k. rewrite sorted_In. symmetry. apply dict_mem_In.
Qed.

(** X2: the ring order is a function of the set of member ids alone: two
    views with the same member ids have the same ring order, whatever node
    holds them and in whatever order the members were added. *)
Theorem ring_order_depends_on_ids_only (own own' : str) (ops ops' : list op) :
  same_ids (run own ops) (run own' ops') = true ->
  ring_order (run own ops) = ring_order (run own' ops').
Proof.
  intros H. rewrite !run_order.
  apply sorted_ext; [apply run_nodup .. |]. now apply same_ids_In.
Qed.

Lemma ring_order_depends_on_ids_only_witness :
  same_ids
    (run (py "s1")
       [AddServer (py "s1") (py "10.0.0.1") 8001 false;
        AddServer (py "s2") (py "10.0.0.2") 8002 false;
        AddServer (py "s3") (py "10.0.0.3") 8003 false])
    (run (py "s3")
       [AddServer (py "s3") (py "10.0.0.3") 8003 false;
        AddServer (py "s4") (py "10.0.0.4") 8004 false;
        AddServer (py "s2") (py "10.0.0.2") 8002 false;
        RemoveServer (py "s4");
        AddServer (py "s1") (py "10.0.0.1") 8001 false;
        SetLeader (py "s2")]) = true /\
  ring_order
    (run (py "s1")
       [AddServer (py "s1") (py "10.0.0.1") 8001 false;
        AddServer (py "s2") (py "10.0.0.2") 8002 false;
        AddServer (py "s3") (py "10.0.0.3") 8003 false])
  = ring_order
    (run (py "s3")
       [AddServer (py "s3") (py "10.0.0.3") 8003 false;
        AddServer (py "s4") (py "10.0.0.4") 8004 false;
        AddServer (py "s2") (py "10.0.0.2") 8002 false;
        RemoveServer (py "s4");
        AddServer (py "s1") (py "10.0.0.1") 8001 false;
        SetLeader (py "s2")]).
Proof.
  split; [reflexivity|].
  apply ring_order_depends_on_ids_only. reflexivity.
Defined.

Lemma getitem_nat {A : Type} (l : list A) (i : nat) :
  getitem l (Z.of_nat i) = nth_error l i.
Proof.
  unfold getitem. destruct (Z.of_nat i <? 0)%Z eqn:E; [apply Z.ltb_lt in E; lia|].
  rewrite E. now rewrite Nat2Z.id.
Qed.

Lemma member_at_nat (m : dict ServerInfo.t) (order : list str) (j : nat) :
  (forall k, In k order -> In k (keys m)) ->
  member_at m order (Z.of_nat j) = nth_error order j.
Proof.
  intros Hsub. unfold member_at. rewrite getitem_nat.
  destruct (nth_error order j) as [r|] eqn:E; [|reflexivity].
  now rewrite (proj2 (dict_mem_In r m) (Hsub _ (nth_error_In _ _ E))).
Qed.

(** The neighbours [_rebuild_ring] picks, by position in the order: the next
    position and the previous one, wrapping at both ends. *)
Lemma rebuild_neighbors_at self (i : nat) :
  NoDup (keys (ring_members self)) ->
  nth_error (sorted (keys (ring_members self))) i = Some (own_server_id self) ->
  (2 <= length (sorted (keys (ring_members self))))%nat ->
  right_neighbor (_rebuild_ring self)
  = nth_error (sorted (keys (ring_members self)))
      (if (S i <? length (sorted (keys (ring_members self))))%nat
       then S i else 0%nat) /\
  left_neighbor (_rebuild_ring self)
  = nth_error (sorted (keys (ring_members self)))
      (if (i =? 0)%nat
       then (length (sorted (keys (ring_members self))) - 1)%nat
       else (i - 1)%nat).
Proof.
  intros Hnd. set (order := sorted (keys (ring_members self))).
  intros Hi Hn.
  assert (Hnd' : NoDup order) by now apply sorted_NoDup.
  assert (Hin : In (own_server_id self) order) by (eapply nth_error_In; eassumption).
  assert (Hlt : (i < length order)%nat) by (apply nth_error_Some; congruence).
  assert (Hsub : forall k, In k order -> In k (keys (ring_members self)))
    by (intros k; exact (proj1 (sorted_In _ _))).
  unfold _rebuild_ring. fold order.
  rewrite (proj2 (list_mem_In _ _) Hin). simpl.
  rewrite (index_nth _ _ _ Hnd' Hi).
  destruct (len order =? 1)%Z eqn:E; [apply Z.eqb_eq in E; unfold len in E; lia|].
  simpl. split.
  - destruct (S i <? length order)%nat eqn:B.
    + apply Nat.ltb_lt in B.
      replace ((Z.of_nat i + 1) mod len order)%Z with (Z.of_nat (S i)).
      * now apply member_at_nat.
      * unfold len. rewrite Z.mod_small; lia.
    + apply Nat.ltb_ge in B.
      replace ((Z.of_nat i + 1) mod len order)%Z with (Z.of_nat 0).
      * now apply member_at_nat.
      * unfold len. replace (Z.of_nat i + 1)%Z with (Z.of_nat (length order)) by lia.
        rewrite Z.mod_same; lia.
  - destruct (i =? 0)%nat eqn:B.
    + apply Nat.eqb_eq in B. subst i.
      replace ((Z.of_nat 0 - 1) mod len order)%Z with (Z.of_nat (length order - 1)).
      * now apply member_at_nat.
      * unfold len. apply (Z.mod_unique _ _ (-1)); lia.
    + apply Nat.eqb_neq in B.
      replace ((Z.of_nat i - 1) mod len order)%Z with (Z.of_nat (i - 1)).
      * now apply member_at_nat.
      * unfold len. rewrite Z.mod_small; lia.
Qed.

(** A view with a neighbour holds its own id and at least two members. *)
Lemma neighbor_needs_ring (own : str) rm :
  ring_inv own rm ->
  left_neighbor rm <> None \/ right_neighbor rm <> None ->
  exists i,
    nth_error (sorted (keys (ring_members rm))) i = Some own /\
    (2 <= length (sorted (keys (ring_members rm))))%nat.
Proof.
  intros Hinv Hsome. pose proof Hinv as (Ho & Hnd & Hl & Hr & _).
  destruct (rebuild_neighbors rm Hnd) as [Hout Hin]. rewrite Ho in *.
  rewrite <- Hl, <- Hr in *.
  destruct (dict_mem own (ring_members rm)) eqn:E.
  - destruct (Hin eq_refl) as [H1 _].
    assert (In own (sorted (keys (ring_members rm)))) as Hown
      by (apply sorted_In; now apply dict_mem_In).
    destruct (index_In _ _ Hown) as (i & _ & Hi). exists i. split; [exact Hi|].
    rewrite sorted_length. unfold keys. rewrite length_map.
    assert (length (ring_members rm) <> 1%nat).
    { intros L. destruct (H1 L) as [A B]. destruct Hsome; congruence. }
    assert (length (ring_members rm) <> 0%nat).
    { intros L. apply length_zero_iff_nil in L. rewrite L in E. discriminate. }
    lia.
  - destruct (Hout eq_refl) as [A B]. destruct Hsome; congruence.
Qed.

Lemma run_neighbors_at (own : str) (ops : list op) (i : nat) :
  nth_error (sorted (keys (ring_members (run own ops)))) i = Some own ->
  (2 <= length (sorted (keys (ring_members (run own ops)))))%nat ->
  right_neighbor (run own ops)
  = nth_error (sorted (keys (ring_members (run own ops))))
      (if (S i <? length (sorted (keys (ring_members (run own ops)))))%nat
       then S i else 0%nat) /\
  left_neighbor (run own ops)
  = nth_error (sorted (keys (ring_members (run own ops))))
      (if (i =? 0)%nat
       then (length (sorted (keys (ring_members (run own ops)))) - 1)%nat
       else (i - 1)%nat).
Proof.
  intros Hi Hn.
  pose proof (rebuild_neighbors_at (run own ops) i (run_nodup own ops)) as H.
  rewrite run_own, (ring_inv_fixed own _ (ring_inv_run own ops)) in H.
  now apply H.
Qed.

(** X3: neighbours agree across nodes.  When two nodes hold the same member
    ids, [b] is the right neighbour in the view of [a] exactly when [a] is
    the left neighbour in the view of [b]. *)
Theorem neighbors_agree_across_nodes (a b : str) (ops ops' : list op) :
  same_ids (run a ops) (run b ops') = true ->
  (right_neighbor (run a ops) = Some b <-> left_neighbor (run b ops') = Some a).
Proof.
  intros Hsame.
  assert (Hord : sorted (keys (ring_members (run a ops)))
                 = sorted (keys (ring_members (run b ops')))).
  { apply sorted_ext; [apply run_nodup .. |]. now apply same_ids_In. }
  split; intros H.
  - destruct (neighbor_needs_ring a _ (ring_inv_run a ops)) as (i & Hi & Hn);
      [right; congruence|].
    destruct (run_neighbors_at a ops i Hi Hn) as [Hr _].
    rewrite H, Hord in Hr. rewrite Hord in Hi, Hn. symmetry in Hr.
    assert (Hlt : (i < length (sorted (keys (ring_members (run b ops')))))%nat)
      by (apply nth_error_Some; congruence).
    destruct (run_neighbors_at b ops' _ Hr Hn) as [_ Hl].
    rewrite Hl, <- Hi. f_equal.
    destruct (S i <? _)%nat eqn:B.
    + simpl. lia.
    + apply Nat.ltb_ge in B. simpl. lia.
  - destruct (neighbor_needs_ring b _ (ring_inv_run b ops')) as (j & Hj & Hn);
      [left; congruence|].
    destruct (run_neighbors_at b ops' j Hj Hn) as [_ Hl].
    rewrite H, <- Hord in Hl. rewrite <- Hord in Hj, Hn. symmetry in Hl.
    assert (Hlt : (j < length (sorted (keys (ring_members (run a ops)))))%nat)
      by (apply nth_error_Some; congruence).
    destruct (run_neighbors_at a ops _ Hl Hn) as [Hr _].
    rewrite Hr, <- Hj. f_equal.
    destruct (j =? 0)%nat eqn:B.
    + apply Nat.eqb_eq in B. subst j.
      match goal with
      | |- context [(?x <? ?y)%nat] =>
          replace (x <? y)%nat with false; [reflexivity|];
          symmetry; apply Nat.ltb_ge; lia
      end.
    + apply Nat.eqb_neq in B.
      match goal with
      | |- context [(?x <? ?y)%nat] =>
          replace (x <? y)%nat with true; [lia|];
          symmetry; apply Nat.ltb_lt; lia
      end.
Qed.

Lemma neighbors_agree_across_nodes_witness :
  same_ids
    (run (py "s3")
       [AddServer (py "s3") (py "10.0.0.3") 8003 false;
        AddServer (py "s1") (py "10.0.0.1") 8001 false;
        AddServer (py "s2") (py "10.0.0.2") 8002 false])
    (run (py "s1")
       [AddServer (py "s1") (py "10.0.0.1") 8001 false;
        AddServer (py "s2") (py "10.0.0.2") 8002 false;
        AddServer (py "s3") (py "10.0.0.3") 8003 false]) = true /\
  (right_neighbor
     (run (py "s3")
        [AddServer (py "s3") (py "10.0.0.3") 8003 false;
         AddServer (py "s1") (py "10.0.0.1") 8001 false;
         AddServer (py "s2") (py "10.0.0.2") 8002 false]) = Some (py "s1")
   <-> left_neighbor
     (run (py "s1")
        [AddServer (py "s1") (py "10.0.0.1") 8001 false;
         AddServer (py "s2") (py "10.0.0.2") 8002 false;
         AddServer (py "s3") (py "10.0.0.3") 8003 false]) = Some (py "s3")).
Proof.
  split; [reflexivity|].
  apply neighbors_agree_across_nodes. reflexivity.
Defined.

End RingOrder.

Section RingUpdates.

Import Py RingManager.

Implicit Types (self rm : RingManager.t).

(** X4: in a reachable view with exactly two members, one of them the node
    itself, the other member is both the left and the right neighbour. *)
Theorem two_member_ring (own : str) (ops : list op) :
  dict_mem own (ring_members (run own ops)) = true ->
  length (ring_members (run own ops)) = 2%nat ->
  exists other,
    other <> own /\
    dict_mem other (ring_members (run own ops)) = true /\
    left_neighbor (run own ops) = Some other /\
    right_neighbor (run own ops) = Some other.
Proof.
  intros Hown Hlen.
  pose proof (ring_inv_run own ops) as Hinv.
  pose proof Hinv as (Ho & Hnd & _).
  destruct (rebuild_neighbors _ Hnd) as [_ Hin]. rewrite Ho in Hin.
  destruct (Hin Hown) as [_ H2].
  destruct H2 as (l & r & Hl & Hr & Hlo & Hro & Hlin & Hrin); [lia|].
  rewrite (ring_inv_fixed own _ Hinv) in Hl, Hr.
  apply dict_mem_In in Hown.
  assert (l = r) as <-.
  { destruct (ring_members (run own ops)) as [|[k1 v1] [|[k2 v2] [|]]];
      try discriminate.
    simpl in *. intuition congruence. }
  exists l. repeat split; trivial. now apply dict_mem_In.
Qed.

Lemma two_member_ring_witness :
  dict_mem (py "s2")
    (ring_members
       (run (py "s2")
          [AddServer (py "s2") (py "10.0.0.2") 8002 false;
           AddServer (py "s1") (py "10.0.0.1") 8001 false])) = true /\
  length
    (ring_members
       (run (py "s2")
          [AddServer (py "s2") (py "10.0.0.2") 8002 false;
           AddServer (py "s1") (py "10.0.0.1") 8001 false])) = 2%nat /\
  exists other,
    other <> py "s2" /\
    dict_mem other
      (ring_members
         (run (py "s2")
            [AddServer (py "s2") (py "10.0.0.2") 8002 false;
             AddServer (py "s1") (py "10.0.0.1") 8001 false])) = true /\
    left_neighbor
      (run (py "s2")
         [AddServer (py "s2") (py "10.0.0.2") 8002 false;
          AddServer (py "s1") (py "10.0.0.1") 8001 false]) = Some other /\
    right_neighbor
      (run (py "s2")
         [AddServer (py "s2") (py "10.0.0.2") 8002 false;
          AddServer (py "s1") (py "10.0.0.1") 8001 false]) = Some other.
Proof.
  split; [reflexivity|]. split; [reflexivity|].
  apply two_member_ring; reflexivity.
Defined.

Lemma dict_del_last {V : Type} (x : str) (v : V) (d : dict V) :
  dict_mem x d = false -> dict_del x (d ++ [(x, v)]) = d.
Proof.
  unfold dict_mem. induction d as [|[k w] d IH]; simpl.
  - now rewrite str_eqb_refl.
  - destruct (str_eqb k x); [discriminate|]. intros H. now rewrite IH.
Qed.

(** X5: adding a server that is not a member and removing it again gives the
    view back as it was: members, ring order, neighbours and leader flags. *)
Theorem add_then_remove_restores (own : str) (ops : list op) (x ip : str)
        (port : Z) (l : bool) :
  dict_mem x (ring_members (run own ops)) = false ->
  remove_server (add_server (run own ops) x ip port l) x = run own ops.
Proof.
  intros Hx. pose proof (ring_inv_run own ops) as Hinv.
  unfold add_server. rewrite Hx.
  unfold remove_server. rewrite rebuild_members. simpl.
  rewrite keys_dict_set_new by assumption.
  assert (dict_mem x (ring_members (run own ops) ++
                      [(x, ServerInfo.set_is_leader l (ServerInfo.init x ip port))])
          = true) as ->.
  { apply dict_mem_In. unfold keys. rewrite map_app.
    apply in_or_app. right. now left. }
  simpl. rewrite dict_del_last by assumption.
  transitivity (_rebuild_ring (run own ops)); [|exact (ring_inv_fixed own _ Hinv)].
  apply rebuild_ext; simpl; [now rewrite rebuild_own | reflexivity].
Qed.

Lemma add_then_remove_restores_witness :
  dict_mem (py "s4") (ring_members (run (py "s2") ex_ops)) = false /\
  remove_server
    (add_server (run (py "s2") ex_ops) (py "s4") (py "10.0.0.4") 8004 false)
    (py "s4")
  = run (py "s2") ex_ops.
Proof.
  split; [reflexivity|].
  apply add_then_remove_restores. reflexivity.
Defined.

Lemma set_is_leader_twice (b b' : bool) (s : ServerInfo.t) :
  ServerInfo.set_is_leader b' (ServerInfo.set_is_leader b s)
  = ServerInfo.set_is_leader b' s.
Proof. reflexivity. Qed.

Lemma clear_flags_idem (m : dict ServerInfo.t) :
  clear_flags (clear_flags m) = clear_flags m.
Proof.
  unfold clear_flags. rewrite map_map. apply map_ext. now intros [k v].
Qed.

Lemma clear_flags_set (k : str) (b : bool) (s : ServerInfo.t) (m : dict ServerInfo.t) :
  dict_get k m = Some s ->
  clear_flags (dict_set k (ServerInfo.set_is_leader b s) m) = clear_flags m.
Proof.
  induction m as [|[k' v'] m IH]; simpl; [discriminate|].
  destruct (str_eqb k' k).
  - intros [= ->]. reflexivity.
  - intros H. simpl. now rewrite IH.
Qed.

Lemma cleared_after_set_leader rm (y : str) :
  clear_flags (ring_members (set_leader rm y)) = clear_flags (ring_members rm).
Proof.
  unfold set_leader.
  destruct (dict_get y (clear_flags (ring_members rm))) as [s|] eqn:E; simpl.
  - rewrite (clear_flags_set _ _ _ _ E). apply clear_flags_idem.
  - apply clear_flags_idem.
Qed.

(** X6: the last [set_leader] wins: whatever leader was set before, the view
    after [set_leader(x)] is the one [set_leader(x)] gives on its own; in
    particular [set_leader] is idempotent. *)
Theorem set_leader_last_wins (rm : RingManager.t) (x y : str) :
  set_leader (set_leader rm y) x = set_leader rm x.
Proof.
  unfold set_leader at 1. rewrite cleared_after_set_leader.
  unfold set_leader at 3.
  assert (E : forall m, with_members (set_leader rm y) m = with_members rm m).
  { intros m. unfold set_leader.
    now destruct (dict_get y (clear_flags (ring_members rm))). }
  destruct (dict_get x (clear_flags (ring_members rm))); apply E.
Qed.

Lemma find_set_cleared (k : str) (v : ServerInfo.t) (m : dict ServerInfo.t) :
  dict_mem k m = true -> ServerInfo.is_leader v = true ->
  find ServerInfo.is_leader (values (dict_set k v (clear_flags m))) = Some v.
Proof.
  unfold dict_mem. intros Hk Hv.
  induction m as [|[k' v'] m IH]; simpl in *; [discriminate|].
  destruct (str_eqb k' k); simpl.
  - now rewrite Hv.
  - now apply IH.
Qed.

Lemma keyed_cleared (m : dict ServerInfo.t) : keyed m -> keyed (clear_flags m).
Proof.
  unfold keyed, clear_flags. intros H. apply Forall_map.
  eapply Forall_impl; [|exact H]. now intros [k v].
Qed.

Lemma keyed_get (k : str) (s : ServerInfo.t) (m : dict ServerInfo.t) :
  keyed m -> dict_get k m = Some s -> ServerInfo.server_id s = k.
Proof.
  unfold keyed. induction m as [|[k' v'] m IH]; simpl; [discriminate|].
  intros H. inversion H as [|? ? Hk Hm]; subst. simpl in Hk.
  destruct (str_eqb k' k) eqn:E.
  - intros [= <-]. apply str_eqb_eq in E. congruence.
  - now apply IH.
Qed.

Lemma keyed_set (k : str) (v : ServerInfo.t) (m : dict ServerInfo.t) :
  keyed m -> ServerInfo.server_id v = k -> keyed (dict_set k v m).
Proof.
  unfold keyed. intros H Hv. induction H as [|[k' v'] m Hk Hm IH]; simpl.
  - repeat constructor. exact Hv.
  - destruct (str_eqb k' k) eqn:E.
    + apply str_eqb_eq in E. subst k'. constructor; assumption.
    + constructor; assumption.
Qed.

Lemma keyed_del (k : str) (m : dict ServerInfo.t) : keyed m -> keyed (dict_del k m).
Proof.
  unfold keyed. intros H. induction H as [|[k' v'] m Hk Hm IH]; simpl.
  - constructor.
  - destruct (str_eqb k' k); [assumption | now constructor].
Qed.

Lemma keyed_apply rm (o : op) :
  keyed (ring_members rm) -> keyed (ring_members (apply rm o)).
Proof.
  intros H. destruct o as [id ip port l | id | id]; simpl.
  - unfold add_server. destruct (dict_mem id (ring_members rm)); [assumption|].
    rewrite rebuild_members. simpl. now apply keyed_set.
  - unfold remove_server. destruct (dict_mem id (ring_members rm)); simpl; [|assumption].
    rewrite rebuild_members. simpl. now apply keyed_del.
  - unfold set_leader.
    destruct (dict_get id (clear_flags (ring_members rm))) as [s|] eqn:E; simpl.
    + apply keyed_set; [now apply keyed_cleared|].
      simpl. eapply keyed_get; [apply keyed_cleared; eassumption | exact E].
    + now apply keyed_cleared.
Qed.

Lemma keyed_fold (ops : list op) rm :
  keyed (ring_members rm) -> keyed (ring_members (fold_left apply ops rm)).
Proof.
  revert rm. induction ops as [|o ops IH]; simpl; [trivial|].
  intros rm H. now apply IH, keyed_apply.
Qed.

(** Every record of a reachable view is stored under its own id. *)
Lemma keyed_run (own : str) (ops : list op) : keyed (ring_members (run own ops)).
Proof. apply keyed_fold. constructor. Qed.

(** X7: after [set_leader(x)] on a member [x] of a reachable view, [x] is the
    one and only leader: [is_leader(y)] holds exactly for [y = x], and
    [get_leader] returns the record of [x]. *)
Theorem set_leader_elects (own : str) (ops : list op) (x : str) :
  dict_mem x (ring_members (run own ops)) = true ->
  (forall y, is_leader (set_leader (run own ops) x) y = str_eqb y x) /\
  exists s,
    get_leader (set_leader (run own ops) x) = Some s /\
    get_server (set_leader (run own ops) x) x = Some s /\
    ServerInfo.server_id s = x /\ ServerInfo.is_leader s = true.
Proof.
  intros Hx. set (rm := run own ops) in *. split.
  - intros y. unfold is_leader.
    destruct (dict_get y (ring_members (set_leader rm x))) as [s|] eqn:E.
    + exact (set_leader_flags _ _ _ _ E).
    + symmetry. apply str_eqb_neq. intros ->.
      assert (dict_mem x (ring_members (set_leader rm x)) = true) as H.
      { rewrite (dict_mem_keys_ext x _ (ring_members rm)); [exact Hx|].
        apply keys_set_leader. }
      unfold dict_mem in H. now rewrite E in H.
  - assert (Hc : dict_mem x (clear_flags (ring_members rm)) = true).
    { rewrite (dict_mem_keys_ext x _ (ring_members rm)); [exact Hx|].
      apply keys_cleared. }
    unfold get_leader, get_server, set_leader.
    pose proof Hc as Hc'. unfold dict_mem in Hc'.
    destruct (dict_get x (clear_flags (ring_members rm))) as [s|] eqn:E;
      [|discriminate].
    simpl. exists (ServerInfo.set_is_leader true s).
    split; [now apply find_set_cleared|].
    split; [rewrite dict_get_set by exact Hc; now rewrite str_eqb_refl|].
    split; [|reflexivity].
    simpl. eapply keyed_get; [|exact E]. apply keyed_cleared, keyed_run.
Qed.

Lemma set_leader_elects_witness :
  dict_mem (py "s3") (ring_members (run (py "s2") ex_ops)) = true /\
  (forall y, is_leader (set_leader (run (py "s2") ex_ops) (py "s3")) y
             = str_eqb y (py "s3")) /\
  exists s,
    get_leader (set_leader (run (py "s2") ex_ops) (py "s3")) = Some s /\
    get_server (set_leader (run (py "s2") ex_ops) (py "s3")) (py "s3") = Some s /\
    ServerInfo.server_id s = py "s3" /\ ServerInfo.is_leader s = true.
Proof.
  split; [reflexivity|].
  apply set_leader_elects. reflexivity.
Defined.

Lemma topology_ids_of (m : dict ServerInfo.t) (order : list str)
      (topology : list Json.t) :
  keyed m -> topology_of m order = Some topology ->
  topology_ids topology = map Json.Str order.
Proof.
  intros Hk. revert topology.
  induction order as [|sid order IH]; simpl; intros topology.
  - now intros [= <-].
  - destruct (dict_get sid m) as [s|] eqn:E; [|discriminate].
    destruct (topology_of m order) as [l|]; [|discriminate].
    intros [= <-]. simpl. rewrite (IH l eq_refl).
    f_equal. unfold Json.get. simpl.
    now rewrite (keyed_get _ _ _ Hk E).
Qed.

(** X8: [get_ring_topology] never raises on a reachable view; it has one
    entry for every member, and the entries list the ids in ring order. *)
Theorem topology_follows_ring_order (own : str) (ops : list op) :
  exists topology,
    get_ring_topology (run own ops) = Some topology /\
    length topology = length (ring_members (run own ops)) /\
    topology_ids topology = map Json.Str (ring_order (run own ops)).
Proof.
  pose proof (ring_inv_order_in_members own _ (ring_inv_run own ops)) as H.
  destruct (topology_defined _ _ H) as [topology Ht].
  exists topology. split; [exact Ht|].
  pose proof (topology_ids_of _ _ _ (keyed_run own ops) Ht) as Hids.
  split; [|exact Hids].
  apply (f_equal (@length _)) in Hids.
  unfold topology_ids in Hids. rewrite !length_map in Hids.
  rewrite Hids, run_order, sorted_length. unfold keys. apply length_map.
Qed.

End RingUpdates.

(** ** Election engine: start, timer and the two-node ring *)

Section ElectionRuns.

Import Py ElectionService.

Lemma ids_are_spec (rm : RingManager.t) (ids : list str) :
  ids_are rm ids = true ->
  (forall k, In k ids -> dict_mem k (RingManager.ring_members rm) = true) /\
  (forall k, dict_mem k (RingManager.ring_members rm) = true -> In k ids).
Proof.
  unfold ids_are. intros H. apply andb_true_iff in H as [H1 H2].
  rewrite forallb_forall in H1, H2. split; [exact H1|].
  intros k Hk. apply list_mem_In, H2. now apply dict_mem_In.
Qed.

(** In a view of two members each is both neighbours of the other. *)
Lemma pair_neighbors (own other : str) (ops : list RingManager.op) :
  own <> other ->
  dict_mem own (RingManager.ring_members (RingManager.run own ops)) = true ->
  dict_mem other (RingManager.ring_members (RingManager.run own ops)) = true ->
  (forall k, dict_mem k (RingManager.ring_members (RingManager.run own ops)) = true ->
             k = own \/ k = other) ->
  RingManager.left_neighbor (RingManager.run own ops) = Some other /\
  RingManager.right_neighbor (RingManager.run own ops) = Some other.
Proof.
  intros Hne Hown Hother Hall.
  pose proof (ring_inv_run own ops) as Hinv.
  pose proof Hinv as (Ho & Hnd & _).
  destruct (rebuild_neighbors _ Hnd) as [_ Hin]. rewrite Ho in Hin.
  destruct (Hin Hown) as [_ H2].
  rewrite (ring_inv_fixed own _ Hinv) in H2.
  destruct H2 as (l & r & Hl & Hr & Hlo & Hro & Hlin & Hrin).
  - apply dict_mem_In in Hown, Hother.
    destruct (RingManager.ring_members (RingManager.run own ops))
      as [|[k1 v1] [|[k2 v2] m]]; simpl in *; [tauto | | lia].
    intuition congruence.
  - apply dict_mem_In, Hall in Hlin. apply dict_mem_In, Hall in Hrin.
    split; [rewrite Hl | rewrite Hr]; f_equal; tauto.
Qed.

Lemma solo_neighbors (own : str) (ops : list RingManager.op) :
  dict_mem own (RingManager.ring_members (RingManager.run own ops)) = true ->
  length (RingManager.ring_members (RingManager.run own ops)) = 1%nat ->
  RingManager.left_neighbor (RingManager.run own ops) = None /\
  RingManager.right_neighbor (RingManager.run own ops) = None.
Proof.
  intros Hown Hlen.
  pose proof (ring_inv_run own ops) as Hinv.
  pose proof Hinv as (Ho & Hnd & _).
  destruct (rebuild_neighbors _ Hnd) as [_ Hin]. rewrite Ho in Hin.
  destruct (Hin Hown) as [H1 _].
  rewrite (ring_inv_fixed own _ Hinv) in H1. now apply H1.
Qed.

Lemma is_leader_set_leader_self (rm : RingManager.t) (x : str) :
  dict_mem x (RingManager.ring_members rm) = true ->
  RingManager.is_leader (RingManager.set_leader rm x) x = true.
Proof.
  intros Hx. unfold RingManager.is_leader.
  assert (dict_mem x (RingManager.ring_members (RingManager.set_leader rm x)) = true) as H.
  { rewrite (dict_mem_keys_ext x _ (RingManager.ring_members rm)); [exact Hx|].
    apply keys_set_leader. }
  unfold dict_mem in H.
  destruct (dict_get x (RingManager.ring_members (RingManager.set_leader rm x)))
    as [s|] eqn:E; [|discriminate].
  rewrite (set_leader_flags _ _ _ _ E). apply str_eqb_refl.
Qed.

(** X9: a node that is alone in its view elects itself: [start_election]
    makes it the leader at once, reports it through [on_leader_elected],
    sends no record and starts no election round. *)
Theorem start_election_single_node (env : Env.t) (own : str)
        (ops : list RingManager.op) (es : ElectionService.t) :
  dict_mem own (RingManager.ring_members (RingManager.run own ops)) = true ->
  length (RingManager.ring_members (RingManager.run own ops)) = 1%nat ->
  server_id es = own ->
  on_leader_elected es = true ->
  events_of (start_election env (RingManager.run own ops) es)
  = [LeaderElected (Json.Str own)] /\
  RingManager.is_leader (ring_of (start_election env (RingManager.run own ops) es)) own
  = true /\
  service_of (start_election env (RingManager.run own ops) es) = es /\
  raised_of (start_election env (RingManager.run own ops) es) = None.
Proof.
  intros Hown Hlen Hid Hcb.
  destruct (solo_neighbors own ops Hown Hlen) as [_ Hr].
  unfold start_election. rewrite Hr, Hcb, Hid. simpl.
  repeat split. now apply is_leader_set_leader_self.
Qed.

Lemma start_election_single_node_witness :
  dict_mem (py "s1")
    (RingManager.ring_members
       (RingManager.run (py "s1")
          [RingManager.AddServer (py "s1") (py "10.0.0.1") 8001 false])) = true /\
  length
    (RingManager.ring_members
       (RingManager.run (py "s1")
          [RingManager.AddServer (py "s1") (py "10.0.0.1") 8001 false])) = 1%nat /\
  server_id (bound_election (py "s1")) = py "s1" /\
  on_leader_elected (bound_election (py "s1")) = true /\
  events_of
    (start_election ex_env
       (RingManager.run (py "s1")
          [RingManager.AddServer (py "s1") (py "10.0.0.1") 8001 false])
       (bound_election (py "s1")))
  = [LeaderElected (Json.Str (py "s1"))] /\
  RingManager.is_leader
    (ring_of
       (start_election ex_env
          (RingManager.run (py "s1")
             [RingManager.AddServer (py "s1") (py "10.0.0.1") 8001 false])
          (bound_election (py "s1"))))
    (py "s1") = true /\
  service_of
    (start_election ex_env
       (RingManager.run (py "s1")
          [RingManager.AddServer (py "s1") (py "10.0.0.1") 8001 false])
       (bound_election (py "s1")))
  = bound_election (py "s1") /\
  raised_of
    (start_election ex_env
       (RingManager.run (py "s1")
          [RingManager.AddServer (py "s1") (py "10.0.0.1") 8001 false])
       (bound_election (py "s1")))
  = None.
Proof.
  do 4 (split; [reflexivity|]).
  apply start_election_single_node; reflexivity.
Defined.

Lemma start_election_fresh (env : Env.t) (rm : RingManager.t)
      (es : ElectionService.t) (r : str) :
  RingManager.right_neighbor rm = Some r ->
  election_in_progress es = false ->
  send_to_neighbor es = true ->
  start_election env rm es
  = (rm,
     _start_election_timer
       (with_candidate
          (with_election_id (with_in_progress es true) (Json.Int (Env.time_ms env)))
          (Json.Str (server_id es)) (Json.Str (server_id es))),
     [Sleep ELECTION_MESSAGE_DELAY;
      SendToServer r
        (Json.Dict (Protocol.create_election_message env
                      (Json.Str (server_id es)) (Json.Str (server_id es)) (Json.Int 0)))],
     None).
Proof.
  intros Hr Hp Hs. unfold start_election, _send_election_message.
  rewrite Hr, Hp. simpl. now rewrite Hs.
Qed.

(** X10: [start_election] at a node with a right neighbour [r] and no election
    in progress sends one [ELECTION] record to [r], with the node as candidate
    and originator and hop count 0, and arms the timer; a second
    [start_election] right after it changes nothing and sends nothing. *)
Theorem start_election_once (env env' : Env.t) (rm : RingManager.t)
        (es : ElectionService.t) (r : str) :
  RingManager.right_neighbor rm = Some r ->
  election_in_progress es = false ->
  send_to_neighbor es = true ->
  sent (events_of (start_election env rm es))
  = [(r, Json.Dict (Protocol.create_election_message env
                      (Json.Str (server_id es)) (Json.Str (server_id es)) (Json.Int 0)))] /\
  election_in_progress (service_of (start_election env rm es)) = true /\
  election_timer (service_of (start_election env rm es)) = true /\
  start_election env' (ring_of (start_election env rm es))
                      (service_of (start_election env rm es))
  = (ring_of (start_election env rm es), service_of (start_election env rm es),
     [], None).
Proof.
  intros Hr Hp Hs. rewrite (start_election_fresh env rm es r Hr Hp Hs).
  simpl. repeat split. unfold start_election. now rewrite Hr.
Qed.

Lemma start_election_once_witness :
  RingManager.right_neighbor ex_ring = Some (py "s3") /\
  election_in_progress ex_election = false /\
  send_to_neighbor ex_election = true /\
  sent (events_of (start_election ex_env ex_ring ex_election))
  = [(py "s3",
      Json.Dict (Protocol.create_election_message ex_env
                   (Json.Str (server_id ex_election))
                   (Json.Str (server_id ex_election)) (Json.Int 0)))] /\
  election_in_progress (service_of (start_election ex_env ex_ring ex_election)) = true /\
  election_timer (service_of (start_election ex_env ex_ring ex_election)) = true /\
  start_election ex_env (ring_of (start_election ex_env ex_ring ex_election))
                 (service_of (start_election ex_env ex_ring ex_election))
  = (ring_of (start_election ex_env ex_ring ex_election),
     service_of (start_election ex_env ex_ring ex_election), [], None).
Proof.
  do 3 (split; [reflexivity|]).
  apply (start_election_once ex_env ex_env ex_ring ex_election (py "s3")); reflexivity.
Defined.

(** X11: when the election timer expires at a node with a right neighbour
    [r], the node starts a new round whatever state the service was in: one
    [ELECTION] record with the node as candidate and originator goes to [r],
    an election is in progress and the timer is armed again. *)
Theorem election_timeout_restarts (env : Env.t) (rm : RingManager.t)
        (es : ElectionService.t) (r : str) :
  RingManager.right_neighbor rm = Some r ->
  send_to_neighbor es = true ->
  sent (events_of (ElectionTimer.timeout_handler env rm es))
  = [(r, Json.Dict (Protocol.create_election_message env
                      (Json.Str (server_id es)) (Json.Str (server_id es)) (Json.Int 0)))] /\
  election_in_progress (service_of (ElectionTimer.timeout_handler env rm es)) = true /\
  election_timer (service_of (ElectionTimer.timeout_handler env rm es)) = true /\
  ring_of (ElectionTimer.timeout_handler env rm es) = rm /\
  raised_of (ElectionTimer.timeout_handler env rm es) = None.
Proof.
  intros Hr Hs. unfold ElectionTimer.timeout_handler. rewrite Hr.
  rewrite (start_election_fresh env rm _ r Hr); [|reflexivity | exact Hs].
  simpl. repeat split.
Qed.

Lemma election_timeout_restarts_witness :
  RingManager.right_neighbor ex_ring = Some (py "s3") /\
  send_to_neighbor (service_of ex_started) = true /\
  sent (events_of (ElectionTimer.timeout_handler ex_env ex_ring (service_of ex_started)))
  = [(py "s3",
      Json.Dict (Protocol.create_election_message ex_env
                   (Json.Str (server_id (service_of ex_started)))
                   (Json.Str (server_id (service_of ex_started))) (Json.Int 0)))] /\
  election_in_progress
    (service_of (ElectionTimer.timeout_handler ex_env ex_ring (service_of ex_started)))
  = true /\
  election_timer
    (service_of (ElectionTimer.timeout_handler ex_env ex_ring (service_of ex_started)))
  = true /\
  ring_of (ElectionTimer.timeout_handler ex_env ex_ring (service_of ex_started))
  = ex_ring /\
  raised_of (ElectionTimer.timeout_handler ex_env ex_ring (service_of ex_started))
  = None.
Proof.
  do 2 (split; [reflexivity|]).
  apply (election_timeout_restarts ex_env ex_ring (service_of ex_started) (py "s3"));
    reflexivity.
Defined.

End ElectionRuns.

Section ElectionFrames.

Import Py ElectionService.

Lemma same_members_refl (rm : RingManager.t) : same_members rm rm.
Proof. unfold same_members. auto. Qed.

Lemma same_members_trans (rm1 rm2 rm3 : RingManager.t) :
  same_members rm1 rm2 -> same_members rm2 rm3 -> same_members rm1 rm3.
Proof.
  unfold same_members. intros (A1 & A2 & A3 & A4 & A5) (B1 & B2 & B3 & B4 & B5).
  repeat split; congruence.
Qed.

Lemma addresses_cleared (m : dict ServerInfo.t) :
  map (fun kv => (fst kv, RingManager.address (snd kv))) (RingManager.clear_flags m)
  = map (fun kv => (fst kv, RingManager.address (snd kv))) m.
Proof.
  unfold RingManager.clear_flags. rewrite map_map. apply map_ext. now intros [k v].
Qed.

Lemma addresses_set_flag (k : str) (b : bool) (s : ServerInfo.t)
      (m : dict ServerInfo.t) :
  dict_get k m = Some s ->
  map (fun kv => (fst kv, RingManager.address (snd kv)))
      (dict_set k (ServerInfo.set_is_leader b s) m)
  = map (fun kv => (fst kv, RingManager.address (snd kv))) m.
Proof.
  induction m as [|[k' v'] m IH]; simpl; [discriminate|].
  destruct (str_eqb k' k).
  - intros [= ->]. reflexivity.
  - intros H. simpl. now rewrite IH.
Qed.

Lemma same_members_cleared (rm : RingManager.t) :
  same_members rm
    (RingManager.with_members rm (RingManager.clear_flags (RingManager.ring_members rm))).
Proof.
  unfold same_members. simpl. rewrite addresses_cleared. auto.
Qed.

Lemma same_members_set_leader (rm : RingManager.t) (x : str) :
  same_members rm (RingManager.set_leader rm x).
Proof.
  unfold RingManager.set_leader.
  destruct (dict_get x (RingManager.clear_flags (RingManager.ring_members rm)))
    as [s|] eqn:E.
  - unfold same_members. simpl.
    rewrite (addresses_set_flag _ _ _ _ E), addresses_cleared. auto.
  - apply same_members_cleared.
Qed.

Lemma same_members_ring_set_leader (rm : RingManager.t) (v : Json.t) :
  same_members rm (fst (ring_set_leader rm v)).
Proof.
  destruct v; simpl; try apply same_members_cleared.
  apply same_members_set_leader.
Qed.

Lemma same_members_complete (env : Env.t) (rm : RingManager.t)
      (es : ElectionService.t) (v : Json.t) :
  same_members rm (ring_of (_complete_election env rm es v)).
Proof.
  unfold _complete_election.
  pose proof (same_members_ring_set_leader rm v) as H.
  destruct (ring_set_leader rm v) as [rm1 [e|]]; simpl in *; [exact H|].
  destruct (_announce_leader env rm1 es v) as [out [e|]]; exact H.
Qed.

Lemma same_members_start (env : Env.t) (rm : RingManager.t) (es : ElectionService.t) :
  same_members rm (ring_of (start_election env rm es)).
Proof.
  unfold start_election.
  destruct (RingManager.right_neighbor rm).
  - destruct (election_in_progress es); apply same_members_refl.
  - apply same_members_set_leader.
Qed.

Lemma same_members_election (env : Env.t) (rm : RingManager.t)
      (es : ElectionService.t) (m : message) :
  same_members rm (ring_of (handle_election_message env rm es m)).
Proof.
  unfold handle_election_message. cbv zeta.
  destruct (RingManager.right_neighbor rm); [|apply same_members_refl].
  match goal with
  | |- context [Json.eq_str ?x ?y] => destruct (Json.eq_str x y)
  end; [apply same_members_complete|].
  repeat match goal with
         | |- context [Json.gt_str ?x ?y] => destruct (Json.gt_str x y) as [[|]|]
         | |- context [Json.lt_str ?x ?y] => destruct (Json.lt_str x y) as [[|]|]
         | |- context [Json.add_int ?x ?y] => destruct (Json.add_int x y)
         end;
    apply same_members_refl.
Qed.

Lemma same_members_announcement (env : Env.t) (rm : RingManager.t)
      (es : ElectionService.t) (m : message) :
  same_members rm (ring_of (handle_leader_announcement env rm es m)).
Proof.
  unfold handle_leader_announcement. cbv zeta.
  pose proof (same_members_ring_set_leader rm (Json.get m (py "leader_id"))) as H.
  destruct (ring_set_leader rm (Json.get m (py "leader_id"))) as [rm1 [e|]];
    simpl in *; [exact H|].
  destruct (negb _); [|exact H].
  destruct (_forward_leader_announcement env rm1 _ _); exact H.
Qed.

Lemma same_members_timeout (env : Env.t) (rm : RingManager.t) (es : ElectionService.t) :
  same_members rm (ring_of (ElectionTimer.timeout_handler env rm es)).
Proof.
  unfold ElectionTimer.timeout_handler.
  destruct (RingManager.right_neighbor rm) eqn:E.
  - pose proof (same_members_start env rm
                  (with_timer (with_in_progress es false) false)) as H.
    destruct (start_election env rm _) as [[[rm1 es1] out] e]. exact H.
  - apply same_members_set_leader.
Qed.

(** X12: no record from a peer adds, removes or re-addresses a member of the
    view: whatever [_handle_server_message] is given, the member ids, their
    addresses, the ring order and both neighbours are as before; only leader
    flags can change. *)
Theorem peer_messages_keep_membership (env : Env.t) (self : Server.t) (m : message) :
  same_members (Server.ring_manager self)
    (Server.ring_manager (fst (fst (Server._handle_server_message env self m)))).
Proof.
  unfold Server._handle_server_message.
  destruct (Json.eq_str _ MessageType.ELECTION).
  { pose proof (same_members_election env (Server.ring_manager self)
                  (Server.election self) m) as H.
    destruct (handle_election_message _ _ _ _) as [[[rm es] out] e]. exact H. }
  destruct (Json.eq_str _ MessageType.LEADER_ANNOUNCEMENT).
  { pose proof (same_members_announcement env (Server.ring_manager self)
                  (Server.election self) m) as H.
    destruct (handle_leader_announcement _ _ _ _) as [[[rm es] out] e]. exact H. }
  destruct (Json.eq_str _ MessageType.HEARTBEAT); [apply same_members_refl|].
  destruct (Json.eq_str _ MessageType.FORWARD_MESSAGE).
  { destruct (MessageHandler.handle_forwarded_message _ _ _ _).
    apply same_members_refl. }
  simpl.
  destruct (Json.eq_str _ MessageType.CHAT_MESSAGE); apply same_members_refl.
Qed.

End ElectionFrames.

Section TwoNodeElection.

Import Py ElectionService.

Lemma election_fields (env : Env.t) (c o h : Json.t) :
  Json.get (Protocol.create_election_message env c o h) (py "candidate_id") = c /\
  Json.get (Protocol.create_election_message env c o h) (py "originator_id") = o /\
  Json.get_default (Protocol.create_election_message env c o h) (py "hop_count")
                   (Json.Int 0) = h /\
  Json.get (Protocol.create_election_message env c o h) (py "message_id")
  = Json.Str (Env.uuid4 env) /\
  Json.get (Protocol.create_election_message env c o h) (py "type")
  = Json.Str MessageType.ELECTION.
Proof. repeat split; reflexivity. Qed.

Lemma announcement_fields (env : Env.t) (l : Json.t) (topology : list Json.t) :
  Json.get (Protocol.create_leader_announcement env l topology) (py "leader_id") = l /\
  Json.get (Protocol.create_leader_announcement env l topology) (py "type")
  = Json.Str MessageType.LEADER_ANNOUNCEMENT.
Proof. repeat split; reflexivity. Qed.

Lemma str_ltb_neq (a b : str) : str_ltb a b = true -> a <> b.
Proof. intros H ->. now rewrite str_ltb_irrefl in H. Qed.

Lemma str_gtb_ltb (a b : str) : str_gtb a b = str_ltb b a.
Proof.
  unfold str_gtb, str_ltb. rewrite (str_compare_antisym a b).
  now destruct (str_compare a b).
Qed.

Lemma is_leader_after_set (own : str) (ops : list RingManager.op) (x y : str) :
  dict_mem x (RingManager.ring_members (RingManager.run own ops)) = true ->
  RingManager.is_leader (RingManager.set_leader (RingManager.run own ops) x) y
  = str_eqb y x.
Proof.
  intros Hx. set (rm := RingManager.run own ops) in *.
  unfold RingManager.is_leader.
  destruct (dict_get y (RingManager.ring_members (RingManager.set_leader rm x)))
    as [s|] eqn:E.
  - exact (set_leader_flags _ _ _ _ E).
  - symmetry. apply str_eqb_neq. intros ->.
    assert (dict_mem x (RingManager.ring_members (RingManager.set_leader rm x)) = true)
      as H.
    { rewrite (dict_mem_keys_ext x _ (RingManager.ring_members rm)); [exact Hx|].
      apply keys_set_leader. }
    unfold dict_mem in H. now rewrite E in H.
Qed.

(** X13: the election of a two-node ring.  Nodes [a < b] hold views with the
    member ids [a] and [b]; [a] starts an election.  Three records travel:
    [a] sends its candidacy to [b]; [b] replaces the candidate by its own id
    and sends the record back; [a], the originator, declares [b] the winner
    and announces it to [b]; [b] accepts and sends nothing more.  Both nodes
    end with [b] as the only leader and no election in progress. *)
Theorem two_node_election (e1 e2 e3 e4 : Env.t) (a b : str)
        (opsa opsb : list RingManager.op) :
  str_ltb a b = true ->
  ids_are (RingManager.run a opsa) [a; b] = true ->
  ids_are (RingManager.run b opsb) [a; b] = true ->
  let m1 := Protocol.create_election_message e1 (Json.Str a) (Json.Str a) (Json.Int 0) in
  let m2 := Protocol.create_election_message e2 (Json.Str b) (Json.Str a) (Json.Int 1) in
  let o1 := start_election e1 (RingManager.run a opsa) (bound_election a) in
  let o2 := handle_election_message e2 (RingManager.run b opsb) (bound_election b) m1 in
  let o3 := handle_election_message e3 (ring_of o1) (service_of o1) m2 in
  sent (events_of o1) = [(b, Json.Dict m1)] /\
  sent (events_of o2) = [(a, Json.Dict m2)] /\
  exists topology,
    let m3 := Protocol.create_leader_announcement e3 (Json.Str b) topology in
    let o4 := handle_leader_announcement e4 (ring_of o2) (service_of o2) m3 in
    sent (events_of o3) = [(b, Json.Dict m3)] /\
    sent (events_of o4) = [] /\
    (forall y, RingManager.is_leader (ring_of o3) y = str_eqb y b) /\
    (forall y, RingManager.is_leader (ring_of o4) y = str_eqb y b) /\
    election_in_progress (service_of o3) = false /\
    election_in_progress (service_of o4) = false /\
    raised_of o1 = None /\ raised_of o2 = None /\
    raised_of o3 = None /\ raised_of o4 = None.
Proof.
  intros Hlt Ha Hb.
  pose proof (str_ltb_neq a b Hlt) as Hne.
  destruct (ids_are_spec _ _ Ha) as [Ha1 Ha2].
  destruct (ids_are_spec _ _ Hb) as [Hb1 Hb2].
  assert (Haa : dict_mem a (RingManager.ring_members (RingManager.run a opsa)) = true)
    by (apply Ha1; simpl; auto).
  assert (Hab : dict_mem b (RingManager.ring_members (RingManager.run a opsa)) = true)
    by (apply Ha1; simpl; auto).
  assert (Hba : dict_mem a (RingManager.ring_members (RingManager.run b opsb)) = true)
    by (apply Hb1; simpl; auto).
  assert (Hbb : dict_mem b (RingManager.ring_members (RingManager.run b opsb)) = true)
    by (apply Hb1; simpl; auto).
  destruct (pair_neighbors a b opsa Hne Haa Hab) as [_ Hra].
  { intros k Hk. apply Ha2 in Hk. simpl in Hk. intuition congruence. }
  destruct (pair_neighbors b a opsb (not_eq_sym Hne) Hbb Hba) as [_ Hrb].
  { intros k Hk. apply Hb2 in Hk. simpl in Hk. intuition congruence. }
  intros m1 m2 o1 o2 o3.
  assert (E1 : o1 = (RingManager.run a opsa,
                     _start_election_timer
                       (with_candidate
                          (with_election_id (with_in_progress (bound_election a) true)
                                            (Json.Int (Env.time_ms e1)))
                          (Json.Str a) (Json.Str a)),
                     [Sleep ELECTION_MESSAGE_DELAY; SendToServer b (Json.Dict m1)],
                     None)).
  { unfold o1. now rewrite (start_election_fresh e1 _ _ b Hra). }
  assert (E2 : o2 = (RingManager.run b opsb,
                     _start_election_timer
                       (with_election_id (with_in_progress (bound_election b) true)
                                         (Json.Str (Env.uuid4 e1))),
                     [Sleep ELECTION_MESSAGE_DELAY; SendToServer a (Json.Dict m2)],
                     None)).
  { unfold o2, handle_election_message.
    destruct (election_fields e1 (Json.Str a) (Json.Str a) (Json.Int 0))
      as (F1 & F2 & F3 & F4 & _).
    fold m1 in F1, F2, F3, F4. rewrite F1, F2, F3, F4, Hrb.
    cbn [bound_election Server.election Server.init election_in_progress
         set_send_callback set_leader_elected_callback init negb server_id
         Json.eq_str Json.gt_str Json.lt_str Json.add_int].
    rewrite (proj2 (str_eqb_neq a b) Hne), str_gtb_ltb, (str_ltb_asym _ _ Hlt), Hlt.
    unfold _send_election_message. rewrite Hrb. reflexivity. }
  split; [rewrite E1; reflexivity|].
  split; [rewrite E2; reflexivity|].
  assert (Ho : order_in_members (RingManager.run a opsa) = true)
    by (apply (ring_inv_order_in_members a), ring_inv_run).
  destruct (complete_election_str e3 (RingManager.run a opsa)
              (if negb (election_in_progress (service_of o1))
               then _start_election_timer
                      (with_election_id (with_in_progress (service_of o1) true)
                                        (Json.get m2 (py "message_id")))
               else service_of o1)
              b b Hra Ho)
    as (topology & Ht & Hc); [rewrite E1; reflexivity .. |].
  assert (E3 : o3 = (RingManager.set_leader (RingManager.run a opsa) b,
                     _cancel_election_timer (with_in_progress (service_of o1) false),
                     [SendToServer b
                        (Json.Dict (Protocol.create_leader_announcement
                                      e3 (Json.Str b) topology));
                      LeaderElected (Json.Str b)],
                     None)).
  { unfold o3, handle_election_message.
    destruct (election_fields e2 (Json.Str b) (Json.Str a) (Json.Int 1))
      as (F1 & F2 & F3 & F4 & _).
    fold m2 in F1, F2, F3, F4. rewrite F1, F2, F3.
    replace (RingManager.right_neighbor (ring_of o1)) with (Some b)
      by (rewrite E1; symmetry; exact Hra).
    replace (Json.eq_str (Json.Str a) (server_id (service_of o1))) with true
      by (rewrite E1; simpl; symmetry; apply str_eqb_refl).
    replace (ring_of o1) with (RingManager.run a opsa) by (now rewrite E1).
    rewrite Hc. rewrite E1. reflexivity. }
  exists topology. intros m3 o4.
  assert (E4 : o4 = (RingManager.set_leader (RingManager.run b opsb) b,
                     _cancel_election_timer (with_in_progress (service_of o2) false),
                     [LeaderElected (Json.Str b)],
                     None)).
  { unfold o4, handle_leader_announcement.
    destruct (announcement_fields e3 (Json.Str b) topology) as (F1 & _).
    fold m3 in F1. rewrite F1. rewrite E2. simpl.
    now rewrite str_eqb_refl. }
  split; [rewrite E3; reflexivity|].
  split; [rewrite E4; reflexivity|].
  split; [intros y; rewrite E3; simpl; now apply is_leader_after_set|].
  split; [intros y; rewrite E4; simpl; now apply is_leader_after_set|].
  rewrite E1, E2, E3, E4. repeat split.
Qed.

Lemma two_node_election_witness :
  str_ltb (py "s1") (py "s2") = true /\
  ids_are
    (RingManager.run (py "s1")
       [RingManager.AddServer (py "s1") (py "10.0.0.1") 8001 false;
        RingManager.AddServer (py "s2") (py "10.0.0.2") 8002 false])
    [py "s1"; py "s2"] = true /\
  ids_are
    (RingManager.run (py "s2")
       [RingManager.AddServer (py "s2") (py "10.0.0.2") 8002 false;
        RingManager.AddServer (py "s1") (py "10.0.0.1") 8001 false])
    [py "s1"; py "s2"] = true /\
  sent
    (events_of
       (start_election ex_env
          (RingManager.run (py "s1")
             [RingManager.AddServer (py "s1") (py "10.0.0.1") 8001 false;
              RingManager.AddServer (py "s2") (py "10.0.0.2") 8002 false])
          (bound_election (py "s1"))))
  = [(py "s2",
      Json.Dict (Protocol.create_election_message ex_env
                   (Json.Str (py "s1")) (Json.Str (py "s1")) (Json.Int 0)))].
Proof.
  do 3 (split; [reflexivity|]).
  apply (two_node_election ex_env ex_env ex_env ex_env (py "s1") (py "s2")
           [RingManager.AddServer (py "s1") (py "10.0.0.1") 8001 false;
            RingManager.AddServer (py "s2") (py "10.0.0.2") 8002 false]
           [RingManager.AddServer (py "s2") (py "10.0.0.2") 8002 false;
            RingManager.AddServer (py "s1") (py "10.0.0.1") 8001 false]);
    reflexivity.
Defined.

End TwoNodeElection.

(** ** Replication engine: the path of a chat message *)

Section ReplicationPaths.

Import Py.

Lemma find_none_flags (k : str) (s : ServerInfo.t) (m : dict ServerInfo.t) :
  find ServerInfo.is_leader (values m) = None ->
  dict_get k m = Some s -> ServerInfo.is_leader s = false.
Proof.
  induction m as [|[k' v'] m IH]; simpl; [discriminate|].
  destruct (ServerInfo.is_leader v') eqn:E; [discriminate|].
  intros Hf. destruct (str_eqb k' k); [intros [= <-]; exact E | now apply IH].
Qed.

Lemma no_leader_not_leader (rm : RingManager.t) (k : str) :
  RingManager.get_leader rm = None -> RingManager.is_leader rm k = false.
Proof.
  unfold RingManager.get_leader, RingManager.is_leader. intros H.
  destruct (dict_get k (RingManager.ring_members rm)) as [s|] eqn:E; [|reflexivity].
  exact (find_none_flags _ _ _ H E).
Qed.

(** X14: a chat message a client submits while the node knows no leader is
    lost: whatever the record is, the history stays as it is and nothing is
    delivered, forwarded or broadcast.  The call raises exactly when its log
    line cannot take [content[:50]]. *)
Theorem client_message_without_leader_is_dropped (env : Env.t) (rm : RingManager.t)
        (self : MessageHandler.t) (m : Json.t) :
  RingManager.get_leader rm = None ->
  MessageHandler.handle_client_message env rm self m
  = (self, [], if MessageHandler.content_preview m then None else Some LogError).
Proof.
  intros H. unfold MessageHandler.handle_client_message.
  destruct (MessageHandler.content_preview m); [|reflexivity].
  cbn [negb]. rewrite (no_leader_not_leader rm _ H).
  unfold MessageHandler._forward_to_leader. now rewrite H.
Qed.

Lemma client_message_without_leader_is_dropped_witness :
  RingManager.get_leader ex_ring = None /\
  MessageHandler.handle_client_message ex_env ex_ring (bound_handler (py "s2")) ex_chat
  = (bound_handler (py "s2"), [], None).
Proof.
  split; [reflexivity|].
  apply (client_message_without_leader_is_dropped ex_env ex_ring
           (bound_handler (py "s2")) ex_chat).
  reflexivity.
Defined.

Lemma find_leader_keyed (m : dict ServerInfo.t) (l : ServerInfo.t) :
  keyed m -> NoDup (keys m) ->
  find ServerInfo.is_leader (values m) = Some l ->
  dict_get (ServerInfo.server_id l) m = Some l.
Proof.
  unfold keyed. induction m as [|[k v] m IH]; simpl; [discriminate|].
  intros Hk Hnd. apply Forall_cons_iff in Hk as [Hkv Hm]. simpl in Hkv.
  apply NoDup_cons_iff in Hnd as [Hn Hnd'].
  destruct (ServerInfo.is_leader v) eqn:E.
  - intros [= <-]. now rewrite Hkv, str_eqb_refl.
  - intros Hf. specialize (IH Hm Hnd' Hf).
    destruct (str_eqb k (ServerInfo.server_id l)) eqn:Ek; [|exact IH].
    apply str_eqb_eq in Ek.
    exfalso. apply Hn. rewrite Ek. eapply dict_get_Some_In. exact IH.
Qed.

(** In a reachable view the leader [get_leader] returns is the node itself
    exactly when [is_leader] says so. *)
Lemma leader_is_other (own : str) (ops : list RingManager.op) (l : ServerInfo.t) :
  RingManager.get_leader (RingManager.run own ops) = Some l ->
  RingManager.is_leader (RingManager.run own ops) own = false ->
  ServerInfo.server_id l <> own.
Proof.
  intros Hl Hn E.
  pose proof (find_leader_keyed _ l (keyed_run own ops) (run_nodup own ops) Hl) as Hg.
  rewrite E in Hg. unfold RingManager.is_leader in Hn. rewrite Hg in Hn.
  apply find_some in Hl. destruct Hl as [_ Hl]. congruence.
Qed.

Lemma forward_fields (env : Env.t) (m : Json.t) (origin : str) :
  Json.get (Protocol.create_forward_message env m origin) (py "original_message") = m /\
  Json.get (Protocol.create_forward_message env m origin) (py "type")
  = Json.Str MessageType.FORWARD_MESSAGE.
Proof. split; reflexivity. Qed.

Lemma leader_handles_forward (env : Env.t) (self : Server.t) (m : message) :
  Json.get m (py "type") = Json.Str MessageType.FORWARD_MESSAGE ->
  RingManager.is_leader (Server.ring_manager self)
    (MessageHandler.server_id (Server.message_handler self)) = true ->
  Server._handle_server_message env self m
  = (Server.mk (Server.server_id self) (Server.ring_manager self) (Server.election self)
       (fst (MessageHandler._distribute_message env (Server.message_handler self)
               (Json.get m (py "original_message")))),
     snd (MessageHandler._distribute_message env (Server.message_handler self)
            (Json.get m (py "original_message"))),
     None).
Proof.
  intros Ht Hl. unfold Server._handle_server_message. rewrite Ht.
  replace (Json.eq_str (Json.Str MessageType.FORWARD_MESSAGE) MessageType.ELECTION)
    with false by reflexivity.
  replace (Json.eq_str (Json.Str MessageType.FORWARD_MESSAGE)
                       MessageType.LEADER_ANNOUNCEMENT)
    with false by reflexivity.
  replace (Json.eq_str (Json.Str MessageType.FORWARD_MESSAGE) MessageType.HEARTBEAT)
    with false by reflexivity.
  replace (Json.eq_str (Json.Str MessageType.FORWARD_MESSAGE)
                       MessageType.FORWARD_MESSAGE)
    with true by reflexivity.
  unfold MessageHandler.handle_forwarded_message. rewrite Hl. reflexivity.
Qed.

(** X15: the path of a chat message from a follower to the leader.  The
    message is a record of which the log lines can take [content[:50]]: a
    dict whose content, if it has one, is a [str] or a [list].  A node that
    is not the leader of its reachable view, and knows a leader, leaves its
    own history alone and forwards the message to that leader, which is
    never the node itself, in one [FORWARD_MESSAGE] record.  A node that is
    the leader of its own view and receives this record appends the original
    message to its history, hands it to its local clients and broadcasts it
    to the servers. *)
Theorem forwarded_client_message_reaches_leader (env env' : Env.t)
        (own : str) (ops : list RingManager.op) (l : ServerInfo.t)
        (follower leader : Server.t) (m : Json.t) :
  MessageHandler.content_preview m = true ->
  Server.ring_manager follower = RingManager.run own ops ->
  MessageHandler.server_id (Server.message_handler follower) = own ->
  MessageHandler.on_forward_to_leader (Server.message_handler follower) = true ->
  RingManager.is_leader (RingManager.run own ops) own = false ->
  RingManager.get_leader (RingManager.run own ops) = Some l ->
  RingManager.is_leader (Server.ring_manager leader)
    (MessageHandler.server_id (Server.message_handler leader)) = true ->
  MessageHandler.on_message_to_clients (Server.message_handler leader) = true ->
  MessageHandler.on_broadcast_to_servers (Server.message_handler leader) = true ->
  ServerInfo.server_id l <> own /\
  ServerCallbacks.handle_client_message env follower m
  = (follower,
     [ForwardToLeader (ServerInfo.server_id l)
        (Json.Dict (Protocol.create_forward_message env m own))],
     None) /\
  Server._handle_server_message env' leader (Protocol.create_forward_message env m own)
  = (Server.mk (Server.server_id leader) (Server.ring_manager leader)
       (Server.election leader)
       (MessageHandler._add_to_history (Server.message_handler leader) m),
     [BroadcastToLocalClients m;
      BroadcastToAllServers
        (Json.Dict (Protocol.create_forward_message env' m
                      (MessageHandler.server_id (Server.message_handler leader))))],
     None).
Proof.
  intros Hm Hring Hid Hcb Hnot Hl Hlead Hc1 Hc2.
  pose proof (leader_is_other own ops l Hl Hnot) as Hne.
  split; [exact Hne|]. split.
  - unfold ServerCallbacks.handle_client_message,
      MessageHandler.handle_client_message, MessageHandler._forward_to_leader.
    rewrite Hm. cbn [negb].
    rewrite Hring, Hid, Hnot, Hl, Hcb, (proj2 (str_eqb_neq _ _) Hne).
    rewrite <- Hring. now destruct follower.
  - destruct (forward_fields env m own) as [F1 F2].
    rewrite (leader_handles_forward env' leader _ F2 Hlead), F1.
    unfold MessageHandler._distribute_message. now rewrite Hc1, Hc2.
Qed.

Lemma forwarded_client_message_reaches_leader_witness :
  ServerInfo.server_id
    (ServerInfo.set_is_leader true (ServerInfo.init (py "s3") (py "10.0.0.3") 8003))
  <> py "s2" /\
  ServerCallbacks.handle_client_message ex_env
    (Server.mk (py "s2")
       (RingManager.run (py "s2")
          [RingManager.AddServer (py "s2") (py "10.0.0.2") 8002 false;
           RingManager.AddServer (py "s1") (py "10.0.0.1") 8001 false;
           RingManager.AddServer (py "s3") (py "10.0.0.3") 8003 false;
           RingManager.SetLeader (py "s3")])
       ex_election (bound_handler (py "s2")))
    ex_chat
  = (Server.mk (py "s2")
       (RingManager.run (py "s2")
          [RingManager.AddServer (py "s2") (py "10.0.0.2") 8002 false;
           RingManager.AddServer (py "s1") (py "10.0.0.1") 8001 false;
           RingManager.AddServer (py "s3") (py "10.0.0.3") 8003 false;
           RingManager.SetLeader (py "s3")])
       ex_election (bound_handler (py "s2")),
     [ForwardToLeader (py "s3")
        (Json.Dict (Protocol.create_forward_message ex_env ex_chat (py "s2")))],
     None) /\
  Server._handle_server_message ex_env
    (Server.mk (py "s3")
       (RingManager.run (py "s3")
          [RingManager.AddServer (py "s3") (py "10.0.0.3") 8003 false;
           RingManager.SetLeader (py "s3")])
       (bound_election (py "s3")) (bound_handler (py "s3")))
    (Protocol.create_forward_message ex_env ex_chat (py "s2"))
  = (Server.mk (py "s3")
       (RingManager.run (py "s3")
          [RingManager.AddServer (py "s3") (py "10.0.0.3") 8003 false;
           RingManager.SetLeader (py "s3")])
       (bound_election (py "s3"))
       (MessageHandler._add_to_history (bound_handler (py "s3")) ex_chat),
     [BroadcastToLocalClients ex_chat;
      BroadcastToAllServers
        (Json.Dict (Protocol.create_forward_message ex_env ex_chat (py "s3")))],
     None).
Proof.
  apply (forwarded_client_message_reaches_leader ex_env ex_env (py "s2")
           [RingManager.AddServer (py "s2") (py "10.0.0.2") 8002 false;
            RingManager.AddServer (py "s1") (py "10.0.0.1") 8001 false;
            RingManager.AddServer (py "s3") (py "10.0.0.3") 8003 false;
            RingManager.SetLeader (py "s3")]
           (ServerInfo.set_is_leader true (ServerInfo.init (py "s3") (py "10.0.0.3") 8003))
           (Server.mk (py "s2")
              (RingManager.run (py "s2")
                 [RingManager.AddServer (py "s2") (py "10.0.0.2") 8002 false;
                  RingManager.AddServer (py "s1") (py "10.0.0.1") 8001 false;
                  RingManager.AddServer (py "s3") (py "10.0.0.3") 8003 false;
                  RingManager.SetLeader (py "s3")])
              ex_election (bound_handler (py "s2")))
           (Server.mk (py "s3")
              (RingManager.run (py "s3")
                 [RingManager.AddServer (py "s3") (py "10.0.0.3") 8003 false;
                  RingManager.SetLeader (py "s3")])
              (bound_election (py "s3")) (bound_handler (py "s3")))
           ex_chat);
    reflexivity.
Defined.

(** X16: the record a leader broadcasts to the servers after it has
    distributed a message is dropped by every server that is not a leader
    itself: such a server keeps its state and emits nothing, so the message
    reaches neither its history nor its clients. *)
Theorem leader_broadcast_is_dropped_by_followers (env env' : Env.t)
        (leader : MessageHandler.t) (follower : Server.t) (m : Json.t) (p : message) :
  RingManager.is_leader (Server.ring_manager follower)
    (MessageHandler.server_id (Server.message_handler follower)) = false ->
  In (BroadcastToAllServers (Json.Dict p))
     (snd (MessageHandler._distribute_message env leader m)) ->
  Json.get p (py "original_message") = m /\
  Server._handle_server_message env' follower p = (follower, [], None).
Proof.
  intros Hn Hin. unfold MessageHandler._distribute_message in Hin. simpl in Hin.
  apply in_app_or in Hin.
  assert (p = Protocol.create_forward_message env m (MessageHandler.server_id leader))
    as ->.
  { destruct Hin as [Hin|Hin].
    - destruct (MessageHandler.on_message_to_clients leader); simpl in Hin;
        [destruct Hin as [Hin|[]]; discriminate | destruct Hin].
    - destruct (MessageHandler.on_broadcast_to_servers leader); simpl in Hin;
        [destruct Hin as [Hin|[]]; congruence | destruct Hin]. }
  split; [reflexivity|].
  apply forward_dropped_by_non_leader; [reflexivity | exact Hn].
Qed.

Lemma leader_broadcast_is_dropped_by_followers_witness :
  RingManager.is_leader (Server.ring_manager ex_server)
    (MessageHandler.server_id (Server.message_handler ex_server)) = false /\
  In (BroadcastToAllServers (Json.Dict ex_forward))
     (snd (MessageHandler._distribute_message ex_env (bound_handler (py "s3")) ex_chat)) /\
  Json.get ex_forward (py "original_message") = ex_chat /\
  Server._handle_server_message ex_env ex_server ex_forward = (ex_server, [], None).
Proof.
  split; [reflexivity|].
  split; [right; left; reflexivity|].
  apply (leader_broadcast_is_dropped_by_followers ex_env ex_env
           (bound_handler (py "s3")) ex_server ex_chat ex_forward);
    [reflexivity | right; left; reflexivity].
Defined.

Lemma sent_broadcast (self : Server.t) (m : Json.t) :
  keyed (RingManager.ring_members (Server.ring_manager self)) ->
  sent (ServerCallbacks._broadcast_to_all_servers self m)
  = map (fun k => (k, m))
        (filter (fun k => negb (str_eqb k (Server.server_id self)))
                (keys (RingManager.ring_members (Server.ring_manager self)))).
Proof.
  unfold ServerCallbacks._broadcast_to_all_servers, RingManager.get_all_servers, keyed.
  induction (RingManager.ring_members (Server.ring_manager self)) as [|[k v] d IH];
    [reflexivity|].
  intros H. apply Forall_cons_iff in H as [Hk Hd]. simpl in *. rewrite Hk.
  destruct (str_eqb k (Server.server_id self)); simpl; [now apply IH|].
  f_equal. now apply IH.
Qed.

(** X17: [_broadcast_to_all_servers] on a reachable view sends the record
    once to every member other than the node itself, in the order of
    [ring_members], and never to the node itself. *)
Theorem broadcast_reaches_every_peer_once (own : str) (ops : list RingManager.op)
        (es : ElectionService.t) (mh : MessageHandler.t) (m : Json.t) :
  let out :=
    sent (ServerCallbacks._broadcast_to_all_servers
            (Server.mk own (RingManager.run own ops) es mh) m) in
  map snd out = repeat m (length out) /\
  NoDup (map fst out) /\
  forall k, In k (map fst out)
            <-> k <> own /\
                dict_mem k (RingManager.ring_members (RingManager.run own ops)) = true.
Proof.
  intros out. unfold out. rewrite sent_broadcast by apply keyed_run. simpl.
  set (ks := filter (fun k => negb (str_eqb k own))
                    (keys (RingManager.ring_members (RingManager.run own ops)))).
  rewrite !map_map. simpl. rewrite map_id, length_map.
  split; [induction ks; simpl; congruence|].
  split; [apply NoDup_filter, run_nodup|].
  intros k. unfold ks. rewrite filter_In, negb_true_iff, str_eqb_neq, dict_mem_In.
  tauto.
Qed.

(** X18: a [CHAT_MESSAGE] record that arrives from a peer is stored and
    handed to the local clients by any node, leader or not, and goes to no
    other server; when the record has an [original_message] entry, that
    entry is what is stored and delivered. *)
Theorem peer_chat_message_is_delivered (env : Env.t) (self : Server.t) (m : message) :
  Json.get m (py "type") = Json.Str MessageType.CHAT_MESSAGE ->
  MessageHandler.on_message_to_clients (Server.message_handler self) = true ->
  Server._handle_server_message env self m
  = (Server.mk (Server.server_id self) (Server.ring_manager self) (Server.election self)
       (MessageHandler._add_to_history (Server.message_handler self)
          (Json.get_default m (py "original_message") (Json.Dict m))),
     [BroadcastToLocalClients
        (Json.get_default m (py "original_message") (Json.Dict m))],
     None).
Proof.
  intros Ht Hcb. unfold Server._handle_server_message. rewrite Ht.
  replace (Json.eq_str (Json.Str MessageType.CHAT_MESSAGE) MessageType.ELECTION)
    with false by reflexivity.
  replace (Json.eq_str (Json.Str MessageType.CHAT_MESSAGE)
                       MessageType.LEADER_ANNOUNCEMENT)
    with false by reflexivity.
  replace (Json.eq_str (Json.Str MessageType.CHAT_MESSAGE) MessageType.HEARTBEAT)
    with false by reflexivity.
  replace (Json.eq_str (Json.Str MessageType.CHAT_MESSAGE) MessageType.FORWARD_MESSAGE)
    with false by reflexivity.
  replace (Json.eq_str (Json.Str MessageType.CHAT_MESSAGE) MessageType.CHAT_MESSAGE)
    with true by reflexivity.
  simpl. unfold MessageHandler.handle_distributed_message. now rewrite Hcb.
Qed.

Lemma peer_chat_message_is_delivered_witness :
  Json.get (Protocol.create_chat_message ex_env
              (Json.Str (py "a")) (Json.Str (py "hello")) (Json.Str (py "c1")))
           (py "type") = Json.Str MessageType.CHAT_MESSAGE /\
  MessageHandler.on_message_to_clients (Server.message_handler ex_server) = true /\
  Server._handle_server_message ex_env ex_server
    (Protocol.create_chat_message ex_env
       (Json.Str (py "a")) (Json.Str (py "hello")) (Json.Str (py "c1")))
  = (Server.mk (Server.server_id ex_server) (Server.ring_manager ex_server)
       (Server.election ex_server)
       (MessageHandler._add_to_history (Server.message_handler ex_server) ex_chat),
     [BroadcastToLocalClients ex_chat],
     None).
Proof.
  do 2 (split; [reflexivity|]).
  apply (peer_chat_message_is_delivered ex_env ex_server
           (Protocol.create_chat_message ex_env
              (Json.Str (py "a")) (Json.Str (py "hello")) (Json.Str (py "c1"))));
    reflexivity.
Defined.

End ReplicationPaths.

(** ** Line framing of the TCP streams *)

Section PrintableText.

Import Py JsonCodec.

Context {interp : Interpreter}.

Lemma printable_app (s t : str) : printable s -> printable t -> printable (s ++ t).
Proof. intros Hs Ht. apply Forall_app. now split. Qed.

Lemma printable_hex_digit (d : N) : (d < 16)%N -> (32 <= hex_digit d < 127)%N.
Proof. unfold hex_digit. intros H. destruct (d <? 10)%N; lia. Qed.

Lemma printable_hex4 (n : N) : printable (hex4 n).
Proof.
  unfold hex4. repeat constructor; apply printable_hex_digit, N.mod_lt; lia.
Qed.

Lemma printable_escape_char (c : N) : printable (escape_char c).
Proof.
  unfold escape_char.
  repeat match goal with
         | |- printable (if (c =? ?k)%N then _ else _) =>
             destruct (c =? k)%N; [repeat constructor; lia|]
         end.
  destruct ((32 <=? c) && (c <=? 126))%N eqn:E.
  - apply andb_true_iff in E as [E1 E2]. apply N.leb_le in E1, E2.
    repeat constructor; lia.
  - destruct (c <? 65536)%N.
    + repeat (constructor; [lia|]). apply printable_hex4.
    + cbv zeta. repeat (constructor; [lia|]).
      apply printable_app; [apply printable_hex4|].
      repeat (constructor; [lia|]). apply printable_hex4.
Qed.

Lemma printable_encoded_string (s : str) : printable (encode_basestring_ascii s).
Proof.
  unfold encode_basestring_ascii. constructor; [lia|].
  apply printable_app; [|repeat constructor; lia].
  induction s as [|c s IH]; simpl; [constructor|].
  apply printable_app; [apply printable_escape_char | exact IH].
Qed.

Lemma printable_uint_chars (u : Decimal.uint) : printable (uint_chars u).
Proof. induction u; simpl; constructor; trivial; lia. Qed.

Lemma printable_repr_int (z : Z) : printable (int_chars (Z.to_int z)).
Proof.
  unfold int_chars. destruct (Z.to_int z);
    [|constructor; [lia|]]; apply printable_uint_chars.
Qed.

Lemma printable_join (sep : str) (parts : list str) :
  printable sep -> Forall printable parts -> printable (join sep parts).
Proof.
  intros Hsep. induction 1 as [|p ps Hp Hps IH]; [constructor|].
  destruct ps as [|q ps]; [exact Hp|].
  rewrite join_cons by congruence.
  apply printable_app; [exact Hp | apply printable_app; [exact Hsep | exact IH]].
Qed.

Lemma printable_literal (s : string) :
  forallb (fun c => (32 <=? c) && (c <? 127))%N (py s) = true -> printable (py s).
Proof.
  intros H. apply Forall_forall. intros c Hc.
  rewrite forallb_forall in H. specialize (H c Hc).
  apply andb_true_iff in H as [H1 H2].
  apply N.leb_le in H1. apply N.ltb_lt in H2. lia.
Qed.

(** [json.dumps] writes printable ASCII only. *)
Lemma printable_dumps (v : Json.t) : printable (json_text v).
Proof.
  induction v using json_induction.
  - now apply printable_literal.
  - destruct b; now apply printable_literal.
  - apply printable_repr_int.
  - apply printable_encoded_string.
  - cbn [json_text]. apply printable_app; [now apply printable_literal|].
    apply printable_app; [|now apply printable_literal].
    apply printable_join; [now apply printable_literal|].
    apply Forall_map. exact H.
  - cbn [json_text]. apply printable_app; [now apply printable_literal|].
    apply printable_app; [|now apply printable_literal].
    apply printable_join; [now apply printable_literal|].
    apply Forall_map. apply Forall_impl with (2 := H).
    intros kv Hkv. apply printable_app; [apply printable_encoded_string|].
    apply printable_app; [now apply printable_literal | exact Hkv].
Qed.

Lemma dumps_not_empty (v : Json.t) : json_text v <> [].
Proof.
  destruct v; cbn [json_text]; try discriminate.
  - destruct b; discriminate.
  - unfold int_chars. pose proof (DecimalPos.Unsigned.to_uint_nonnil) as Hn.
    destruct (Z.to_int z) as [u|u] eqn:E; [|discriminate].
    destruct u; try discriminate.
    destruct z as [|p|p]; simpl in E; try discriminate.
    injection E as E. exfalso. exact (Hn p E).
Qed.

Lemma serialize_message_bytes (m : Json.t) :
  small_ints m = true -> (nesting m <= encoder_depth)%nat ->
  Protocol.serialize_message m = Some (map byte_of (json_text m)).
Proof.
  intros Hs Hn. unfold Protocol.serialize_message. rewrite (dumps_text m Hs Hn).
  apply utf8_encode_ascii, ascii_dumps.
Qed.

Lemma serialize_message_some (m : Json.t) (data : list Byte.byte) :
  Protocol.serialize_message m = Some data -> data = map byte_of (json_text m).
Proof.
  unfold Protocol.serialize_message.
  destruct (dumps m) as [t|] eqn:E; [|discriminate].
  apply dumps_some in E. subst t.
  rewrite utf8_encode_ascii by apply ascii_dumps. now intros [= <-].
Qed.

Lemma byte_of_printable (c : N) : (32 <= c < 127)%N -> byte_of c <> Framing.newline.
Proof.
  intros Hc E. apply (f_equal Byte.to_N) in E.
  rewrite to_N_byte_of in E by lia. compute in E. lia.
Qed.

Lemma no_newline_in_text (s : str) :
  printable s -> ~ In Framing.newline (map byte_of s).
Proof.
  induction 1 as [|c s Hc Hs IH]; simpl; [tauto|].
  intros [E|E]; [exact (byte_of_printable c Hc E) | exact (IH E)].
Qed.

(** X19: the bytes of a serialized record are never empty and never hold a
    newline byte, so the newline a sender appends is the only one of the
    frame. *)
Theorem serialized_record_is_one_line (m : Json.t) (data : list Byte.byte) :
  Protocol.serialize_message m = Some data ->
  data <> [] /\ ~ In Framing.newline data.
Proof.
  intros H. apply serialize_message_some in H. subst data. split.
  - intros E. apply map_eq_nil in E. exact (dumps_not_empty m E).
  - apply no_newline_in_text, printable_dumps.
Qed.

End PrintableText.



Section PrintableWitness.

Import Py JsonCodec.

Lemma serialized_record_is_one_line_witness :
  exists data,
    @Protocol.serialize_message cpython ex_record = Some data /\
    data <> [] /\ ~ In Framing.newline data.
Proof.
  exists (map byte_of (json_text ex_record)).
  assert (H : @Protocol.serialize_message cpython ex_record
              = Some (map byte_of (json_text ex_record))) by reflexivity.
  split; [exact H|].
  exact (@serialized_record_is_one_line cpython ex_record _ H).
Defined.

End PrintableWitness.

Section FramingFacts.

Import Py JsonCodec Framing.

Context {interp : Interpreter}.

Variable state : Type.
Variable handler : state -> Json.t -> state * bool.
Variable running : state -> bool.

Lemma split_newline_None (buffer : list Byte.byte) :
  split_newline buffer = None <-> ~ In newline buffer.
Proof.
  induction buffer as [|b buffer IH]; simpl; [tauto|].
  destruct (Byte.eqb b newline) eqn:E.
  - apply Byte.byte_dec_bl in E. split; [discriminate | intros H; tauto].
  - assert (b <> newline) as Hb.
    { intros ->. now rewrite (Byte.byte_dec_lb eq_refl) in E. }
    destruct (split_newline buffer) as [[line rest]|].
    + split; [discriminate|]. intros H. exfalso. apply H. right.
      destruct (in_dec Byte.byte_eq_dec newline buffer) as [Hin|Hin]; [exact Hin|].
      apply IH in Hin. discriminate.
    + split; [|reflexivity]. intros _ [H|H]; [congruence|].
      now apply (proj1 IH).
Qed.

Lemma split_newline_at (line rest : list Byte.byte) :
  ~ In newline line ->
  split_newline (line ++ newline :: rest) = Some (line, rest).
Proof.
  induction line as [|b line IH]; simpl; intros H.
  - reflexivity.
  - destruct (Byte.eqb b newline) eqn:E.
    + apply Byte.byte_dec_bl in E. tauto.
    + rewrite IH by tauto. reflexivity.
Qed.

Lemma split_newline_Some (buffer line rest : list Byte.byte) :
  split_newline buffer = Some (line, rest) ->
  buffer = line ++ newline :: rest /\ ~ In newline line.
Proof.
  revert line rest. induction buffer as [|b buffer IH]; simpl; [discriminate|].
  intros line rest. destruct (Byte.eqb b newline) eqn:E.
  - apply Byte.byte_dec_bl in E. intros [= <- <-]. subst b. simpl. tauto.
  - destruct (split_newline buffer) as [[l r]|]; [|discriminate].
    intros [= <- <-]. destruct (IH l r eq_refl) as [-> Hn]. split; [reflexivity|].
    intros [H|H]; [|tauto]. subst b. now rewrite (Byte.byte_dec_lb eq_refl) in E.
Qed.

Lemma split_newline_app (buffer chunk line rest : list Byte.byte) :
  split_newline buffer = Some (line, rest) ->
  split_newline (buffer ++ chunk) = Some (line, rest ++ chunk).
Proof.
  intros H. apply split_newline_Some in H as [-> Hn].
  rewrite <- app_assoc. simpl. now apply split_newline_at.
Qed.

(** The fuel of [drain] is a bound on the number of lines: any amount above
    the length of the buffer gives the same result. *)
Lemma drain_fuel (fuel fuel' : nat) (s : state) (buffer : list Byte.byte) :
  (length buffer < fuel)%nat -> (length buffer < fuel')%nat ->
  drain state handler fuel s buffer = drain state handler fuel' s buffer.
Proof.
  revert fuel' s buffer. induction fuel as [|fuel IH]; intros fuel' s buffer H H';
    [lia|].
  destruct fuel' as [|fuel']; [lia|]. simpl.
  destruct (split_newline buffer) as [[line rest]|] eqn:E; [|reflexivity].
  destruct (split_newline_Some _ _ _ E) as [-> _].
  rewrite length_app in H, H'. simpl in H, H'.
  destruct (handle_line state handler s line) as [[s1 [|]]|w]; try reflexivity.
  apply IH; lia.
Qed.

Lemma drain_left (fuel : nat) (s s' : state) (buffer left : list Byte.byte) :
  drain state handler fuel s buffer = Ok (s', left, true) -> ~ In newline left.
Proof.
  revert s buffer. induction fuel as [|fuel IH]; intros s buffer; simpl;
    [discriminate|].
  destruct (split_newline buffer) as [[line rest]|] eqn:E.
  - destruct (handle_line state handler s line) as [[s1 [|]]|w]; try discriminate.
    apply IH.
  - intros [= <- <-]. now apply split_newline_None.
Qed.

(** Draining a buffer and a chunk is draining the buffer and then, unless an
    exception ended the loop, what it left with the chunk appended. *)
Lemma drain_app (fuel : nat) (s : state) (buffer chunk : list Byte.byte) :
  (length (buffer ++ chunk) < fuel)%nat ->
  drain state handler fuel s (buffer ++ chunk)
  = match drain state handler (S (length buffer)) s buffer with
    | Ok (s1, left1, true) =>
        drain state handler (S (length (left1 ++ chunk))) s1 (left1 ++ chunk)
    | Ok (s1, left1, false) => Ok (s1, left1 ++ chunk, false)
    | Stop w => Stop w
    end.
Proof.
  revert s buffer. induction fuel as [|fuel IH]; intros s buffer Hf; [lia|].
  destruct (split_newline buffer) as [[line rest]|] eqn:E.
  - cbn [drain]. rewrite (split_newline_app _ chunk _ _ E), E.
    destruct (split_newline_Some _ _ _ E) as [-> Hn].
    rewrite <- app_assoc, length_app in Hf. simpl in Hf. rewrite length_app in Hf.
    destruct (handle_line state handler s line) as [[s1 [|]]|w]; try reflexivity.
    rewrite (IH s1 rest) by (rewrite length_app; lia).
    rewrite (drain_fuel (length (line ++ newline :: rest)) (S (length rest)) s1 rest)
      by (rewrite ?length_app; simpl; lia).
    reflexivity.
  - assert (Hd : drain state handler (S (length buffer)) s buffer
                 = Ok (s, buffer, true)) by (simpl; now rewrite E).
    rewrite Hd. apply drain_fuel; lia.
Qed.

Hypothesis always_running : forall s, running s = true.

Lemma receive_all_stream (chunks : list (list Byte.byte)) :
  forall (s : state) (buffer : list Byte.byte),
    Forall (fun chunk => chunk <> []) chunks ->
    ~ In newline buffer ->
    receive_all state handler running s buffer chunks
    = match drain state handler (S (length (buffer ++ concat chunks))) s
              (buffer ++ concat chunks) with
      | Ok (s', rest, true) => Ok (s', Waiting rest)
      | Ok (s', _, false) => Ok (s', Broken)
      | Stop w => Stop w
      end.
Proof.
  induction chunks as [|chunk chunks IH]; intros s buffer Hne Hb.
  - simpl. rewrite always_running, app_nil_r. simpl.
    now rewrite (proj2 (split_newline_None buffer) Hb).
  - apply Forall_cons_iff in Hne as [Hc Hne].
    simpl concat. rewrite app_assoc. rewrite drain_app by lia.
    cbn [receive_all]. rewrite always_running. cbn [negb].
    destruct chunk as [|b chunk]; [congruence|].
    destruct (drain state handler (S (length (buffer ++ b :: chunk))) s
                    (buffer ++ b :: chunk)) as [[[s1 left1] [|]]|w] eqn:D;
      try reflexivity.
    apply IH; [exact Hne | exact (drain_left _ _ _ _ _ D)].
Qed.

Lemma handle_wire (s : state) (m : Json.t) :
  valid m = true -> within_limits m = true -> truthy m = true ->
  handle_line state handler s (map byte_of (json_text m)) = Ok (handler s m).
Proof.
  intros Hv Hl Ht. apply within_limits_spec in Hl as (Hs & He & Hd).
  unfold handle_line.
  destruct (map byte_of (json_text m)) eqn:E.
  - apply map_eq_nil in E. destruct (dumps_not_empty m E).
  - rewrite <- E. unfold Protocol.deserialize_message.
    rewrite utf8_decode_ascii by apply ascii_dumps.
    now rewrite loads_dumps, Ht.
Qed.

Lemma wire_bytes (m : Json.t) :
  within_limits m = true ->
  wire m = map byte_of (json_text m) ++ [newline].
Proof.
  intros Hl. apply within_limits_spec in Hl as (Hs & He & Hd).
  unfold wire. now rewrite serialize_message_bytes.
Qed.

Lemma drain_wire (ms : list Json.t) :
  Forall (fun m => valid m = true /\ within_limits m = true /\ truthy m = true) ms ->
  forall (s : state) (fuel : nat),
    (length (flat_map wire ms) < fuel)%nat ->
    exists left,
      drain state handler fuel s (flat_map wire ms)
      = Ok (fst (handle_all handler s ms), left, snd (handle_all handler s ms)) /\
      (snd (handle_all handler s ms) = true -> left = []).
Proof.
  induction 1 as [|m ms (Hv & Hl & Ht) Hms IH]; intros s fuel Hf.
  - exists []. destruct fuel; [simpl in Hf; lia | now split].
  - destruct fuel as [|fuel]; [lia|].
    assert (Hw : flat_map wire (m :: ms)
                 = map byte_of (json_text m) ++ newline :: flat_map wire ms).
    { cbn [flat_map]. rewrite (wire_bytes m Hl). now rewrite <- app_assoc. }
    rewrite Hw in *.
    cbn [drain handle_all]. rewrite split_newline_at
      by (apply no_newline_in_text, printable_dumps).
    rewrite (handle_wire s m Hv Hl Ht).
    destruct (handler s m) as [s1 [|]].
    + apply IH. rewrite length_app in Hf. simpl in Hf. lia.
    + eexists. split; [reflexivity | discriminate].
Qed.

(** X20: framing hands on what was sent, until the handler raises.  When the
    frames of valid, truthy records within the limits of the interpreter are
    written to a stream one after the other, the receiving loop calls its
    handler on these records, in order, however the stream is cut into
    chunks.  If no call raises, every record is handled and the loop waits
    with an empty buffer; the first call that raises breaks the loop, and
    the records after it are never handled. *)
Theorem framed_stream_delivers_records (s : state) (ms : list Json.t)
        (chunks : list (list Byte.byte)) :
  Forall (fun m => valid m = true /\ within_limits m = true /\ truthy m = true) ms ->
  Forall (fun chunk => chunk <> []) chunks ->
  concat chunks = flat_map wire ms ->
  receive_all state handler running s [] chunks
  = Ok (fst (handle_all handler s ms),
        if snd (handle_all handler s ms) then Waiting [] else Broken).
Proof.
  intros Hms Hne Hc. rewrite receive_all_stream; [|exact Hne | simpl; tauto].
  change ([] ++ concat chunks) with (concat chunks). rewrite Hc.
  destruct (drain_wire ms Hms s (S (length (flat_map wire ms)))) as (left & -> & Hl);
    [lia|].
  destruct (snd (handle_all handler s ms)); [|reflexivity].
  now rewrite Hl.
Qed.

End FramingFacts.

Section FramingWitness.

Import Py JsonCodec Framing.

(** Three frames cut after the seventh byte, for a handler that raises on
    the second record: the third record is never handled. *)
Lemma framed_stream_delivers_records_witness :
  let ms := [ex_chat; Json.List [Json.Int 1]; ex_record] in
  let chunks := [firstn 7 (flat_map (@wire cpython) ms);
                 skipn 7 (flat_map (@wire cpython) ms)] in
  (forall s : list Json.t, (fun _ => true) s = true) /\
  Forall (fun m => valid m = true /\ @within_limits cpython m = true /\
                   truthy m = true) ms /\
  Forall (fun chunk => chunk <> []) chunks /\
  concat chunks = flat_map (@wire cpython) ms /\
  @receive_all cpython (list Json.t) ex_handler (fun _ => true) [] [] chunks
  = Ok ([ex_chat; Json.List [Json.Int 1]], Broken).
Proof.
  intros ms chunks.
  assert (H0 : forall s : list Json.t, (fun _ => true) s = true) by reflexivity.
  assert (H1 : Forall (fun m => valid m = true /\ @within_limits cpython m = true /\
                               truthy m = true) ms)
    by (repeat constructor).
  assert (H2 : Forall (fun chunk => chunk <> []) chunks)
    by (repeat constructor; intros H; vm_compute in H; discriminate).
  assert (H3 : concat chunks = flat_map (@wire cpython) ms)
    by (vm_compute; reflexivity).
  split; [exact H0|]. split; [exact H1|]. split; [exact H2|]. split; [exact H3|].
  exact (@framed_stream_delivers_records cpython (list Json.t) ex_handler
           (fun _ => true) H0 [] ms chunks H1 H2 H3).
Defined.

End FramingWitness.

(** ** The view of a running server *)

Section ViewInvariant.

Import Py.

Context {clock : Clock}.

Implicit Types (rm : RingManager.t) (self : Server.t).

Lemma flagged_same_keys rm rm' :
  flagged rm rm' ->
  keys (RingManager.ring_members rm') = keys (RingManager.ring_members rm).
Proof.
  intros [->|[[x ->]| ->]]; [reflexivity | apply keys_set_leader | apply keys_cleared].
Qed.

Lemma leader_count_cleared rm :
  RingManager.leader_count
    (RingManager.with_members rm (RingManager.clear_flags (RingManager.ring_members rm)))
  = 0%nat.
Proof. unfold RingManager.leader_count. simpl. now rewrite cleared_no_leader. Qed.

Lemma view_ok_flagged (own : str) rm rm' :
  view_ok own rm -> flagged rm rm' -> view_ok own rm'.
Proof.
  intros (Hinv & Hk & Hown & Hl) [->|[[x ->]| ->]].
  - exact (conj Hinv (conj Hk (conj Hown Hl))).
  - split; [|split; [|split]].
    + exact (ring_inv_apply own rm (RingManager.SetLeader x) Hinv).
    + exact (keyed_apply rm (RingManager.SetLeader x) Hk).
    + rewrite (dict_mem_keys_ext own _ (RingManager.ring_members rm));
        [exact Hown | apply keys_set_leader].
    + apply leader_count_set_leader.
  - split; [|split; [|split]].
    + apply ring_inv_with_members; [exact Hinv | apply keys_cleared].
    + apply keyed_cleared, Hk.
    + simpl. rewrite (dict_mem_keys_ext own _ (RingManager.ring_members rm));
        [exact Hown | apply keys_cleared].
    + rewrite leader_count_cleared. lia.
Qed.

Lemma view_ok_add (own : str) rm (id ip : str) (port : Z) :
  view_ok own rm -> view_ok own (RingManager.add_server rm id ip port false).
Proof.
  intros (Hinv & Hk & Hown & Hl). split; [|split; [|split]].
  - exact (ring_inv_apply own rm (RingManager.AddServer id ip port false) Hinv).
  - exact (keyed_apply rm (RingManager.AddServer id ip port false) Hk).
  - unfold RingManager.add_server.
    destruct (dict_mem id (RingManager.ring_members rm)) eqn:E; [exact Hown|].
    rewrite rebuild_members. simpl. apply dict_mem_In.
    rewrite keys_dict_set_new by exact E.
    unfold keys. rewrite map_app. apply in_or_app. left. now apply dict_mem_In.
  - exact (leader_count_apply rm (RingManager.AddServer id ip port false)
             eq_refl Hl).
Qed.

Lemma mem_remove_server rm (x p : str) :
  NoDup (keys (RingManager.ring_members rm)) ->
  dict_mem p (RingManager.ring_members (RingManager.remove_server rm x))
  = dict_mem p (RingManager.ring_members rm) && negb (str_eqb p x).
Proof.
  intros Hnd. unfold RingManager.remove_server.
  destruct (dict_mem x (RingManager.ring_members rm)) eqn:E; simpl.
  - rewrite rebuild_members. simpl.
    destruct (str_eqb p x) eqn:Ep.
    + apply str_eqb_eq in Ep. subst p. rewrite andb_false_r.
      apply dict_mem_false. now apply not_In_keys_dict_del.
    + apply str_eqb_neq in Ep. rewrite andb_true_r.
      destruct (dict_mem p (RingManager.ring_members rm)) eqn:Em.
      * apply dict_mem_In. apply In_keys_dict_del_other; [exact Ep|].
        now apply dict_mem_In.
      * apply dict_mem_false. intros H. apply In_keys_dict_del in H.
        apply dict_mem_false in Em. contradiction.
  - destruct (str_eqb p x) eqn:Ep.
    + apply str_eqb_eq in Ep. subst p. now rewrite E.
    + now rewrite andb_true_r.
Qed.

Lemma view_ok_remove (own : str) rm (x : str) :
  x <> own -> view_ok own rm -> view_ok own (RingManager.remove_server rm x).
Proof.
  intros Hx (Hinv & Hk & Hown & Hl). pose proof Hinv as (_ & Hnd & _).
  split; [|split; [|split]].
  - exact (ring_inv_apply own rm (RingManager.RemoveServer x) Hinv).
  - exact (keyed_apply rm (RingManager.RemoveServer x) Hk).
  - rewrite mem_remove_server by exact Hnd. rewrite Hown. simpl.
    apply negb_true_iff, str_eqb_neq. congruence.
  - exact (leader_count_apply rm (RingManager.RemoveServer x) eq_refl Hl).
Qed.

Lemma flagged_ring_set_leader rm (v : Json.t) :
  flagged rm (fst (ElectionService.ring_set_leader rm v)).
Proof.
  destruct v; simpl; try (right; right; reflexivity).
  right. left. now exists s.
Qed.

Lemma flagged_complete (env : Env.t) rm (es : ElectionService.t) (v : Json.t) :
  flagged rm (ring_of (ElectionService._complete_election env rm es v)).
Proof.
  unfold ElectionService._complete_election.
  pose proof (flagged_ring_set_leader rm v) as H.
  destruct (ElectionService.ring_set_leader rm v) as [rm1 [e|]]; simpl in *; [exact H|].
  destruct (ElectionService._announce_leader env rm1 es v) as [out [e|]]; exact H.
Qed.

Lemma flagged_start (env : Env.t) rm (es : ElectionService.t) :
  flagged rm (ring_of (ElectionService.start_election env rm es)).
Proof.
  unfold ElectionService.start_election.
  destruct (RingManager.right_neighbor rm).
  - destruct (ElectionService.election_in_progress es); now left.
  - right. left. now eexists.
Qed.

Lemma flagged_election (env : Env.t) rm (es : ElectionService.t) (m : message) :
  flagged rm (ring_of (ElectionService.handle_election_message env rm es m)).
Proof.
  unfold ElectionService.handle_election_message. cbv zeta.
  destruct (RingManager.right_neighbor rm); [|now left].
  match goal with
  | |- context [Json.eq_str ?x ?y] => destruct (Json.eq_str x y)
  end; [apply flagged_complete|].
  repeat match goal with
         | |- context [Json.gt_str ?x ?y] => destruct (Json.gt_str x y) as [[|]|]
         | |- context [Json.lt_str ?x ?y] => destruct (Json.lt_str x y) as [[|]|]
         | |- context [Json.add_int ?x ?y] => destruct (Json.add_int x y)
         end;
    now left.
Qed.

Lemma flagged_announcement (env : Env.t) rm (es : ElectionService.t) (m : message) :
  flagged rm (ring_of (ElectionService.handle_leader_announcement env rm es m)).
Proof.
  unfold ElectionService.handle_leader_announcement. cbv zeta.
  pose proof (flagged_ring_set_leader rm (Json.get m (py "leader_id"))) as H.
  destruct (ElectionService.ring_set_leader rm (Json.get m (py "leader_id")))
    as [rm1 [e|]]; simpl in *; [exact H|].
  destruct (negb _); [|exact H].
  destruct (ElectionService._forward_leader_announcement env rm1 _ _); exact H.
Qed.

Lemma flagged_timeout (env : Env.t) rm (es : ElectionService.t) :
  flagged rm (ring_of (ElectionTimer.timeout_handler env rm es)).
Proof.
  unfold ElectionTimer.timeout_handler.
  destruct (RingManager.right_neighbor rm) eqn:E.
  - pose proof (flagged_start env rm
                  (ElectionService.with_timer
                     (ElectionService.with_in_progress es false) false)) as H.
    destruct (ElectionService.start_election env rm _) as [[[rm1 es1] out] e]. exact H.
  - right. left. now eexists.
Qed.

Lemma flagged_server_message (env : Env.t) self (m : message) :
  flagged (Server.ring_manager self)
    (Server.ring_manager (fst (fst (Server._handle_server_message env self m)))) /\
  Server.server_id (fst (fst (Server._handle_server_message env self m)))
  = Server.server_id self.
Proof.
  unfold Server._handle_server_message.
  destruct (Json.eq_str _ MessageType.ELECTION).
  { pose proof (flagged_election env (Server.ring_manager self)
                  (Server.election self) m) as H.
    destruct (ElectionService.handle_election_message _ _ _ _) as [[[rm es] out] e].
    now split. }
  destruct (Json.eq_str _ MessageType.LEADER_ANNOUNCEMENT).
  { pose proof (flagged_announcement env (Server.ring_manager self)
                  (Server.election self) m) as H.
    destruct (ElectionService.handle_leader_announcement _ _ _ _)
      as [[[rm es] out] e].
    now split. }
  destruct (Json.eq_str _ MessageType.HEARTBEAT); [split; [now left | reflexivity]|].
  destruct (Json.eq_str _ MessageType.FORWARD_MESSAGE).
  { destruct (MessageHandler.handle_forwarded_message _ _ _ _).
    split; [now left | reflexivity]. }
  simpl.
  destruct (Json.eq_str _ MessageType.CHAT_MESSAGE);
    (split; [now left | reflexivity]).
Qed.

(** The state of a server: its own id in every component that decides by it,
    and a view a running server can hold. *)
Lemma after_election_spec self (o : ElectionService.outcome) :
  Server.server_id (fst (fst (ServerCallbacks.after_election self o)))
  = Server.server_id self /\
  Server.ring_manager (fst (fst (ServerCallbacks.after_election self o))) = ring_of o.
Proof. destruct o as [[[rm es] out] e]. now split. Qed.

Lemma find_crashed_refs (own : str) (now : time) (servers : list FailureDetector.ref)
      (table : JsonKey.dict time) :
  Forall (fun r => In r servers /\ ServerInfo.server_id (snd r) <> own)
         (snd (FailureDetector.find_crashed own now servers table)).
Proof.
  revert table. induction servers as [|r servers IH]; intros table; simpl;
    [constructor|].
  assert (Hw : forall t,
             Forall (fun r0 => In r0 (r :: servers) /\
                               ServerInfo.server_id (snd r0) <> own)
                    (snd (FailureDetector.find_crashed own now servers t))).
  { intros t. eapply Forall_impl; [|apply IH]. simpl. tauto. }
  destruct (str_eqb (ServerInfo.server_id (snd r)) own) eqn:E; [apply Hw|].
  apply str_eqb_neq in E.
  destruct (JsonKey.get _ table) as [last_seen|]; [|apply Hw].
  destruct (is_zero last_seen); [apply Hw|].
  destruct (timed_out now last_seen); [|apply Hw].
  specialize (Hw table).
  destruct (FailureDetector.find_crashed own now servers table) as [t crashed].
  simpl in *. constructor; [|exact Hw]. split; [now left | exact E].
Qed.

Lemma deref_id rm (r : FailureDetector.ref) :
  keyed (RingManager.ring_members rm) ->
  fst r = ServerInfo.server_id (snd r) ->
  ServerInfo.server_id (FailureDetector.deref rm r) = fst r.
Proof.
  intros Hk Hr. unfold FailureDetector.deref.
  destruct (dict_get (fst r) (RingManager.ring_members rm)) as [s|] eqn:E.
  - exact (keyed_get _ _ _ Hk E).
  - now symmetry.
Qed.

Lemma view_ok_crash (own : str) (env : Env.t) self (r : FailureDetector.ref) :
  view_ok own (Server.ring_manager self) ->
  fst r = ServerInfo.server_id (snd r) -> fst r <> own ->
  view_ok own
    (Server.ring_manager (fst (fst (FailureDetector._handle_server_crash env self r)))) /\
  Server.server_id (fst (fst (FailureDetector._handle_server_crash env self r)))
  = Server.server_id self.
Proof.
  intros Hv Hr Hne. unfold FailureDetector._handle_server_crash.
  pose proof Hv as (_ & Hk & _).
  rewrite (deref_id _ r Hk Hr).
  pose proof (view_ok_remove own _ (fst r) Hne Hv) as Hv1.
  destruct (ServerInfo.is_leader _).
  - pose proof (flagged_start env
                  (RingManager.remove_server (Server.ring_manager self) (fst r))
                  (Server.election self)) as Hf.
    destruct (ElectionService.start_election env _ _) as [[[rm es] out] e].
    simpl in *. split; [exact (view_ok_flagged own _ _ Hv1 Hf) | reflexivity].
  - simpl. split; [exact Hv1 | reflexivity].
Qed.

Lemma view_ok_crashes (own : str) (envs : nat -> Env.t) (crashed : list FailureDetector.ref) :
  forall (n : nat) self,
    view_ok own (Server.ring_manager self) ->
    Forall (fun r => fst r = ServerInfo.server_id (snd r) /\ fst r <> own) crashed ->
    view_ok own
      (Server.ring_manager
         (fst (fst (FailureDetector.handle_crashes envs n self crashed)))) /\
    Server.server_id (fst (fst (FailureDetector.handle_crashes envs n self crashed)))
    = Server.server_id self.
Proof.
  induction crashed as [|r crashed IH]; intros n self Hv Hc; simpl; [now split|].
  apply Forall_cons_iff in Hc as [[Hr Hne] Hc].
  destruct (view_ok_crash own (envs n) self r Hv Hr Hne) as [Hv1 Hid1].
  destruct (FailureDetector._handle_server_crash (envs n) self r)
    as [[self1 out] [e|]]; simpl in *; [now split|].
  destruct (IH (S n) self1 Hv1 Hc) as [Hv2 Hid2].
  destruct (FailureDetector.handle_crashes envs (S n) self1 crashed)
    as [[self2 out'] e]. simpl in *. split; [exact Hv2 | congruence].
Qed.

Lemma entries_keyed (m : dict ServerInfo.t) (r : str * ServerInfo.t) :
  keyed m -> In r m -> fst r = ServerInfo.server_id (snd r).
Proof.
  unfold keyed. intros Hk Hin.
  symmetry. exact (proj1 (Forall_forall _ _) Hk r Hin).
Qed.

Lemma view_ok_sweep (own : str) (envs : nat -> Env.t) (now : time)
      (s : FailureDetector.t) :
  Server.server_id (FailureDetector.server s) = own ->
  view_ok own (Server.ring_manager (FailureDetector.server s)) ->
  view_ok own
    (Server.ring_manager
       (FailureDetector.server
          (fst (fst (FailureDetector._check_heartbeat_timeouts envs now s))))) /\
  Server.server_id
    (FailureDetector.server
       (fst (fst (FailureDetector._check_heartbeat_timeouts envs now s)))) = own.
Proof.
  intros Hid Hv. unfold FailureDetector._check_heartbeat_timeouts.
  pose proof (find_crashed_refs (Server.server_id (FailureDetector.server s)) now
                (RingManager.ring_members (Server.ring_manager (FailureDetector.server s)))
                (FailureDetector.last_heartbeat_received s)) as Hc.
  destruct (FailureDetector.find_crashed _ _ _ _) as [table crashed]. simpl in Hc.
  pose proof Hv as (_ & Hk & _).
  destruct (view_ok_crashes own envs crashed 0 (FailureDetector.server s) Hv)
    as [Hv1 Hid1].
  { eapply Forall_impl; [|exact Hc]. intros r [Hin Hne].
    pose proof (entries_keyed _ r Hk Hin) as Hr. split; [exact Hr|]. congruence. }
  destruct (FailureDetector.handle_crashes envs 0 (FailureDetector.server s) crashed)
    as [[server1 out] e]. simpl in *. split; [exact Hv1 | congruence].
Qed.

Lemma view_ok_initialize (own : str) (discovered : list (str * str * Z)) :
  forall rm, view_ok own rm ->
    view_ok own
      (fold_left
         (fun rm server =>
            match server with
            | (server_id, ip, port) => RingManager.add_server rm server_id ip port false
            end)
         discovered rm).
Proof.
  induction discovered as [|[[id ip] port] discovered IH]; intros rm Hv; simpl;
    [exact Hv|].
  apply IH. now apply view_ok_add.
Qed.

Lemma view_ok_step (own : str) (s : FailureDetector.t) (a : FailureDetector.action) :
  Server.server_id (FailureDetector.server s) = own ->
  view_ok own (Server.ring_manager (FailureDetector.server s)) ->
  Server.server_id (FailureDetector.server (fst (fst (FailureDetector.step s a)))) = own /\
  view_ok own
    (Server.ring_manager (FailureDetector.server (fst (fst (FailureDetector.step s a))))).
Proof.
  intros Hid Hv.
  destruct a as [env id ip port | discovered | env | env now m | env m | envs now | env];
    simpl.
  - unfold ServerCallbacks._on_server_discovered.
    pose proof (view_ok_add own _ id ip port Hv) as Hv1.
    destruct (RingManager.is_leader _ _).
    + pose proof (flagged_start env
                    (RingManager.add_server
                       (Server.ring_manager (FailureDetector.server s)) id ip port false)
                    (Server.election (FailureDetector.server s))) as Hf.
      destruct (ElectionService.start_election env _ _) as [[[rm es] out] e].
      simpl in *. split; [exact Hid | exact (view_ok_flagged own _ _ Hv1 Hf)].
    + simpl. split; [exact Hid | exact Hv1].
  - split; [exact Hid | now apply view_ok_initialize].
  - unfold ServerCallbacks.start_initial_election.
    destruct (RingManager.get_leader _); [simpl; now split|].
    destruct (_ >? 1)%Z.
    + pose proof (flagged_start env (Server.ring_manager (FailureDetector.server s))
                    (Server.election (FailureDetector.server s))) as Hf.
      destruct (ElectionService.start_election env _ _) as [[[rm es] out] e].
      simpl in *. split; [exact Hid | exact (view_ok_flagged own _ _ Hv Hf)].
    + simpl. split; [exact Hid|].
      apply (view_ok_flagged own _ _ Hv). right. left. now eexists.
  - unfold FailureDetector._handle_server_message.
    destruct (flagged_server_message env (FailureDetector.server s) m) as [Hf Hs].
    destruct (Server._handle_server_message env (FailureDetector.server s) m)
      as [[server1 out] [e|]]; simpl in *.
    + split; [congruence | exact (view_ok_flagged own _ _ Hv Hf)].
    + destruct (FailureDetector.heartbeats out) as [|hb hbs]; simpl.
      * split; [congruence | exact (view_ok_flagged own _ _ Hv Hf)].
      * unfold FailureDetector._handle_heartbeat.
        destruct (Json.hashable _); simpl;
          (split; [congruence | exact (view_ok_flagged own _ _ Hv Hf)]).
  - unfold ServerCallbacks.handle_client_message.
    destruct (negb (MessageHandler.content_preview m)); [simpl; now split|].
    destruct (MessageHandler.handle_client_message _ _ _ _) as [[mh out] e].
    simpl. now split.
  - unfold FailureDetector.heartbeat_round.
    destruct (view_ok_sweep own envs now s Hid Hv) as [Hv1 Hid1].
    destruct (FailureDetector._check_heartbeat_timeouts envs now s)
      as [[s1 out] e]. simpl in *. now split.
  - destruct (ElectionService.election_timer _); [|simpl; now split].
    pose proof (flagged_timeout env (Server.ring_manager (FailureDetector.server s))
                  (Server.election (FailureDetector.server s))) as Hf.
    destruct (ElectionTimer.timeout_handler env _ _) as [[[rm es] out] e].
    simpl in *. split; [exact Hid | exact (view_ok_flagged own _ _ Hv Hf)].
Qed.

Lemma view_ok_started (own ip : str) (port : Z) :
  Server.server_id (FailureDetector.server (FailureDetector.started own ip port)) = own /\
  view_ok own
    (Server.ring_manager (FailureDetector.server (FailureDetector.started own ip port))).
Proof.
  split; [reflexivity|]. simpl.
  change (RingManager.add_server (RingManager.init own) own ip port false)
    with (RingManager.run own [RingManager.AddServer own ip port false]).
  split; [|split; [|split]].
  - apply ring_inv_run.
  - apply keyed_run.
  - unfold RingManager.run. simpl. unfold RingManager.add_server. simpl.
    rewrite rebuild_members. simpl. unfold dict_mem. simpl.
    now rewrite str_eqb_refl.
  - unfold RingManager.run. simpl. unfold RingManager.add_server,
      RingManager.leader_count. simpl. rewrite rebuild_members. simpl. lia.
Qed.

Lemma view_ok_run (own ip : str) (port : Z) (actions : list FailureDetector.action) :
  Server.server_id
    (FailureDetector.server
       (FailureDetector.run (FailureDetector.started own ip port) actions)) = own /\
  view_ok own
    (Server.ring_manager
       (FailureDetector.server
          (FailureDetector.run (FailureDetector.started own ip port) actions))).
Proof.
  unfold FailureDetector.run.
  generalize (view_ok_started own ip port).
  generalize (FailureDetector.started own ip port).
  induction actions as [|a actions IH]; intros s [Hid Hv]; simpl; [now split|].
  apply IH. now apply view_ok_step.
Qed.

Lemma view_ok_neighbors (own : str) rm : view_ok own rm -> RingManager.neighbors_ok rm.
Proof.
  intros (Hinv & _ & Hown & _). pose proof Hinv as (Ho & Hnd & _).
  destruct (rebuild_neighbors rm Hnd) as [_ Hin]. rewrite Ho in Hin.
  destruct (Hin Hown) as [H1 H2].
  rewrite (ring_inv_fixed own _ Hinv) in H1, H2.
  unfold RingManager.neighbors_ok. rewrite Ho. split; [exact H1|].
  intros Hlen. destruct (H2 Hlen) as (l & r & Hl & Hr & Hlo & Hro & _).
  exists l, r. auto.
Qed.

(** X21: the view of a running server whose discovery reports servers with
    strings as ids.  After step 2 of [start], whatever calls the threads of
    the server make on such servers and on any records (servers discovered,
    the ring initialised, records of peers and of clients handled, heartbeat
    rounds with their crash handling, election timers expiring), the view
    holds the node's own id, at most one member is flagged as leader, the
    neighbours are as the data model says (none in a view of one, two
    members other than the node itself otherwise) and the ring order lists
    the member ids in ascending order.  A server reported with an id that is
    not a string is outside the actions: it takes the view out of
    [RingManager.t]. *)
Theorem running_server_view (own ip : str) (port : Z)
        (actions : list FailureDetector.action) :
  let rm :=
    Server.ring_manager
      (FailureDetector.server
         (FailureDetector.run (FailureDetector.started own ip port) actions)) in
  dict_mem own (RingManager.ring_members rm) = true /\
  (RingManager.leader_count rm <= 1)%nat /\
  RingManager.neighbors_ok rm /\
  RingManager.ring_order rm = sorted (keys (RingManager.ring_members rm)) /\
  StronglySorted str_lt (RingManager.ring_order rm).
Proof.
  intros rm. destruct (view_ok_run own ip port actions) as [_ Hv]. fold rm in Hv.
  pose proof Hv as (Hinv & Hk & Hown & Hl).
  pose proof Hinv as (_ & Hnd & _ & _ & Ho).
  split; [exact Hown|]. split; [exact Hl|].
  split; [exact (view_ok_neighbors own rm Hv)|].
  rewrite Ho, rebuild_order.
  split; [reflexivity | now apply sorted_strongly].
Qed.

End ViewInvariant.

(** ** Failure detector *)

Section DetectorFacts.

Import Py.

Context {clock : Clock}.

Lemma key_eqb_str (j : Json.t) (a : str) :
  JsonKey.eqb j (Json.Str a) = true -> j = Json.Str a.
Proof.
  destruct j as [|b|z|s|l|d]; simpl; try discriminate.
  intros H. apply str_eqb_eq in H. now subst.
Qed.

Lemma key_get_set_str {V : Type} (a b : str) (v : V) (d : JsonKey.dict V) :
  JsonKey.get (Json.Str b) (JsonKey.set (Json.Str a) v d)
  = if str_eqb a b then Some v else JsonKey.get (Json.Str b) d.
Proof.
  induction d as [|[j w] d IH]; simpl.
  - reflexivity.
  - destruct (JsonKey.eqb j (Json.Str a)) eqn:Ea.
    + apply key_eqb_str in Ea. subst j. simpl.
      now destruct (str_eqb a b).
    + simpl. destruct (JsonKey.eqb j (Json.Str b)) eqn:Eb; [|exact IH].
      apply key_eqb_str in Eb. subst j. simpl in Ea.
      now rewrite (str_eqb_sym a b), Ea.
Qed.

Lemma overdue_set (now v : time) (table : JsonKey.dict time) (a b : str) :
  a <> b -> overdue now (JsonKey.set (Json.Str a) v table) b = overdue now table b.
Proof.
  intros H. unfold overdue. rewrite key_get_set_str.
  now rewrite (proj2 (str_eqb_neq a b) H).
Qed.

Lemma unseen_set (v : time) (table : JsonKey.dict time) (a b : str) :
  a <> b -> unseen (JsonKey.set (Json.Str a) v table) b = unseen table b.
Proof.
  intros H. unfold unseen. rewrite key_get_set_str.
  now rewrite (proj2 (str_eqb_neq a b) H).
Qed.

Lemma unseen_not_overdue (now : time) (table : JsonKey.dict time) (p : str) :
  unseen table p = true -> overdue now table p = false.
Proof.
  unfold unseen, overdue. destruct (JsonKey.get _ table); [|reflexivity].
  now intros ->.
Qed.

(** What the first loop of [_check_heartbeat_timeouts] computes when no id
    occurs twice: the servers whose entry is overdue, and a stamp for every
    other server that was not seen before. *)
Lemma find_crashed_spec (own : str) (now : time) (servers : list FailureDetector.ref) :
  NoDup (map (fun r => ServerInfo.server_id (snd r)) servers) ->
  forall table : JsonKey.dict time,
    snd (FailureDetector.find_crashed own now servers table)
    = filter (fun r => negb (str_eqb (ServerInfo.server_id (snd r)) own)
                       && overdue now table (ServerInfo.server_id (snd r)))
             servers /\
    forall p,
      JsonKey.get (Json.Str p) (fst (FailureDetector.find_crashed own now servers table))
      = if existsb (fun r => str_eqb (ServerInfo.server_id (snd r)) p
                             && negb (str_eqb (ServerInfo.server_id (snd r)) own))
                   servers
           && unseen table p
        then Some now
        else JsonKey.get (Json.Str p) table.
Proof.
  induction servers as [|r servers IH]; intros Hnd table; [now split|].
  apply NoDup_cons_iff in Hnd as [Hr Hnd]. specialize (IH Hnd).
  set (a := ServerInfo.server_id (snd r)) in *.
  assert (Hrest : forall r', In r' servers -> ServerInfo.server_id (snd r') <> a).
  { intros r' Hin E. apply Hr. rewrite <- E.
    exact (in_map (fun r => ServerInfo.server_id (snd r)) _ _ Hin). }
  assert (Hfilter : forall v,
             filter (fun r0 => negb (str_eqb (ServerInfo.server_id (snd r0)) own)
                               && overdue now (JsonKey.set (Json.Str a) v table)
                                          (ServerInfo.server_id (snd r0)))
                    servers
             = filter (fun r0 => negb (str_eqb (ServerInfo.server_id (snd r0)) own)
                                 && overdue now table (ServerInfo.server_id (snd r0)))
                      servers).
  { intros v. apply filter_ext_in. intros r' Hin.
    rewrite overdue_set; [reflexivity|]. apply not_eq_sym. now apply Hrest. }
  assert (Hex : forall p, p <> a ->
             existsb (fun r0 => str_eqb (ServerInfo.server_id (snd r0)) p
                                && negb (str_eqb (ServerInfo.server_id (snd r0)) own))
                     (r :: servers)
             = existsb (fun r0 => str_eqb (ServerInfo.server_id (snd r0)) p
                                  && negb (str_eqb (ServerInfo.server_id (snd r0)) own))
                       servers).
  { intros p Hp. simpl. fold a.
    now rewrite (proj2 (str_eqb_neq a p) (not_eq_sym Hp)). }
  assert (Hnot : existsb (fun r0 => str_eqb (ServerInfo.server_id (snd r0)) a
                                    && negb (str_eqb (ServerInfo.server_id (snd r0)) own))
                         servers = false).
  { apply not_true_is_false. intros H. apply existsb_exists in H.
    destruct H as (r' & Hin & H). apply andb_true_iff in H as [H _].
    apply str_eqb_eq in H. exact (Hrest r' Hin H). }
  cbn [FailureDetector.find_crashed filter]. fold a.
  destruct (str_eqb a own) eqn:Eown.
  { destruct (IH table) as [IH1 IH2]. split; [exact IH1|].
    intros p. rewrite IH2. simpl. fold a. rewrite Eown.
    now rewrite andb_false_r. }
  cbn [negb andb].
  assert (Hstamp : unseen table a = true ->
            snd (FailureDetector.find_crashed own now servers
                   (JsonKey.set (Json.Str a) now table))
            = filter (fun r0 => negb (str_eqb (ServerInfo.server_id (snd r0)) own)
                                && overdue now table (ServerInfo.server_id (snd r0)))
                     servers /\
            forall p,
              JsonKey.get (Json.Str p)
                (fst (FailureDetector.find_crashed own now servers
                        (JsonKey.set (Json.Str a) now table)))
              = if existsb (fun r0 => str_eqb (ServerInfo.server_id (snd r0)) p
                                      && negb (str_eqb (ServerInfo.server_id (snd r0)) own))
                           (r :: servers)
                   && unseen table p
                then Some now
                else JsonKey.get (Json.Str p) table).
  { intros Hu. destruct (IH (JsonKey.set (Json.Str a) now table)) as [IH1 IH2].
    split; [rewrite IH1; apply Hfilter|].
    intros p. rewrite IH2. destruct (str_eqb a p) eqn:Ep.
    - apply str_eqb_eq in Ep. subst p. rewrite Hnot. simpl. fold a.
      rewrite str_eqb_refl, Eown, Hu. simpl.
      rewrite key_get_set_str. now rewrite str_eqb_refl.
    - apply str_eqb_neq in Ep.
      rewrite (Hex p (not_eq_sym Ep)), (unseen_set _ _ _ _ Ep).
      rewrite key_get_set_str. now rewrite (proj2 (str_eqb_neq a p) Ep). }
  assert (Hkeep : unseen table a = false ->
            forall p,
              (if existsb (fun r0 => str_eqb (ServerInfo.server_id (snd r0)) p
                                     && negb (str_eqb (ServerInfo.server_id (snd r0)) own))
                          servers
                  && unseen table p
               then Some now
               else JsonKey.get (Json.Str p) table)
              = if existsb (fun r0 => str_eqb (ServerInfo.server_id (snd r0)) p
                                      && negb (str_eqb (ServerInfo.server_id (snd r0)) own))
                           (r :: servers)
                   && unseen table p
                then Some now
                else JsonKey.get (Json.Str p) table).
  { intros Hu p. destruct (str_eqb a p) eqn:Ep.
    - apply str_eqb_eq in Ep. subst p. rewrite Hu, !andb_false_r. reflexivity.
    - apply str_eqb_neq in Ep. now rewrite (Hex p (not_eq_sym Ep)). }
  destruct (JsonKey.get (Json.Str a) table) as [last_seen|] eqn:Eg.
  - destruct (is_zero last_seen) eqn:Ez.
    + assert (Hu : unseen table a = true) by (unfold unseen; now rewrite Eg).
      rewrite (unseen_not_overdue now _ _ Hu). exact (Hstamp Hu).
    + assert (Hu : unseen table a = false) by (unfold unseen; now rewrite Eg).
      assert (Ho : overdue now table a = timed_out now last_seen)
        by (unfold overdue; now rewrite Eg, Ez).
      rewrite Ho. destruct (timed_out now last_seen) eqn:Et.
      * destruct (IH table) as [IH1 IH2].
        destruct (FailureDetector.find_crashed own now servers table) as [t crashed].
        simpl in *. split; [now rewrite IH1|].
        intros p. rewrite IH2. now apply Hkeep.
      * destruct (IH table) as [IH1 IH2]. split; [exact IH1|].
        intros p. rewrite IH2. now apply Hkeep.
  - assert (Hu : unseen table a = true) by (unfold unseen; now rewrite Eg).
    rewrite (unseen_not_overdue now _ _ Hu). exact (Hstamp Hu).
Qed.

Lemma entries_ids (m : dict ServerInfo.t) :
  keyed m -> map (fun r => ServerInfo.server_id (snd r)) m = keys m.
Proof.
  unfold keyed, keys. intros H. apply map_ext_in. intros r Hin.
  exact (proj1 (Forall_forall _ _) H r Hin).
Qed.

Lemma mem_after_crash (own : str) (env : Env.t) (self : Server.t)
      (r : FailureDetector.ref) (p : str) :
  view_ok own (Server.ring_manager self) ->
  fst r = ServerInfo.server_id (snd r) ->
  dict_mem p
    (RingManager.ring_members
       (Server.ring_manager (fst (fst (FailureDetector._handle_server_crash env self r)))))
  = dict_mem p (RingManager.ring_members (Server.ring_manager self))
    && negb (str_eqb p (fst r)).
Proof.
  intros Hv Hr. pose proof Hv as ((_ & Hnd & _) & Hk & _).
  unfold FailureDetector._handle_server_crash.
  rewrite (deref_id _ r Hk Hr).
  rewrite <- (mem_remove_server _ (fst r) p Hnd).
  destruct (ServerInfo.is_leader _); [|reflexivity].
  pose proof (flagged_start env
                (RingManager.remove_server (Server.ring_manager self) (fst r))
                (Server.election self)) as Hf.
  destruct (ElectionService.start_election env _ _) as [[[rm es] out] e].
  simpl in *. apply dict_mem_keys_ext. now apply flagged_same_keys.
Qed.

Lemma mem_after_crashes (own : str) (envs : nat -> Env.t)
      (crashed : list FailureDetector.ref) (p : str) :
  forall (n : nat) (self : Server.t),
    view_ok own (Server.ring_manager self) ->
    Forall (fun r => fst r = ServerInfo.server_id (snd r) /\ fst r <> own) crashed ->
    dict_mem p
      (RingManager.ring_members
         (Server.ring_manager
            (fst (fst (FailureDetector.handle_crashes envs n self crashed)))))
    = dict_mem p (RingManager.ring_members (Server.ring_manager self))
      && negb (existsb (fun r => str_eqb p (fst r)) crashed).
Proof.
  induction crashed as [|r crashed IH]; intros n self Hv Hc; simpl;
    [now rewrite andb_true_r|].
  apply Forall_cons_iff in Hc as [[Hr Hne] Hc].
  pose proof (mem_after_crash own (envs n) self r p Hv Hr) as Hm.
  destruct (view_ok_crash own (envs n) self r Hv Hr Hne) as [Hv1 _].
  pose proof (flagged_start (envs n)
                (RingManager.remove_server (Server.ring_manager self) (fst r))
                (Server.election self)) as Hf.
  assert (He : snd (FailureDetector._handle_server_crash (envs n) self r) = None).
  { unfold FailureDetector._handle_server_crash.
    destruct (ServerInfo.is_leader _); [|reflexivity].
    unfold ElectionService.start_election.
    destruct (RingManager.right_neighbor _); [|reflexivity].
    now destruct (ElectionService.election_in_progress _). }
  destruct (FailureDetector._handle_server_crash (envs n) self r)
    as [[self1 out] e]. simpl in He. subst e. simpl in *.
  specialize (IH (S n) self1 Hv1 Hc).
  destruct (FailureDetector.handle_crashes envs (S n) self1 crashed)
    as [[self2 out'] e]. simpl in *.
  rewrite IH, Hm, negb_orb. now rewrite andb_assoc.
Qed.

Lemma crashed_ids (own : str) (now : time) (table : JsonKey.dict time)
      (m : dict ServerInfo.t) (p : str) :
  keyed m ->
  existsb (fun r => str_eqb p (fst r))
    (filter (fun r => negb (str_eqb (ServerInfo.server_id (snd r)) own)
                      && overdue now table (ServerInfo.server_id (snd r))) m)
  = dict_mem p m && negb (str_eqb p own) && overdue now table p.
Proof.
  unfold keyed. induction m as [|[k v] m IH]; intros Hk; [reflexivity|].
  apply Forall_cons_iff in Hk as [Hkv Hk]. simpl in Hkv. specialize (IH Hk).
  subst k. unfold dict_mem in *. cbn [filter dict_get snd fst].
  destruct (str_eqb (ServerInfo.server_id v) p) eqn:E.
  - apply str_eqb_eq in E. subst p. cbn [andb].
    destruct (negb (str_eqb (ServerInfo.server_id v) own)
              && overdue now table (ServerInfo.server_id v)) eqn:Ef.
    + cbn [existsb fst]. now rewrite str_eqb_refl.
    + rewrite IH. now destruct (dict_get (ServerInfo.server_id v) m).
  - destruct (negb (str_eqb (ServerInfo.server_id v) own)
              && overdue now table (ServerInfo.server_id v)); [|exact IH].
    cbn [existsb fst]. now rewrite (str_eqb_sym p (ServerInfo.server_id v)), E.
Qed.

(** What a check of the heartbeat timeouts does to a view that a running
    server can hold. *)
Lemma sweep_spec (own : str) (s : FailureDetector.t) (envs : nat -> Env.t)
      (now : time) (p : str) :
  Server.server_id (FailureDetector.server s) = own ->
  view_ok own (Server.ring_manager (FailureDetector.server s)) ->
  dict_mem p
    (RingManager.ring_members
       (Server.ring_manager
          (FailureDetector.server
             (fst (fst (FailureDetector._check_heartbeat_timeouts envs now s))))))
  = dict_mem p (RingManager.ring_members (Server.ring_manager (FailureDetector.server s)))
    && (str_eqb p own
        || negb (overdue now (FailureDetector.last_heartbeat_received s) p)) /\
  (p <> own ->
   dict_mem p (RingManager.ring_members (Server.ring_manager (FailureDetector.server s)))
   = true ->
   unseen (FailureDetector.last_heartbeat_received s) p = true ->
   JsonKey.get (Json.Str p)
     (FailureDetector.last_heartbeat_received
        (fst (fst (FailureDetector._check_heartbeat_timeouts envs now s))))
   = Some now).
Proof.
  intros Hid Hv. pose proof Hv as ((_ & Hnd & _) & Hk & _).
  unfold FailureDetector._check_heartbeat_timeouts. rewrite Hid.
  destruct (find_crashed_spec own now
              (RingManager.ring_members (Server.ring_manager (FailureDetector.server s))))
    with (table := FailureDetector.last_heartbeat_received s) as [Hc Ht].
  { now rewrite entries_ids. }
  pose proof (find_crashed_refs own now
                (RingManager.ring_members (Server.ring_manager (FailureDetector.server s)))
                (FailureDetector.last_heartbeat_received s)) as Hrefs.
  destruct (FailureDetector.find_crashed own now _ _) as [table crashed].
  simpl in Hc, Ht, Hrefs.
  pose proof (mem_after_crashes own envs crashed p 0 (FailureDetector.server s) Hv) as Hm.
  destruct (FailureDetector.handle_crashes envs 0 (FailureDetector.server s) crashed)
    as [[server1 out] e]. simpl in *. split.
  - rewrite Hm.
    + rewrite Hc, (crashed_ids own now _ _ p Hk).
      destruct (dict_mem p (RingManager.ring_members
                              (Server.ring_manager (FailureDetector.server s)))),
        (str_eqb p own), (overdue now (FailureDetector.last_heartbeat_received s) p);
        reflexivity.
    + eapply Forall_impl; [|exact Hrefs]. intros r [Hin Hne].
      pose proof (entries_keyed _ r Hk Hin) as Hr. split; [exact Hr | congruence].
  - intros Hp Hmem Hu. rewrite Ht, Hu, andb_true_r.
    replace (existsb _ _) with true; [reflexivity|].
    symmetry. apply existsb_exists.
    apply dict_mem_In in Hmem. unfold keys in Hmem. apply in_map_iff in Hmem.
    destruct Hmem as (r & Hr & Hin). exists r. split; [exact Hin|].
    rewrite <- (entries_keyed _ r Hk Hin), Hr, str_eqb_refl. simpl.
    apply negb_true_iff, str_eqb_neq. exact Hp.
Qed.

(** X22: what a check of the heartbeat timeouts does to the view of a
    running server.  A member stays a member exactly when it is the node
    itself or its entry in the table is not overdue; in particular a peer
    with no entry, or a zero entry, is never removed by the check that first
    sees it, and it is stamped with the current reading. *)
Theorem sweep_membership (own ip : str) (port : Z)
        (actions : list FailureDetector.action) (envs : nat -> Env.t) (now : time)
        (p : str) :
  let s := FailureDetector.run (FailureDetector.started own ip port) actions in
  let s' := fst (fst (FailureDetector._check_heartbeat_timeouts envs now s)) in
  dict_mem p (RingManager.ring_members (Server.ring_manager (FailureDetector.server s')))
  = dict_mem p (RingManager.ring_members (Server.ring_manager (FailureDetector.server s)))
    && (str_eqb p own
        || negb (overdue now (FailureDetector.last_heartbeat_received s) p)) /\
  (p <> own ->
   dict_mem p (RingManager.ring_members (Server.ring_manager (FailureDetector.server s)))
   = true ->
   unseen (FailureDetector.last_heartbeat_received s) p = true ->
   JsonKey.get (Json.Str p) (FailureDetector.last_heartbeat_received s') = Some now).
Proof.
  intros s s'. destruct (view_ok_run own ip port actions) as [Hid Hv].
  fold s in Hid, Hv. unfold s'.
  exact (sweep_spec own s envs now p Hid Hv).
Qed.

End DetectorFacts.

Section DetectorWitnesses.

Import Py.

Lemma sweep_membership_witness :
  dict_mem (py "s3")
    (RingManager.ring_members
       (Server.ring_manager
          (FailureDetector.server
             (fst (fst (FailureDetector._check_heartbeat_timeouts
                          (fun _ => ex_env) (20%Z : @time seconds)
                          (ex_node
                             [@FailureDetector.OnServerDiscovered seconds
                                ex_env (py "s3") (py "10.0.0.3") 8003]))))))) = true /\
  JsonKey.get (Json.Str (py "s3"))
    (FailureDetector.last_heartbeat_received
       (fst (fst (FailureDetector._check_heartbeat_timeouts
                    (fun _ => ex_env) (20%Z : @time seconds)
                    (ex_node
                       [@FailureDetector.OnServerDiscovered seconds
                          ex_env (py "s3") (py "10.0.0.3") 8003])))))
  = Some 20%Z.
Proof.
  destruct (@sweep_membership seconds (py "s2") (py "10.0.0.2") 8002
              [@FailureDetector.OnServerDiscovered seconds
                 ex_env (py "s3") (py "10.0.0.3") 8003]
              (fun _ => ex_env) 20%Z (py "s3")) as [H1 H2].
  split.
  - unfold ex_node. rewrite H1. reflexivity.
  - apply H2; [intros H; vm_compute in H; discriminate | reflexivity | reflexivity].
Defined.

End DetectorWitnesses.

(** ** Crash handling *)

Section CrashHandling.

Import Py.

Context {clock : Clock}.

Lemma bound_after_start (own : str) (env : Env.t) (rm : RingManager.t)
      (es : ElectionService.t) :
  service_bound own es ->
  service_bound own (service_of (ElectionService.start_election env rm es)).
Proof.
  intros H. unfold ElectionService.start_election.
  destruct (RingManager.right_neighbor rm); [|exact H].
  destruct (ElectionService.election_in_progress es); exact H.
Qed.

Lemma bound_after_complete (own : str) (env : Env.t) (rm : RingManager.t)
      (es : ElectionService.t) (v : Json.t) :
  service_bound own es ->
  service_bound own (service_of (ElectionService._complete_election env rm es v)).
Proof.
  intros H. unfold ElectionService._complete_election.
  destruct (ElectionService.ring_set_leader rm v) as [rm1 [e|]]; [exact H|].
  destruct (ElectionService._announce_leader env rm1 es v) as [out [e|]]; exact H.
Qed.

Lemma bound_after_election (own : str) (env : Env.t) (rm : RingManager.t)
      (es : ElectionService.t) (m : message) :
  service_bound own es ->
  service_bound own (service_of (ElectionService.handle_election_message env rm es m)).
Proof.
  intros H. unfold ElectionService.handle_election_message. cbv zeta.
  destruct (RingManager.right_neighbor rm); [|exact H].
  assert (H1 : service_bound own
                 (if negb (ElectionService.election_in_progress es)
                  then ElectionService._start_election_timer
                         (ElectionService.with_election_id
                            (ElectionService.with_in_progress es true)
                            (Json.get m (py "message_id")))
                  else es))
    by (destruct (negb _); exact H).
  match goal with
  | |- context [Json.eq_str ?x ?y] => destruct (Json.eq_str x y)
  end; [now apply bound_after_complete|].
  repeat match goal with
         | |- context [Json.gt_str ?x ?y] => destruct (Json.gt_str x y) as [[|]|]
         | |- context [Json.lt_str ?x ?y] => destruct (Json.lt_str x y) as [[|]|]
         | |- context [Json.add_int ?x ?y] => destruct (Json.add_int x y)
         end;
    exact H1.
Qed.

Lemma bound_after_announcement (own : str) (env : Env.t) (rm : RingManager.t)
      (es : ElectionService.t) (m : message) :
  service_bound own es ->
  service_bound own
    (service_of (ElectionService.handle_leader_announcement env rm es m)).
Proof.
  intros H. unfold ElectionService.handle_leader_announcement. cbv zeta.
  destruct (ElectionService.ring_set_leader rm (Json.get m (py "leader_id")))
    as [rm1 [e|]]; [exact H|].
  destruct (negb _); [|exact H].
  destruct (ElectionService._forward_leader_announcement env rm1 _ _); exact H.
Qed.

Lemma bound_after_timeout (own : str) (env : Env.t) (rm : RingManager.t)
      (es : ElectionService.t) :
  service_bound own es ->
  service_bound own (service_of (ElectionTimer.timeout_handler env rm es)).
Proof.
  intros H. unfold ElectionTimer.timeout_handler.
  destruct (RingManager.right_neighbor rm) eqn:E; [|exact H].
  pose proof (bound_after_start own env rm
                (ElectionService.with_timer
                   (ElectionService.with_in_progress es false) false) H) as H1.
  destruct (ElectionService.start_election env rm _) as [[[rm1 es1] out] e]. exact H1.
Qed.

Lemma bound_after_server_message (own : str) (env : Env.t) (self : Server.t) (m : message) :
  service_bound own (Server.election self) ->
  service_bound own
    (Server.election (fst (fst (Server._handle_server_message env self m)))).
Proof.
  intros H. unfold Server._handle_server_message.
  destruct (Json.eq_str _ MessageType.ELECTION).
  { pose proof (bound_after_election own env (Server.ring_manager self) _ m H) as H1.
    destruct (ElectionService.handle_election_message _ _ _ _) as [[[rm es] out] e].
    exact H1. }
  destruct (Json.eq_str _ MessageType.LEADER_ANNOUNCEMENT).
  { pose proof (bound_after_announcement own env (Server.ring_manager self) _ m H) as H1.
    destruct (ElectionService.handle_leader_announcement _ _ _ _)
      as [[[rm es] out] e].
    exact H1. }
  destruct (Json.eq_str _ MessageType.HEARTBEAT); [exact H|].
  destruct (Json.eq_str _ MessageType.FORWARD_MESSAGE).
  { now destruct (MessageHandler.handle_forwarded_message _ _ _ _). }
  simpl. destruct (Json.eq_str _ MessageType.CHAT_MESSAGE); exact H.
Qed.

Lemma bound_after_crash (own : str) (env : Env.t) (self : Server.t) (r : FailureDetector.ref) :
  service_bound own (Server.election self) ->
  service_bound own
    (Server.election (fst (fst (FailureDetector._handle_server_crash env self r)))).
Proof.
  intros H. unfold FailureDetector._handle_server_crash.
  destruct (ServerInfo.is_leader _); [|exact H].
  pose proof (bound_after_start own env
                (RingManager.remove_server (Server.ring_manager self)
                   (ServerInfo.server_id
                      (FailureDetector.deref (Server.ring_manager self) r)))
                _ H) as H1.
  destruct (ElectionService.start_election env _ _) as [[[rm es] out] e]. exact H1.
Qed.

Lemma bound_after_crashes (own : str) (envs : nat -> Env.t) (crashed : list FailureDetector.ref) :
  forall (n : nat) (self : Server.t),
    service_bound own (Server.election self) ->
    service_bound own
      (Server.election (fst (fst (FailureDetector.handle_crashes envs n self crashed)))).
Proof.
  induction crashed as [|r crashed IH]; intros n self H; simpl; [exact H|].
  pose proof (bound_after_crash own (envs n) self r H) as H1.
  destruct (FailureDetector._handle_server_crash (envs n) self r)
    as [[self1 out] [e|]]; simpl in *; [exact H1|].
  specialize (IH (S n) self1 H1).
  now destruct (FailureDetector.handle_crashes envs (S n) self1 crashed) as [[self2 out'] e].
Qed.

Lemma bound_after_step (own : str) (s : FailureDetector.t) (a : FailureDetector.action) :
  service_bound own (Server.election (FailureDetector.server s)) ->
  service_bound own
    (Server.election (FailureDetector.server (fst (fst (FailureDetector.step s a))))).
Proof.
  intros H.
  destruct a as [env id ip port | discovered | env | env now m | env m | envs now | env];
    simpl.
  - unfold ServerCallbacks._on_server_discovered.
    destruct (RingManager.is_leader _ _); [|exact H].
    pose proof (bound_after_start own env
                  (RingManager.add_server
                     (Server.ring_manager (FailureDetector.server s)) id ip port false)
                  _ H) as H1.
    destruct (ElectionService.start_election env _ _) as [[[rm es] out] e]. exact H1.
  - exact H.
  - unfold ServerCallbacks.start_initial_election.
    destruct (RingManager.get_leader _); [exact H|].
    destruct (_ >? 1)%Z; [|exact H].
    pose proof (bound_after_start own env (Server.ring_manager (FailureDetector.server s))
                  _ H) as H1.
    destruct (ElectionService.start_election env _ _) as [[[rm es] out] e]. exact H1.
  - unfold FailureDetector._handle_server_message.
    pose proof (bound_after_server_message own env (FailureDetector.server s) m H) as H1.
    destruct (Server._handle_server_message env (FailureDetector.server s) m)
      as [[server1 out] [e|]]; simpl in *; [exact H1|].
    destruct (FailureDetector.heartbeats out) as [|hb hbs]; simpl; [exact H1|].
    unfold FailureDetector._handle_heartbeat.
    destruct (Json.hashable _); exact H1.
  - unfold ServerCallbacks.handle_client_message.
    destruct (negb (MessageHandler.content_preview m)); [assumption|].
    now destruct (MessageHandler.handle_client_message _ _ _ _) as [[mh out] e].
  - unfold FailureDetector.heartbeat_round, FailureDetector._check_heartbeat_timeouts.
    destruct (FailureDetector.find_crashed _ _ _ _) as [table crashed].
    pose proof (bound_after_crashes own envs crashed 0 (FailureDetector.server s) H) as H1.
    now destruct (FailureDetector.handle_crashes envs 0 _ crashed) as [[server1 out] e].
  - destruct (ElectionService.election_timer _); [|exact H].
    pose proof (bound_after_timeout own env (Server.ring_manager (FailureDetector.server s))
                  _ H) as H1.
    destruct (ElectionTimer.timeout_handler env _ _) as [[[rm es] out] e]. exact H1.
Qed.

Lemma bound_after_run (own ip : str) (port : Z) (actions : list FailureDetector.action) :
  service_bound own
    (Server.election
       (FailureDetector.server
          (FailureDetector.run (FailureDetector.started own ip port) actions))).
Proof.
  unfold FailureDetector.run.
  assert (H : service_bound own
                (Server.election
                   (FailureDetector.server (FailureDetector.started own ip port))))
    by (repeat split).
  revert H. generalize (FailureDetector.started own ip port).
  induction actions as [|a actions IH]; intros s H; simpl; [exact H|].
  apply IH. now apply bound_after_step.
Qed.

Lemma filter_none {A : Type} (f : A -> bool) (l : list A) :
  (forall x, In x l -> f x = false) -> filter f l = [].
Proof.
  induction l as [|x l IH]; simpl; intros H; [reflexivity|].
  rewrite (H x (or_introl eq_refl)). apply IH. intros y Hy. apply H. now right.
Qed.

(** The entries a filter by id keeps when one member passes it. *)
Lemma filter_entry (f : str -> bool) (m : dict ServerInfo.t) (p : str)
      (sp : ServerInfo.t) :
  NoDup (keys m) -> dict_get p m = Some sp ->
  (forall q, In q (keys m) -> f q = str_eqb q p) ->
  filter (fun r => f (fst r)) m = [(p, sp)].
Proof.
  induction m as [|[k v] m IH]; simpl; [discriminate|].
  intros Hnd Hg Hf. apply NoDup_cons_iff in Hnd as [Hk Hnd].
  rewrite (Hf k (or_introl eq_refl)).
  destruct (str_eqb k p) eqn:E.
  - apply str_eqb_eq in E. subst k. injection Hg as ->. f_equal.
    apply filter_none. intros [k v] Hin. simpl.
    rewrite Hf by (right; exact (in_map fst _ _ Hin)).
    apply str_eqb_neq. intros ->. apply Hk. exact (in_map fst _ _ Hin).
  - apply IH; [exact Hnd | exact Hg | intros q Hq; apply Hf; now right].
Qed.

Lemma crashed_one (own : str) (now : time) (table : JsonKey.dict time)
      (m : dict ServerInfo.t) (p : str) (sp : ServerInfo.t) :
  keyed m -> NoDup (keys m) -> dict_get p m = Some sp -> p <> own ->
  (forall q, In q (keys m) -> q <> own -> overdue now table q = str_eqb q p) ->
  filter (fun r => negb (str_eqb (ServerInfo.server_id (snd r)) own)
                   && overdue now table (ServerInfo.server_id (snd r))) m
  = [(p, sp)].
Proof.
  intros Hk Hnd Hg Hp Ho.
  rewrite <- (filter_entry (fun q => negb (str_eqb q own) && overdue now table q)
                m p sp Hnd Hg).
  - apply filter_ext_in. intros r Hin. now rewrite <- (entries_keyed m r Hk Hin).
  - intros q Hq. destruct (str_eqb q own) eqn:E; simpl.
    + apply str_eqb_eq in E. subst q. symmetry. apply str_eqb_neq. congruence.
    + apply Ho; [exact Hq | now apply str_eqb_neq].
Qed.

(** One check of the heartbeat timeouts when exactly one peer is overdue:
    the crash of that peer is handled, and nothing else happens. *)
Lemma sweep_one (own : str) (envs : nat -> Env.t) (now : time)
      (s : FailureDetector.t) (p : str) (sp : ServerInfo.t) :
  Server.server_id (FailureDetector.server s) = own ->
  view_ok own (Server.ring_manager (FailureDetector.server s)) ->
  dict_get p (RingManager.ring_members (Server.ring_manager (FailureDetector.server s)))
  = Some sp ->
  p <> own ->
  (forall q,
      dict_mem q (RingManager.ring_members
                    (Server.ring_manager (FailureDetector.server s))) = true ->
      q <> own ->
      overdue now (FailureDetector.last_heartbeat_received s) q = str_eqb q p) ->
  exists table,
    FailureDetector._check_heartbeat_timeouts envs now s
    = (FailureDetector.mk
         (fst (fst (FailureDetector._handle_server_crash
                      (envs 0%nat) (FailureDetector.server s) (p, sp))))
         table,
       snd (fst (FailureDetector._handle_server_crash
                   (envs 0%nat) (FailureDetector.server s) (p, sp))),
       None).
Proof.
  intros Hid Hv Hg Hp Ho. pose proof Hv as ((_ & Hnd & _) & Hk & _).
  unfold FailureDetector._check_heartbeat_timeouts. rewrite Hid.
  destruct (find_crashed_spec own now
              (RingManager.ring_members (Server.ring_manager (FailureDetector.server s))))
    with (table := FailureDetector.last_heartbeat_received s) as [Hc _].
  { now rewrite entries_ids. }
  rewrite (crashed_one own now _ _ p sp Hk Hnd Hg Hp) in Hc.
  2:{ intros q Hq. apply Ho. now apply dict_mem_In. }
  destruct (FailureDetector.find_crashed own now _ _) as [table crashed].
  simpl in Hc. subst crashed. exists table. cbn [FailureDetector.handle_crashes].
  assert (He : snd (FailureDetector._handle_server_crash
                      (envs 0%nat) (FailureDetector.server s) (p, sp)) = None).
  { unfold FailureDetector._handle_server_crash.
    destruct (ServerInfo.is_leader _); [|reflexivity].
    unfold ElectionService.start_election.
    destruct (RingManager.right_neighbor _); [|reflexivity].
    now destruct (ElectionService.election_in_progress _). }
  destruct (FailureDetector._handle_server_crash (envs 0%nat) _ (p, sp))
    as [[self1 out] e]. simpl in He. subst e. simpl. now rewrite app_nil_r.
Qed.

Lemma is_leader_get (rm : RingManager.t) (p : str) :
  RingManager.is_leader rm p = true ->
  exists sp, dict_get p (RingManager.ring_members rm) = Some sp /\
             ServerInfo.is_leader sp = true.
Proof.
  unfold RingManager.is_leader.
  destruct (dict_get p (RingManager.ring_members rm)) as [sp|]; [|discriminate].
  intros H. now exists sp.
Qed.

Lemma crash_of_leader (env : Env.t) (self : Server.t) (p : str) (sp : ServerInfo.t) :
  keyed (RingManager.ring_members (Server.ring_manager self)) ->
  dict_get p (RingManager.ring_members (Server.ring_manager self)) = Some sp ->
  ServerInfo.is_leader sp = true ->
  FailureDetector._handle_server_crash env self (p, sp)
  = match ServerCallbacks.after_election self
            (ElectionService.start_election env
               (RingManager.remove_server (Server.ring_manager self) p)
               (Server.election self)) with
    | (self1, out, e) => (self1, Sleep 1000 :: out, e)
    end.
Proof.
  intros Hk Hg Hl. unfold FailureDetector._handle_server_crash, FailureDetector.deref.
  simpl fst. rewrite Hg, Hl, (keyed_get _ _ _ Hk Hg). reflexivity.
Qed.

Lemma only_member (own : str) (rm : RingManager.t) :
  view_ok own rm ->
  (forall q, dict_mem q (RingManager.ring_members rm) = true -> q = own) ->
  length (RingManager.ring_members rm) = 1%nat.
Proof.
  intros ((_ & Hnd & _) & _ & Hown & _) Hall.
  apply dict_mem_In in Hown.
  assert (Hk : forall q, In q (keys (RingManager.ring_members rm)) -> q = own)
    by (intros q Hq; apply Hall; now apply dict_mem_In).
  rewrite <- (length_map fst). fold (keys (RingManager.ring_members rm)).
  destruct (keys (RingManager.ring_members rm)) as [|k1 [|k2 ks]];
    [destruct Hown | reflexivity |].
  exfalso. apply NoDup_cons_iff in Hnd as [Hn _]. apply Hn.
  rewrite (Hk k1), <- (Hk k2); simpl; auto.
Qed.

(** X23: the last survivor becomes the leader.  When the view of a running
    server holds the node and one peer, the peer is the leader and its entry
    is overdue, the check of the heartbeat timeouts removes the peer and the
    node makes itself the leader at once: it sends no record, the view holds
    the node alone, without neighbours, and the node is its leader. *)
Theorem last_survivor_becomes_leader (own ip : str) (port : Z)
        (actions : list FailureDetector.action) (envs : nat -> Env.t) (now : time)
        (p : str) :
  let s := FailureDetector.run (FailureDetector.started own ip port) actions in
  let r := FailureDetector._check_heartbeat_timeouts envs now s in
  let rm' := Server.ring_manager (FailureDetector.server (fst (fst r))) in
  p <> own ->
  ids_are (Server.ring_manager (FailureDetector.server s)) [own; p] = true ->
  RingManager.is_leader (Server.ring_manager (FailureDetector.server s)) p = true ->
  overdue now (FailureDetector.last_heartbeat_received s) p = true ->
  snd (fst r) = [Sleep 1000; LeaderElected (Json.Str own)] /\
  snd r = None /\
  ids_are rm' [own] = true /\
  RingManager.is_leader rm' own = true /\
  RingManager.left_neighbor rm' = None /\
  RingManager.right_neighbor rm' = None.
Proof.
  intros s r rm' Hp Hids Hl Ho.
  destruct (view_ok_run own ip port actions) as [Hid Hv]. fold s in Hid, Hv.
  pose proof (bound_after_run own ip port actions) as (Hb1 & Hb2 & Hb3). fold s in Hb1, Hb2, Hb3.
  destruct (ids_are_spec _ _ Hids) as [Hin Hall].
  destruct (is_leader_get _ _ Hl) as (sp & Hg & Hsp).
  pose proof Hv as ((_ & Hnd & _) & Hk & _).
  destruct (sweep_one own envs now s p sp Hid Hv Hg Hp) as [table Hs].
  { intros q Hq Hqo. apply Hall in Hq. simpl in Hq.
    destruct Hq as [<-|[<-|[]]]; [congruence|]. now rewrite str_eqb_refl. }
  unfold rm', r. rewrite Hs. clear Hs.
  rewrite (crash_of_leader (envs 0%nat) _ p sp Hk Hg Hsp).
  set (rm1 := RingManager.remove_server
                (Server.ring_manager (FailureDetector.server s)) p).
  assert (Hv1 : view_ok own rm1) by (now apply view_ok_remove).
  assert (Hmem1 : forall q, dict_mem q (RingManager.ring_members rm1)
                            = str_eqb q own).
  { intros q. unfold rm1. rewrite mem_remove_server by exact Hnd.
    destruct (str_eqb q own) eqn:E.
    - apply str_eqb_eq in E. subst q.
      rewrite (Hin own (or_introl eq_refl)). simpl.
      apply negb_true_iff, str_eqb_neq. congruence.
    - destruct (dict_mem q _) eqn:Eq; [|reflexivity]. simpl.
      apply Hall in Eq. simpl in Eq. destruct Eq as [<-|[<-|[]]].
      + now rewrite str_eqb_refl in E.
      + now rewrite str_eqb_refl. }
  assert (Hlen : length (RingManager.ring_members rm1) = 1%nat).
  { apply (only_member own); [exact Hv1|].
    intros q Hq. rewrite Hmem1 in Hq. now apply str_eqb_eq. }
  destruct (view_ok_neighbors own rm1 Hv1) as [Hn _].
  destruct (Hn Hlen) as [Hln Hrn].
  unfold ElectionService.start_election. rewrite Hrn, Hb1, Hb2. simpl.
  split; [reflexivity|]. split; [reflexivity|].
  assert (Hmem2 : forall q, dict_mem q (RingManager.ring_members
                                          (RingManager.set_leader rm1 own))
                            = str_eqb q own).
  { intros q. rewrite <- Hmem1. apply dict_mem_keys_ext, keys_set_leader. }
  split.
  - unfold ids_are. simpl. rewrite Hmem2, str_eqb_refl. simpl.
    apply forallb_forall. intros q Hq. apply dict_mem_In in Hq.
    rewrite Hmem2 in Hq. unfold list_mem. simpl. now rewrite Hq.
  - split; [apply is_leader_set_leader_self; rewrite Hmem1; apply str_eqb_refl|].
    unfold RingManager.set_leader.
    destruct (dict_get own _); simpl; now split.
Qed.

(** X24: the crash of the leader starts an election.  When the leader of the
    view of a running server is the only overdue peer, another peer is a
    member and no election is in progress, the check of the heartbeat
    timeouts removes the leader and starts an election: one [ELECTION] record
    with the node as candidate and originator goes to the node's new right
    neighbour, which is neither the node nor the crashed leader. *)
Theorem leader_crash_starts_election (own ip : str) (port : Z)
        (actions : list FailureDetector.action) (envs : nat -> Env.t) (now : time)
        (p q : str) :
  let s := FailureDetector.run (FailureDetector.started own ip port) actions in
  let r := FailureDetector._check_heartbeat_timeouts envs now s in
  let s' := FailureDetector.server (fst (fst r)) in
  p <> own -> q <> own -> q <> p ->
  dict_mem q (RingManager.ring_members (Server.ring_manager (FailureDetector.server s)))
  = true ->
  RingManager.is_leader (Server.ring_manager (FailureDetector.server s)) p = true ->
  (forall k,
      dict_mem k (RingManager.ring_members
                    (Server.ring_manager (FailureDetector.server s))) = true ->
      k <> own ->
      overdue now (FailureDetector.last_heartbeat_received s) k = str_eqb k p) ->
  ElectionService.election_in_progress (Server.election (FailureDetector.server s))
  = false ->
  exists n,
    RingManager.right_neighbor (Server.ring_manager s') = Some n /\
    n <> own /\ n <> p /\
    sent (snd (fst r))
    = [(n, Json.Dict (Protocol.create_election_message (envs 0%nat)
                        (Json.Str own) (Json.Str own) (Json.Int 0)))] /\
    snd r = None /\
    dict_mem p (RingManager.ring_members (Server.ring_manager s')) = false /\
    ElectionService.election_in_progress (Server.election s') = true.
Proof.
  intros s r s' Hp Hq Hqp Hmq Hl Ho Hnp.
  destruct (view_ok_run own ip port actions) as [Hid Hv]. fold s in Hid, Hv.
  pose proof (bound_after_run own ip port actions) as (Hb1 & Hb2 & Hb3). fold s in Hb1, Hb2, Hb3.
  destruct (is_leader_get _ _ Hl) as (sp & Hg & Hsp).
  pose proof Hv as ((_ & Hnd & _) & Hk & _).
  destruct (sweep_one own envs now s p sp Hid Hv Hg Hp Ho) as [table Hs].
  unfold s', r. rewrite Hs. clear Hs.
  rewrite (crash_of_leader (envs 0%nat) _ p sp Hk Hg Hsp).
  set (rm1 := RingManager.remove_server
                (Server.ring_manager (FailureDetector.server s)) p).
  assert (Hv1 : view_ok own rm1) by (now apply view_ok_remove).
  pose proof Hv1 as ((_ & Hnd1 & _) & _ & Hown1 & _).
  assert (Hq1 : dict_mem q (RingManager.ring_members rm1) = true).
  { unfold rm1. rewrite mem_remove_server by exact Hnd. rewrite Hmq. simpl.
    now apply negb_true_iff, str_eqb_neq. }
  assert (Hlen : (2 <= length (RingManager.ring_members rm1))%nat).
  { apply dict_mem_In in Hown1, Hq1. rewrite <- (length_map fst).
    fold (keys (RingManager.ring_members rm1)).
    destruct (keys (RingManager.ring_members rm1)) as [|k1 [|k2 ks]]; simpl in *;
      [tauto | | lia].
    intuition congruence. }
  destruct (view_ok_neighbors own rm1 Hv1) as [_ Hn].
  destruct (Hn Hlen) as (l & n & Hln & Hrn & Hlo & Hno).
  destruct Hv1 as ((Ho1 & _) & _). rewrite Ho1 in Hno.
  assert (Hnp' : n <> p).
  { intros ->.
    pose proof Hv as (Hinv & _).
    assert (Hinv1 : RingManager.ring_inv own rm1)
      by exact (ring_inv_apply own _ (RingManager.RemoveServer p) Hinv).
    destruct (rebuild_neighbors rm1 Hnd1) as [_ Hin].
    rewrite (ring_inv_fixed own _ Hinv1), Ho1 in Hin.
    destruct (Hin Hown1) as [_ H2].
    destruct (H2 Hlen) as (l' & r' & _ & Hr' & _ & _ & _ & Hrin).
    rewrite Hrn in Hr'. injection Hr' as <-.
    apply dict_mem_In in Hrin. unfold rm1 in Hrin.
    rewrite mem_remove_server in Hrin by exact Hnd.
    rewrite str_eqb_refl, andb_false_r in Hrin. discriminate. }
  exists n.
  rewrite (start_election_fresh (envs 0%nat) rm1 _ n Hrn Hnp Hb3), Hb1. simpl.
  repeat split; trivial.
  unfold rm1. rewrite mem_remove_server by exact Hnd.
  now rewrite str_eqb_refl, andb_false_r.
Qed.

End CrashHandling.

Section HeartbeatFacts.

Import Py.

Context {clock : Clock}.

Lemma heartbeat_dispatch (env : Env.t) (self : Server.t) (m : message) :
  Json.get m (py "type") = Json.Str MessageType.HEARTBEAT ->
  Server._handle_server_message env self m
  = (self, [HandleHeartbeat (Json.Dict m)], None).
Proof.
  intros Ht. unfold Server._handle_server_message. rewrite Ht. reflexivity.
Qed.

Lemma run_snoc (s : FailureDetector.t) (actions : list FailureDetector.action)
      (a : FailureDetector.action) :
  FailureDetector.run s (actions ++ [a])
  = fst (fst (FailureDetector.step (FailureDetector.run s actions) a)).
Proof. unfold FailureDetector.run. now rewrite fold_left_app. Qed.

(** X25: a heartbeat protects its sender.  After a running server has
    handled a [HEARTBEAT] record of the peer [p] at the clock reading [t],
    the table holds [t] for [p], and a check of the heartbeat timeouts at a
    reading [now] that is not more than the timeout after [t] leaves [p] in
    the view if it was there. *)
Theorem heartbeat_protects_peer (own ip : str) (port : Z)
        (actions : list FailureDetector.action) (env : Env.t) (envs : nat -> Env.t)
        (t now : time) (m : message) (p : str) :
  let s1 :=
    FailureDetector.run (FailureDetector.started own ip port)
      (actions ++ [FailureDetector.ServerMessage env t m]) in
  let s' := fst (fst (FailureDetector._check_heartbeat_timeouts envs now s1)) in
  Json.get m (py "type") = Json.Str MessageType.HEARTBEAT ->
  Json.get m (py "server_id") = Json.Str p ->
  timed_out now t = false ->
  JsonKey.get (Json.Str p) (FailureDetector.last_heartbeat_received s1) = Some t /\
  dict_mem p (RingManager.ring_members (Server.ring_manager (FailureDetector.server s')))
  = dict_mem p (RingManager.ring_members (Server.ring_manager (FailureDetector.server s1))).
Proof.
  intros s1 s' Ht Hp Hto.
  destruct (view_ok_run own ip port (actions ++ [FailureDetector.ServerMessage env t m]))
    as [Hid Hv]. fold s1 in Hid, Hv.
  assert (Hg : JsonKey.get (Json.Str p) (FailureDetector.last_heartbeat_received s1)
               = Some t).
  { unfold s1. rewrite run_snoc. cbn [FailureDetector.step].
    unfold FailureDetector._handle_server_message.
    rewrite (heartbeat_dispatch env _ m Ht). cbn [FailureDetector.heartbeats flat_map app].
    unfold FailureDetector._handle_heartbeat. rewrite Hp. simpl.
    rewrite key_get_set_str. now rewrite str_eqb_refl. }
  split; [exact Hg|].
  destruct (sweep_spec own s1 envs now p Hid Hv) as [H _].
  unfold s'. rewrite H. unfold overdue. rewrite Hg, Hto.
  now rewrite andb_false_r, orb_true_r, andb_true_r.
Qed.

End HeartbeatFacts.

Section CrashWitnesses.

Import Py.

Lemma last_survivor_becomes_leader_witness :
  py "s3" <> py "s2" /\
  ids_are (Server.ring_manager (FailureDetector.server (ex_node ex_pair_actions)))
          [py "s2"; py "s3"] = true /\
  RingManager.is_leader
    (Server.ring_manager (FailureDetector.server (ex_node ex_pair_actions)))
    (py "s3") = true /\
  @overdue seconds 20%Z
    (FailureDetector.last_heartbeat_received (ex_node ex_pair_actions)) (py "s3")
  = true /\
  snd (fst (FailureDetector._check_heartbeat_timeouts
              (fun _ => ex_env) (20%Z : @time seconds) (ex_node ex_pair_actions)))
  = [Sleep 1000; LeaderElected (Json.Str (py "s2"))] /\
  RingManager.is_leader
    (Server.ring_manager
       (FailureDetector.server
          (fst (fst (FailureDetector._check_heartbeat_timeouts
                       (fun _ => ex_env) (20%Z : @time seconds)
                       (ex_node ex_pair_actions))))))
    (py "s2") = true.
Proof.
  assert (H1 : py "s3" <> py "s2") by (intros H; vm_compute in H; discriminate).
  assert (H2 : ids_are (Server.ring_manager
                          (FailureDetector.server (ex_node ex_pair_actions)))
                       [py "s2"; py "s3"] = true) by reflexivity.
  assert (H3 : RingManager.is_leader
                 (Server.ring_manager (FailureDetector.server (ex_node ex_pair_actions)))
                 (py "s3") = true) by reflexivity.
  assert (H4 : @overdue seconds 20%Z
                 (FailureDetector.last_heartbeat_received (ex_node ex_pair_actions))
                 (py "s3") = true) by reflexivity.
  do 4 (split; [assumption|]).
  destruct (@last_survivor_becomes_leader seconds (py "s2") (py "10.0.0.2") 8002
              ex_pair_actions (fun _ => ex_env) 20%Z (py "s3") H1 H2 H3 H4)
    as (E1 & _ & _ & E4 & _).
  split; [exact E1 | exact E4].
Defined.

Lemma leader_crash_starts_election_witness :
  exists n,
    RingManager.right_neighbor
      (Server.ring_manager
         (FailureDetector.server
            (fst (fst (FailureDetector._check_heartbeat_timeouts
                         (fun _ => ex_env) (20%Z : @time seconds)
                         (ex_node ex_trio_actions)))))) = Some n /\
    n <> py "s2" /\ n <> py "s3" /\
    sent (snd (fst (FailureDetector._check_heartbeat_timeouts
                      (fun _ => ex_env) (20%Z : @time seconds)
                      (ex_node ex_trio_actions))))
    = [(n, Json.Dict (Protocol.create_election_message ex_env
                        (Json.Str (py "s2")) (Json.Str (py "s2")) (Json.Int 0)))].
Proof.
  destruct (@leader_crash_starts_election seconds (py "s2") (py "10.0.0.2") 8002
              ex_trio_actions (fun _ => ex_env) 20%Z (py "s3") (py "s1"))
    as (n & E1 & E2 & E3 & E4 & _).
  - intros H; vm_compute in H; discriminate.
  - intros H; vm_compute in H; discriminate.
  - intros H; vm_compute in H; discriminate.
  - reflexivity.
  - reflexivity.
  - intros k Hk Hko.
    change (FailureDetector.run (FailureDetector.started (py "s2") (py "10.0.0.2") 8002)
              ex_trio_actions) with (ex_node ex_trio_actions) in *.
    apply dict_mem_In in Hk. vm_compute in Hk.
    destruct Hk as [<-|[<-|[<-|[]]]]; [now elim Hko | reflexivity | reflexivity].
  - reflexivity.
  - exists n. auto.
Defined.

Lemma heartbeat_protects_peer_witness :
  Json.get (ex_heartbeat (py "s3") true) (py "type") = Json.Str MessageType.HEARTBEAT /\
  Json.get (ex_heartbeat (py "s3") true) (py "server_id") = Json.Str (py "s3") /\
  @timed_out seconds 15%Z 10%Z = false /\
  dict_mem (py "s3")
    (RingManager.ring_members
       (Server.ring_manager
          (FailureDetector.server
             (fst (fst (FailureDetector._check_heartbeat_timeouts
                          (fun _ => ex_env) (15%Z : @time seconds)
                          (ex_node ex_pair_actions)))))))
  = true.
Proof.
  do 3 (split; [reflexivity|]).
  destruct (@heartbeat_protects_peer seconds (py "s2") (py "10.0.0.2") 8002
              [@FailureDetector.OnServerDiscovered seconds
                 ex_env (py "s3") (py "10.0.0.3") 8003;
               @FailureDetector.ServerMessage seconds ex_env 8%Z ex_announcement]
              ex_env (fun _ => ex_env) 10%Z 15%Z (ex_heartbeat (py "s3") true) (py "s3"))
    as [_ H]; [reflexivity .. |].
  change (ex_node ex_pair_actions)
    with (FailureDetector.run (FailureDetector.started (py "s2") (py "10.0.0.2") 8002)
            ([@FailureDetector.OnServerDiscovered seconds
                ex_env (py "s3") (py "10.0.0.3") 8003;
              @FailureDetector.ServerMessage seconds ex_env 8%Z ex_announcement]
             ++ [@FailureDetector.ServerMessage seconds ex_env 10%Z
                   (ex_heartbeat (py "s3") true)])).
  rewrite H. reflexivity.
Defined.

End CrashWitnesses.

(** ** Discovery *)

Section DiscoveryFacts.

Import Py.

Context {clock : Clock} {interp : Interpreter}.

Lemma key_mem_set_mono {V : Type} (b : str) (k : Json.t) (v : V) (d : JsonKey.dict V) :
  JsonKey.mem (Json.Str b) d = true -> JsonKey.mem (Json.Str b) (JsonKey.set k v d) = true.
Proof.
  unfold JsonKey.mem. induction d as [|[j w] d IH]; simpl; [discriminate|].
  destruct (JsonKey.eqb j k); simpl.
  - now destruct (JsonKey.eqb j (Json.Str b)).
  - destruct (JsonKey.eqb j (Json.Str b)); [reflexivity | exact IH].
Qed.

Lemma key_mem_set_str {V : Type} (b : str) (v : V) (d : JsonKey.dict V) :
  JsonKey.mem (Json.Str b) (JsonKey.set (Json.Str b) v d) = true.
Proof. unfold JsonKey.mem. rewrite key_get_set_str. now rewrite str_eqb_refl. Qed.

Lemma calls_for_app (id : str) (c1 c2 : list DiscoveryService.call) :
  calls_for id (c1 ++ c2) = calls_for id c1 ++ calls_for id c2.
Proof. apply filter_app. Qed.

Ltac no_call :=
  simpl; split;
  [reflexivity
  |split;
   [intros Hm; split; [exact Hm | reflexivity]
   |intros Hc; exfalso; apply Hc; reflexivity]].

(** What one record does to the table and to the callback, seen from one
    id. *)
Lemma handle_discovery_calls (now : time) (self : DiscoveryService.t) (m : message)
      (id : str) :
  let r := DiscoveryService._handle_discovery_message now self m in
  DiscoveryService.server_id (fst (fst r)) = DiscoveryService.server_id self /\
  (JsonKey.mem (Json.Str id) (DiscoveryService.discovered_servers self) = true ->
   JsonKey.mem (Json.Str id) (DiscoveryService.discovered_servers (fst (fst r))) = true /\
   calls_for id (snd (fst r)) = []) /\
  (calls_for id (snd (fst r)) <> [] ->
   Json.get m (py "server_id") = Json.Str id /\
   length (calls_for id (snd (fst r))) = 1%nat /\
   JsonKey.mem (Json.Str id) (DiscoveryService.discovered_servers (fst (fst r))) = true).
Proof.
  unfold DiscoveryService._handle_discovery_message. cbv zeta.
  destruct (Json.eq_str _ MessageType.DISCOVERY_ANNOUNCE); [|no_call].
  destruct (negb (Json.hashable _)); [no_call|].
  cbn [fst snd DiscoveryService.server_id DiscoveryService.discovered_servers].
  split; [reflexivity|].
  destruct (negb (JsonKey.mem (Json.get m (py "server_id"))
                              (DiscoveryService.discovered_servers self))
            && DiscoveryService.on_server_discovered self) eqn:Enew.
  - unfold calls_for. cbn [filter fst].
    destruct (Json.eq_str (Json.get m (py "server_id")) id) eqn:E.
    + apply eq_str_true in E. rewrite E in *. split.
      * intros Hm. rewrite Hm in Enew. discriminate.
      * intros _. split; [reflexivity|]. split; [reflexivity|].
        apply key_mem_set_str.
    + split; [|intros Hc; exfalso; apply Hc; reflexivity].
      intros Hm. split; [|reflexivity]. now apply key_mem_set_mono.
  - split; [|intros Hc; exfalso; apply Hc; reflexivity].
    intros Hm. split; [|reflexivity]. now apply key_mem_set_mono.
Qed.

Lemma listen_calls (now : time) (self self1 : DiscoveryService.t)
      (data : list Byte.byte) (calls : list DiscoveryService.call)
      (e : DiscoveryService.ending) (id : str) :
  DiscoveryService.listen now self data = JsonCodec.Ok (self1, calls, e) ->
  DiscoveryService.server_id self1 = DiscoveryService.server_id self /\
  (JsonKey.mem (Json.Str id) (DiscoveryService.discovered_servers self) = true ->
   JsonKey.mem (Json.Str id) (DiscoveryService.discovered_servers self1) = true /\
   calls_for id calls = []) /\
  (calls_for id calls <> [] ->
   id <> DiscoveryService.server_id self /\
   length (calls_for id calls) = 1%nat /\
   JsonKey.mem (Json.Str id) (DiscoveryService.discovered_servers self1) = true).
Proof.
  unfold DiscoveryService.listen.
  assert (Hsame : forall e0,
             JsonCodec.Ok (self, @nil DiscoveryService.call, e0)
             = JsonCodec.Ok (self1, calls, e) ->
             DiscoveryService.server_id self1 = DiscoveryService.server_id self /\
             (JsonKey.mem (Json.Str id) (DiscoveryService.discovered_servers self) = true ->
              JsonKey.mem (Json.Str id) (DiscoveryService.discovered_servers self1) = true /\
              calls_for id calls = []) /\
             (calls_for id calls <> [] ->
              id <> DiscoveryService.server_id self /\
              length (calls_for id calls) = 1%nat /\
              JsonKey.mem (Json.Str id) (DiscoveryService.discovered_servers self1)
              = true)).
  { intros e0 [= <- <- <-]. no_call. }
  destruct (Protocol.deserialize_message data) as [[v|]|w];
    [| apply Hsame | destruct (Protocol.uncaught w); [apply Hsame | discriminate]].
  destruct (negb (Framing.truthy v)); [apply Hsame|].
  destruct v as [| | | | |m]; try apply Hsame.
  destruct (Json.eq_str (Json.get m (py "server_id")) (DiscoveryService.server_id self))
    eqn:Eown; [apply Hsame|].
  intros [= H].
  pose proof (handle_discovery_calls now self m id) as Hh. cbv zeta in Hh.
  rewrite H in Hh. simpl in Hh. destruct Hh as (H1 & H2 & H3).
  split; [exact H1|]. split; [exact H2|].
  intros Hc. destruct (H3 Hc) as (Hid & Hlen & Hm). split; [|now split].
  intros ->. rewrite Hid in Eown. simpl in Eown.
  now rewrite str_eqb_refl in Eown.
Qed.

Lemma listen_all_calls (datagrams : list (time * list Byte.byte)) :
  forall (self self' : DiscoveryService.t) (calls : list DiscoveryService.call)
         (id : str),
    DiscoveryService.listen_all self datagrams = JsonCodec.Ok (self', calls) ->
    (length (calls_for id calls) <= 1)%nat /\
    (id = DiscoveryService.server_id self \/
     JsonKey.mem (Json.Str id) (DiscoveryService.discovered_servers self) = true ->
     calls_for id calls = []).
Proof.
  induction datagrams as [|[now data] datagrams IH]; intros self self' calls id.
  - intros [= <- <-]. split; [simpl; lia | reflexivity].
  - cbn [DiscoveryService.listen_all].
    destruct (DiscoveryService.listen now self data) as [[[self1 c1] e]|w] eqn:El;
      [|discriminate].
    destruct (DiscoveryService.listen_all self1 datagrams) as [[self2 c2]|w] eqn:Ea;
      [|discriminate].
    intros [= <- <-].
    destruct (listen_calls now self self1 data c1 e id El) as (Hid & Hknown & Hnew).
    destruct (IH self1 self2 c2 id Ea) as [Hle Hno].
    rewrite calls_for_app, length_app.
    destruct (calls_for id c1) as [|c cs] eqn:Ec.
    + split; [simpl; lia|]. intros [Hown|Hmem].
      * simpl. apply Hno. left. congruence.
      * simpl. apply Hno. right. now apply Hknown.
    + destruct Hnew as (Hne & Hlen & Hm); [discriminate|].
      rewrite (Hno (or_intror Hm)). split; [simpl in *; lia|].
      intros [Hown|Hmem]; [contradiction|].
      destruct (Hknown Hmem) as [_ H]. discriminate.
Qed.

(** The body of the loop comes to an end for every datagram that holds no
    float. *)
Lemma listen_float_free (now : time) (self : DiscoveryService.t)
      (data : list Byte.byte) :
  float_free data = true ->
  exists r, DiscoveryService.listen now self data = JsonCodec.Ok r.
Proof.
  unfold float_free, DiscoveryService.listen. intros Hf.
  destruct (Protocol.deserialize_message data) as [[v|]|w] eqn:E.
  - destruct (negb (Framing.truthy v)); [eexists; reflexivity|].
    destruct v as [| | | | |m]; try (eexists; reflexivity).
    destruct (Json.eq_str _ _); eexists; reflexivity.
  - eexists; reflexivity.
  - destruct (deserialize_message_stop data w E) as [->|Hw]; [discriminate|].
    rewrite Hw. eexists; reflexivity.
Qed.

Lemma listen_all_float_free (datagrams : list (time * list Byte.byte)) :
  forall self : DiscoveryService.t,
    Forall (fun d => float_free (snd d) = true) datagrams ->
    exists r, DiscoveryService.listen_all self datagrams = JsonCodec.Ok r.
Proof.
  induction datagrams as [|[now data] datagrams IH]; intros self Hf.
  - eexists; reflexivity.
  - apply Forall_cons_iff in Hf as [Hd Hf]. simpl in Hd.
    cbn [DiscoveryService.listen_all].
    destruct (listen_float_free now self data Hd) as [[[self1 c1] e] ->].
    destruct (IH self1 Hf) as [[self2 c2] ->]. eexists; reflexivity.
Qed.

(** X26: discovery reports a server once.  For datagrams that hold no float,
    whatever else they hold: the loop handles them all, the callback
    [on_server_discovered] is called at most once for an id, and it is never
    called for the id of the node itself, nor for an id that was in
    [discovered_servers] before. *)
Theorem discovery_reports_each_server_once (datagrams : list (time * list Byte.byte))
        (self : DiscoveryService.t) (id : str) :
  Forall (fun d => float_free (snd d) = true) datagrams ->
  exists (self' : DiscoveryService.t) (calls : list DiscoveryService.call),
    DiscoveryService.listen_all self datagrams = JsonCodec.Ok (self', calls) /\
    (length (calls_for id calls) <= 1)%nat /\
    (id = DiscoveryService.server_id self \/
     JsonKey.mem (Json.Str id) (DiscoveryService.discovered_servers self) = true ->
     calls_for id calls = []).
Proof.
  intros Hf. destruct (listen_all_float_free datagrams self Hf) as [[self' calls] H].
  exists self', calls. split; [exact H|].
  exact (listen_all_calls datagrams self self' calls id H).
Qed.

End DiscoveryFacts.

Section DiscoveryWitness.

(** The announcements of [s1], of the node itself and of [s1] again, with a
    datagram of an integer too long for the interpreter between them. *)
Lemma discovery_reports_each_server_once_witness :
  let datagrams :=
    ex_datagrams
    ++ [(5%Z, map JsonCodec.byte_of (json_text (Json.Int (10 ^ 4300))))]
    ++ ex_datagrams in
  Forall (fun d => @float_free cpython (snd d) = true) datagrams /\
  exists (self' : @DiscoveryService.t seconds) (calls : list DiscoveryService.call),
    @DiscoveryService.listen_all seconds cpython ex_discovery datagrams
    = JsonCodec.Ok (self', calls) /\
    (length (calls_for (py "s1") calls) <= 1)%nat /\
    (py "s1" = DiscoveryService.server_id ex_discovery \/
     JsonKey.mem (Json.Str (py "s1")) (DiscoveryService.discovered_servers ex_discovery)
     = true ->
     calls_for (py "s1") calls = []).
Proof.
  intros datagrams.
  assert (H : Forall (fun d => @float_free cpython (snd d) = true) datagrams).
  { subst datagrams. unfold ex_datagrams. cbn [app].
    repeat (apply Forall_cons; [vm_compute; reflexivity|]). apply Forall_nil. }
  split; [exact H|].
  exact (@discovery_reports_each_server_once seconds cpython datagrams
           ex_discovery (py "s1") H).
Defined.

End DiscoveryWitness.

(** ** The election of a three-node ring *)

Section ThreeNodeElection.

Import Py ElectionService.

Lemma sorted_keys_are (own : str) (ops : list RingManager.op) (ids : list str) :
  ids_are (RingManager.run own ops) ids = true ->
  StronglySorted str_lt ids ->
  sorted (keys (RingManager.ring_members (RingManager.run own ops))) = ids.
Proof.
  intros Hids Hs. destruct (ids_are_spec _ _ Hids) as [H1 H2].
  apply strongly_sorted_unique; [apply sorted_strongly, run_nodup | exact Hs |].
  intros k. rewrite sorted_In, <- dict_mem_In. split; [apply H2 | apply H1].
Qed.

Lemma trio_sorted (a b c : str) :
  str_ltb a b = true -> str_ltb b c = true -> StronglySorted str_lt [a; b; c].
Proof.
  intros Hab Hbc. repeat constructor; trivial.
  exact (str_ltb_trans _ _ _ Hab Hbc).
Qed.

(** The right neighbours in a view of three: the next id, and the smallest
    id for the largest. *)
Lemma trio_right (a b c own : str) (ops : list RingManager.op) (i : nat) :
  str_ltb a b = true -> str_ltb b c = true ->
  ids_are (RingManager.run own ops) [a; b; c] = true ->
  nth_error [a; b; c] i = Some own ->
  RingManager.right_neighbor (RingManager.run own ops)
  = nth_error [a; b; c] (if (S i <? 3)%nat then S i else 0%nat).
Proof.
  intros Hab Hbc Hids Hi.
  pose proof (sorted_keys_are own ops _ Hids (trio_sorted a b c Hab Hbc)) as Hs.
  destruct (run_neighbors_at own ops i) as [Hr _].
  - now rewrite Hs.
  - rewrite Hs. simpl. lia.
  - rewrite Hs in Hr. exact Hr.
Qed.

(** X27: one election round of a three-node ring does not reach every node.
    Nodes [a < b < c] hold views with these three member ids and [b] starts
    an election.  The candidacy travels [b], [c], [a], [b], with the
    candidate replaced by [c] on the way; [b], the originator, declares [c]
    the winner and announces it to [c], where the announcement stops.  Node
    [a] is sent no announcement: its view is as before, an election is in
    progress there and its timer is armed. *)
Theorem three_node_election (e1 e2 e3 e4 e5 : Env.t) (a b c : str)
        (opsa opsb opsc : list RingManager.op) :
  str_ltb a b = true -> str_ltb b c = true ->
  ids_are (RingManager.run a opsa) [a; b; c] = true ->
  ids_are (RingManager.run b opsb) [a; b; c] = true ->
  ids_are (RingManager.run c opsc) [a; b; c] = true ->
  let m1 := Protocol.create_election_message e1 (Json.Str b) (Json.Str b) (Json.Int 0) in
  let m2 := Protocol.create_election_message e2 (Json.Str c) (Json.Str b) (Json.Int 1) in
  let m3 := Protocol.create_election_message e3 (Json.Str c) (Json.Str b) (Json.Int 2) in
  let o1 := start_election e1 (RingManager.run b opsb) (bound_election b) in
  let o2 := handle_election_message e2 (RingManager.run c opsc) (bound_election c) m1 in
  let o3 := handle_election_message e3 (RingManager.run a opsa) (bound_election a) m2 in
  let o4 := handle_election_message e4 (ring_of o1) (service_of o1) m3 in
  sent (events_of o1) = [(c, Json.Dict m1)] /\
  sent (events_of o2) = [(a, Json.Dict m2)] /\
  sent (events_of o3) = [(b, Json.Dict m3)] /\
  exists topology,
    let m4 := Protocol.create_leader_announcement e4 (Json.Str c) topology in
    let o5 := handle_leader_announcement e5 (ring_of o2) (service_of o2) m4 in
    sent (events_of o4) = [(c, Json.Dict m4)] /\
    sent (events_of o5) = [] /\
    (forall y, RingManager.is_leader (ring_of o4) y = str_eqb y c) /\
    (forall y, RingManager.is_leader (ring_of o5) y = str_eqb y c) /\
    ring_of o3 = RingManager.run a opsa /\
    election_in_progress (service_of o3) = true /\
    election_timer (service_of o3) = true.
Proof.
  intros Hab Hbc Ha Hb Hc.
  pose proof (str_ltb_trans _ _ _ Hab Hbc) as Hac.
  pose proof (str_ltb_neq _ _ Hab) as Nab.
  pose proof (str_ltb_neq _ _ Hbc) as Nbc.
  pose proof (str_ltb_neq _ _ Hac) as Nac.
  pose proof (trio_right a b c a opsa 0 Hab Hbc Ha eq_refl) as Ra.
  pose proof (trio_right a b c b opsb 1 Hab Hbc Hb eq_refl) as Rb.
  pose proof (trio_right a b c c opsc 2 Hab Hbc Hc eq_refl) as Rc.
  simpl in Ra, Rb, Rc.
  destruct (ids_are_spec _ _ Hb) as [Hb1 _].
  destruct (ids_are_spec _ _ Hc) as [Hc1 _].
  intros m1 m2 m3 o1 o2 o3 o4.
  assert (E1 : o1 = (RingManager.run b opsb,
                     _start_election_timer
                       (with_candidate
                          (with_election_id (with_in_progress (bound_election b) true)
                                            (Json.Int (Env.time_ms e1)))
                          (Json.Str b) (Json.Str b)),
                     [Sleep ELECTION_MESSAGE_DELAY; SendToServer c (Json.Dict m1)],
                     None)).
  { unfold o1. now rewrite (start_election_fresh e1 _ _ c Rb). }
  assert (E2 : o2 = (RingManager.run c opsc,
                     _start_election_timer
                       (with_election_id (with_in_progress (bound_election c) true)
                                         (Json.Str (Env.uuid4 e1))),
                     [Sleep ELECTION_MESSAGE_DELAY; SendToServer a (Json.Dict m2)],
                     None)).
  { unfold o2, handle_election_message.
    destruct (election_fields e1 (Json.Str b) (Json.Str b) (Json.Int 0))
      as (F1 & F2 & F3 & F4 & _).
    fold m1 in F1, F2, F3, F4. rewrite F1, F2, F3, F4, Rc.
    cbn [bound_election Server.election Server.init election_in_progress
         set_send_callback set_leader_elected_callback init negb server_id
         Json.eq_str Json.gt_str Json.lt_str Json.add_int].
    rewrite (proj2 (str_eqb_neq b c) Nbc), str_gtb_ltb, (str_ltb_asym _ _ Hbc), Hbc.
    unfold _send_election_message. rewrite Rc. reflexivity. }
  assert (E3 : o3 = (RingManager.run a opsa,
                     _start_election_timer
                       (with_election_id (with_in_progress (bound_election a) true)
                                         (Json.Str (Env.uuid4 e2))),
                     [Sleep ELECTION_MESSAGE_DELAY; SendToServer b (Json.Dict m3)],
                     None)).
  { unfold o3, handle_election_message.
    destruct (election_fields e2 (Json.Str c) (Json.Str b) (Json.Int 1))
      as (F1 & F2 & F3 & F4 & _).
    fold m2 in F1, F2, F3, F4. rewrite F1, F2, F3, F4, Ra.
    cbn [bound_election Server.election Server.init election_in_progress
         set_send_callback set_leader_elected_callback init negb server_id
         Json.eq_str Json.gt_str Json.lt_str Json.add_int].
    rewrite (proj2 (str_eqb_neq b a) (not_eq_sym Nab)), str_gtb_ltb, Hac.
    unfold _send_election_message. rewrite Ra. reflexivity. }
  split; [rewrite E1; reflexivity|].
  split; [rewrite E2; reflexivity|].
  split; [rewrite E3; reflexivity|].
  assert (Ho : order_in_members (RingManager.run b opsb) = true)
    by (apply (ring_inv_order_in_members b), ring_inv_run).
  destruct (complete_election_str e4 (RingManager.run b opsb)
              (if negb (election_in_progress (service_of o1))
               then _start_election_timer
                      (with_election_id (with_in_progress (service_of o1) true)
                                        (Json.get m3 (py "message_id")))
               else service_of o1)
              c c Rb Ho)
    as (topology & Ht & Hce); [rewrite E1; reflexivity .. |].
  assert (E4 : o4 = (RingManager.set_leader (RingManager.run b opsb) c,
                     _cancel_election_timer (with_in_progress (service_of o1) false),
                     [SendToServer c
                        (Json.Dict (Protocol.create_leader_announcement
                                      e4 (Json.Str c) topology));
                      LeaderElected (Json.Str c)],
                     None)).
  { unfold o4, handle_election_message.
    destruct (election_fields e3 (Json.Str c) (Json.Str b) (Json.Int 2))
      as (F1 & F2 & F3 & F4 & _).
    fold m3 in F1, F2, F3, F4. rewrite F1, F2, F3.
    replace (RingManager.right_neighbor (ring_of o1)) with (Some c)
      by (rewrite E1; symmetry; exact Rb).
    replace (Json.eq_str (Json.Str b) (server_id (service_of o1))) with true
      by (rewrite E1; simpl; symmetry; apply str_eqb_refl).
    replace (ring_of o1) with (RingManager.run b opsb) by (now rewrite E1).
    rewrite Hce. rewrite E1. reflexivity. }
  exists topology. intros m4 o5.
  assert (E5 : o5 = (RingManager.set_leader (RingManager.run c opsc) c,
                     _cancel_election_timer (with_in_progress (service_of o2) false),
                     [LeaderElected (Json.Str c)],
                     None)).
  { unfold o5, handle_leader_announcement.
    destruct (announcement_fields e4 (Json.Str c) topology) as (F1 & _).
    fold m4 in F1. rewrite F1. rewrite E2. simpl.
    now rewrite str_eqb_refl. }
  split; [rewrite E4; reflexivity|].
  split; [rewrite E5; reflexivity|].
  split.
  { intros y. rewrite E4. simpl. apply is_leader_after_set. apply Hb1. simpl. auto. }
  split.
  { intros y. rewrite E5. simpl. apply is_leader_after_set. apply Hc1. simpl. auto. }
  rewrite E3. repeat split.
Qed.

Lemma three_node_election_witness :
  str_ltb (py "s1") (py "s2") = true /\
  str_ltb (py "s2") (py "s3") = true /\
  ids_are
    (RingManager.run (py "s1")
       [RingManager.AddServer (py "s1") (py "10.0.0.1") 8001 false;
        RingManager.AddServer (py "s2") (py "10.0.0.2") 8002 false;
        RingManager.AddServer (py "s3") (py "10.0.0.3") 8003 false])
    [py "s1"; py "s2"; py "s3"] = true /\
  ids_are ex_ring [py "s1"; py "s2"; py "s3"] = true /\
  ids_are
    (RingManager.run (py "s3")
       [RingManager.AddServer (py "s3") (py "10.0.0.3") 8003 false;
        RingManager.AddServer (py "s2") (py "10.0.0.2") 8002 false;
        RingManager.AddServer (py "s1") (py "10.0.0.1") 8001 false])
    [py "s1"; py "s2"; py "s3"] = true /\
  sent (events_of (start_election ex_env ex_ring (bound_election (py "s2"))))
  = [(py "s3",
      Json.Dict (Protocol.create_election_message ex_env
                   (Json.Str (py "s2")) (Json.Str (py "s2")) (Json.Int 0)))].
Proof.
  do 5 (split; [reflexivity|]).
  apply (three_node_election ex_env ex_env ex_env ex_env ex_env
           (py "s1") (py "s2") (py "s3")
           [RingManager.AddServer (py "s1") (py "10.0.0.1") 8001 false;
            RingManager.AddServer (py "s2") (py "10.0.0.2") 8002 false;
            RingManager.AddServer (py "s3") (py "10.0.0.3") 8003 false]
           [RingManager.AddServer (py "s2") (py "10.0.0.2") 8002 false;
            RingManager.AddServer (py "s1") (py "10.0.0.1") 8001 false;
            RingManager.AddServer (py "s3") (py "10.0.0.3") 8003 false]
           [RingManager.AddServer (py "s3") (py "10.0.0.3") 8003 false;
            RingManager.AddServer (py "s2") (py "10.0.0.2") 8002 false;
            RingManager.AddServer (py "s1") (py "10.0.0.1") 8001 false]);
    reflexivity.
Defined.

End ThreeNodeElection.

(** ** Client connections *)

Section ClientFacts.

Import Py.

Context {interp : Interpreter}.

Lemma get_type_not_empty (m : message) (s : str) :
  Json.get m (py "type") = Json.Str s -> Framing.truthy (Json.Dict m) = true.
Proof. destruct m; [discriminate | reflexivity]. Qed.

Lemma register_spec (self self1 : ClientHandler.t) (chunks rest : ClientHandler.stream)
      (client_conn : ClientHandler.ClientConnection) :
  ClientHandler.register self chunks = JsonCodec.Ok (Some (self1, client_conn, rest))
  <-> exists data m,
        chunks = data :: rest /\ is_join data m /\
        Json.hashable (Json.get m (py "client_id")) = true /\
        client_conn = ClientHandler.mk_connection
                        (Json.get m (py "client_id")) (Json.get m (py "username")) true /\
        self1 = ClientHandler.with_clients self
                  (JsonKey.set (Json.get m (py "client_id")) client_conn
                               (ClientHandler.clients self)).
Proof.
  split.
  - unfold ClientHandler.register.
    destruct chunks as [|data chunks]; [discriminate|].
    destruct data as [|b data]; [discriminate|].
    destruct (Protocol.deserialize_message (b :: data)) as [[v|]|w] eqn:Ed;
      try discriminate; [|destruct (Protocol.uncaught w); discriminate].
    destruct (negb (Framing.truthy v)); [discriminate|].
    destruct v as [| | | | |m]; try discriminate.
    destruct (Json.eq_str (Json.get m (py "type")) MessageType.CLIENT_JOIN) eqn:Et;
      [|discriminate].
    cbv zeta. simpl negb at 1. cbv iota.
    destruct (Json.hashable (Json.get m (py "client_id"))) eqn:Eh; [|discriminate].
    simpl. intros [= <- <- <-].
    exists (b :: data), m. apply eq_str_true in Et.
    split; [reflexivity|].
    split; [split; [discriminate | split; assumption]|]. auto.
  - intros (data & m & -> & (Hne & Hd & Ht) & Hh & -> & ->).
    unfold ClientHandler.register.
    destruct data as [|b data]; [congruence|].
    rewrite Hd, (get_type_not_empty m _ Ht), Ht, Hh. reflexivity.
Qed.

(** The thread of a connection comes to an end when its first chunk holds no
    float. *)
Lemma register_float_free (self : ClientHandler.t) (chunks : ClientHandler.stream) :
  Forall (fun data => float_free data = true) (firstn 1 chunks) ->
  exists r, ClientHandler.register self chunks = JsonCodec.Ok r.
Proof.
  unfold ClientHandler.register. intros Hf.
  destruct chunks as [|data chunks]; [eexists; reflexivity|].
  destruct data as [|b data]; [eexists; reflexivity|].
  apply Forall_cons_iff in Hf as [Hf _]. unfold float_free in Hf.
  destruct (Protocol.deserialize_message (b :: data)) as [[v|]|w] eqn:Ed.
  - destruct (negb (Framing.truthy v)); [eexists; reflexivity|].
    destruct v as [| | | | |m]; try (eexists; reflexivity).
    destruct (negb (Json.eq_str _ _)); [eexists; reflexivity|].
    cbv zeta.
    destruct (negb (Json.hashable _)); eexists; reflexivity.
  - eexists; reflexivity.
  - destruct (deserialize_message_stop _ w Ed) as [->|Hw]; [discriminate|].
    rewrite Hw. eexists; reflexivity.
Qed.

Lemma handle_new_connection_float_free (handler : ClientHandler.t)
      (chunks : ClientHandler.stream) :
  Forall (fun data => float_free data = true) (firstn 2 chunks) ->
  exists c, Accept._handle_new_connection handler chunks = JsonCodec.Ok c.
Proof.
  unfold Accept._handle_new_connection. intros Hf.
  destruct chunks as [|data chunks]; [eexists; reflexivity|].
  change (firstn 2 (data :: chunks)) with (data :: firstn 1 chunks) in Hf.
  apply Forall_cons_iff in Hf as [Hd Hf]. unfold float_free in Hd.
  destruct data as [|b data]; [eexists; reflexivity|].
  destruct (Protocol.deserialize_message (b :: data)) as [[v|]|w] eqn:Ed.
  - destruct (negb (Framing.truthy v)); [eexists; reflexivity|].
    destruct v as [| | | | |m]; try (eexists; reflexivity).
    cbv zeta.
    destruct (Json.eq_str _ MessageType.CLIENT_JOIN).
    + destruct (register_float_free handler chunks Hf) as [[[[h1 c1] r1]|] ->];
        eexists; reflexivity.
    + destruct (Accept.is_server_type _); eexists; reflexivity.
  - eexists; reflexivity.
  - destruct (deserialize_message_stop _ w Ed) as [->|Hw]; [discriminate|].
    rewrite Hw. eexists; reflexivity.
Qed.

Lemma handle_new_connection_client (handler handler1 : ClientHandler.t)
      (chunks rest : ClientHandler.stream)
      (client_conn : ClientHandler.ClientConnection) (echo : list Byte.byte) :
  Accept._handle_new_connection handler chunks
  = JsonCodec.Ok (Accept.Client handler1 client_conn echo rest)
  <-> exists data m1 m2,
        chunks = echo :: data :: rest /\
        is_join echo m1 /\ is_join data m2 /\
        Json.hashable (Json.get m2 (py "client_id")) = true /\
        client_conn = ClientHandler.mk_connection
                        (Json.get m2 (py "client_id")) (Json.get m2 (py "username")) true /\
        handler1 = ClientHandler.with_clients handler
                     (JsonKey.set (Json.get m2 (py "client_id")) client_conn
                                  (ClientHandler.clients handler)).
Proof.
  split.
  - unfold Accept._handle_new_connection.
    destruct chunks as [|first chunks]; [discriminate|].
    destruct first as [|b first]; [discriminate|].
    destruct (Protocol.deserialize_message (b :: first)) as [[v|]|w] eqn:Ed;
      try discriminate; [|destruct (Protocol.uncaught w); discriminate].
    destruct (negb (Framing.truthy v)); [discriminate|].
    destruct v as [| | | | |m1]; try discriminate.
    cbv zeta.
    destruct (Json.eq_str (Json.get m1 (py "type")) MessageType.CLIENT_JOIN) eqn:Et.
    + destruct (ClientHandler.register handler chunks)
        as [[[[h1 c1] r1]|]|w] eqn:Er; try discriminate.
      intros [= <- <- <- <-].
      apply register_spec in Er.
      destruct Er as (data & m2 & -> & Hj & Hh & Hc & Hs).
      exists data, m1, m2. apply eq_str_true in Et.
      split; [reflexivity|].
      split; [split; [discriminate | split; assumption]|].
      split; [exact Hj|]. auto.
    + destruct (Accept.is_server_type _); discriminate.
  - intros (data & m1 & m2 & -> & (Hne & Hd & Ht) & Hj & Hh & Hc & Hs).
    unfold Accept._handle_new_connection.
    destruct echo as [|b echo]; [congruence|].
    rewrite Hd, (get_type_not_empty m1 _ Ht), Ht.
    cbv zeta. simpl negb. cbv iota.
    replace (Json.eq_str (Json.Str MessageType.CLIENT_JOIN) MessageType.CLIENT_JOIN)
      with true by reflexivity.
    assert (Hr : ClientHandler.register handler (data :: rest)
                 = JsonCodec.Ok (Some (handler1, client_conn, rest))).
    { apply register_spec. exists data, m2. auto. }
    now rewrite Hr.
Qed.

(** X28: a client is registered by its second [CLIENT_JOIN] only.
    [_handle_new_connection] reads the first record of a connection itself;
    when it is a [CLIENT_JOIN] it writes the bytes back to the client and
    starts [_handle_client], which reads the next chunk of the stream and
    registers the client only when that chunk, too, decodes to a
    [CLIENT_JOIN] record.  So, on a stream whose first two chunks hold no
    float, the connection comes to one of its four ends, and it ends with a
    registered client exactly when the first two chunks of the stream are
    both [CLIENT_JOIN] records and the [client_id] of the second can be a
    key; the client is registered under that id. *)
Theorem client_is_registered_by_second_join (handler : ClientHandler.t)
        (chunks : ClientHandler.stream) :
  Forall (fun data => float_free data = true) (firstn 2 chunks) ->
  (exists c, Accept._handle_new_connection handler chunks = JsonCodec.Ok c) /\
  forall (handler1 : ClientHandler.t) (client_conn : ClientHandler.ClientConnection)
         (echo : list Byte.byte) (rest : ClientHandler.stream),
    Accept._handle_new_connection handler chunks
    = JsonCodec.Ok (Accept.Client handler1 client_conn echo rest)
    <-> exists data m1 m2,
          chunks = echo :: data :: rest /\
          is_join echo m1 /\ is_join data m2 /\
          Json.hashable (Json.get m2 (py "client_id")) = true /\
          client_conn = ClientHandler.mk_connection
                          (Json.get m2 (py "client_id")) (Json.get m2 (py "username")) true /\
          handler1 = ClientHandler.with_clients handler
                       (JsonKey.set (Json.get m2 (py "client_id")) client_conn
                                    (ClientHandler.clients handler)).
Proof.
  intros Hf. split.
  - now apply handle_new_connection_float_free.
  - intros handler1 client_conn echo rest. apply handle_new_connection_client.
Qed.

Lemma key_eqb_refl (k : Json.t) : Json.hashable k = true -> JsonKey.eqb k k = true.
Proof.
  destruct k as [|b|z|s|l|d]; simpl; try discriminate; intros _.
  - reflexivity.
  - apply Z.eqb_refl.
  - apply Z.eqb_refl.
  - apply str_eqb_refl.
Qed.

Lemma key_eqb_sym (j k : Json.t) : JsonKey.eqb j k = JsonKey.eqb k j.
Proof.
  destruct j as [|b|z|s|l|d], k as [|b'|z'|s'|l'|d']; simpl;
    try reflexivity; try apply Z.eqb_sym.
  apply str_eqb_sym.
Qed.

Lemma key_not_mem {V : Type} (k : Json.t) (d : JsonKey.dict V) :
  JsonKey.mem k d = false -> forall e, In e d -> JsonKey.eqb k (fst e) = false.
Proof.
  unfold JsonKey.mem. induction d as [|[j w] d IH]; simpl; [tauto|].
  destruct (JsonKey.eqb j k) eqn:E; [discriminate|].
  intros H e [<-|Hin]; [simpl; now rewrite key_eqb_sym | now apply IH].
Qed.

Lemma del_others {V : Type} (k : Json.t) (v : V) (ks : list Json.t)
      (d : JsonKey.dict V) :
  (forall k0, In k0 ks -> JsonKey.eqb k k0 = false) ->
  fold_left (fun d0 k0 => JsonKey.del k0 d0) ks ((k, v) :: d)
  = (k, v) :: fold_left (fun d0 k0 => JsonKey.del k0 d0) ks d.
Proof.
  revert d. induction ks as [|k0 ks IH]; intros d H; [reflexivity|].
  simpl. rewrite (H k0 (or_introl eq_refl)). apply IH.
  intros k1 Hk1. apply H. now right.
Qed.

Lemma send_all_spec (delivers : Json.t -> bool) (m : Json.t)
      (items : JsonKey.dict ClientHandler.ClientConnection) :
  ClientHandler.send_all delivers m items
  = (map (fun e => (fst e, m)) (filter (fun e => delivers (fst e)) items),
     map fst (filter (fun e => negb (delivers (fst e))) items)).
Proof.
  induction items as [|[k c] items IH]; [reflexivity|].
  simpl. rewrite IH. now destruct (delivers k).
Qed.

Lemma evict_spec (delivers : Json.t -> bool)
      (d : JsonKey.dict ClientHandler.ClientConnection) :
  distinct_keys d = true ->
  fold_left (fun d0 k0 => JsonKey.del k0 d0)
            (map fst (filter (fun e => negb (delivers (fst e))) d)) d
  = filter (fun e => delivers (fst e)) d.
Proof.
  induction d as [|[k c] d IH]; [reflexivity|].
  simpl. intros H. apply andb_true_iff in H as [H Hd].
  apply andb_true_iff in H as [Hh Hm]. apply negb_true_iff in Hm.
  destruct (delivers k); simpl.
  - rewrite del_others; [now rewrite IH|].
    intros k0 Hk0. apply in_map_iff in Hk0. destruct Hk0 as (e & <- & He).
    apply filter_In in He as [He _]. now apply (key_not_mem k d Hm).
  - rewrite (key_eqb_refl k Hh). now apply IH.
Qed.

(** X29: a broadcast evicts the clients it cannot reach.  When no two
    clients are registered under equal ids, [broadcast_to_all_clients]
    writes the record once to every client whose socket takes it, in the
    order of registration, and afterwards the table holds exactly these
    clients; a client whose socket fails is removed. *)
Theorem broadcast_evicts_failed_clients (delivers : Json.t -> bool)
        (self : ClientHandler.t) (m : Json.t) :
  distinct_keys (ClientHandler.clients self) = true ->
  ClientHandler.clients (fst (ClientHandler.broadcast_to_all_clients delivers self m))
  = filter (fun e => delivers (fst e)) (ClientHandler.clients self) /\
  snd (ClientHandler.broadcast_to_all_clients delivers self m)
  = map (fun e => (fst e, m))
        (filter (fun e => delivers (fst e)) (ClientHandler.clients self)).
Proof.
  intros H. unfold ClientHandler.broadcast_to_all_clients.
  rewrite send_all_spec. simpl. split; [now apply evict_spec | reflexivity].
Qed.

Lemma broadcast_evicts_failed_clients_witness :
  distinct_keys
    [(Json.Str (py "c1"),
      ClientHandler.mk_connection (Json.Str (py "c1")) (Json.Str (py "ann")) true);
     (Json.Str (py "c2"),
      ClientHandler.mk_connection (Json.Str (py "c2")) (Json.Str (py "bob")) true)]
  = true /\
  ClientHandler.clients
    (fst (ClientHandler.broadcast_to_all_clients
            (fun k => Json.eq_str k (py "c2"))
            (ClientHandler.with_clients ex_clients
               [(Json.Str (py "c1"),
                 ClientHandler.mk_connection (Json.Str (py "c1")) (Json.Str (py "ann")) true);
                (Json.Str (py "c2"),
                 ClientHandler.mk_connection (Json.Str (py "c2")) (Json.Str (py "bob")) true)])
            ex_chat))
  = [(Json.Str (py "c2"),
      ClientHandler.mk_connection (Json.Str (py "c2")) (Json.Str (py "bob")) true)].
Proof.
  split; [reflexivity|].
  rewrite (proj1 (broadcast_evicts_failed_clients
                    (fun k => Json.eq_str k (py "c2"))
                    (ClientHandler.with_clients ex_clients
                       [(Json.Str (py "c1"),
                         ClientHandler.mk_connection
                           (Json.Str (py "c1")) (Json.Str (py "ann")) true);
                        (Json.Str (py "c2"),
                         ClientHandler.mk_connection
                           (Json.Str (py "c2")) (Json.Str (py "bob")) true)])
                    ex_chat eq_refl)).
  reflexivity.
Defined.

End ClientFacts.

Section ClientSamples.

Import Py.

Lemma client_is_registered_by_second_join_witness :
  Forall (fun data => @float_free cpython data = true)
         (firstn 2 [ex_join; ex_join; @wire cpython ex_chat]) /\
  (exists c, @Accept._handle_new_connection cpython ex_clients
               [ex_join; ex_join; @wire cpython ex_chat] = JsonCodec.Ok c).
Proof.
  assert (Hf : Forall (fun data => @float_free cpython data = true)
                      (firstn 2 [ex_join; ex_join; @wire cpython ex_chat])).
  { cbn [firstn].
    repeat (apply Forall_cons; [vm_compute; reflexivity|]). apply Forall_nil. }
  split; [exact Hf|].
  exact (proj1 (@client_is_registered_by_second_join cpython ex_clients
                  [ex_join; ex_join; @wire cpython ex_chat] Hf)).
Defined.

(** The client of [client.py] sends its [CLIENT_JOIN] once: the server
    writes it back and drops the connection, whether a chat message follows
    or nothing does. *)
Example single_join_is_dropped :
  @Accept._handle_new_connection cpython ex_clients [ex_join] = JsonCodec.Ok (Accept.Dropped ex_join) /\
  @Accept._handle_new_connection cpython ex_clients [ex_join; @wire cpython ex_chat]
  = JsonCodec.Ok (Accept.Dropped ex_join) /\
  @Accept._handle_new_connection cpython ex_clients [ex_join; ex_join; @wire cpython ex_chat]
  = JsonCodec.Ok
      (Accept.Client
         (ClientHandler.with_clients ex_clients
            [(Json.Str (py "c1"),
              ClientHandler.mk_connection (Json.Str (py "c1")) (Json.Str (py "ann")) true)])
         (ClientHandler.mk_connection (Json.Str (py "c1")) (Json.Str (py "ann")) true)
         ex_join [@wire cpython ex_chat]).
Proof.
  split; [vm_compute; reflexivity|].
  split; vm_compute; reflexivity.
Qed.

End ClientSamples.

(** ** From an announcement to the view *)

Section AnnouncementPath.

Import Py.

Context {clock : Clock} {interp : Interpreter}.





End AnnouncementPath.

Section AnnouncementWitness.

Import Py.


End AnnouncementWitness.
